(** * agentipy.langchain: the tool adapters, their validator and the factory

    A shallow embedding of [agentipy/langchain/__init__.py].  Every adapter
    class of the module is embedded: its asynchronous method ([_arun], or
    [call] for three classes) as a computation in a monad of delegate-call
    traces and Python exceptions, its synchronous [_run], and the factory
    [create_solana_tools].  Everything outside the module (the [json]
    library, [solders.Pubkey], the agent kit, attribute access on foreign
    objects) is a member of the class [World]. *)

From Stdlib Require Import String Ascii List Bool ZArith QArith Lia.
Import ListNotations.
Close Scope Q_scope.
Open Scope Z_scope.
Open Scope string_scope.
Open Scope list_scope.

(** ** Python values *)

(** [agentipy.utils.meteora_dlmm.types.ActivationType].
    Modelled from the spec: the enumeration is imported, its declaration is
    not part of the sources; the spec calls it an internal enum value and
    the adapter uses the two members [Slot] and [Timestamp]. *)
Inductive ActivationType := Slot | Timestamp.

(** The floats that are no finite number: [nan], [inf] and [-inf].
    [json.loads] makes them of the tokens [NaN], [Infinity] and
    [-Infinity]. *)
Inductive SpecialFloat := NaN | PosInfinity | NegInfinity.

(** The values an adapter handles: what [json.loads] produces, the two enum
    members, and foreign objects (public keys, delegate results), which are
    opaque and only answer through the [World].  A finite float is given by
    its exact value, a rational, which the value of a double is: the
    comparisons and the truth test that the module makes on a float are
    exact, it does no arithmetic on one, and which double a literal of the
    input stands for is left to [json.loads] of the [World]. *)
#[warnings="-register-all"]
Inductive value :=
| VNone
| VBool (b : bool)
| VInt (z : Z)
| VFloat (q : Q)
| VFloatSpecial (x : SpecialFloat)
| VStr (s : string)
| VList (l : list value)
| VDict (d : list (string * value))
| VActivation (a : ActivationType)
| VObj (o : N).

Definition dict := list (string * value).

(** ** Exceptions and outcomes *)

(** A raised exception: its class, whether the class derives from
    [Exception] (what [except Exception] catches), [str(e)] and the [code]
    attribute when the object has one. *)
Record Exc := mkExc {
  exc_class : string;
  exc_is_Exception : bool;
  exc_msg : string;
  exc_code : option value
}.

Definition ValueError (msg : string) : Exc := mkExc "ValueError" true msg None.
Definition TypeError (msg : string) : Exc := mkExc "TypeError" true msg None.
Definition KeyError (msg : string) : Exc := mkExc "KeyError" true msg None.
Definition AttributeError (msg : string) : Exc := mkExc "AttributeError" true msg None.
Definition NotImplementedError (msg : string) : Exc :=
  mkExc "NotImplementedError" true msg None.

(** [getattr(e, "code", "UNKNOWN_ERROR")] *)
Definition getattr_code (e : Exc) : value :=
  match exc_code e with
  | Some c => c
  | None => VStr "UNKNOWN_ERROR"
  end.

Inductive Outcome (A : Type) :=
| Return (a : A)
| Raise (e : Exc).
Arguments Return {A} a.
Arguments Raise {A} e.

(** ** Delegate calls *)

(** What is called: a method of the agent kit, or a function of
    [agentipy.tools] that is handed the kit. *)
Inductive Callee :=
| KitMethod (name : string)
| ToolsFunction (name : string).

Record Call := mkCall {
  callee : Callee;
  call_args : list value;
  call_kwargs : list (string * value)
}.

Definition Trace := list Call.

(** ** Schemas *)

Inductive PyType := Tstr | Tint | Tfloat | Tbool | Tlist | Tdict.

(** One schema entry: ["type"] (a type or a tuple of types), ["required"],
    and the optional ["min"] and ["max"]. *)
Record FieldRule := mkRule {
  rule_type : list PyType;
  rule_required : bool;
  rule_min : option Z;
  rule_max : option Z
}.

Definition Schema := list (string * FieldRule).

(** ** The world outside the module *)

Class World := {
  (** [json.loads] and [json.dumps] *)
  w_json_loads : string -> Outcome value;
  w_json_dumps : value -> Outcome string;
  (** [Pubkey.from_string(x)] and [Pubkey(x)] of solders *)
  w_Pubkey_from_string : value -> Outcome value;
  w_Pubkey : value -> Outcome value;
  (** the builtins [int(x)] and [str(x)], and [str.strip] *)
  w_int : string -> Outcome value;
  w_str : value -> string;
  w_strip : string -> string;
  (** foreign objects: truth value, [o[k]], [k in o], [o.m(args)] *)
  w_obj_truthy : N -> bool;
  w_obj_getitem : N -> string -> Outcome value;
  w_obj_contains : N -> string -> Outcome bool;
  w_obj_method : N -> string -> list value -> Outcome value;
  (** the text of the error a builtin operation raises on a value that
      does not support it *)
  w_builtin_msg : string -> value -> string;
  (** the agent kit: attribute lookup ([None]: the attribute exists), the
      value of a data attribute, the result of a call, and [await] *)
  w_kit_lookup : string -> option Exc;
  w_kit_attr : string -> Outcome value;
  w_call : Call -> Outcome value;
  w_await : value -> Outcome value;
  (** [validate_input] on a parsed value that is not a mapping
      ([None]: it returns normally) *)
  w_validate_other : value -> Schema -> option Exc
}.

(** ** The monad of adapter computations

    State: the delegate calls made so far, oldest first.  Result: a value
    or a raised exception. *)

Definition M (A : Type) : Type := Trace -> Trace * Outcome A.

Definition ret {A} (a : A) : M A := fun tr => (tr, Return a).
Definition raise {A} (e : Exc) : M A := fun tr => (tr, Raise e).

Definition bind {A B} (m : M A) (k : A -> M B) : M B :=
  fun tr =>
    match m tr with
    | (tr', Return a) => k a tr'
    | (tr', Raise e) => (tr', Raise e)
    end.

Notation "x <- m ;; k" := (bind m (fun x => k))
  (at level 61, m at next level, right associativity).
Notation "m ;;; k" := (bind m (fun _ => k))
  (at level 61, right associativity).

Definition lift {A} (o : Outcome A) : M A := fun tr => (tr, o).

Definition log_call (c : Call) : M unit := fun tr => (tr ++ [c], Return tt).

(** [try: body  except Exception as e: handler(e)] *)
Record TryExcept (A : Type) := Try {
  try_body : M A;
  except_Exception : Exc -> M A
}.
Arguments Try {A} try_body except_Exception.
Arguments try_body {A} t.
Arguments except_Exception {A} t.

Definition try_except {A} (body : M A) (handler : Exc -> M A) : M A :=
  fun tr =>
    match body tr with
    | (tr', Return a) => (tr', Return a)
    | (tr', Raise e) =>
        if exc_is_Exception e then handler e tr' else (tr', Raise e)
    end.

Definition run {A} (t : TryExcept A) : M A :=
  try_except (try_body t) (except_Exception t).

(** The delegate calls and the outcome of a computation started with no
    call made. *)
Definition calls_of {A} (m : M A) : Trace := fst (m []).
Definition outcome_of {A} (m : M A) : Outcome A := snd (m []).

Fixpoint for_each {A} (l : list A) (f : A -> M unit) : M unit :=
  match l with
  | [] => ret tt
  | x :: rest => f x ;;; for_each rest f
  end.

(** ** Python operations on values *)

Fixpoint lookup (k : string) (d : dict) : option value :=
  match d with
  | [] => None
  | (k', v) :: rest => if String.eqb k k' then Some v else lookup k rest
  end.

Definition has_key (k : string) (d : dict) : bool :=
  match lookup k d with
  | Some _ => true
  | None => false
  end.

Fixpoint is_prefix (p s : string) : bool :=
  match p, s with
  | EmptyString, _ => true
  | String a p', String b s' => Ascii.eqb a b && is_prefix p' s'
  | String _ _, EmptyString => false
  end.

(** [p in s] on two strings *)
Fixpoint is_substring (p s : string) : bool :=
  is_prefix p s ||
  match s with
  | EmptyString => false
  | String _ s' => is_substring p s'
  end.

(** [isinstance(v, t)]: a [bool] is an [int]; a foreign object is none of
    the builtin types. *)
Definition isinstance (v : value) (t : PyType) : bool :=
  match t, v with
  | Tstr, VStr _ => true
  | Tint, VInt _ => true
  | Tint, VBool _ => true
  | Tfloat, VFloat _ => true
  | Tfloat, VFloatSpecial _ => true
  | Tbool, VBool _ => true
  | Tlist, VList _ => true
  | Tdict, VDict _ => true
  | _, _ => false
  end.

(** The magnitude of a finite number; a [bool] counts as 0 or 1. *)
Definition number (v : value) : option Q :=
  match v with
  | VInt z => Some (inject_Z z)
  | VFloat q => Some q
  | VBool b => Some (inject_Z (if b then 1 else 0))
  | _ => None
  end.

(** What a comparison sees of a number: a finite magnitude, or one of the
    three special floats. *)
Inductive Magnitude :=
| Finite (q : Q)
| Special (x : SpecialFloat).

Definition magnitude (v : value) : option Magnitude :=
  match v with
  | VFloatSpecial x => Some (Special x)
  | _ => option_map Finite (number v)
  end.

(** [a <= b] on magnitudes: every comparison with [nan] is false, [-inf]
    is below and [inf] above every number. *)
Definition magnitude_le (a b : Magnitude) : bool :=
  match a, b with
  | Finite x, Finite y => Qle_bool x y
  | Special NaN, _ => false
  | _, Special NaN => false
  | Special NegInfinity, _ => true
  | _, Special PosInfinity => true
  | _, _ => false
  end.

Section Operations.
Context {W : World}.

(** Truth value of an object *)
Definition truthy (v : value) : bool :=
  match v with
  | VNone => false
  | VBool b => b
  | VInt z => negb (Z.eqb z 0)
  | VFloat q => negb (Qeq_bool q 0%Q)
  | VFloatSpecial _ => true
  | VStr s => negb (String.eqb s "")
  | VList l => match l with [] => false | _ => true end
  | VDict d => match d with [] => false | _ => true end
  | VActivation _ => true
  | VObj o => w_obj_truthy o
  end.

(** [o[k]] with a string key *)
Definition getitem (o : value) (k : string) : M value :=
  match o with
  | VDict d =>
      match lookup k d with
      | Some v => ret v
      | None => raise (KeyError ("'" ++ k ++ "'"))
      end
  | VObj n => lift (w_obj_getitem n k)
  | _ => raise (TypeError (w_builtin_msg "getitem" o))
  end.

(** [o.get(k, default)] *)
Definition get_default (o : value) (k : string) (default : value) : M value :=
  match o with
  | VDict d =>
      match lookup k d with
      | Some v => ret v
      | None => ret default
      end
  | VObj n => lift (w_obj_method n "get" [VStr k; default])
  | _ => raise (AttributeError (w_builtin_msg "get" o))
  end.

(** [o.get(k)] *)
Definition get (o : value) (k : string) : M value := get_default o k VNone.

(** [k in o] with a string [k] *)
Definition contains (k : string) (o : value) : M bool :=
  match o with
  | VDict d => ret (has_key k d)
  | VList l => ret (existsb (fun v => match v with VStr s => String.eqb s k | _ => false end) l)
  | VStr s => ret (is_substring k s)
  | VObj n => lift (w_obj_contains n k)
  | _ => raise (TypeError (w_builtin_msg "in" o))
  end.

(** [a <= b] on numbers *)
Definition py_le (a b : value) : M bool :=
  match magnitude a, magnitude b with
  | Some x, Some y => ret (magnitude_le x y)
  | _, _ => raise (TypeError (w_builtin_msg "<=" a))
  end.

(** [x and y], [x or y]: the second operand is evaluated on demand *)
Definition py_and (x : M value) (y : M value) : M value :=
  v <- x ;; if truthy v then y else ret v.
Definition py_or (x : M value) (y : M value) : M value :=
  v <- x ;; if truthy v then ret v else y.

(** [o.strip()] and [o.dict()] *)
Definition strip (o : value) : M value :=
  match o with
  | VStr s => ret (VStr (w_strip s))
  | VObj n => lift (w_obj_method n "strip" [])
  | _ => raise (AttributeError (w_builtin_msg "strip" o))
  end.

Definition dict_method (o : value) : M value :=
  match o with
  | VObj n => lift (w_obj_method n "dict" [])
  | _ => raise (AttributeError (w_builtin_msg "dict" o))
  end.

Definition json_loads (input : string) : M value := lift (w_json_loads input).
Definition json_dumps (v : value) : M value :=
  s <- lift (w_json_dumps v) ;; ret (VStr s).
Definition Pubkey_from_string (x : value) : M value := lift (w_Pubkey_from_string x).
Definition Pubkey (x : value) : M value := lift (w_Pubkey x).
Definition int (input : string) : M value := lift (w_int input).
Definition str (v : value) : string := w_str v.

(** *** Calls on the agent kit *)

(** A keyword argument [k=e], or an unpacked mapping [**e]. *)
Inductive Kwarg :=
| KW (k : string) (e : M value)
| KWStar (e : M value).

Fixpoint eval_args (args : list (M value)) : M (list value) :=
  match args with
  | [] => ret []
  | e :: rest => v <- e ;; vs <- eval_args rest ;; ret (v :: vs)
  end.

Fixpoint eval_kwargs (kwargs : list Kwarg) : M (list (list (string * value))) :=
  match kwargs with
  | [] => ret []
  | KW k e :: rest => v <- e ;; vs <- eval_kwargs rest ;; ret ([(k, v)] :: vs)
  | KWStar e :: rest =>
      v <- e ;;
      d <- match v with
           | VDict d => ret d
           | _ => raise (TypeError (w_builtin_msg "**" v))
           end ;;
      vs <- eval_kwargs rest ;; ret (d :: vs)
  end.

(** A keyword given twice is a [TypeError] raised before the call. *)
Fixpoint merge_kwargs (seen : list (string * value)) (groups : list (list (string * value)))
  : M (list (string * value)) :=
  match groups with
  | [] => ret seen
  | g :: rest =>
      if existsb (fun kv => has_key (fst kv) seen) g
      then raise (TypeError (w_builtin_msg "kwargs" (VDict g)))
      else merge_kwargs (seen ++ g) rest
  end.

(** [f(args, kwargs)]: the callee is looked up, the arguments are evaluated
    left to right, then the call is made and recorded. *)
Definition invoke (c : Callee) (lookup_error : option Exc)
    (args : list (M value)) (kwargs : list Kwarg) : M value :=
  match lookup_error with Some e => raise e | None => ret tt end ;;;
  vs <- eval_args args ;;
  gs <- eval_kwargs kwargs ;;
  kws <- merge_kwargs [] gs ;;
  let c := mkCall c vs kws in
  log_call c ;;;
  lift (w_call c).

(** [self.solana_kit.name(args, kwargs)] *)
Definition solana_kit (name : string) (args : list (M value)) (kwargs : list Kwarg) : M value :=
  invoke (KitMethod name) (w_kit_lookup name) args kwargs.

(** [self.agent_kit.name(args, kwargs)]: the classes that declare the field
    [agent_kit] receive the same kit from the factory. *)
Definition agent_kit (name : string) (args : list (M value)) (kwargs : list Kwarg) : M value :=
  solana_kit name args kwargs.

(** [self.solana_kit.name], a data attribute *)
Definition solana_kit_attr (name : string) : M value := lift (w_kit_attr name).

(** [create_image(self.solana_kit, args)] of [agentipy.tools] *)
Definition create_image (args : list (M value)) : M value :=
  invoke (ToolsFunction "create_image") None args [].

(** [await e] *)
Definition await (e : M value) : M value := v <- e ;; lift (w_await v).

End Operations.

(** ** The schema validator *)

(** Modelled from the spec: [agentipy.helpers.validate_input] is imported by
    the module and its source is not part of it.  The spec gives the
    contract [validate(input: mapping, schema) -> void]: it fails with a
    [ValidationError] on the first rule violated, the rules taken in the
    order (1) presence of the required fields, (2) type conformance of the
    fields present, (3) the inclusive bounds [min] and [max] on numbers.
    Keys of the input that the schema does not name are ignored.  Each rule
    goes through the fields in the order of the schema; a value matches a
    type the way [isinstance] decides; a bound is compared with the
    magnitude of a number and has no effect on a value of another kind,
    nor on the float [nan], which no comparison places outside ([inf] is
    above every [max] and [-inf] below every [min]); the
    wording of the last two messages is this model's, the spec asks that
    they name the field.

    The validator receives a reference to the parsed mapping, so it is
    written with explicit state passing: a computation takes the mapping and
    gives it back next to its result. *)

Definition V (A : Type) : Type := dict -> dict * Outcome A.

Definition v_ret {A} (a : A) : V A := fun d => (d, Return a).
Definition v_fail {A} (e : Exc) : V A := fun d => (d, Raise e).
Definition v_bind {A B} (m : V A) (k : A -> V B) : V B :=
  fun d =>
    match m d with
    | (d', Return a) => k a d'
    | (d', Raise e) => (d', Raise e)
    end.

(** The only access the validator makes to the mapping: reading a key. *)
Definition v_read (k : string) : V (option value) := fun d => (d, Return (lookup k d)).

Definition ValidationError (msg : string) : Exc := mkExc "ValidationError" true msg None.

(** Rule 1: a required field that is absent. *)
Fixpoint check_required (schema : Schema) : V unit :=
  match schema with
  | [] => v_ret tt
  | (field, rule) :: rest =>
      v_bind (v_read field) (fun x =>
        match x with
        | None =>
            if rule_required rule
            then v_fail (ValidationError ("Missing required field: " ++ field))
            else check_required rest
        | Some _ => check_required rest
        end)
  end.

(** The value is of the expected type, or of one of the expected types. *)
Definition type_ok (rule : FieldRule) (v : value) : bool :=
  existsb (isinstance v) (rule_type rule).

(** Rule 2: a field that is present with a value of another type. *)
Fixpoint check_types (schema : Schema) : V unit :=
  match schema with
  | [] => v_ret tt
  | (field, rule) :: rest =>
      v_bind (v_read field) (fun x =>
        match x with
        | Some v =>
            if type_ok rule v
            then check_types rest
            else v_fail (ValidationError ("Invalid type for field: " ++ field))
        | None => check_types rest
        end)
  end.

(** [min <= v], when the rule has a [min] and [v] is a number; [-inf] is
    below every bound. *)
Definition min_ok (rule : FieldRule) (v : value) : bool :=
  match rule_min rule, number v with
  | Some lo, Some x => Qle_bool (inject_Z lo) x
  | Some _, None =>
      match v with VFloatSpecial NegInfinity => false | _ => true end
  | _, _ => true
  end.

(** [v <= max], when the rule has a [max] and [v] is a number; [inf] is
    above every bound. *)
Definition max_ok (rule : FieldRule) (v : value) : bool :=
  match rule_max rule, number v with
  | Some hi, Some x => Qle_bool x (inject_Z hi)
  | Some _, None =>
      match v with VFloatSpecial PosInfinity => false | _ => true end
  | _, _ => true
  end.

(** Rule 3: a number outside of [[min, max]]. *)
Fixpoint check_bounds (schema : Schema) : V unit :=
  match schema with
  | [] => v_ret tt
  | (field, rule) :: rest =>
      v_bind (v_read field) (fun x =>
        match x with
        | Some v =>
            if negb (min_ok rule v)
            then v_fail (ValidationError ("Value below minimum for field: " ++ field))
            else if negb (max_ok rule v)
            then v_fail (ValidationError ("Value above maximum for field: " ++ field))
            else check_bounds rest
        | None => check_bounds rest
        end)
  end.

Definition validate (schema : Schema) : V unit :=
  v_bind (check_required schema) (fun _ =>
  v_bind (check_types schema) (fun _ =>
  check_bounds schema)).

Section Adapters.
Context {W : World}.

(** [validate_input(data, schema)] as an adapter calls it: the result is the
    parsed value as the validator leaves it.  On a value that is not a
    mapping the spec is silent and the outcome is the world's. *)
Definition validate_input (data : value) (schema : Schema) : M value :=
  match data with
  | VDict d =>
      match validate schema d with
      | (d', Return _) => ret (VDict d')
      | (_, Raise e) => raise e
      end
  | _ =>
      match w_validate_other data schema with
      | None => ret data
      | Some e => raise e
      end
  end.

(** [x is None] *)
Definition is_None (x : value) : bool :=
  match x with VNone => true | _ => false end.

(** [d.get(k)] on a dict literal of the module, with a key that is a value:
    a string is looked up, a list or a dict is unhashable, and no other
    value equals a string key. *)
Definition get_key (d : value) (k : value) : M value :=
  match k with
  | VStr s => get d s
  | VList _ | VDict _ => raise (TypeError (w_builtin_msg "hash" k))
  | _ => ret VNone
  end.

(** ** The adapters

    One definition per method, statement by statement.  A local variable
    [xN] holds the value of a subexpression, in the order of evaluation.
    The first argument of [create_image], the kit itself, is left out. *)

(** [class SolanaBalanceTool], line 12 *)
Definition SolanaBalanceTool_arun (input : string) : TryExcept value :=
  Try (
    token_address <- (if truthy (VStr input) then Pubkey_from_string (VStr input)
        else ret VNone) ;;
    balance <- await (solana_kit "get_balance" [ret token_address] []) ;;
    x1 <- py_or (ret (VStr input)) (ret (VStr "SOL")) ;;
    ret (VDict [("status", VStr "success"); ("balance", balance); ("token", x1)])
  ) (fun e =>
    ret (VDict [("status", VStr "error"); ("message", VStr (exc_msg e));
        ("code", getattr_code e)])).

Definition SolanaBalanceTool_run (input : string) : M value :=
  raise (NotImplementedError
    "This tool only supports async execution via _arun. Please use the async interface.").

(** [class SolanaTransferTool], line 45 *)
Definition SolanaTransferTool_schema : Schema :=
  [("to", mkRule [Tstr] true None None);
   ("amount", mkRule [Tint] true (Some 1) None);
   ("mint", mkRule [Tstr] false None None)].

Definition SolanaTransferTool_arun (input : string) : TryExcept value :=
  Try (
    data <- json_loads input ;;
    data <- validate_input data SolanaTransferTool_schema ;;
    x1 <- getitem data "to" ;;
    recipient <- Pubkey_from_string x1 ;;
    mint_address <- py_and (get data "mint") (x2 <- getitem data "mint" ;;
        Pubkey_from_string x2) ;;
    transaction <- await (solana_kit "transfer" [ret recipient; getitem data "amount";
        ret mint_address] []) ;;
    x3 <- getitem data "amount" ;;
    x4 <- getitem data "to" ;;
    x5 <- get_default data "mint" (VStr "SOL") ;;
    ret (VDict [("status", VStr "success"); ("message", VStr "Transfer completed successfully");
        ("amount", x3); ("recipient", x4); ("token", x5); ("transaction", transaction)])
  ) (fun e =>
    ret (VDict [("status", VStr "error"); ("message", VStr (exc_msg e));
        ("code", getattr_code e)])).

Definition SolanaTransferTool_run : M value :=
  raise (NotImplementedError
    "This tool only supports async execution via _arun. Please use the async interface.").

(** [class SolanaDeployTokenTool], line 94 *)
Definition SolanaDeployTokenTool_schema : Schema :=
  [("decimals", mkRule [Tint] true (Some 0) (Some 9));
   ("initialSupply", mkRule [Tint] true (Some 1) None)].

Definition SolanaDeployTokenTool_arun (input : string) : TryExcept value :=
  Try (
    data <- json_loads input ;;
    data <- validate_input data SolanaDeployTokenTool_schema ;;
    decimals <- get_default data "decimals" (VInt 9) ;;
    token_details <- await (solana_kit "deploy_token" [ret decimals] []) ;;
    x1 <- getitem token_details "mint" ;;
    ret (VDict [("status", VStr "success"); ("message", VStr "Token deployed successfully");
        ("mintAddress", x1); ("decimals", decimals)])
  ) (fun e =>
    ret (VDict [("status", VStr "error"); ("message", VStr (exc_msg e));
        ("code", getattr_code e)])).

Definition SolanaDeployTokenTool_run : M value :=
  raise (NotImplementedError
    "This tool only supports async execution via _arun. Please use the async interface.").

(** [class SolanaTradeTool], line 137 *)
Definition SolanaTradeTool_schema : Schema :=
  [("output_mint", mkRule [Tstr] true None None);
   ("input_amount", mkRule [Tint] true (Some 1) None);
   ("input_mint", mkRule [Tstr] false None None);
   ("slippage_bps", mkRule [Tint] false None None)].

Definition SolanaTradeTool_arun (input : string) : TryExcept value :=
  Try (
    data <- json_loads input ;;
    data <- validate_input data SolanaTradeTool_schema ;;
    x1 <- getitem data "output_mint" ;;
    output_mint <- Pubkey_from_string x1 ;;
    x4 <- contains "input_mint" data ;;
    input_mint <- (if x4 then (x2 <- getitem data "input_mint" ;; Pubkey_from_string x2)
        else ret VNone) ;;
    slippage_bps <- get_default data "slippage_bps" (VInt 100) ;;
    transaction <- await (solana_kit "trade" [ret output_mint; getitem data "input_amount";
        ret input_mint; ret slippage_bps] []) ;;
    ret (VDict [("status", VStr "success"); ("message", VStr "Trade executed successfully");
        ("transaction", transaction)])
  ) (fun e =>
    ret (VDict [("status", VStr "error"); ("message", VStr (exc_msg e));
        ("code", getattr_code e)])).

Definition SolanaTradeTool_run : M value :=
  raise (NotImplementedError
    "This tool only supports async execution via _arun. Please use the async interface.").

(** [class SolanaFaucetTool], line 190 *)
Definition SolanaFaucetTool_arun : TryExcept value :=
  Try (
    result <- await (solana_kit "request_faucet_funds" [] []) ;;
    ret (VDict [("status", VStr "success");
        ("message", VStr "Faucet funds requested successfully"); ("result", result)])
  ) (fun e =>
    ret (VDict [("status", VStr "error"); ("message", VStr (exc_msg e));
        ("code", getattr_code e)])).

Definition SolanaFaucetTool_run : M value :=
  raise (NotImplementedError
    "This tool only supports async execution via _arun. Please use the async interface.").

(** [class SolanaStakeTool], line 216 *)
Definition SolanaStakeTool_arun (input : string) : TryExcept value :=
  Try (
    amount <- int input ;;
    result <- await (solana_kit "stake" [ret amount] []) ;;
    ret (VDict [("status", VStr "success"); ("message", VStr "Assets staked successfully");
        ("result", result)])
  ) (fun e =>
    ret (VDict [("status", VStr "error"); ("message", VStr (exc_msg e));
        ("code", getattr_code e)])).

Definition SolanaStakeTool_run : M value :=
  raise (NotImplementedError
    "This tool only supports async execution via _arun. Please use the async interface.").

(** [class SolanaGetWalletAddressTool], line 243 *)
Definition SolanaGetWalletAddressTool_arun : TryExcept value :=
  Try (
    result <- await (solana_kit_attr "wallet_address") ;;
    ret (VDict [("status", VStr "success");
        ("message", VStr "Wallet address fetched successfully"); ("result", VStr (str result))])
  ) (fun e =>
    ret (VDict [("status", VStr "error"); ("message", VStr (exc_msg e));
        ("code", getattr_code e)])).

Definition SolanaGetWalletAddressTool_run : M value :=
  raise (NotImplementedError
    "This tool only supports async execution via _arun. Please use the async interface.").

(** [class SolanaCreateImageTool], line 269 *)
Definition SolanaCreateImageTool_schema : Schema :=
  [("prompt", mkRule [Tstr] true None None);
   ("size", mkRule [Tstr] false None None);
   ("n", mkRule [Tint] false None None)].

Definition SolanaCreateImageTool_arun (input : string) : TryExcept value :=
  Try (
    data <- json_loads input ;;
    data <- validate_input data SolanaCreateImageTool_schema ;;
    prompt <- getitem data "prompt" ;;
    size <- get_default data "size" (VStr "1024x1024") ;;
    prompt <- getitem data "prompt" ;;
    size <- get_default data "size" (VStr "1024x1024") ;;
    n <- get_default data "n" (VInt 1) ;;
    x1 <- strip prompt ;;
    (if negb (truthy x1) then raise (ValueError "Prompt must be a non-empty string.")
        else ret tt) ;;;
    result <- await (create_image [ret prompt; ret size; ret n]) ;;
    x2 <- getitem result "images" ;;
    ret (VDict [("status", VStr "success"); ("message", VStr "Image created successfully");
        ("images", x2)])
  ) (fun e =>
    ret (VDict [("status", VStr "error"); ("message", VStr (exc_msg e));
        ("code", getattr_code e)])).

Definition SolanaCreateImageTool_run : M value :=
  raise (NotImplementedError
    "This tool only supports async execution via _arun. Please use the async interface.").

(** [class SolanaTPSCalculatorTool], line 322 *)
Definition SolanaTPSCalculatorTool_arun : TryExcept value :=
  Try (
    tps <- await (solana_kit "get_tps" [] []) ;;
    ret (VDict [("status", VStr "success");
        ("message", VStr ("Solana (mainnet-beta) current transactions per second: " ++ str tps))])
  ) (fun e =>
    ret (VDict [("status", VStr "error"); ("message", VStr ("Error fetching TPS: " ++ exc_msg e));
        ("code", getattr_code e)])).

Definition SolanaTPSCalculatorTool_run : M value :=
  raise (NotImplementedError
    "This tool only supports async execution via _arun. Please use the async interface.").

(** [class SolanaPumpFunTokenTool], line 348 *)
Definition SolanaPumpFunTokenTool_schema : Schema :=
  [("token_name", mkRule [Tstr] true None None);
   ("token_ticker", mkRule [Tstr] true None None);
   ("description", mkRule [Tstr] true None None);
   ("image_url", mkRule [Tstr] true None None)].

Definition SolanaPumpFunTokenTool_arun (input : string) : TryExcept value :=
  Try (
    data <- json_loads input ;;
    data <- validate_input data SolanaPumpFunTokenTool_schema ;;
    result <- await (solana_kit "launch_pump_fun_token" [getitem data "token_name";
        getitem data "token_ticker"; getitem data "description";
        getitem data "image_url"] [KW "options" (get data "options")]) ;;
    ret (VDict [("status", VStr "success");
        ("message", VStr "Pump Fun token launched successfully"); ("result", result)])
  ) (fun e =>
    ret (VDict [("status", VStr "error"); ("message", VStr (exc_msg e));
        ("code", getattr_code e)])).

Definition SolanaPumpFunTokenTool_run : M value :=
  raise (NotImplementedError
    "This tool only supports async execution via _arun. Please use the async interface.").

(** [class SolanaFetchPriceTool], line 399 *)
Definition SolanaFetchPriceTool_schema : Schema :=
  [("token_id", mkRule [Tstr] true None None)].

Definition SolanaFetchPriceTool_call (input : string) : TryExcept value :=
  Try (
    data <- json_loads input ;;
    data <- validate_input data SolanaFetchPriceTool_schema ;;
    token_id <- getitem data "token_id" ;;
    price <- await (solana_kit "fetch_price" [ret token_id] []) ;;
    json_dumps (VDict [("status", VStr "success"); ("tokenId", token_id); ("priceInUSDC", price)])
  ) (fun error =>
    json_dumps (VDict [("status", VStr "error"); ("message", VStr (exc_msg error));
        ("code", getattr_code error)])).

Definition SolanaFetchPriceTool_run : M value :=
  raise (NotImplementedError
    "This tool only supports async execution via _arun. Please use the async interface.").

(** [class SolanaTokenDataTool], line 438 *)
Definition SolanaTokenDataTool_schema : Schema :=
  [("mint_address", mkRule [Tstr] true None None)].

Definition SolanaTokenDataTool_call (input : string) : TryExcept value :=
  Try (
    data <- json_loads input ;;
    data <- validate_input data SolanaTokenDataTool_schema ;;
    mint_address <- getitem data "mint_address" ;;
    token_data <- await (solana_kit "get_token_data_by_address" [ret mint_address] []) ;;
    json_dumps (VDict [("status", VStr "success"); ("tokenData", token_data)])
  ) (fun error =>
    json_dumps (VDict [("status", VStr "error"); ("message", VStr (exc_msg error));
        ("code", getattr_code error)])).

Definition SolanaTokenDataTool_run : M value :=
  raise (NotImplementedError
    "This tool only supports async execution via _arun. Please use the async interface.").

(** [class SolanaTokenDataByTickerTool], line 476 *)
Definition SolanaTokenDataByTickerTool_schema : Schema :=
  [("ticker", mkRule [Tstr] true None None)].

Definition SolanaTokenDataByTickerTool_call (input : string) : TryExcept value :=
  Try (
    data <- json_loads input ;;
    data <- validate_input data SolanaTokenDataByTickerTool_schema ;;
    ticker <- getitem data "ticker" ;;
    token_data <- await (solana_kit "get_token_data_by_ticker" [ret ticker] []) ;;
    json_dumps (VDict [("status", VStr "success"); ("tokenData", token_data)])
  ) (fun error =>
    json_dumps (VDict [("status", VStr "error"); ("message", VStr (exc_msg error));
        ("code", getattr_code error)])).

Definition SolanaTokenDataByTickerTool_run : M value :=
  raise (NotImplementedError
    "This tool only supports async execution via _arun. Please use the async interface.").

(** [class SolanaMeteoraDLMMTool], line 515 *)
Definition SolanaMeteoraDLMMTool_schema : Schema :=
  [("bin_step", mkRule [Tint] true None None);
   ("token_a_mint", mkRule [Tstr] true None None);
   ("token_b_mint", mkRule [Tstr] true None None);
   ("initial_price", mkRule [Tfloat] true None None);
   ("price_rounding_up", mkRule [Tbool] true None None);
   ("fee_bps", mkRule [Tint] true None None);
   ("activation_type", mkRule [Tstr] true None None);
   ("has_alpha_vault", mkRule [Tbool] true None None);
   ("activation_point", mkRule [Tstr] false None None)].

Definition SolanaMeteoraDLMMTool_arun (input : string) : TryExcept value :=
  Try (
    data <- json_loads input ;;
    data <- validate_input data SolanaMeteoraDLMMTool_schema ;;
    let activation_type_mapping := VDict [("Slot", VActivation Slot);
        ("Timestamp", VActivation Timestamp)] in
    x1 <- getitem data "activation_type" ;;
    activation_type <- get_key activation_type_mapping x1 ;;
    (if is_None activation_type then raise (ValueError "Invalid activation_type. Valid options are: Slot, Timestamp.")
        else ret tt) ;;;
    activation_point <- get_default data "activation_point" VNone ;;
    result <- await (solana_kit "create_meteora_dlmm_pool" [] [KW "bin_step" (getitem data "bin_step");
        KW "token_a_mint" (getitem data "token_a_mint");
        KW "token_b_mint" (getitem data "token_b_mint");
        KW "initial_price" (getitem data "initial_price");
        KW "price_rounding_up" (getitem data "price_rounding_up");
        KW "fee_bps" (getitem data "fee_bps"); KW "activation_type" (ret activation_type);
        KW "has_alpha_vault" (getitem data "has_alpha_vault");
        KW "activation_point" (ret activation_point)]) ;;
    ret (VDict [("status", VStr "success");
        ("message", VStr "Meteora DLMM pool created successfully"); ("result", result)])
  ) (fun e =>
    ret (VDict [("status", VStr "error");
        ("message", VStr ("Failed to process input: " ++ input ++ ". Error: " ++ exc_msg e));
        ("code", getattr_code e)])).

Definition SolanaMeteoraDLMMTool_run : M value :=
  raise (NotImplementedError
    "This tool only supports async execution via _arun. Please use the async interface.").

(** [class SolanaRaydiumBuyTool], line 598 *)
Definition SolanaRaydiumBuyTool_arun (input : string) : TryExcept value :=
  Try (
    let required_fields := ["pair_address"; "sol_in"; "slippage"] in
    data <- json_loads input ;;
    for_each required_fields (fun field =>
      x1 <- contains field data ;;
      if negb x1 then raise (ValueError ("Missing required field: " ++ field)) else ret tt) ;;;
    x2 <- getitem data "pair_address" ;;
    (if negb (isinstance x2 Tstr) then raise (ValueError "Pair address must be a string")
        else ret tt) ;;;
    x3 <- getitem data "sol_in" ;;
    x5 <- (if negb (isinstance x3 Tfloat) then ret true else (x4 <- getitem data "sol_in" ;;
        py_le x4 (VInt 0))) ;;
    (if x5 then raise (ValueError "SOL in must be a positive float") else ret tt) ;;;
    x6 <- getitem data "slippage" ;;
    x10 <- (if negb (isinstance x6 Tint) then ret true else (x7 <- getitem data "slippage" ;;
        x8 <- py_le (VInt 0) x7 ;; x9 <- (if x8 then py_le x7 (VInt 100) else ret false) ;;
        ret (negb x9))) ;;
    (if x10 then raise (ValueError "Slippage must be an integer between 0 and 100")
        else ret tt) ;;;
    pair_address <- getitem data "pair_address" ;;
    sol_in <- get_default data "sol_in" (VFloat (5764607523034235 # 576460752303423488)%Q) ;;
    slippage <- get_default data "slippage" (VInt 5) ;;
    result <- await (solana_kit "buy_with_raydium" [ret pair_address; ret sol_in;
        ret slippage] []) ;;
    ret (VDict [("status", VStr "success");
        ("message", VStr "Buy transaction completed successfully");
        ("pair_address", pair_address); ("sol_in", sol_in); ("slippage", slippage);
        ("transaction", result)])
  ) (fun e =>
    ret (VDict [("status", VStr "error"); ("message", VStr (exc_msg e));
        ("code", getattr_code e)])).

Definition SolanaRaydiumBuyTool_run (input : string) : M value :=
  raise (NotImplementedError
    "This tool only supports async execution via _arun. Please use the async interface.").

(** [class SolanaRaydiumSellTool], line 654 *)
Definition SolanaRaydiumSellTool_arun (input : string) : TryExcept value :=
  Try (
    let required_keys := ["pair_address"; "percentage"; "slippage"] in
    data <- json_loads input ;;
    for_each required_keys (fun key =>
      x1 <- contains key data ;;
      if negb x1 then raise (ValueError ("Missing required key: " ++ key)) else ret tt) ;;;
    x2 <- getitem data "percentage" ;;
    x6 <- (if negb (isinstance x2 Tint) then ret true else (x3 <- getitem data "percentage" ;;
        x4 <- py_le (VInt 0) x3 ;; x5 <- (if x4 then py_le x3 (VInt 100) else ret false) ;;
        ret (negb x5))) ;;
    (if x6 then raise (ValueError "percentage must be an integer between 0 and 100")
        else ret tt) ;;;
    x7 <- getitem data "slippage" ;;
    x11 <- (if negb (isinstance x7 Tint) then ret true else (x8 <- getitem data "slippage" ;;
        x9 <- py_le (VInt 0) x8 ;; x10 <- (if x9 then py_le x8 (VInt 100) else ret false) ;;
        ret (negb x10))) ;;
    (if x11 then raise (ValueError "slippage must be an integer between 0 and 100")
        else ret tt) ;;;
    pair_address <- getitem data "pair_address" ;;
    percentage <- get_default data "percentage" (VInt 100) ;;
    slippage <- get_default data "slippage" (VInt 5) ;;
    result <- await (solana_kit "sell_with_raydium" [ret pair_address; ret percentage;
        ret slippage] []) ;;
    ret (VDict [("status", VStr "success");
        ("message", VStr "Sell transaction completed successfully");
        ("pair_address", pair_address); ("percentage", percentage); ("slippage", slippage);
        ("transaction", result)])
  ) (fun e =>
    ret (VDict [("status", VStr "error"); ("message", VStr (exc_msg e));
        ("code", getattr_code e)])).

Definition SolanaRaydiumSellTool_run (input : string) : M value :=
  raise (NotImplementedError
    "This tool only supports async execution via _arun. Please use the async interface.").

(** [class SolanaBurnAndCloseTool], line 712 *)
Definition SolanaBurnAndCloseTool_arun (input : string) : TryExcept value :=
  Try (
    let required_fields := ["token_account"] in
    data <- json_loads input ;;
    for_each required_fields (fun field =>
      x1 <- contains field data ;;
      if negb x1 then raise (ValueError ("Missing required field: " ++ field)) else ret tt) ;;;
    x2 <- getitem data "token_account" ;;
    (if negb (isinstance x2 Tstr) then raise (ValueError "Token account must be a string")
        else ret tt) ;;;
    token_account <- getitem data "token_account" ;;
    result <- await (solana_kit "burn_and_close_accounts" [ret token_account] []) ;;
    ret (VDict [("status", VStr "success");
        ("message", VStr "Token account burned and closed successfully."); ("result", result)])
  ) (fun e =>
    ret (VDict [("status", VStr "error"); ("message", VStr (exc_msg e));
        ("code", getattr_code e)])).

Definition SolanaBurnAndCloseTool_run (input : string) : M value :=
  raise (NotImplementedError
    "This tool only supports async execution via _arun. Please use the async interface.").

(** [class SolanaBurnAndCloseMultipleTool], line 758 *)
Definition SolanaBurnAndCloseMultipleTool_schema : Schema :=
  [("token_accounts", mkRule [Tlist] true None None)].

Definition SolanaBurnAndCloseMultipleTool_arun (input : string) : TryExcept value :=
  Try (
    data <- json_loads input ;;
    data <- validate_input data SolanaBurnAndCloseMultipleTool_schema ;;
    token_accounts <- get_default data "token_accounts" (VList []) ;;
    result <- await (solana_kit "multiple_burn_and_close_accounts" [ret token_accounts] []) ;;
    ret (VDict [("status", VStr "success");
        ("message", VStr "Token accounts burned and closed successfully."); ("result", result)])
  ) (fun e =>
    ret (VDict [("status", VStr "error"); ("message", VStr (exc_msg e));
        ("code", getattr_code e)])).

Definition SolanaBurnAndCloseMultipleTool_run (input : string) : M value :=
  raise (NotImplementedError
    "This tool only supports async execution via _arun. Please use the async interface.").

(** [class SolanaCreateGibworkTaskTool], line 800 *)
Definition SolanaCreateGibworkTaskTool_schema : Schema :=
  [("title", mkRule [Tstr] true None None);
   ("content", mkRule [Tstr] true None None);
   ("requirements", mkRule [Tstr] true None None);
   ("tags", mkRule [Tlist] true None None);
   ("token_mint_address", mkRule [Tstr] true None None);
   ("token_amount", mkRule [Tint] true (Some 1) None)].

Definition SolanaCreateGibworkTaskTool_arun (input : string) : TryExcept value :=
  Try (
    data <- json_loads input ;;
    data <- validate_input data SolanaCreateGibworkTaskTool_schema ;;
    title <- getitem data "title" ;;
    content <- getitem data "content" ;;
    requirements <- getitem data "requirements" ;;
    tags <- get_default data "tags" (VList []) ;;
    x1 <- getitem data "token_mint_address" ;;
    token_mint_address <- Pubkey_from_string x1 ;;
    token_amount <- getitem data "token_amount" ;;
    result <- await (solana_kit "create_gibwork_task" [ret title; ret content; ret requirements;
        ret tags; ret token_mint_address; ret token_amount] []) ;;
    ret (VDict [("status", VStr "success"); ("message", VStr "Gibwork task created successfully");
        ("result", result)])
  ) (fun e =>
    ret (VDict [("status", VStr "error"); ("message", VStr (exc_msg e));
        ("code", getattr_code e)])).

Definition SolanaCreateGibworkTaskTool_run (input : string) : M value :=
  raise (NotImplementedError
    "This tool only supports async execution via _arun. Please use the async interface.").

(** [class SolanaBuyUsingMoonshotTool], line 857 *)
Definition SolanaBuyUsingMoonshotTool_schema : Schema :=
  [("mint_str", mkRule [Tstr] true None None);
   ("collateral_amount", mkRule [Tfloat] false (Some 0) None);
   ("slippage_bps", mkRule [Tint] false (Some 0) (Some 10000))].

Definition SolanaBuyUsingMoonshotTool_arun (input : string) : TryExcept value :=
  Try (
    data <- json_loads input ;;
    data <- validate_input data SolanaBuyUsingMoonshotTool_schema ;;
    mint_str <- getitem data "mint_str" ;;
    collateral_amount <- get_default data "collateral_amount" (VFloat (5764607523034235 # 576460752303423488)%Q) ;;
    slippage_bps <- get_default data "slippage_bps" (VInt 500) ;;
    result <- await (solana_kit "buy_using_moonshot" [ret mint_str; ret collateral_amount;
        ret slippage_bps] []) ;;
    ret (VDict [("status", VStr "success");
        ("message", VStr "Token purchased successfully using Moonshot."); ("result", result)])
  ) (fun e =>
    ret (VDict [("status", VStr "error"); ("message", VStr (exc_msg e));
        ("code", getattr_code e)])).

Definition SolanaBuyUsingMoonshotTool_run (input : string) : M value :=
  raise (NotImplementedError
    "This tool only supports async execution via _arun. Please use the async interface.").

(** [class SolanaSellUsingMoonshotTool], line 905 *)
Definition SolanaSellUsingMoonshotTool_schema : Schema :=
  [("mint_str", mkRule [Tstr] true None None);
   ("token_balance", mkRule [Tfloat] false (Some 0) None);
   ("slippage_bps", mkRule [Tint] false (Some 0) (Some 10000))].

Definition SolanaSellUsingMoonshotTool_arun (input : string) : TryExcept value :=
  Try (
    data <- json_loads input ;;
    data <- validate_input data SolanaSellUsingMoonshotTool_schema ;;
    mint_str <- getitem data "mint_str" ;;
    token_balance <- get_default data "token_balance" (VFloat (5764607523034235 # 576460752303423488)%Q) ;;
    slippage_bps <- get_default data "slippage_bps" (VInt 500) ;;
    result <- await (solana_kit "sell_using_moonshot" [ret mint_str; ret token_balance;
        ret slippage_bps] []) ;;
    ret (VDict [("status", VStr "success");
        ("message", VStr "Token sold successfully using Moonshot."); ("result", result)])
  ) (fun e =>
    ret (VDict [("status", VStr "error"); ("message", VStr (exc_msg e));
        ("code", getattr_code e)])).

Definition SolanaSellUsingMoonshotTool_run (input : string) : M value :=
  raise (NotImplementedError
    "This tool only supports async execution via _arun. Please use the async interface.").

(** [class SolanaPythGetPriceTool], line 953 *)
Definition SolanaPythGetPriceTool_schema : Schema :=
  [("mint_address", mkRule [Tstr] true None None)].

Definition SolanaPythGetPriceTool_arun (input : string) : TryExcept value :=
  Try (
    data <- json_loads input ;;
    data <- validate_input data SolanaPythGetPriceTool_schema ;;
    mint_address <- getitem data "mint_address" ;;
    result <- await (solana_kit "pythFetchPrice" [ret mint_address] []) ;;
    ret (VDict [("status", VStr "success"); ("data", result)])
  ) (fun e =>
    ret (VDict [("status", VStr "error"); ("message", VStr (exc_msg e))])).

Definition SolanaPythGetPriceTool_run (input : string) : M value :=
  raise (NotImplementedError
    "This tool only supports async execution via _arun. Please use the async interface.").

(** [class SolanaHeliusGetBalancesTool], line 1000 *)
Definition SolanaHeliusGetBalancesTool_schema : Schema :=
  [("address", mkRule [Tstr] true None None)].

Definition SolanaHeliusGetBalancesTool_arun (input : string) : TryExcept value :=
  Try (
    data <- json_loads input ;;
    data <- validate_input data SolanaHeliusGetBalancesTool_schema ;;
    address <- getitem data "address" ;;
    result <- await (solana_kit "get_balances" [ret address] []) ;;
    ret (VDict [("status", VStr "success"); ("data", result)])
  ) (fun e =>
    ret (VDict [("status", VStr "error"); ("message", VStr (exc_msg e))])).

Definition SolanaHeliusGetBalancesTool_run (input : string) : M value :=
  raise (NotImplementedError
    "This tool only supports async execution via _arun. Please use the async interface.").

(** [class SolanaHeliusGetAddressNameTool], line 1043 *)
Definition SolanaHeliusGetAddressNameTool_schema : Schema :=
  [("address", mkRule [Tstr] true None None)].

Definition SolanaHeliusGetAddressNameTool_arun (input : string) : TryExcept value :=
  Try (
    data <- json_loads input ;;
    data <- validate_input data SolanaHeliusGetAddressNameTool_schema ;;
    address <- getitem data "address" ;;
    result <- await (solana_kit "get_address_name" [ret address] []) ;;
    ret (VDict [("status", VStr "success"); ("data", result)])
  ) (fun e =>
    ret (VDict [("status", VStr "error"); ("message", VStr (exc_msg e))])).

Definition SolanaHeliusGetAddressNameTool_run (input : string) : M value :=
  raise (NotImplementedError
    "This tool only supports async execution via _arun. Please use the async interface.").

(** [class SolanaHeliusGetNftEventsTool], line 1086 *)
Definition SolanaHeliusGetNftEventsTool_schema : Schema :=
  [("accounts", mkRule [Tlist] true None None);
   ("types", mkRule [Tlist] false None None);
   ("sources", mkRule [Tlist] false None None);
   ("start_slot", mkRule [Tint] false None None);
   ("end_slot", mkRule [Tint] false None None);
   ("start_time", mkRule [Tint] false None None);
   ("end_time", mkRule [Tint] false None None);
   ("first_verified_creator", mkRule [Tlist] false None None);
   ("verified_collection_address", mkRule [Tlist] false None None);
   ("limit", mkRule [Tint] false None None);
   ("sort_order", mkRule [Tstr] false None None);
   ("pagination_token", mkRule [Tstr] false None None)].

Definition SolanaHeliusGetNftEventsTool_arun (input : string) : TryExcept value :=
  Try (
    data <- json_loads input ;;
    data <- validate_input data SolanaHeliusGetNftEventsTool_schema ;;
    accounts <- getitem data "accounts" ;;
    types <- get data "types" ;;
    sources <- get data "sources" ;;
    start_slot <- get data "start_slot" ;;
    end_slot <- get data "end_slot" ;;
    start_time <- get data "start_time" ;;
    end_time <- get data "end_time" ;;
    first_verified_creator <- get data "first_verified_creator" ;;
    verified_collection_address <- get data "verified_collection_address" ;;
    limit <- get data "limit" ;;
    sort_order <- get data "sort_order" ;;
    pagination_token <- get data "pagination_token" ;;
    result <- await (solana_kit "get_nft_events" [ret accounts; ret types; ret sources;
        ret start_slot; ret end_slot; ret start_time; ret end_time; ret first_verified_creator;
        ret verified_collection_address; ret limit; ret sort_order; ret pagination_token] []) ;;
    ret (VDict [("status", VStr "success"); ("data", result)])
  ) (fun e =>
    ret (VDict [("status", VStr "error"); ("message", VStr (exc_msg e))])).

Definition SolanaHeliusGetNftEventsTool_run (input : string) : M value :=
  raise (NotImplementedError
    "This tool only supports async execution via _arun. Please use the async interface.").

(** [class SolanaHeliusGetMintlistsTool], line 1164 *)
Definition SolanaHeliusGetMintlistsTool_schema : Schema :=
  [("first_verified_creators", mkRule [Tlist] true None None);
   ("verified_collection_addresses", mkRule [Tlist] false None None);
   ("limit", mkRule [Tint] false None None);
   ("pagination_token", mkRule [Tstr] false None None)].

Definition SolanaHeliusGetMintlistsTool_arun (input : string) : TryExcept value :=
  Try (
    data <- json_loads input ;;
    data <- validate_input data SolanaHeliusGetMintlistsTool_schema ;;
    result <- await (solana_kit "get_mintlists" [] [KW "first_verified_creators" (getitem data "first_verified_creators");
        KW "verified_collection_addresses" (get data "verified_collection_addresses");
        KW "limit" (get data "limit"); KW "pagination_token" (get data "pagination_token")]) ;;
    ret (VDict [("status", VStr "success"); ("data", result)])
  ) (fun e =>
    ret (VDict [("status", VStr "error"); ("message", VStr (exc_msg e))])).

Definition SolanaHeliusGetMintlistsTool_run (input : string) : M value :=
  raise (NotImplementedError
    "This tool only supports async execution via _arun. Please use the async interface.").

(** [class SolanaHeliusGetNFTFingerprintTool], line 1215 *)
Definition SolanaHeliusGetNFTFingerprintTool_schema : Schema :=
  [("mints", mkRule [Tlist] true None None)].

Definition SolanaHeliusGetNFTFingerprintTool_arun (input : string) : TryExcept value :=
  Try (
    data <- json_loads input ;;
    data <- validate_input data SolanaHeliusGetNFTFingerprintTool_schema ;;
    mints <- getitem data "mints" ;;
    result <- await (solana_kit "get_nft_fingerprint" [ret mints] []) ;;
    ret (VDict [("status", VStr "success"); ("data", result)])
  ) (fun e =>
    ret (VDict [("status", VStr "error"); ("message", VStr (exc_msg e))])).

Definition SolanaHeliusGetNFTFingerprintTool_run (input : string) : M value :=
  raise (NotImplementedError
    "This tool only supports async execution via _arun. Please use the async interface.").

(** [class SolanaHeliusGetActiveListingsTool], line 1259 *)
Definition SolanaHeliusGetActiveListingsTool_schema : Schema :=
  [("first_verified_creators", mkRule [Tlist] true None None);
   ("verified_collection_addresses", mkRule [Tlist] false None None);
   ("marketplaces", mkRule [Tlist] false None None);
   ("limit", mkRule [Tint] false None None);
   ("pagination_token", mkRule [Tstr] false None None)].

Definition SolanaHeliusGetActiveListingsTool_arun (input : string) : TryExcept value :=
  Try (
    data <- json_loads input ;;
    data <- validate_input data SolanaHeliusGetActiveListingsTool_schema ;;
    result <- await (solana_kit "get_active_listings" [] [KW "first_verified_creators" (getitem data "first_verified_creators");
        KW "verified_collection_addresses" (get data "verified_collection_addresses");
        KW "marketplaces" (get data "marketplaces"); KW "limit" (get data "limit");
        KW "pagination_token" (get data "pagination_token")]) ;;
    ret (VDict [("status", VStr "success"); ("data", result)])
  ) (fun e =>
    ret (VDict [("status", VStr "error"); ("message", VStr (exc_msg e))])).

Definition SolanaHeliusGetActiveListingsTool_run (input : string) : M value :=
  raise (NotImplementedError
    "This tool only supports async execution via _arun. Please use the async interface.").

(** [class SolanaHeliusGetNFTMetadataTool], line 1313 *)
Definition SolanaHeliusGetNFTMetadataTool_schema : Schema :=
  [("mint_addresses", mkRule [Tlist] true None None)].

Definition SolanaHeliusGetNFTMetadataTool_arun (input : string) : TryExcept value :=
  Try (
    data <- json_loads input ;;
    data <- validate_input data SolanaHeliusGetNFTMetadataTool_schema ;;
    mint_addresses <- getitem data "mint_addresses" ;;
    result <- await (solana_kit "get_nft_metadata" [ret mint_addresses] []) ;;
    ret (VDict [("status", VStr "success"); ("data", result)])
  ) (fun e =>
    ret (VDict [("status", VStr "error"); ("message", VStr (exc_msg e))])).

Definition SolanaHeliusGetNFTMetadataTool_run (input : string) : M value :=
  raise (NotImplementedError
    "This tool only supports async execution via _arun. Please use the async interface.").

(** [class SolanaHeliusGetRawTransactionsTool], line 1357 *)
Definition SolanaHeliusGetRawTransactionsTool_schema : Schema :=
  [("signatures", mkRule [Tlist] true None None);
   ("start_slot", mkRule [Tint] false None None);
   ("end_slot", mkRule [Tint] false None None);
   ("start_time", mkRule [Tint] false None None);
   ("end_time", mkRule [Tint] false None None);
   ("limit", mkRule [Tint] false None None);
   ("sort_order", mkRule [Tstr] false None None);
   ("pagination_token", mkRule [Tstr] false None None)].

Definition SolanaHeliusGetRawTransactionsTool_arun (input : string) : TryExcept value :=
  Try (
    data <- json_loads input ;;
    data <- validate_input data SolanaHeliusGetRawTransactionsTool_schema ;;
    signatures <- getitem data "signatures" ;;
    start_slot <- get data "start_slot" ;;
    end_slot <- get data "end_slot" ;;
    start_time <- get data "start_time" ;;
    end_time <- get data "end_time" ;;
    limit <- get data "limit" ;;
    sort_order <- get data "sort_order" ;;
    pagination_token <- get data "pagination_token" ;;
    result <- await (solana_kit "get_raw_transactions" [ret signatures; ret start_slot;
        ret end_slot; ret start_time; ret end_time; ret limit; ret sort_order;
        ret pagination_token] []) ;;
    ret (VDict [("status", VStr "success"); ("data", result)])
  ) (fun e =>
    ret (VDict [("status", VStr "error"); ("message", VStr (exc_msg e))])).

Definition SolanaHeliusGetRawTransactionsTool_run (input : string) : M value :=
  raise (NotImplementedError
    "This tool only supports async execution via _arun. Please use the async interface.").

(** [class SolanaHeliusGetParsedTransactionsTool], line 1425 *)
Definition SolanaHeliusGetParsedTransactionsTool_schema : Schema :=
  [("signatures", mkRule [Tlist] true None None);
   ("commitment", mkRule [Tstr] false None None)].

Definition SolanaHeliusGetParsedTransactionsTool_arun (input : string) : TryExcept value :=
  Try (
    data <- json_loads input ;;
    data <- validate_input data SolanaHeliusGetParsedTransactionsTool_schema ;;
    signatures <- getitem data "signatures" ;;
    commitment <- get data "commitment" ;;
    result <- await (solana_kit "get_parsed_transactions" [ret signatures; ret commitment] []) ;;
    ret (VDict [("status", VStr "success"); ("data", result)])
  ) (fun e =>
    ret (VDict [("status", VStr "error"); ("message", VStr (exc_msg e))])).

Definition SolanaHeliusGetParsedTransactionsTool_run (input : string) : M value :=
  raise (NotImplementedError
    "This tool only supports async execution via _arun. Please use the async interface.").

(** [class SolanaHeliusGetParsedTransactionHistoryTool], line 1473 *)
Definition SolanaHeliusGetParsedTransactionHistoryTool_schema : Schema :=
  [("address", mkRule [Tstr] true None None);
   ("before", mkRule [Tstr] false None None);
   ("until", mkRule [Tstr] false None None);
   ("commitment", mkRule [Tstr] false None None);
   ("source", mkRule [Tstr] false None None);
   ("type", mkRule [Tstr] false None None)].

Definition SolanaHeliusGetParsedTransactionHistoryTool_arun (input : string) : TryExcept value :=
  Try (
    data <- json_loads input ;;
    data <- validate_input data SolanaHeliusGetParsedTransactionHistoryTool_schema ;;
    address <- getitem data "address" ;;
    before <- get_default data "before" (VStr "") ;;
    until <- get_default data "until" (VStr "") ;;
    commitment <- get_default data "commitment" (VStr "") ;;
    source <- get_default data "source" (VStr "") ;;
    type <- get_default data "type" (VStr "") ;;
    result <- await (solana_kit "get_parsed_transaction_history" [ret address; ret before;
        ret until; ret commitment; ret source; ret type] []) ;;
    ret (VDict [("status", VStr "success"); ("data", result)])
  ) (fun e =>
    ret (VDict [("status", VStr "error"); ("message", VStr (exc_msg e))])).

Definition SolanaHeliusGetParsedTransactionHistoryTool_run (input : string) : M value :=
  raise (NotImplementedError
    "This tool only supports async execution via _arun. Please use the async interface.").

(** [class SolanaHeliusCreateWebhookTool], line 1534 *)
Definition SolanaHeliusCreateWebhookTool_schema : Schema :=
  [("webhook_url", mkRule [Tstr] true None None);
   ("transaction_types", mkRule [Tlist] true None None);
   ("account_addresses", mkRule [Tlist] true None None);
   ("webhook_type", mkRule [Tstr] true None None);
   ("auth_header", mkRule [Tstr] false None None)].

Definition SolanaHeliusCreateWebhookTool_arun (input : string) : TryExcept value :=
  Try (
    data <- json_loads input ;;
    data <- validate_input data SolanaHeliusCreateWebhookTool_schema ;;
    webhook_url <- getitem data "webhook_url" ;;
    transaction_types <- getitem data "transaction_types" ;;
    account_addresses <- getitem data "account_addresses" ;;
    webhook_type <- getitem data "webhook_type" ;;
    txn_status <- get_default data "txn_status" (VStr "all") ;;
    auth_header <- get_default data "auth_header" VNone ;;
    result <- await (solana_kit "create_webhook" [ret webhook_url; ret transaction_types;
        ret account_addresses; ret webhook_type; ret txn_status; ret auth_header] []) ;;
    ret (VDict [("status", VStr "success"); ("data", result)])
  ) (fun e =>
    ret (VDict [("status", VStr "error"); ("message", VStr (exc_msg e))])).

Definition SolanaHeliusCreateWebhookTool_run (input : string) : M value :=
  raise (NotImplementedError
    "This tool only supports async execution via _arun. Please use the async interface.").

(** [class SolanaHeliusGetAllWebhooksTool], line 1595 *)
Definition SolanaHeliusGetAllWebhooksTool_arun : TryExcept value :=
  Try (
    result <- await (solana_kit "get_all_webhooks" [] []) ;;
    ret (VDict [("status", VStr "success"); ("data", result)])
  ) (fun e =>
    ret (VDict [("status", VStr "error"); ("message", VStr (exc_msg e))])).

Definition SolanaHeliusGetAllWebhooksTool_run (input : string) : M value :=
  raise (NotImplementedError
    "This tool only supports async execution via _arun. Please use the async interface.").

(** [class SolanaHeliusGetWebhookTool], line 1629 *)
Definition SolanaHeliusGetWebhookTool_schema : Schema :=
  [("webhook_id", mkRule [Tstr] true None None)].

Definition SolanaHeliusGetWebhookTool_arun (input : string) : TryExcept value :=
  Try (
    data <- json_loads input ;;
    data <- validate_input data SolanaHeliusGetWebhookTool_schema ;;
    webhook_id <- getitem data "webhook_id" ;;
    result <- await (solana_kit "get_webhook" [ret webhook_id] []) ;;
    ret (VDict [("status", VStr "success"); ("data", result)])
  ) (fun e =>
    ret (VDict [("status", VStr "error"); ("message", VStr (exc_msg e))])).

Definition SolanaHeliusGetWebhookTool_run : M value :=
  raise (NotImplementedError
    "This tool only supports async execution via _arun. Please use the async interface.").

(** [class SolanaHeliusEditWebhookTool], line 1671 *)
Definition SolanaHeliusEditWebhookTool_schema : Schema :=
  [("webhook_id", mkRule [Tstr] true None None);
   ("webhook_url", mkRule [Tstr] true None None);
   ("transaction_types", mkRule [Tlist] true None None);
   ("account_addresses", mkRule [Tlist] true None None);
   ("webhook_type", mkRule [Tstr] true None None)].

Definition SolanaHeliusEditWebhookTool_arun (input : string) : TryExcept value :=
  Try (
    data <- json_loads input ;;
    data <- validate_input data SolanaHeliusEditWebhookTool_schema ;;
    webhook_id <- getitem data "webhook_id" ;;
    webhook_url <- getitem data "webhook_url" ;;
    transaction_types <- getitem data "transaction_types" ;;
    account_addresses <- getitem data "account_addresses" ;;
    webhook_type <- getitem data "webhook_type" ;;
    txn_status <- get_default data "txn_status" (VStr "all") ;;
    auth_header <- get_default data "auth_header" VNone ;;
    result <- await (solana_kit "edit_webhook" [ret webhook_id; ret webhook_url;
        ret transaction_types; ret account_addresses; ret webhook_type; ret txn_status;
        ret auth_header] []) ;;
    ret (VDict [("status", VStr "success"); ("data", result)])
  ) (fun e =>
    ret (VDict [("status", VStr "error"); ("message", VStr (exc_msg e))])).

Definition SolanaHeliusEditWebhookTool_run : M value :=
  raise (NotImplementedError
    "This tool only supports async execution via _arun. Please use the async interface.").

(** [class SolanaHeliusDeleteWebhookTool], line 1734 *)
Definition SolanaHeliusDeleteWebhookTool_schema : Schema :=
  [("webhook_id", mkRule [Tstr] true None None)].

Definition SolanaHeliusDeleteWebhookTool_arun (input : string) : TryExcept value :=
  Try (
    data <- json_loads input ;;
    data <- validate_input data SolanaHeliusDeleteWebhookTool_schema ;;
    webhook_id <- getitem data "webhook_id" ;;
    result <- await (solana_kit "delete_webhook" [ret webhook_id] []) ;;
    ret (VDict [("status", VStr "success"); ("data", result)])
  ) (fun e =>
    ret (VDict [("status", VStr "error"); ("message", VStr (exc_msg e))])).

Definition SolanaHeliusDeleteWebhookTool_run : M value :=
  raise (NotImplementedError
    "This tool only supports async execution via _arun. Please use the async interface.").

(** [class SolanaFetchTokenReportSummaryTool], line 1777 *)
Definition SolanaFetchTokenReportSummaryTool_schema : Schema :=
  [("mint", mkRule [Tstr] true None None)].

Definition SolanaFetchTokenReportSummaryTool_arun (input : string) : TryExcept value :=
  Try (
    data <- json_loads input ;;
    data <- validate_input data SolanaFetchTokenReportSummaryTool_schema ;;
    mint <- getitem data "mint" ;;
    result <- solana_kit "fetch_token_report_summary" [ret mint] [] ;;
    x1 <- dict_method result ;;
    ret (VDict [("status", VStr "success"); ("data", x1)])
  ) (fun e =>
    ret (VDict [("status", VStr "error"); ("message", VStr (exc_msg e))])).

Definition SolanaFetchTokenReportSummaryTool_run : M value :=
  raise (NotImplementedError
    "This tool only supports async execution via _arun. Please use the async interface.").

(** [class SolanaFetchTokenDetailedReportTool], line 1827 *)
Definition SolanaFetchTokenDetailedReportTool_schema : Schema :=
  [("mint", mkRule [Tstr] true None None)].

Definition SolanaFetchTokenDetailedReportTool_arun (input : string) : TryExcept value :=
  Try (
    data <- json_loads input ;;
    data <- validate_input data SolanaFetchTokenDetailedReportTool_schema ;;
    mint <- getitem data "mint" ;;
    result <- solana_kit "fetch_token_detailed_report" [ret mint] [] ;;
    x1 <- dict_method result ;;
    ret (VDict [("status", VStr "success"); ("data", x1)])
  ) (fun e =>
    ret (VDict [("status", VStr "error"); ("message", VStr (exc_msg e))])).

Definition SolanaFetchTokenDetailedReportTool_run : M value :=
  raise (NotImplementedError
    "This tool only supports async execution via _arun. Please use the async interface.").

(** [class SolanaGetPumpCurveStateTool], line 1877 *)
Definition SolanaGetPumpCurveStateTool_schema : Schema :=
  [("conn", mkRule [Tstr] true None None);
   ("curve_address", mkRule [Tstr] true None None)].

Definition SolanaGetPumpCurveStateTool_arun (input : string) : TryExcept value :=
  Try (
    data <- json_loads input ;;
    data <- validate_input data SolanaGetPumpCurveStateTool_schema ;;
    conn <- getitem data "conn" ;;
    curve_address <- getitem data "curve_address" ;;
    curve_address_key <- Pubkey curve_address ;;
    result <- await (solana_kit "get_pump_curve_state" [ret conn; ret curve_address_key] []) ;;
    x1 <- dict_method result ;;
    ret (VDict [("status", VStr "success"); ("data", x1)])
  ) (fun e =>
    ret (VDict [("status", VStr "error"); ("message", VStr (exc_msg e))])).

Definition SolanaGetPumpCurveStateTool_run : M value :=
  raise (NotImplementedError
    "This tool only supports async execution.").

(** [class SolanaCalculatePumpCurvePriceTool], line 1923 *)
Definition SolanaCalculatePumpCurvePriceTool_schema : Schema :=
  [("curve_state", mkRule [Tstr] true None None)].

Definition SolanaCalculatePumpCurvePriceTool_arun (input : string) : TryExcept value :=
  Try (
    data <- json_loads input ;;
    data <- validate_input data SolanaCalculatePumpCurvePriceTool_schema ;;
    curve_state <- getitem data "curve_state" ;;
    result <- await (solana_kit "calculate_pump_curve_price" [ret curve_state] []) ;;
    ret (VDict [("status", VStr "success"); ("price", result)])
  ) (fun e =>
    ret (VDict [("status", VStr "error"); ("message", VStr (exc_msg e))])).

Definition SolanaCalculatePumpCurvePriceTool_run : M value :=
  raise (NotImplementedError
    "This tool only supports async execution.").

(** [class SolanaBuyTokenTool], line 1965 *)
Definition SolanaBuyTokenTool_schema : Schema :=
  [("mint", mkRule [Tstr] true None None);
   ("bonding_curve", mkRule [Tstr] true None None);
   ("associated_bonding_curve", mkRule [Tstr] true None None);
   ("amount", mkRule [Tint] true (Some 1) None);
   ("slippage", mkRule [Tfloat] false (Some 0) (Some 100));
   ("max_retries", mkRule [Tint] false (Some 1) None)].

Definition SolanaBuyTokenTool_arun (input : string) : TryExcept value :=
  Try (
    data <- json_loads input ;;
    data <- validate_input data SolanaBuyTokenTool_schema ;;
    x1 <- getitem data "mint" ;;
    mint <- Pubkey x1 ;;
    x2 <- getitem data "bonding_curve" ;;
    bonding_curve <- Pubkey x2 ;;
    x3 <- getitem data "associated_bonding_curve" ;;
    associated_bonding_curve <- Pubkey x3 ;;
    amount <- getitem data "amount" ;;
    slippage <- get_default data "slippage" (VFloat (1 # 2)%Q) ;;
    max_retries <- get_default data "max_retries" (VInt 3) ;;
    result <- await (solana_kit "buy_token" [ret mint; ret bonding_curve;
        ret associated_bonding_curve; ret amount; ret slippage; ret max_retries] []) ;;
    x4 <- dict_method result ;;
    ret (VDict [("status", VStr "success"); ("transaction", x4)])
  ) (fun e =>
    ret (VDict [("status", VStr "error"); ("message", VStr (exc_msg e))])).

Definition SolanaBuyTokenTool_run : M value :=
  raise (NotImplementedError
    "This tool only supports async execution.").

(** [class SolanaSellTokenTool], line 2024 *)
Definition SolanaSellTokenTool_schema : Schema :=
  [("mint", mkRule [Tstr] true None None);
   ("bonding_curve", mkRule [Tstr] true None None);
   ("associated_bonding_curve", mkRule [Tstr] true None None);
   ("amount", mkRule [Tint] true (Some 1) None);
   ("slippage", mkRule [Tfloat] false (Some 0) (Some 100));
   ("max_retries", mkRule [Tint] false (Some 1) None)].

Definition SolanaSellTokenTool_arun (input : string) : TryExcept value :=
  Try (
    data <- json_loads input ;;
    data <- validate_input data SolanaSellTokenTool_schema ;;
    x1 <- getitem data "mint" ;;
    mint <- Pubkey x1 ;;
    x2 <- getitem data "bonding_curve" ;;
    bonding_curve <- Pubkey x2 ;;
    x3 <- getitem data "associated_bonding_curve" ;;
    associated_bonding_curve <- Pubkey x3 ;;
    amount <- getitem data "amount" ;;
    slippage <- get_default data "slippage" (VFloat (1 # 2)%Q) ;;
    max_retries <- get_default data "max_retries" (VInt 3) ;;
    result <- await (solana_kit "sell_token" [ret mint; ret bonding_curve;
        ret associated_bonding_curve; ret amount; ret slippage; ret max_retries] []) ;;
    x4 <- dict_method result ;;
    ret (VDict [("status", VStr "success"); ("transaction", x4)])
  ) (fun e =>
    ret (VDict [("status", VStr "error"); ("message", VStr (exc_msg e))])).

Definition SolanaSellTokenTool_run : M value :=
  raise (NotImplementedError
    "This tool only supports async execution.").

(** [class SolanaSNSResolveTool], line 2083 *)
Definition SolanaSNSResolveTool_schema : Schema :=
  [("domain", mkRule [Tstr] true None None)].

Definition SolanaSNSResolveTool_arun (input : string) : TryExcept value :=
  Try (
    data <- json_loads input ;;
    data <- validate_input data SolanaSNSResolveTool_schema ;;
    domain <- getitem data "domain" ;;
    (if negb (truthy domain) then raise (ValueError "Domain is required.") else ret tt) ;;;
    address <- await (solana_kit "resolve_name_to_address" [ret domain] []) ;;
    x1 <- py_or (ret address) (ret (VStr "Not Found")) ;;
    ret (VDict [("address", x1); ("message", if truthy address then VStr "Success"
        else VStr "Domain not found.")])
  ) (fun e =>
    ret (VDict [("address", VNone); ("message", VStr ("Error resolving domain: " ++ exc_msg e))])).

Definition SolanaSNSResolveTool_run : M value :=
  raise (NotImplementedError
    "This tool only supports async execution via _arun. Please use the async interface.").

(** [class SolanaSNSRegisterDomainTool], line 2129 *)
Definition SolanaSNSRegisterDomainTool_schema : Schema :=
  [("domain", mkRule [Tstr] true None None);
   ("buyer", mkRule [Tstr] true None None);
   ("buyer_token_account", mkRule [Tstr] true None None);
   ("space", mkRule [Tint] true (Some 1) None);
   ("mint", mkRule [Tstr] false None None);
   ("referrer_key", mkRule [Tstr] false None None)].

Definition SolanaSNSRegisterDomainTool_arun (input : string) : TryExcept value :=
  Try (
    data <- json_loads input ;;
    data <- validate_input data SolanaSNSRegisterDomainTool_schema ;;
    domain <- getitem data "domain" ;;
    buyer <- getitem data "buyer" ;;
    buyer_token_account <- getitem data "buyer_token_account" ;;
    space <- getitem data "space" ;;
    mint <- get data "mint" ;;
    referrer_key <- get data "referrer_key" ;;
    transaction <- await (solana_kit "get_registration_transaction" [ret domain; ret buyer;
        ret buyer_token_account; ret space; ret mint; ret referrer_key] []) ;;
    ret (VDict [("transaction", transaction); ("message", VStr "Success")])
  ) (fun e =>
    ret (VDict [("transaction", VNone);
        ("message", VStr ("Error preparing registration transaction: " ++ exc_msg e))])).

Definition SolanaSNSRegisterDomainTool_run : M value :=
  raise (NotImplementedError
    "This tool only supports async execution via _arun. Please use the async interface.").

(** [class SolanaSNSGetFavouriteDomainTool], line 2190 *)
Definition SolanaSNSGetFavouriteDomainTool_schema : Schema :=
  [("owner", mkRule [Tstr] true None None)].

Definition SolanaSNSGetFavouriteDomainTool_arun (input : string) : TryExcept value :=
  Try (
    data <- json_loads input ;;
    data <- validate_input data SolanaSNSGetFavouriteDomainTool_schema ;;
    owner <- getitem data "owner" ;;
    (if negb (truthy owner) then raise (ValueError "Owner address is required.") else ret tt) ;;;
    domain <- await (solana_kit "get_favourite_domain" [ret owner] []) ;;
    x1 <- py_or (ret domain) (ret (VStr "Not Found")) ;;
    ret (VDict [("domain", x1); ("message", if truthy domain then VStr "Success"
        else VStr "No favorite domain found for this owner.")])
  ) (fun e =>
    ret (VDict [("domain", VNone);
        ("message", VStr ("Error fetching favorite domain: " ++ exc_msg e))])).

Definition SolanaSNSGetFavouriteDomainTool_run : M value :=
  raise (NotImplementedError
    "This tool only supports async execution via _arun. Please use the async interface.").

(** [class SolanaSNSGetAllDomainsTool], line 2236 *)
Definition SolanaSNSGetAllDomainsTool_schema : Schema :=
  [("owner", mkRule [Tstr] true None None)].

Definition SolanaSNSGetAllDomainsTool_arun (input : string) : TryExcept value :=
  Try (
    data <- json_loads input ;;
    data <- validate_input data SolanaSNSGetAllDomainsTool_schema ;;
    owner <- getitem data "owner" ;;
    domains <- await (solana_kit "get_all_domains_for_owner" [ret owner] []) ;;
    x1 <- py_or (ret domains) (ret (VList [])) ;;
    ret (VDict [("domains", x1); ("message", if truthy domains then VStr "Success"
        else VStr "No domains found for this owner.")])
  ) (fun e =>
    ret (VDict [("domains", VList []);
        ("message", VStr ("Error fetching domains: " ++ exc_msg e))])).

Definition SolanaSNSGetAllDomainsTool_run : M value :=
  raise (NotImplementedError
    "This tool only supports async execution via _arun. Please use the async interface.").

(** [class SolanaDeployCollectionTool], line 2280 *)
Definition SolanaDeployCollectionTool_schema : Schema :=
  [("name", mkRule [Tstr] true None None);
   ("uri", mkRule [Tstr] true None None);
   ("royalty_basis_points", mkRule [Tint] true (Some 0) (Some 10000));
   ("creator_address", mkRule [Tstr] true None None)].

Definition SolanaDeployCollectionTool_arun (input : string) : TryExcept value :=
  Try (
    data <- json_loads input ;;
    data <- validate_input data SolanaDeployCollectionTool_schema ;;
    name <- getitem data "name" ;;
    uri <- getitem data "uri" ;;
    royalty_basis_points <- getitem data "royalty_basis_points" ;;
    creator_address <- getitem data "creator_address" ;;
    result <- await (solana_kit "deploy_collection" [] [KW "name" (ret name); KW "uri" (ret uri);
        KW "royalty_basis_points" (ret royalty_basis_points);
        KW "creator_address" (ret creator_address)]) ;;
    ret result
  ) (fun e =>
    ret (VDict [("success", VBool false);
        ("message", VStr ("Error deploying collection: " ++ exc_msg e))])).

Definition SolanaDeployCollectionTool_run (input : string) : M value :=
  raise (NotImplementedError
    "This tool only supports async execution via _arun. Please use the async interface.").

(** [class SolanaGetMetaplexAssetTool], line 2331 *)
Definition SolanaGetMetaplexAssetTool_schema : Schema :=
  [("asset_id", mkRule [Tstr] true None None)].

Definition SolanaGetMetaplexAssetTool_arun (input : string) : TryExcept value :=
  Try (
    data <- json_loads input ;;
    data <- validate_input data SolanaGetMetaplexAssetTool_schema ;;
    asset_id <- getitem data "asset_id" ;;
    result <- await (solana_kit "get_metaplex_asset" [ret asset_id] []) ;;
    ret result
  ) (fun e =>
    ret (VDict [("success", VBool false);
        ("message", VStr ("Error fetching Metaplex asset: " ++ exc_msg e))])).

Definition SolanaGetMetaplexAssetTool_run (input : string) : M value :=
  raise (NotImplementedError
    "This tool only supports async execution via _arun. Please use the async interface.").

(** [class SolanaGetMetaplexAssetsByCreatorTool], line 2368 *)
Definition SolanaGetMetaplexAssetsByCreatorTool_schema : Schema :=
  [("creator", mkRule [Tstr] true None None);
   ("only_verified", mkRule [Tbool] false None None);
   ("sort_by", mkRule [Tstr] false None None);
   ("sort_direction", mkRule [Tstr] false None None);
   ("limit", mkRule [Tint] false (Some 1) None);
   ("page", mkRule [Tint] false (Some 1) None)].

Definition SolanaGetMetaplexAssetsByCreatorTool_arun (input : string) : TryExcept value :=
  Try (
    data <- json_loads input ;;
    data <- validate_input data SolanaGetMetaplexAssetsByCreatorTool_schema ;;
    creator <- getitem data "creator" ;;
    only_verified <- get_default data "only_verified" (VBool false) ;;
    sort_by <- get data "sort_by" ;;
    sort_direction <- get data "sort_direction" ;;
    limit <- get data "limit" ;;
    page <- get data "page" ;;
    result <- await (solana_kit "get_metaplex_assets_by_creator" [] [KW "creator" (ret creator);
        KW "onlyVerified" (ret only_verified); KW "sortBy" (ret sort_by);
        KW "sortDirection" (ret sort_direction); KW "limit" (ret limit); KW "page" (ret page)]) ;;
    ret result
  ) (fun e =>
    ret (VDict [("success", VBool false);
        ("message", VStr ("Error fetching assets by creator: " ++ exc_msg e))])).

Definition SolanaGetMetaplexAssetsByCreatorTool_run (input : string) : M value :=
  raise (NotImplementedError
    "This tool only supports async execution via _arun. Please use the async interface.").

(** [class SolanaGetMetaplexAssetsByAuthorityTool], line 2427 *)
Definition SolanaGetMetaplexAssetsByAuthorityTool_schema : Schema :=
  [("authority", mkRule [Tstr] true None None);
   ("sort_by", mkRule [Tstr] false None None);
   ("sort_direction", mkRule [Tstr] false None None);
   ("limit", mkRule [Tint] false (Some 1) None);
   ("page", mkRule [Tint] false (Some 1) None)].

Definition SolanaGetMetaplexAssetsByAuthorityTool_arun (input : string) : TryExcept value :=
  Try (
    data <- json_loads input ;;
    data <- validate_input data SolanaGetMetaplexAssetsByAuthorityTool_schema ;;
    authority <- getitem data "authority" ;;
    sort_by <- get data "sort_by" ;;
    sort_direction <- get data "sort_direction" ;;
    limit <- get data "limit" ;;
    page <- get data "page" ;;
    result <- await (solana_kit "get_metaplex_assets_by_authority" [] [KW "authority" (ret authority);
        KW "sortBy" (ret sort_by); KW "sortDirection" (ret sort_direction);
        KW "limit" (ret limit); KW "page" (ret page)]) ;;
    ret result
  ) (fun e =>
    ret (VDict [("success", VBool false);
        ("message", VStr ("Error fetching assets by authority: " ++ exc_msg e))])).

Definition SolanaGetMetaplexAssetsByAuthorityTool_run (input : string) : M value :=
  raise (NotImplementedError
    "This tool only supports async execution via _arun. Please use the async interface.").

(** [class SolanaMintMetaplexCoreNFTTool], line 2482 *)
Definition SolanaMintMetaplexCoreNFTTool_schema : Schema :=
  [("collection_mint", mkRule [Tstr] true None None);
   ("name", mkRule [Tstr] true None None);
   ("uri", mkRule [Tstr] true None None);
   ("seller_fee_basis_points", mkRule [Tint] true (Some 0) (Some 10000));
   ("address", mkRule [Tstr] true None None);
   ("share", mkRule [Tstr] true None None);
   ("recipient", mkRule [Tstr] true None None)].

Definition SolanaMintMetaplexCoreNFTTool_arun (input : string) : TryExcept value :=
  Try (
    data <- json_loads input ;;
    data <- validate_input data SolanaMintMetaplexCoreNFTTool_schema ;;
    collection_mint <- getitem data "collection_mint" ;;
    name <- getitem data "name" ;;
    uri <- getitem data "uri" ;;
    seller_fee_basis_points <- getitem data "seller_fee_basis_points" ;;
    address <- getitem data "address" ;;
    share <- getitem data "share" ;;
    recipient <- getitem data "recipient" ;;
    result <- await (solana_kit "mint_metaplex_core_nft" [] [KW "collectionMint" (ret collection_mint);
        KW "name" (ret name); KW "uri" (ret uri);
        KW "sellerFeeBasisPoints" (ret seller_fee_basis_points); KW "address" (ret address);
        KW "share" (ret share); KW "recipient" (ret recipient)]) ;;
    ret result
  ) (fun e =>
    ret (VDict [("success", VBool false); ("message", VStr ("Error minting NFT: " ++ exc_msg e))])).

Definition SolanaMintMetaplexCoreNFTTool_run (input : string) : M value :=
  raise (NotImplementedError
    "This tool only supports async execution via _arun. Please use the async interface.").

(** [class SolanaDeBridgeCreateTransactionTool], line 2545 *)
Definition SolanaDeBridgeCreateTransactionTool_schema : Schema :=
  [("src_chain_id", mkRule [Tstr] true None None);
   ("src_chain_token_in", mkRule [Tstr] true None None);
   ("src_chain_token_in_amount", mkRule [Tstr] true None None);
   ("dst_chain_id", mkRule [Tstr] true None None);
   ("dst_chain_token_out", mkRule [Tstr] true None None);
   ("dst_chain_token_out_recipient", mkRule [Tstr] true None None);
   ("src_chain_order_authority_address", mkRule [Tstr] true None None);
   ("dst_chain_order_authority_address", mkRule [Tstr] true None None);
   ("affiliate_fee_percent", mkRule [Tstr] false None None);
   ("affiliate_fee_recipient", mkRule [Tstr] false None None);
   ("prepend_operating_expenses", mkRule [Tbool] false None None);
   ("dst_chain_token_out_amount", mkRule [Tstr] false None None)].

Definition SolanaDeBridgeCreateTransactionTool_arun (input : string) : TryExcept value :=
  Try (
    data <- json_loads input ;;
    data <- validate_input data SolanaDeBridgeCreateTransactionTool_schema ;;
    transaction_data <- await (solana_kit "create_debridge_transaction" [] [KW "src_chain_id" (getitem data "src_chain_id");
        KW "src_chain_token_in" (getitem data "src_chain_token_in");
        KW "src_chain_token_in_amount" (getitem data "src_chain_token_in_amount");
        KW "dst_chain_id" (getitem data "dst_chain_id");
        KW "dst_chain_token_out" (getitem data "dst_chain_token_out");
        KW "dst_chain_token_out_recipient" (getitem data "dst_chain_token_out_recipient");
        KW "src_chain_order_authority_address" (getitem data "src_chain_order_authority_address");
        KW "dst_chain_order_authority_address" (getitem data "dst_chain_order_authority_address");
        KW "affiliate_fee_percent" (get_default data "affiliate_fee_percent" (VStr "0"));
        KW "affiliate_fee_recipient" (get_default data "affiliate_fee_recipient" (VStr ""));
        KW "prepend_operating_expenses" (get_default data "prepend_operating_expenses" (VBool true));
        KW "dst_chain_token_out_amount" (get_default data "dst_chain_token_out_amount" (VStr "auto"))]) ;;
    ret (VDict [("transaction_data", transaction_data); ("message", VStr "Success")])
  ) (fun e =>
    ret (VDict [("transaction_data", VNone);
        ("message", VStr ("Error creating DeBridge transaction: " ++ exc_msg e))])).

Definition SolanaDeBridgeCreateTransactionTool_run (input : string) : M value :=
  raise (NotImplementedError
    "This tool only supports async execution via _arun. Please use the async interface.").

(** [class SolanaDeBridgeExecuteTransactionTool], line 2622 *)
Definition SolanaDeBridgeExecuteTransactionTool_schema : Schema :=
  [("transaction_data", mkRule [Tdict] true None None)].

Definition SolanaDeBridgeExecuteTransactionTool_arun (input : string) : TryExcept value :=
  Try (
    data <- json_loads input ;;
    data <- validate_input data SolanaDeBridgeExecuteTransactionTool_schema ;;
    transaction_data <- getitem data "transaction_data" ;;
    result <- await (solana_kit "execute_debridge_transaction" [ret transaction_data] []) ;;
    ret (VDict [("result", result); ("message", VStr "Success")])
  ) (fun e =>
    ret (VDict [("result", VNone);
        ("message", VStr ("Error executing DeBridge transaction: " ++ exc_msg e))])).

Definition SolanaDeBridgeExecuteTransactionTool_run (input : string) : M value :=
  raise (NotImplementedError
    "This tool only supports async execution via _arun. Please use the async interface.").

(** [class SolanaDeBridgeCheckTransactionStatusTool], line 2666 *)
Definition SolanaDeBridgeCheckTransactionStatusTool_schema : Schema :=
  [("tx_hash", mkRule [Tstr] true None None)].

Definition SolanaDeBridgeCheckTransactionStatusTool_arun (input : string) : TryExcept value :=
  Try (
    data <- json_loads input ;;
    data <- validate_input data SolanaDeBridgeCheckTransactionStatusTool_schema ;;
    tx_hash <- getitem data "tx_hash" ;;
    status <- await (solana_kit "check_transaction_status" [ret tx_hash] []) ;;
    ret (VDict [("status", status); ("message", VStr "Success")])
  ) (fun e =>
    ret (VDict [("status", VNone);
        ("message", VStr ("Error checking transaction status: " ++ exc_msg e))])).

Definition SolanaDeBridgeCheckTransactionStatusTool_run (input : string) : M value :=
  raise (NotImplementedError
    "This tool only supports async execution via _arun. Please use the async interface.").

(** [class SolanaCybersCreateCoinTool], line 2710 *)
Definition SolanaCybersCreateCoinTool_schema : Schema :=
  [("name", mkRule [Tstr] true None None);
   ("symbol", mkRule [Tstr] true None None);
   ("image_path", mkRule [Tstr] true None None);
   ("tweet_author_id", mkRule [Tstr] true None None);
   ("tweet_author_username", mkRule [Tstr] true None None)].

Definition SolanaCybersCreateCoinTool_arun (input : string) : TryExcept value :=
  Try (
    data <- json_loads input ;;
    data <- validate_input data SolanaCybersCreateCoinTool_schema ;;
    name <- getitem data "name" ;;
    symbol <- getitem data "symbol" ;;
    image_path <- getitem data "image_path" ;;
    tweet_author_id <- getitem data "tweet_author_id" ;;
    tweet_author_username <- getitem data "tweet_author_username" ;;
    coin_id <- await (solana_kit "cybers_create_coin" [] [KW "name" (ret name);
        KW "symbol" (ret symbol); KW "image_path" (ret image_path);
        KW "tweet_author_id" (ret tweet_author_id);
        KW "tweet_author_username" (ret tweet_author_username)]) ;;
    ret (VDict [("coin_id", coin_id); ("message", VStr "Success")])
  ) (fun e =>
    ret (VDict [("coin_id", VNone); ("message", VStr ("Error creating coin: " ++ exc_msg e))])).

Definition SolanaCybersCreateCoinTool_run (input : string) : M value :=
  raise (NotImplementedError
    "This tool only supports async execution via _arun. Please use the async interface.").

(** [class SolanaGetTipAccounts], line 2772 *)
Definition SolanaGetTipAccounts_arun : TryExcept value :=
  Try (
    result <- await (solana_kit "get_tip_accounts" [] []) ;;
    ret (VDict [("accounts", result)])
  ) (fun e =>
    ret (VDict [("accounts", VNone)])).

Definition SolanaGetTipAccounts_run (input : string) : M value :=
  raise (NotImplementedError
    "This tool only supports async execution via _arun. Please use the async interface.").

(** [class SolanaGetRandomTipAccount], line 2800 *)
Definition SolanaGetRandomTipAccount_arun : TryExcept value :=
  Try (
    result <- await (solana_kit "get_random_tip_account" [] []) ;;
    ret (VDict [("account", result)])
  ) (fun e =>
    ret (VDict [("account", VNone)])).

Definition SolanaGetRandomTipAccount_run : M value :=
  raise (NotImplementedError
    "This tool only supports async execution via _arun. Please use the async interface.").

(** [class SolanaGetBundleStatuses], line 2828 *)
Definition SolanaGetBundleStatuses_schema : Schema :=
  [("bundle_uuids", mkRule [Tlist] true None None)].

Definition SolanaGetBundleStatuses_arun (input : string) : TryExcept value :=
  Try (
    data <- json_loads input ;;
    data <- validate_input data SolanaGetBundleStatuses_schema ;;
    bundle_uuids <- getitem data "bundle_uuids" ;;
    result <- await (solana_kit "get_bundle_statuses" [ret bundle_uuids] []) ;;
    ret (VDict [("statuses", result)])
  ) (fun e =>
    ret (VDict [("statuses", VNone)])).

Definition SolanaGetBundleStatuses_run : M value :=
  raise (NotImplementedError
    "This tool only supports async execution via _arun. Please use the async interface.").

(** [class SolanaSendBundle], line 2868 *)
Definition SolanaSendBundle_schema : Schema :=
  [("txn_signatures", mkRule [Tlist] true None None)].

Definition SolanaSendBundle_arun (input : string) : TryExcept value :=
  Try (
    data <- json_loads input ;;
    data <- validate_input data SolanaSendBundle_schema ;;
    txn_signatures <- getitem data "txn_signatures" ;;
    result <- await (solana_kit "send_bundle" [ret txn_signatures] []) ;;
    ret (VDict [("bundle_ids", result)])
  ) (fun e =>
    ret (VDict [("bundle_ids", VNone)])).

Definition SolanaSendBundle_run : M value :=
  raise (NotImplementedError
    "This tool only supports async execution via _arun. Please use the async interface.").

(** [class SolanaGetInflightBundleStatuses], line 2908 *)
Definition SolanaGetInflightBundleStatuses_schema : Schema :=
  [("bundle_uuids", mkRule [Tlist] true None None)].

Definition SolanaGetInflightBundleStatuses_arun (input : string) : TryExcept value :=
  Try (
    data <- json_loads input ;;
    data <- validate_input data SolanaGetInflightBundleStatuses_schema ;;
    bundle_uuids <- getitem data "bundle_uuids" ;;
    result <- await (solana_kit "get_inflight_bundle_statuses" [ret bundle_uuids] []) ;;
    ret (VDict [("statuses", result)])
  ) (fun e =>
    ret (VDict [("statuses", VNone)])).

Definition SolanaGetInflightBundleStatuses_run : M value :=
  raise (NotImplementedError
    "This tool only supports async execution via _arun. Please use the async interface.").

(** [class SolanaSendTxn], line 2948 *)
Definition SolanaSendTxn_schema : Schema :=
  [("txn_signature", mkRule [Tstr] true None None);
   ("bundleOnly", mkRule [Tbool] true None None)].

Definition SolanaSendTxn_arun (input : string) : TryExcept value :=
  Try (
    data <- json_loads input ;;
    data <- validate_input data SolanaSendTxn_schema ;;
    txn_signature <- getitem data "txn_signature" ;;
    bundleOnly <- getitem data "bundleOnly" ;;
    result <- await (solana_kit "send_txn" [ret txn_signature; ret bundleOnly] []) ;;
    ret (VDict [("status", result)])
  ) (fun e =>
    ret (VDict [("status", VNone)])).

Definition SolanaSendTxn_run : M value :=
  raise (NotImplementedError
    "This tool only supports async execution via _arun. Please use the async interface.").

(** [class StorkGetPriceTool], line 2992 *)
Definition StorkGetPriceTool_arun (input : string) : TryExcept value :=
  Try (
    data <- json_loads input ;;
    asset_id <- getitem data "asset_id" ;;
    result <- await (solana_kit "stork_fetch_price" [ret asset_id] []) ;;
    ret (VDict [("status", VStr "success"); ("data", result)])
  ) (fun e =>
    ret (VDict [("status", VStr "error"); ("message", VStr (exc_msg e))])).

Definition StorkGetPriceTool_run (input : string) : M value :=
  raise (NotImplementedError
    "This tool only supports async execution via _arun. Please use the async interface.").

(** [class BackpackGetAccountBalancesTool], line 3029 *)
Definition BackpackGetAccountBalancesTool_arun : TryExcept value :=
  Try (
    balances <- await (solana_kit "get_account_balances" [] []) ;;
    ret (VDict [("balances", balances); ("message", VStr "Success")])
  ) (fun e =>
    ret (VDict [("balances", VNone);
        ("message", VStr ("Error fetching account balances: " ++ exc_msg e))])).

Definition BackpackGetAccountBalancesTool_run : M value :=
  raise (NotImplementedError
    "This tool only supports async execution via _arun. Please use the async interface.").

(** [class BackpackRequestWithdrawalTool], line 3059 *)
Definition BackpackRequestWithdrawalTool_schema : Schema :=
  [("address", mkRule [Tstr] true None None);
   ("blockchain", mkRule [Tstr] true None None);
   ("quantity", mkRule [Tstr] true None None);
   ("symbol", mkRule [Tstr] true None None);
   ("additional_params", mkRule [Tdict] false None None)].

Definition BackpackRequestWithdrawalTool_arun (input : string) : TryExcept value :=
  Try (
    data <- json_loads input ;;
    data <- validate_input data BackpackRequestWithdrawalTool_schema ;;
    result <- await (solana_kit "request_withdrawal" [] [KW "address" (getitem data "address");
        KW "blockchain" (getitem data "blockchain"); KW "quantity" (getitem data "quantity");
        KW "symbol" (getitem data "symbol");
        KWStar (get_default data "additional_params" (VDict []))]) ;;
    ret (VDict [("result", result); ("message", VStr "Success")])
  ) (fun e =>
    ret (VDict [("result", VNone);
        ("message", VStr ("Error requesting withdrawal: " ++ exc_msg e))])).

Definition BackpackRequestWithdrawalTool_run (input : string) : M value :=
  raise (NotImplementedError
    "This tool only supports async execution via _arun. Please use the async interface.").

(** [class BackpackGetAccountSettingsTool], line 3112 *)
Definition BackpackGetAccountSettingsTool_arun : TryExcept value :=
  Try (
    settings <- await (solana_kit "get_account_settings" [] []) ;;
    ret (VDict [("settings", settings); ("message", VStr "Success")])
  ) (fun e =>
    ret (VDict [("settings", VNone);
        ("message", VStr ("Error fetching account settings: " ++ exc_msg e))])).

Definition BackpackGetAccountSettingsTool_run (input : string) : M value :=
  raise (NotImplementedError
    "This tool only supports async execution via _arun. Please use the async interface.").

(** [class BackpackUpdateAccountSettingsTool], line 3142 *)
Definition BackpackUpdateAccountSettingsTool_arun (input : string) : TryExcept value :=
  Try (
    data <- json_loads input ;;
    result <- await (solana_kit "update_account_settings" [] [KWStar (ret data)]) ;;
    ret (VDict [("result", result); ("message", VStr "Success")])
  ) (fun e =>
    ret (VDict [("result", VNone);
        ("message", VStr ("Error updating account settings: " ++ exc_msg e))])).

Definition BackpackUpdateAccountSettingsTool_run (input : string) : M value :=
  raise (NotImplementedError
    "This tool only supports async execution via _arun. Please use the async interface.").

(** [class BackpackGetBorrowLendPositionsTool], line 3173 *)
Definition BackpackGetBorrowLendPositionsTool_arun : TryExcept value :=
  Try (
    positions <- await (solana_kit "get_borrow_lend_positions" [] []) ;;
    ret (VDict [("positions", positions); ("message", VStr "Success")])
  ) (fun e =>
    ret (VDict [("positions", VNone);
        ("message", VStr ("Error fetching borrow/lend positions: " ++ exc_msg e))])).

Definition BackpackGetBorrowLendPositionsTool_run (input : string) : M value :=
  raise (NotImplementedError
    "This tool only supports async execution via _arun. Please use the async interface.").

(** [class BackpackExecuteBorrowLendTool], line 3203 *)
Definition BackpackExecuteBorrowLendTool_schema : Schema :=
  [("quantity", mkRule [Tstr] true None None);
   ("side", mkRule [Tstr] true None None);
   ("symbol", mkRule [Tstr] true None None)].

Definition BackpackExecuteBorrowLendTool_arun (input : string) : TryExcept value :=
  Try (
    data <- json_loads input ;;
    data <- validate_input data BackpackExecuteBorrowLendTool_schema ;;
    result <- await (solana_kit "execute_borrow_lend" [] [KW "quantity" (getitem data "quantity");
        KW "side" (getitem data "side"); KW "symbol" (getitem data "symbol")]) ;;
    ret (VDict [("result", result); ("message", VStr "Success")])
  ) (fun e =>
    ret (VDict [("result", VNone);
        ("message", VStr ("Error executing borrow/lend operation: " ++ exc_msg e))])).

Definition BackpackExecuteBorrowLendTool_run : M value :=
  raise (NotImplementedError
    "This tool only supports async execution via _arun. Please use the async interface.").

(** [class BackpackGetFillHistoryTool], line 3250 *)
Definition BackpackGetFillHistoryTool_arun (input : string) : TryExcept value :=
  Try (
    data <- json_loads input ;;
    history <- await (solana_kit "get_fill_history" [] [KWStar (ret data)]) ;;
    ret (VDict [("history", history); ("message", VStr "Success")])
  ) (fun e =>
    ret (VDict [("history", VNone);
        ("message", VStr ("Error fetching fill history: " ++ exc_msg e))])).

Definition BackpackGetFillHistoryTool_run (input : string) : M value :=
  raise (NotImplementedError
    "This tool only supports async execution via _arun. Please use the async interface.").

(** [class BackpackGetBorrowPositionHistoryTool], line 3281 *)
Definition BackpackGetBorrowPositionHistoryTool_arun (input : string) : TryExcept value :=
  Try (
    data <- json_loads input ;;
    history <- await (solana_kit "get_borrow_position_history" [] [KWStar (ret data)]) ;;
    ret (VDict [("history", history); ("message", VStr "Success")])
  ) (fun e =>
    ret (VDict [("history", VNone);
        ("message", VStr ("Error fetching borrow position history: " ++ exc_msg e))])).

Definition BackpackGetBorrowPositionHistoryTool_run (input : string) : M value :=
  raise (NotImplementedError
    "This tool only supports async execution via _arun. Please use the async interface.").

(** [class BackpackGetFundingPaymentsTool], line 3312 *)
Definition BackpackGetFundingPaymentsTool_arun (input : string) : TryExcept value :=
  Try (
    data <- json_loads input ;;
    payments <- await (solana_kit "get_funding_payments" [] [KWStar (ret data)]) ;;
    ret (VDict [("payments", payments); ("message", VStr "Success")])
  ) (fun e =>
    ret (VDict [("payments", VNone);
        ("message", VStr ("Error fetching funding payments: " ++ exc_msg e))])).

Definition BackpackGetFundingPaymentsTool_run (input : string) : M value :=
  raise (NotImplementedError
    "This tool only supports async execution via _arun. Please use the async interface.").

(** [class BackpackGetOrderHistoryTool], line 3343 *)
Definition BackpackGetOrderHistoryTool_arun (input : string) : TryExcept value :=
  Try (
    data <- json_loads input ;;
    history <- await (solana_kit "get_order_history" [] [KWStar (ret data)]) ;;
    ret (VDict [("history", history); ("message", VStr "Success")])
  ) (fun e =>
    ret (VDict [("history", VNone);
        ("message", VStr ("Error fetching order history: " ++ exc_msg e))])).

Definition BackpackGetOrderHistoryTool_run (input : string) : M value :=
  raise (NotImplementedError
    "This tool only supports async execution via _arun. Please use the async interface.").

(** [class BackpackGetPnlHistoryTool], line 3374 *)
Definition BackpackGetPnlHistoryTool_arun (input : string) : TryExcept value :=
  Try (
    data <- json_loads input ;;
    history <- await (solana_kit "get_pnl_history" [] [KWStar (ret data)]) ;;
    ret (VDict [("history", history); ("message", VStr "Success")])
  ) (fun e =>
    ret (VDict [("history", VNone);
        ("message", VStr ("Error fetching PNL history: " ++ exc_msg e))])).

Definition BackpackGetPnlHistoryTool_run (input : string) : M value :=
  raise (NotImplementedError
    "This tool only supports async execution via _arun. Please use the async interface.").

(** [class BackpackGetSettlementHistoryTool], line 3405 *)
Definition BackpackGetSettlementHistoryTool_arun (input : string) : TryExcept value :=
  Try (
    data <- json_loads input ;;
    history <- await (solana_kit "get_settlement_history" [] [KWStar (ret data)]) ;;
    ret (VDict [("history", history); ("message", VStr "Success")])
  ) (fun e =>
    ret (VDict [("history", VNone);
        ("message", VStr ("Error fetching settlement history: " ++ exc_msg e))])).

Definition BackpackGetSettlementHistoryTool_run (input : string) : M value :=
  raise (NotImplementedError
    "This tool only supports async execution via _arun. Please use the async interface.").

(** [class BackpackGetUsersOpenOrdersTool], line 3436 *)
Definition BackpackGetUsersOpenOrdersTool_arun (input : string) : TryExcept value :=
  Try (
    data <- json_loads input ;;
    open_orders <- await (solana_kit "get_users_open_orders" [] [KWStar (ret data)]) ;;
    ret (VDict [("open_orders", open_orders); ("message", VStr "Success")])
  ) (fun e =>
    ret (VDict [("open_orders", VNone);
        ("message", VStr ("Error fetching user's open orders: " ++ exc_msg e))])).

Definition BackpackGetUsersOpenOrdersTool_run (input : string) : M value :=
  raise (NotImplementedError
    "This tool only supports async execution via _arun. Please use the async interface.").

(** [class BackpackExecuteOrderTool], line 3467 *)
Definition BackpackExecuteOrderTool_arun (input : string) : TryExcept value :=
  Try (
    data <- json_loads input ;;
    result <- await (solana_kit "execute_order" [] [KWStar (ret data)]) ;;
    ret (VDict [("result", result); ("message", VStr "Success")])
  ) (fun e =>
    ret (VDict [("result", VNone); ("message", VStr ("Error executing order: " ++ exc_msg e))])).

Definition BackpackExecuteOrderTool_run (input : string) : M value :=
  raise (NotImplementedError
    "This tool only supports async execution via _arun. Please use the async interface.").

(** [class BackpackCancelOpenOrderTool], line 3498 *)
Definition BackpackCancelOpenOrderTool_arun (input : string) : TryExcept value :=
  Try (
    data <- json_loads input ;;
    result <- await (solana_kit "cancel_open_order" [] [KWStar (ret data)]) ;;
    ret (VDict [("result", result); ("message", VStr "Success")])
  ) (fun e =>
    ret (VDict [("result", VNone);
        ("message", VStr ("Error canceling open order: " ++ exc_msg e))])).

Definition BackpackCancelOpenOrderTool_run (input : string) : M value :=
  raise (NotImplementedError
    "This tool only supports async execution via _arun. Please use the async interface.").

(** [class BackpackGetOpenOrdersTool], line 3529 *)
Definition BackpackGetOpenOrdersTool_arun (input : string) : TryExcept value :=
  Try (
    data <- json_loads input ;;
    open_orders <- await (solana_kit "get_open_orders" [] [KWStar (ret data)]) ;;
    ret (VDict [("open_orders", open_orders); ("message", VStr "Success")])
  ) (fun e =>
    ret (VDict [("open_orders", VNone);
        ("message", VStr ("Error fetching open orders: " ++ exc_msg e))])).

Definition BackpackGetOpenOrdersTool_run (input : string) : M value :=
  raise (NotImplementedError
    "This tool only supports async execution via _arun. Please use the async interface.").

(** [class BackpackCancelOpenOrdersTool], line 3560 *)
Definition BackpackCancelOpenOrdersTool_arun (input : string) : TryExcept value :=
  Try (
    data <- json_loads input ;;
    result <- await (solana_kit "cancel_open_orders" [] [KWStar (ret data)]) ;;
    ret (VDict [("result", result); ("message", VStr "Success")])
  ) (fun e =>
    ret (VDict [("result", VNone);
        ("message", VStr ("Error canceling open orders: " ++ exc_msg e))])).

Definition BackpackCancelOpenOrdersTool_run (input : string) : M value :=
  raise (NotImplementedError
    "This tool only supports async execution via _arun. Please use the async interface.").

(** [class BackpackGetSupportedAssetsTool], line 3591 *)
Definition BackpackGetSupportedAssetsTool_arun : TryExcept value :=
  Try (
    assets <- await (solana_kit "get_supported_assets" [] []) ;;
    ret (VDict [("assets", assets); ("message", VStr "Success")])
  ) (fun e =>
    ret (VDict [("assets", VNone);
        ("message", VStr ("Error fetching supported assets: " ++ exc_msg e))])).

Definition BackpackGetSupportedAssetsTool_run (input : string) : M value :=
  raise (NotImplementedError
    "This tool only supports async execution via _arun. Please use the async interface.").

(** [class BackpackGetTickerInformationTool], line 3621 *)
Definition BackpackGetTickerInformationTool_arun (input : string) : TryExcept value :=
  Try (
    data <- json_loads input ;;
    ticker_info <- await (solana_kit "get_ticker_information" [] [KWStar (ret data)]) ;;
    ret (VDict [("ticker_information", ticker_info); ("message", VStr "Success")])
  ) (fun e =>
    ret (VDict [("ticker_information", VNone);
        ("message", VStr ("Error fetching ticker information: " ++ exc_msg e))])).

Definition BackpackGetTickerInformationTool_run (input : string) : M value :=
  raise (NotImplementedError
    "This tool only supports async execution via _arun. Please use the async interface.").

(** [class BackpackGetMarketsTool], line 3652 *)
Definition BackpackGetMarketsTool_arun : TryExcept value :=
  Try (
    markets <- await (solana_kit "get_markets" [] []) ;;
    ret (VDict [("markets", markets); ("message", VStr "Success")])
  ) (fun e =>
    ret (VDict [("markets", VNone); ("message", VStr ("Error fetching markets: " ++ exc_msg e))])).

Definition BackpackGetMarketsTool_run (input : string) : M value :=
  raise (NotImplementedError
    "This tool only supports async execution via _arun. Please use the async interface.").

(** [class BackpackGetMarketTool], line 3682 *)
Definition BackpackGetMarketTool_arun (input : string) : TryExcept value :=
  Try (
    data <- json_loads input ;;
    market <- await (solana_kit "get_market" [] [KWStar (ret data)]) ;;
    ret (VDict [("market", market); ("message", VStr "Success")])
  ) (fun e =>
    ret (VDict [("market", VNone); ("message", VStr ("Error fetching market: " ++ exc_msg e))])).

Definition BackpackGetMarketTool_run (input : string) : M value :=
  raise (NotImplementedError
    "This tool only supports async execution via _arun. Please use the async interface.").

(** [class BackpackGetTickersTool], line 3713 *)
Definition BackpackGetTickersTool_arun : TryExcept value :=
  Try (
    tickers <- await (solana_kit "get_tickers" [] []) ;;
    ret (VDict [("tickers", tickers); ("message", VStr "Success")])
  ) (fun e =>
    ret (VDict [("tickers", VNone); ("message", VStr ("Error fetching tickers: " ++ exc_msg e))])).

Definition BackpackGetTickersTool_run : M value :=
  raise (NotImplementedError
    "This tool only supports async execution via _arun. Please use the async interface.").

(** [class BackpackGetDepthTool], line 3743 *)
Definition BackpackGetDepthTool_schema : Schema :=
  [("symbol", mkRule [Tstr] true None None)].

Definition BackpackGetDepthTool_arun (input : string) : TryExcept value :=
  Try (
    data <- json_loads input ;;
    data <- validate_input data BackpackGetDepthTool_schema ;;
    symbol <- getitem data "symbol" ;;
    depth <- await (solana_kit "get_depth" [ret symbol] []) ;;
    ret (VDict [("depth", depth); ("message", VStr "Success")])
  ) (fun e =>
    ret (VDict [("depth", VNone); ("message", VStr ("Error fetching depth: " ++ exc_msg e))])).

Definition BackpackGetDepthTool_run : M value :=
  raise (NotImplementedError
    "This tool only supports async execution via _arun. Please use the async interface.").

(** [class BackpackGetKlinesTool], line 3783 *)
Definition BackpackGetKlinesTool_schema : Schema :=
  [("symbol", mkRule [Tstr] true None None);
   ("interval", mkRule [Tstr] true None None);
   ("start_time", mkRule [Tint] true None None)].

Definition BackpackGetKlinesTool_arun (input : string) : TryExcept value :=
  Try (
    data <- json_loads input ;;
    data <- validate_input data BackpackGetKlinesTool_schema ;;
    klines <- await (solana_kit "get_klines" [] [KW "symbol" (getitem data "symbol");
        KW "interval" (getitem data "interval"); KW "start_time" (getitem data "start_time");
        KW "end_time" (get data "end_time")]) ;;
    ret (VDict [("klines", klines); ("message", VStr "Success")])
  ) (fun e =>
    ret (VDict [("klines", VNone); ("message", VStr ("Error fetching K-Lines: " ++ exc_msg e))])).

Definition BackpackGetKlinesTool_run (input : string) : M value :=
  raise (NotImplementedError
    "This tool only supports async execution via _arun. Please use the async interface.").

(** [class BackpackGetMarkPriceTool], line 3833 *)
Definition BackpackGetMarkPriceTool_schema : Schema :=
  [("symbol", mkRule [Tstr] true None None)].

Definition BackpackGetMarkPriceTool_arun (input : string) : TryExcept value :=
  Try (
    data <- json_loads input ;;
    data <- validate_input data BackpackGetMarkPriceTool_schema ;;
    symbol <- getitem data "symbol" ;;
    mark_price_data <- await (solana_kit "get_mark_price" [ret symbol] []) ;;
    ret (VDict [("mark_price_data", mark_price_data); ("message", VStr "Success")])
  ) (fun e =>
    ret (VDict [("mark_price_data", VNone);
        ("message", VStr ("Error fetching mark price: " ++ exc_msg e))])).

Definition BackpackGetMarkPriceTool_run : M value :=
  raise (NotImplementedError
    "This tool only supports async execution via _arun. Please use the async interface.").

(** [class BackpackGetOpenInterestTool], line 3873 *)
Definition BackpackGetOpenInterestTool_schema : Schema :=
  [("symbol", mkRule [Tstr] true None None)].

Definition BackpackGetOpenInterestTool_arun (input : string) : TryExcept value :=
  Try (
    data <- json_loads input ;;
    data <- validate_input data BackpackGetOpenInterestTool_schema ;;
    symbol <- getitem data "symbol" ;;
    open_interest <- await (solana_kit "get_open_interest" [ret symbol] []) ;;
    ret (VDict [("open_interest", open_interest); ("message", VStr "Success")])
  ) (fun e =>
    ret (VDict [("open_interest", VNone);
        ("message", VStr ("Error fetching open interest: " ++ exc_msg e))])).

Definition BackpackGetOpenInterestTool_run : M value :=
  raise (NotImplementedError
    "This tool only supports async execution via _arun. Please use the async interface.").

(** [class BackpackGetFundingIntervalRatesTool], line 3913 *)
Definition BackpackGetFundingIntervalRatesTool_schema : Schema :=
  [("symbol", mkRule [Tstr] true None None);
   ("limit", mkRule [Tint] false None None);
   ("offset", mkRule [Tint] false None None)].

Definition BackpackGetFundingIntervalRatesTool_arun (input : string) : TryExcept value :=
  Try (
    data <- json_loads input ;;
    data <- validate_input data BackpackGetFundingIntervalRatesTool_schema ;;
    symbol <- getitem data "symbol" ;;
    limit <- get_default data "limit" (VInt 100) ;;
    offset <- get_default data "offset" (VInt 0) ;;
    funding_rates <- await (solana_kit "get_funding_interval_rates" [] [KW "symbol" (ret symbol);
        KW "limit" (ret limit); KW "offset" (ret offset)]) ;;
    ret (VDict [("funding_rates", funding_rates); ("message", VStr "Success")])
  ) (fun e =>
    ret (VDict [("funding_rates", VNone);
        ("message", VStr ("Error fetching funding interval rates: " ++ exc_msg e))])).

Definition BackpackGetFundingIntervalRatesTool_run : M value :=
  raise (NotImplementedError
    "This tool only supports async execution via _arun. Please use the async interface.").

(** [class BackpackGetStatusTool], line 3964 *)
Definition BackpackGetStatusTool_arun : TryExcept value :=
  Try (
    status <- await (solana_kit "get_status" [] []) ;;
    ret (VDict [("status", status); ("message", VStr "Success")])
  ) (fun e =>
    ret (VDict [("status", VNone);
        ("message", VStr ("Error fetching system status: " ++ exc_msg e))])).

Definition BackpackGetStatusTool_run : M value :=
  raise (NotImplementedError
    "This tool only supports async execution via _arun. Please use the async interface.").

(** [class BackpackSendPingTool], line 3994 *)
Definition BackpackSendPingTool_arun : TryExcept value :=
  Try (
    response <- await (solana_kit "send_ping" [] []) ;;
    ret (VDict [("response", response); ("message", VStr "Success")])
  ) (fun e =>
    ret (VDict [("response", VNone); ("message", VStr ("Error sending ping: " ++ exc_msg e))])).

Definition BackpackSendPingTool_run (input : string) : M value :=
  raise (NotImplementedError
    "This tool only supports async execution via _arun. Please use the async interface.").

(** [class BackpackGetSystemTimeTool], line 4024 *)
Definition BackpackGetSystemTimeTool_arun : TryExcept value :=
  Try (
    system_time <- await (solana_kit "get_system_time" [] []) ;;
    ret (VDict [("system_time", system_time); ("message", VStr "Success")])
  ) (fun e =>
    ret (VDict [("system_time", VNone);
        ("message", VStr ("Error fetching system time: " ++ exc_msg e))])).

Definition BackpackGetSystemTimeTool_run : M value :=
  raise (NotImplementedError
    "This tool only supports async execution via _arun. Please use the async interface.").

(** [class BackpackGetRecentTradesTool], line 4054 *)
Definition BackpackGetRecentTradesTool_schema : Schema :=
  [("symbol", mkRule [Tstr] true None None);
   ("limit", mkRule [Tint] false None None)].

Definition BackpackGetRecentTradesTool_arun (input : string) : TryExcept value :=
  Try (
    data <- json_loads input ;;
    data <- validate_input data BackpackGetRecentTradesTool_schema ;;
    symbol <- getitem data "symbol" ;;
    limit <- get_default data "limit" (VInt 100) ;;
    recent_trades <- await (solana_kit "get_recent_trades" [] [KW "symbol" (ret symbol);
        KW "limit" (ret limit)]) ;;
    ret (VDict [("recent_trades", recent_trades); ("message", VStr "Success")])
  ) (fun e =>
    ret (VDict [("recent_trades", VNone);
        ("message", VStr ("Error fetching recent trades: " ++ exc_msg e))])).

Definition BackpackGetRecentTradesTool_run : M value :=
  raise (NotImplementedError
    "This tool only supports async execution via _arun. Please use the async interface.").

(** [class BackpackGetHistoricalTradesTool], line 4101 *)
Definition BackpackGetHistoricalTradesTool_schema : Schema :=
  [("symbol", mkRule [Tstr] true None None);
   ("limit", mkRule [Tint] false None None);
   ("offset", mkRule [Tint] false None None)].

Definition BackpackGetHistoricalTradesTool_arun (input : string) : TryExcept value :=
  Try (
    data <- json_loads input ;;
    data <- validate_input data BackpackGetHistoricalTradesTool_schema ;;
    symbol <- getitem data "symbol" ;;
    limit <- get_default data "limit" (VInt 100) ;;
    offset <- get_default data "offset" (VInt 0) ;;
    historical_trades <- await (solana_kit "get_historical_trades" [] [KW "symbol" (ret symbol);
        KW "limit" (ret limit); KW "offset" (ret offset)]) ;;
    ret (VDict [("historical_trades", historical_trades); ("message", VStr "Success")])
  ) (fun e =>
    ret (VDict [("historical_trades", VNone);
        ("message", VStr ("Error fetching historical trades: " ++ exc_msg e))])).

Definition BackpackGetHistoricalTradesTool_run : M value :=
  raise (NotImplementedError
    "This tool only supports async execution via _arun. Please use the async interface.").

(** [class BackpackGetCollateralInfoTool], line 4152 *)
Definition BackpackGetCollateralInfoTool_schema : Schema :=
  [("sub_account_id", mkRule [Tint] false None None)].

Definition BackpackGetCollateralInfoTool_arun (input : string) : TryExcept value :=
  Try (
    data <- json_loads input ;;
    data <- validate_input data BackpackGetCollateralInfoTool_schema ;;
    collateral_info <- await (solana_kit "get_collateral_info" [] [KW "sub_account_id" (get data "sub_account_id")]) ;;
    ret (VDict [("collateral_info", collateral_info); ("message", VStr "Success")])
  ) (fun e =>
    ret (VDict [("collateral_info", VNone);
        ("message", VStr ("Error fetching collateral information: " ++ exc_msg e))])).

Definition BackpackGetCollateralInfoTool_run : M value :=
  raise (NotImplementedError
    "This tool only supports async execution via _arun. Please use the async interface.").

(** [class BackpackGetAccountDepositsTool], line 4193 *)
Definition BackpackGetAccountDepositsTool_schema : Schema :=
  [("sub_account_id", mkRule [Tint] false None None)].

Definition BackpackGetAccountDepositsTool_arun (input : string) : TryExcept value :=
  Try (
    data <- json_loads input ;;
    data <- validate_input data BackpackGetAccountDepositsTool_schema ;;
    sub_account_id <- get data "sub_account_id" ;;
    deposits <- await (solana_kit "get_account_deposits" [] [KW "sub_account_id" (ret sub_account_id)]) ;;
    ret (VDict [("deposits", deposits); ("message", VStr "Success")])
  ) (fun e =>
    ret (VDict [("deposits", VNone);
        ("message", VStr ("Error fetching account deposits: " ++ exc_msg e))])).

Definition BackpackGetAccountDepositsTool_run (input : string) : M value :=
  raise (NotImplementedError
    "This tool only supports async execution via _arun. Please use the async interface.").

(** [class BackpackGetOpenPositionsTool], line 4232 *)
Definition BackpackGetOpenPositionsTool_arun : TryExcept value :=
  Try (
    open_positions <- await (solana_kit "get_open_positions" [] []) ;;
    ret (VDict [("open_positions", open_positions); ("message", VStr "Success")])
  ) (fun e =>
    ret (VDict [("open_positions", VNone);
        ("message", VStr ("Error fetching open positions: " ++ exc_msg e))])).

Definition BackpackGetOpenPositionsTool_run : M value :=
  raise (NotImplementedError
    "This tool only supports async execution via _arun. Please use the async interface.").

(** [class BackpackGetBorrowHistoryTool], line 4262 *)
Definition BackpackGetBorrowHistoryTool_arun (input : string) : TryExcept value :=
  Try (
    data <- json_loads input ;;
    borrow_history <- await (solana_kit "get_borrow_history" [] [KWStar (ret data)]) ;;
    ret (VDict [("borrow_history", borrow_history); ("message", VStr "Success")])
  ) (fun e =>
    ret (VDict [("borrow_history", VNone);
        ("message", VStr ("Error fetching borrow history: " ++ exc_msg e))])).

Definition BackpackGetBorrowHistoryTool_run (input : string) : M value :=
  raise (NotImplementedError
    "This tool only supports async execution via _arun. Please use the async interface.").

(** [class BackpackGetInterestHistoryTool], line 4293 *)
Definition BackpackGetInterestHistoryTool_arun (input : string) : TryExcept value :=
  Try (
    data <- json_loads input ;;
    interest_history <- await (solana_kit "get_interest_history" [] [KWStar (ret data)]) ;;
    ret (VDict [("interest_history", interest_history); ("message", VStr "Success")])
  ) (fun e =>
    ret (VDict [("interest_history", VNone);
        ("message", VStr ("Error fetching interest history: " ++ exc_msg e))])).

Definition BackpackGetInterestHistoryTool_run : M value :=
  raise (NotImplementedError
    "This tool only supports async execution via _arun. Please use the async interface.").

(** [class ClosePerpTradeShortTool], line 4324 *)
Definition ClosePerpTradeShortTool_schema : Schema :=
  [("price", mkRule [Tfloat] true None None);
   ("trade_mint", mkRule [Tstr] true None None)].

Definition ClosePerpTradeShortTool_arun (input : string) : TryExcept value :=
  Try (
    data <- json_loads input ;;
    data <- validate_input data ClosePerpTradeShortTool_schema ;;
    price <- getitem data "price" ;;
    trade_mint <- getitem data "trade_mint" ;;
    transaction <- await (solana_kit "close_perp_trade_short" [] [KW "price" (ret price);
        KW "trade_mint" (ret trade_mint)]) ;;
    ret (VDict [("transaction", transaction); ("message", VStr "Success")])
  ) (fun e =>
    ret (VDict [("transaction", VNone);
        ("message", VStr ("Error closing perp short trade: " ++ exc_msg e))])).

Definition ClosePerpTradeShortTool_run : M value :=
  raise (NotImplementedError
    "This tool only supports async execution via _arun. Please use the async interface.").

(** [class ClosePerpTradeLongTool], line 4371 *)
Definition ClosePerpTradeLongTool_schema : Schema :=
  [("price", mkRule [Tfloat] true None None);
   ("trade_mint", mkRule [Tstr] true None None)].

Definition ClosePerpTradeLongTool_arun (input : string) : TryExcept value :=
  Try (
    data <- json_loads input ;;
    data <- validate_input data ClosePerpTradeLongTool_schema ;;
    price <- getitem data "price" ;;
    trade_mint <- getitem data "trade_mint" ;;
    transaction <- await (solana_kit "close_perp_trade_long" [] [KW "price" (ret price);
        KW "trade_mint" (ret trade_mint)]) ;;
    ret (VDict [("transaction", transaction); ("message", VStr "Success")])
  ) (fun e =>
    ret (VDict [("transaction", VNone);
        ("message", VStr ("Error closing perp long trade: " ++ exc_msg e))])).

Definition ClosePerpTradeLongTool_run : M value :=
  raise (NotImplementedError
    "This tool only supports async execution via _arun. Please use the async interface.").

(** [class OpenPerpTradeLongTool], line 4418 *)
Definition OpenPerpTradeLongTool_schema : Schema :=
  [("price", mkRule [Tfloat] true None None);
   ("collateral_amount", mkRule [Tfloat] true None None);
   ("collateral_mint", mkRule [Tstr] false None None);
   ("leverage", mkRule [Tfloat] false None None);
   ("trade_mint", mkRule [Tstr] false None None);
   ("slippage", mkRule [Tfloat] false None None)].

Definition OpenPerpTradeLongTool_arun (input : string) : TryExcept value :=
  Try (
    data <- json_loads input ;;
    data <- validate_input data OpenPerpTradeLongTool_schema ;;
    transaction <- await (solana_kit "open_perp_trade_long" [] [KW "price" (getitem data "price");
        KW "collateral_amount" (getitem data "collateral_amount");
        KW "collateral_mint" (get data "collateral_mint"); KW "leverage" (get data "leverage");
        KW "trade_mint" (get data "trade_mint"); KW "slippage" (get data "slippage")]) ;;
    ret (VDict [("transaction", transaction); ("message", VStr "Success")])
  ) (fun e =>
    ret (VDict [("transaction", VNone);
        ("message", VStr ("Error opening perp long trade: " ++ exc_msg e))])).

Definition OpenPerpTradeLongTool_run : M value :=
  raise (NotImplementedError
    "This tool only supports async execution via _arun. Please use the async interface.").

(** [class OpenPerpTradeShortTool], line 4476 *)
Definition OpenPerpTradeShortTool_schema : Schema :=
  [("price", mkRule [Tfloat] true None None);
   ("collateral_amount", mkRule [Tfloat] true None None);
   ("collateral_mint", mkRule [Tstr] false None None);
   ("leverage", mkRule [Tfloat] false None None);
   ("trade_mint", mkRule [Tstr] false None None);
   ("slippage", mkRule [Tfloat] false None None)].

Definition OpenPerpTradeShortTool_arun (input : string) : TryExcept value :=
  Try (
    data <- json_loads input ;;
    data <- validate_input data OpenPerpTradeShortTool_schema ;;
    transaction <- await (solana_kit "open_perp_trade_short" [] [KW "price" (getitem data "price");
        KW "collateral_amount" (getitem data "collateral_amount");
        KW "collateral_mint" (get data "collateral_mint"); KW "leverage" (get data "leverage");
        KW "trade_mint" (get data "trade_mint"); KW "slippage" (get data "slippage")]) ;;
    ret (VDict [("transaction", transaction); ("message", VStr "Success")])
  ) (fun e =>
    ret (VDict [("transaction", VNone);
        ("message", VStr ("Error opening perp short trade: " ++ exc_msg e))])).

Definition OpenPerpTradeShortTool_run : M value :=
  raise (NotImplementedError
    "This tool only supports async execution via _arun. Please use the async interface.").

(** [class Create3LandCollectionTool], line 4533 *)
Definition Create3LandCollectionTool_schema : Schema :=
  [("collection_symbol", mkRule [Tstr] true None None);
   ("collection_name", mkRule [Tstr] true None None);
   ("collection_description", mkRule [Tstr] true None None);
   ("main_image_url", mkRule [Tstr] false None None);
   ("cover_image_url", mkRule [Tstr] false None None);
   ("is_devnet", mkRule [Tbool] false None None)].

Definition Create3LandCollectionTool_arun (input : string) : TryExcept value :=
  Try (
    data <- json_loads input ;;
    data <- validate_input data Create3LandCollectionTool_schema ;;
    transaction <- await (solana_kit "create_3land_collection" [] [KW "collection_symbol" (getitem data "collection_symbol");
        KW "collection_name" (getitem data "collection_name");
        KW "collection_description" (getitem data "collection_description");
        KW "main_image_url" (get data "main_image_url");
        KW "cover_image_url" (get data "cover_image_url");
        KW "is_devnet" (get_default data "is_devnet" (VBool false))]) ;;
    ret (VDict [("transaction", transaction); ("message", VStr "Success")])
  ) (fun e =>
    ret (VDict [("transaction", VNone);
        ("message", VStr ("Error creating 3land collection: " ++ exc_msg e))])).

Definition Create3LandCollectionTool_run : M value :=
  raise (NotImplementedError
    "This tool only supports async execution via _arun. Please use the async interface.").

(** [class Create3LandNFTTool], line 4591 *)
Definition Create3LandNFTTool_schema : Schema :=
  [("item_name", mkRule [Tstr] true None None);
   ("seller_fee", mkRule [Tfloat] true None None);
   ("item_amount", mkRule [Tint] true None None);
   ("item_symbol", mkRule [Tstr] true None None);
   ("item_description", mkRule [Tstr] true None None);
   ("traits", mkRule [Tstr] true None None);
   ("price", mkRule [Tfloat] false None None);
   ("main_image_url", mkRule [Tstr] false None None);
   ("cover_image_url", mkRule [Tstr] false None None);
   ("spl_hash", mkRule [Tstr] false None None);
   ("pool_name", mkRule [Tstr] false None None);
   ("is_devnet", mkRule [Tbool] false None None);
   ("with_pool", mkRule [Tbool] false None None)].

Definition Create3LandNFTTool_arun (input : string) : TryExcept value :=
  Try (
    data <- json_loads input ;;
    data <- validate_input data Create3LandNFTTool_schema ;;
    transaction <- await (solana_kit "create_3land_nft" [] [KW "item_name" (getitem data "item_name");
        KW "seller_fee" (getitem data "seller_fee");
        KW "item_amount" (getitem data "item_amount");
        KW "item_symbol" (getitem data "item_symbol");
        KW "item_description" (getitem data "item_description");
        KW "traits" (getitem data "traits"); KW "price" (get data "price");
        KW "main_image_url" (get data "main_image_url");
        KW "cover_image_url" (get data "cover_image_url"); KW "spl_hash" (get data "spl_hash");
        KW "pool_name" (get data "pool_name");
        KW "is_devnet" (get_default data "is_devnet" (VBool false));
        KW "with_pool" (get_default data "with_pool" (VBool false))]) ;;
    ret (VDict [("transaction", transaction); ("message", VStr "Success")])
  ) (fun e =>
    ret (VDict [("transaction", VNone);
        ("message", VStr ("Error creating 3land NFT: " ++ exc_msg e))])).

Definition Create3LandNFTTool_run : M value :=
  raise (NotImplementedError
    "This tool only supports async execution via _arun.").

(** [class CreateDriftUserAccountTool], line 4670 *)
Definition CreateDriftUserAccountTool_schema : Schema :=
  [("deposit_amount", mkRule [Tfloat] true None None);
   ("deposit_symbol", mkRule [Tstr] true None None)].

Definition CreateDriftUserAccountTool_arun (input : string) : TryExcept value :=
  Try (
    data <- json_loads input ;;
    data <- validate_input data CreateDriftUserAccountTool_schema ;;
    transaction <- await (solana_kit "create_drift_user_account" [] [KW "deposit_amount" (getitem data "deposit_amount");
        KW "deposit_symbol" (getitem data "deposit_symbol")]) ;;
    ret (VDict [("transaction", transaction); ("message", VStr "Success")])
  ) (fun e =>
    ret (VDict [("transaction", VNone);
        ("message", VStr ("Error creating Drift user account: " ++ exc_msg e))])).

Definition CreateDriftUserAccountTool_run : M value :=
  raise (NotImplementedError
    "This tool only supports async execution via _arun. Please use the async interface.").

(** [class DepositToDriftUserAccountTool], line 4713 *)
Definition DepositToDriftUserAccountTool_schema : Schema :=
  [("amount", mkRule [Tfloat] true None None);
   ("symbol", mkRule [Tstr] true None None);
   ("is_repayment", mkRule [Tbool] false None None)].

Definition DepositToDriftUserAccountTool_arun (input : string) : TryExcept value :=
  Try (
    data <- json_loads input ;;
    data <- validate_input data DepositToDriftUserAccountTool_schema ;;
    transaction <- await (solana_kit "deposit_to_drift_user_account" [] [KW "amount" (getitem data "amount");
        KW "symbol" (getitem data "symbol"); KW "is_repayment" (get data "is_repayment")]) ;;
    ret (VDict [("transaction", transaction); ("message", VStr "Success")])
  ) (fun e =>
    ret (VDict [("transaction", VNone);
        ("message", VStr ("Error depositing to Drift user account: " ++ exc_msg e))])).

Definition DepositToDriftUserAccountTool_run : M value :=
  raise (NotImplementedError
    "This tool only supports async execution via _arun. Please use the async interface.").

(** [class WithdrawFromDriftUserAccountTool], line 4762 *)
Definition WithdrawFromDriftUserAccountTool_schema : Schema :=
  [("amount", mkRule [Tfloat] true None None);
   ("symbol", mkRule [Tstr] true None None);
   ("is_borrow", mkRule [Tbool] false None None)].

Definition WithdrawFromDriftUserAccountTool_arun (input : string) : TryExcept value :=
  Try (
    data <- json_loads input ;;
    data <- validate_input data WithdrawFromDriftUserAccountTool_schema ;;
    transaction <- await (solana_kit "withdraw_from_drift_user_account" [] [KW "amount" (getitem data "amount");
        KW "symbol" (getitem data "symbol"); KW "is_borrow" (get data "is_borrow")]) ;;
    ret (VDict [("transaction", transaction); ("message", VStr "Success")])
  ) (fun e =>
    ret (VDict [("transaction", VNone);
        ("message", VStr ("Error withdrawing from Drift user account: " ++ exc_msg e))])).

Definition WithdrawFromDriftUserAccountTool_run : M value :=
  raise (NotImplementedError
    "This tool only supports async execution via _arun. Please use the async interface.").

(** [class TradeUsingDriftPerpAccountTool], line 4810 *)
Definition TradeUsingDriftPerpAccountTool_schema : Schema :=
  [("amount", mkRule [Tfloat] true None None);
   ("symbol", mkRule [Tstr] true None None);
   ("action", mkRule [Tstr] true None None);
   ("trade_type", mkRule [Tstr] true None None);
   ("price", mkRule [Tfloat] false None None)].

Definition TradeUsingDriftPerpAccountTool_arun (input : string) : TryExcept value :=
  Try (
    data <- json_loads input ;;
    data <- validate_input data TradeUsingDriftPerpAccountTool_schema ;;
    transaction <- await (solana_kit "trade_using_drift_perp_account" [] [KW "amount" (getitem data "amount");
        KW "symbol" (getitem data "symbol"); KW "action" (getitem data "action");
        KW "trade_type" (getitem data "trade_type"); KW "price" (get data "price")]) ;;
    ret (VDict [("transaction", transaction); ("message", VStr "Success")])
  ) (fun e =>
    ret (VDict [("transaction", VNone);
        ("message", VStr ("Error trading using Drift perp account: " ++ exc_msg e))])).

Definition TradeUsingDriftPerpAccountTool_run : M value :=
  raise (NotImplementedError
    "This tool only supports async execution via _arun. Please use the async interface.").

(** [class CheckIfDriftAccountExistsTool], line 4862 *)
Definition CheckIfDriftAccountExistsTool_arun : TryExcept value :=
  Try (
    exists_ <- await (solana_kit "check_if_drift_account_exists" [] []) ;;
    ret (VDict [("exists", exists_); ("message", VStr "Success")])
  ) (fun e =>
    ret (VDict [("exists", VNone);
        ("message", VStr ("Error checking Drift account existence: " ++ exc_msg e))])).

Definition CheckIfDriftAccountExistsTool_run : M value :=
  raise (NotImplementedError
    "This tool only supports async execution via _arun.").

(** [class DriftUserAccountInfoTool], line 4892 *)
Definition DriftUserAccountInfoTool_arun : TryExcept value :=
  Try (
    account_info <- await (solana_kit "drift_user_account_info" [] []) ;;
    ret (VDict [("account_info", account_info); ("message", VStr "Success")])
  ) (fun e =>
    ret (VDict [("account_info", VNone);
        ("message", VStr ("Error fetching Drift user account info: " ++ exc_msg e))])).

Definition DriftUserAccountInfoTool_run : M value :=
  raise (NotImplementedError
    "This tool only supports async execution via _arun.").

(** [class GetAvailableDriftMarketsTool], line 4922 *)
Definition GetAvailableDriftMarketsTool_arun : TryExcept value :=
  Try (
    markets <- await (solana_kit "get_available_drift_markets" [] []) ;;
    ret (VDict [("markets", markets); ("message", VStr "Success")])
  ) (fun e =>
    ret (VDict [("markets", VNone);
        ("message", VStr ("Error fetching available Drift markets: " ++ exc_msg e))])).

Definition GetAvailableDriftMarketsTool_run : M value :=
  raise (NotImplementedError
    "This tool only supports async execution via _arun.").

(** [class StakeToDriftInsuranceFundTool], line 4952 *)
Definition StakeToDriftInsuranceFundTool_schema : Schema :=
  [("amount", mkRule [Tfloat] true None None);
   ("symbol", mkRule [Tstr] true None None)].

Definition StakeToDriftInsuranceFundTool_arun (input : string) : TryExcept value :=
  Try (
    data <- json_loads input ;;
    data <- validate_input data StakeToDriftInsuranceFundTool_schema ;;
    transaction <- await (solana_kit "stake_to_drift_insurance_fund" [] [KW "amount" (getitem data "amount");
        KW "symbol" (getitem data "symbol")]) ;;
    ret (VDict [("transaction", transaction); ("message", VStr "Success")])
  ) (fun e =>
    ret (VDict [("transaction", VNone);
        ("message", VStr ("Error staking to Drift insurance fund: " ++ exc_msg e))])).

Definition StakeToDriftInsuranceFundTool_run : M value :=
  raise (NotImplementedError
    "This tool only supports async execution via _arun. Please use the async interface.").

(** [class RequestUnstakeFromDriftInsuranceFundTool], line 4998 *)
Definition RequestUnstakeFromDriftInsuranceFundTool_schema : Schema :=
  [("amount", mkRule [Tfloat] true None None);
   ("symbol", mkRule [Tstr] true None None)].

Definition RequestUnstakeFromDriftInsuranceFundTool_arun (input : string) : TryExcept value :=
  Try (
    data <- json_loads input ;;
    data <- validate_input data RequestUnstakeFromDriftInsuranceFundTool_schema ;;
    transaction <- await (solana_kit "request_unstake_from_drift_insurance_fund" [] [KW "amount" (getitem data "amount");
        KW "symbol" (getitem data "symbol")]) ;;
    ret (VDict [("transaction", transaction); ("message", VStr "Success")])
  ) (fun e =>
    ret (VDict [("transaction", VNone);
        ("message", VStr ("Error requesting unstake from Drift insurance fund: " ++ exc_msg e))])).

Definition RequestUnstakeFromDriftInsuranceFundTool_run : M value :=
  raise (NotImplementedError
    "This tool only supports async execution via _arun. Please use the async interface.").

(** [class UnstakeFromDriftInsuranceFundTool], line 5043 *)
Definition UnstakeFromDriftInsuranceFundTool_schema : Schema :=
  [("symbol", mkRule [Tstr] true None None)].

Definition UnstakeFromDriftInsuranceFundTool_arun (input : string) : TryExcept value :=
  Try (
    data <- json_loads input ;;
    data <- validate_input data UnstakeFromDriftInsuranceFundTool_schema ;;
    transaction <- await (solana_kit "unstake_from_drift_insurance_fund" [] [KW "symbol" (getitem data "symbol")]) ;;
    ret (VDict [("transaction", transaction); ("message", VStr "Success")])
  ) (fun e =>
    ret (VDict [("transaction", VNone);
        ("message", VStr ("Error unstaking from Drift insurance fund: " ++ exc_msg e))])).

Definition UnstakeFromDriftInsuranceFundTool_run : M value :=
  raise (NotImplementedError
    "This tool only supports async execution via _arun. Please use the async interface.").

(** [class DriftSwapSpotTokenTool], line 5085 *)
Definition DriftSwapSpotTokenTool_schema : Schema :=
  [("from_symbol", mkRule [Tstr] true None None);
   ("to_symbol", mkRule [Tstr] true None None);
   ("slippage", mkRule [Tfloat] false None None);
   ("to_amount", mkRule [Tfloat] false None None);
   ("from_amount", mkRule [Tfloat] false None None)].

Definition DriftSwapSpotTokenTool_arun (input : string) : TryExcept value :=
  Try (
    data <- json_loads input ;;
    data <- validate_input data DriftSwapSpotTokenTool_schema ;;
    transaction <- await (solana_kit "drift_swap_spot_token" [] [KW "from_symbol" (getitem data "from_symbol");
        KW "to_symbol" (getitem data "to_symbol"); KW "slippage" (get data "slippage");
        KW "to_amount" (get data "to_amount"); KW "from_amount" (get data "from_amount")]) ;;
    ret (VDict [("transaction", transaction); ("message", VStr "Success")])
  ) (fun e =>
    ret (VDict [("transaction", VNone);
        ("message", VStr ("Error swapping spot token on Drift: " ++ exc_msg e))])).

Definition DriftSwapSpotTokenTool_run : M value :=
  raise (NotImplementedError
    "This tool only supports async execution via _arun. Please use the async interface.").

(** [class GetDriftPerpMarketFundingRateTool], line 5137 *)
Definition GetDriftPerpMarketFundingRateTool_schema : Schema :=
  [("symbol", mkRule [Tstr] true None None);
   ("period", mkRule [Tstr] false None None)].

Definition GetDriftPerpMarketFundingRateTool_arun (input : string) : TryExcept value :=
  Try (
    data <- json_loads input ;;
    data <- validate_input data GetDriftPerpMarketFundingRateTool_schema ;;
    funding_rate <- await (solana_kit "get_drift_perp_market_funding_rate" [] [KW "symbol" (getitem data "symbol");
        KW "period" (get_default data "period" (VStr "year"))]) ;;
    ret (VDict [("funding_rate", funding_rate); ("message", VStr "Success")])
  ) (fun e =>
    ret (VDict [("funding_rate", VNone);
        ("message", VStr ("Error getting Drift perp market funding rate: " ++ exc_msg e))])).

Definition GetDriftPerpMarketFundingRateTool_run : M value :=
  raise (NotImplementedError
    "This tool only supports async execution via _arun. Please use the async interface.").

(** [class GetDriftEntryQuoteOfPerpTradeTool], line 5180 *)
Definition GetDriftEntryQuoteOfPerpTradeTool_schema : Schema :=
  [("amount", mkRule [Tfloat] true None None);
   ("symbol", mkRule [Tstr] true None None);
   ("action", mkRule [Tstr] true None None)].

Definition GetDriftEntryQuoteOfPerpTradeTool_arun (input : string) : TryExcept value :=
  Try (
    data <- json_loads input ;;
    data <- validate_input data GetDriftEntryQuoteOfPerpTradeTool_schema ;;
    entry_quote <- await (solana_kit "get_drift_entry_quote_of_perp_trade" [] [KW "amount" (getitem data "amount");
        KW "symbol" (getitem data "symbol"); KW "action" (getitem data "action")]) ;;
    ret (VDict [("entry_quote", entry_quote); ("message", VStr "Success")])
  ) (fun e =>
    ret (VDict [("entry_quote", VNone);
        ("message", VStr ("Error getting Drift entry quote of perp trade: " ++ exc_msg e))])).

Definition GetDriftEntryQuoteOfPerpTradeTool_run : M value :=
  raise (NotImplementedError
    "This tool only supports async execution via _arun. Please use the async interface.").

(** [class GetDriftLendBorrowApyTool], line 5226 *)
Definition GetDriftLendBorrowApyTool_schema : Schema :=
  [("symbol", mkRule [Tstr] true None None)].

Definition GetDriftLendBorrowApyTool_arun (input : string) : TryExcept value :=
  Try (
    data <- json_loads input ;;
    data <- validate_input data GetDriftLendBorrowApyTool_schema ;;
    apy_data <- await (solana_kit "get_drift_lend_borrow_apy" [] [KW "symbol" (getitem data "symbol")]) ;;
    ret (VDict [("apy_data", apy_data); ("message", VStr "Success")])
  ) (fun e =>
    ret (VDict [("apy_data", VNone);
        ("message", VStr ("Error getting Drift lend/borrow APY: " ++ exc_msg e))])).

Definition GetDriftLendBorrowApyTool_run : M value :=
  raise (NotImplementedError
    "This tool only supports async execution via _arun. Please use the async interface.").

(** [class CreateDriftVaultTool], line 5267 *)
Definition CreateDriftVaultTool_schema : Schema :=
  [("name", mkRule [Tstr] true None None);
   ("market_name", mkRule [Tstr] true None None);
   ("redeem_period", mkRule [Tint] true None None);
   ("max_tokens", mkRule [Tint] true None None);
   ("min_deposit_amount", mkRule [Tfloat] true None None);
   ("management_fee", mkRule [Tfloat] true None None);
   ("profit_share", mkRule [Tfloat] true None None);
   ("hurdle_rate", mkRule [Tfloat] false None None);
   ("permissioned", mkRule [Tbool] false None None)].

Definition CreateDriftVaultTool_arun (input : string) : TryExcept value :=
  Try (
    data <- json_loads input ;;
    data <- validate_input data CreateDriftVaultTool_schema ;;
    vault_details <- await (solana_kit "create_drift_vault" [] [KW "name" (getitem data "name");
        KW "market_name" (getitem data "market_name");
        KW "redeem_period" (getitem data "redeem_period");
        KW "max_tokens" (getitem data "max_tokens");
        KW "min_deposit_amount" (getitem data "min_deposit_amount");
        KW "management_fee" (getitem data "management_fee");
        KW "profit_share" (getitem data "profit_share");
        KW "hurdle_rate" (get data "hurdle_rate");
        KW "permissioned" (get data "permissioned")]) ;;
    ret (VDict [("vault_details", vault_details); ("message", VStr "Success")])
  ) (fun e =>
    ret (VDict [("vault_details", VNone);
        ("message", VStr ("Error creating Drift vault: " ++ exc_msg e))])).

Definition CreateDriftVaultTool_run : M value :=
  raise (NotImplementedError
    "This tool only supports async execution via _arun. Please use the async interface.").

(** [class UpdateDriftVaultDelegateTool], line 5332 *)
Definition UpdateDriftVaultDelegateTool_schema : Schema :=
  [("vault", mkRule [Tstr] true None None);
   ("delegate_address", mkRule [Tstr] true None None)].

Definition UpdateDriftVaultDelegateTool_arun (input : string) : TryExcept value :=
  Try (
    data <- json_loads input ;;
    data <- validate_input data UpdateDriftVaultDelegateTool_schema ;;
    transaction <- await (solana_kit "update_drift_vault_delegate" [] [KW "vault" (getitem data "vault");
        KW "delegate_address" (getitem data "delegate_address")]) ;;
    ret (VDict [("transaction", transaction); ("message", VStr "Success")])
  ) (fun e =>
    ret (VDict [("transaction", VNone);
        ("message", VStr ("Error updating Drift vault delegate: " ++ exc_msg e))])).

Definition UpdateDriftVaultDelegateTool_run : M value :=
  raise (NotImplementedError
    "This tool only supports async execution via _arun. Please use the async interface.").

(** [class UpdateDriftVaultTool], line 5376 *)
Definition UpdateDriftVaultTool_schema : Schema :=
  [("vault_address", mkRule [Tstr] true None None);
   ("name", mkRule [Tstr] true None None);
   ("market_name", mkRule [Tstr] true None None);
   ("redeem_period", mkRule [Tint] true None None);
   ("max_tokens", mkRule [Tint] true None None);
   ("min_deposit_amount", mkRule [Tfloat] true None None);
   ("management_fee", mkRule [Tfloat] true None None);
   ("profit_share", mkRule [Tfloat] true None None);
   ("hurdle_rate", mkRule [Tfloat] false None None);
   ("permissioned", mkRule [Tbool] false None None)].

Definition UpdateDriftVaultTool_arun (input : string) : TryExcept value :=
  Try (
    data <- json_loads input ;;
    data <- validate_input data UpdateDriftVaultTool_schema ;;
    vault_update <- await (solana_kit "update_drift_vault" [] [KW "vault_address" (getitem data "vault_address");
        KW "name" (getitem data "name"); KW "market_name" (getitem data "market_name");
        KW "redeem_period" (getitem data "redeem_period");
        KW "max_tokens" (getitem data "max_tokens");
        KW "min_deposit_amount" (getitem data "min_deposit_amount");
        KW "management_fee" (getitem data "management_fee");
        KW "profit_share" (getitem data "profit_share");
        KW "hurdle_rate" (get data "hurdle_rate");
        KW "permissioned" (get data "permissioned")]) ;;
    ret (VDict [("vault_update", vault_update); ("message", VStr "Success")])
  ) (fun e =>
    ret (VDict [("vault_update", VNone);
        ("message", VStr ("Error updating Drift vault: " ++ exc_msg e))])).

Definition UpdateDriftVaultTool_run : M value :=
  raise (NotImplementedError
    "This tool only supports async execution via _arun.").

(** [class GetDriftVaultInfoTool], line 5444 *)
Definition GetDriftVaultInfoTool_schema : Schema :=
  [("vault_name", mkRule [Tstr] true None None)].

Definition GetDriftVaultInfoTool_arun (input : string) : TryExcept value :=
  Try (
    data <- json_loads input ;;
    data <- validate_input data GetDriftVaultInfoTool_schema ;;
    vault_info <- await (solana_kit "get_drift_vault_info" [] [KW "vault_name" (getitem data "vault_name")]) ;;
    ret (VDict [("vault_info", vault_info); ("message", VStr "Success")])
  ) (fun e =>
    ret (VDict [("vault_info", VNone);
        ("message", VStr ("Error retrieving Drift vault info: " ++ exc_msg e))])).

Definition GetDriftVaultInfoTool_run : M value :=
  raise (NotImplementedError
    "This tool only supports async execution via _arun. Please use the async interface.").

(** [class DepositIntoDriftVaultTool], line 5485 *)
Definition DepositIntoDriftVaultTool_schema : Schema :=
  [("amount", mkRule [Tfloat] true None None);
   ("vault", mkRule [Tstr] true None None)].

Definition DepositIntoDriftVaultTool_arun (input : string) : TryExcept value :=
  Try (
    data <- json_loads input ;;
    data <- validate_input data DepositIntoDriftVaultTool_schema ;;
    transaction <- await (solana_kit "deposit_into_drift_vault" [] [KW "amount" (getitem data "amount");
        KW "vault" (getitem data "vault")]) ;;
    ret (VDict [("transaction", transaction); ("message", VStr "Success")])
  ) (fun e =>
    ret (VDict [("transaction", VNone);
        ("message", VStr ("Error depositing into Drift vault: " ++ exc_msg e))])).

Definition DepositIntoDriftVaultTool_run : M value :=
  raise (NotImplementedError
    "This tool only supports async execution via _arun. Please use the async interface.").

(** [class RequestWithdrawalFromDriftVaultTool], line 5529 *)
Definition RequestWithdrawalFromDriftVaultTool_schema : Schema :=
  [("amount", mkRule [Tfloat] true None None);
   ("vault", mkRule [Tstr] true None None)].

Definition RequestWithdrawalFromDriftVaultTool_arun (input : string) : TryExcept value :=
  Try (
    data <- json_loads input ;;
    data <- validate_input data RequestWithdrawalFromDriftVaultTool_schema ;;
    transaction <- await (solana_kit "request_withdrawal_from_drift_vault" [] [KW "amount" (getitem data "amount");
        KW "vault" (getitem data "vault")]) ;;
    ret (VDict [("transaction", transaction); ("message", VStr "Success")])
  ) (fun e =>
    ret (VDict [("transaction", VNone);
        ("message", VStr ("Error requesting withdrawal from Drift vault: " ++ exc_msg e))])).

Definition RequestWithdrawalFromDriftVaultTool_run : M value :=
  raise (NotImplementedError
    "This tool only supports async execution via _arun. Please use the async interface.").

(** [class WithdrawFromDriftVaultTool], line 5573 *)
Definition WithdrawFromDriftVaultTool_schema : Schema :=
  [("vault", mkRule [Tstr] true None None)].

Definition WithdrawFromDriftVaultTool_arun (input : string) : TryExcept value :=
  Try (
    data <- json_loads input ;;
    data <- validate_input data WithdrawFromDriftVaultTool_schema ;;
    transaction <- await (solana_kit "withdraw_from_drift_vault" [] [KW "vault" (getitem data "vault")]) ;;
    ret (VDict [("transaction", transaction); ("message", VStr "Success")])
  ) (fun e =>
    ret (VDict [("transaction", VNone);
        ("message", VStr ("Error withdrawing from Drift vault: " ++ exc_msg e))])).

Definition WithdrawFromDriftVaultTool_run : M value :=
  raise (NotImplementedError
    "This tool only supports async execution via _arun. Please use the async interface.").

(** [class DeriveDriftVaultAddressTool], line 5614 *)
Definition DeriveDriftVaultAddressTool_schema : Schema :=
  [("name", mkRule [Tstr] true None None)].

Definition DeriveDriftVaultAddressTool_arun (input : string) : TryExcept value :=
  Try (
    data <- json_loads input ;;
    data <- validate_input data DeriveDriftVaultAddressTool_schema ;;
    vault_address <- await (solana_kit "derive_drift_vault_address" [] [KW "name" (getitem data "name")]) ;;
    ret (VDict [("vault_address", vault_address); ("message", VStr "Success")])
  ) (fun e =>
    ret (VDict [("vault_address", VNone);
        ("message", VStr ("Error deriving Drift vault address: " ++ exc_msg e))])).

Definition DeriveDriftVaultAddressTool_run : M value :=
  raise (NotImplementedError
    "This tool only supports async execution via _arun. Please use the async interface.").

(** [class TradeUsingDelegatedDriftVaultTool], line 5655 *)
Definition TradeUsingDelegatedDriftVaultTool_schema : Schema :=
  [("vault", mkRule [Tstr] true None None);
   ("amount", mkRule [Tfloat] true None None);
   ("symbol", mkRule [Tstr] true None None);
   ("action", mkRule [Tstr] true None None);
   ("trade_type", mkRule [Tstr] true None None);
   ("price", mkRule [Tfloat] false None None)].

Definition TradeUsingDelegatedDriftVaultTool_arun (input : string) : TryExcept value :=
  Try (
    data <- json_loads input ;;
    data <- validate_input data TradeUsingDelegatedDriftVaultTool_schema ;;
    transaction <- await (solana_kit "trade_using_delegated_drift_vault" [] [KW "vault" (getitem data "vault");
        KW "amount" (getitem data "amount"); KW "symbol" (getitem data "symbol");
        KW "action" (getitem data "action"); KW "trade_type" (getitem data "trade_type");
        KW "price" (get data "price")]) ;;
    ret (VDict [("transaction", transaction); ("message", VStr "Success")])
  ) (fun e =>
    ret (VDict [("transaction", VNone);
        ("message", VStr ("Error trading using delegated Drift vault: " ++ exc_msg e))])).

Definition TradeUsingDelegatedDriftVaultTool_run : M value :=
  raise (NotImplementedError
    "This tool only supports async execution via _arun. Please use the async interface.").

(** [class FlashOpenTradeTool], line 5711 *)
Definition FlashOpenTradeTool_schema : Schema :=
  [("token", mkRule [Tstr] true None None);
   ("side", mkRule [Tstr] true None None);
   ("collateralUsd", mkRule [Tfloat] true None None);
   ("leverage", mkRule [Tfloat] true None None)].

Definition FlashOpenTradeTool_arun (input : string) : TryExcept value :=
  Try (
    data <- json_loads input ;;
    data <- validate_input data FlashOpenTradeTool_schema ;;
    transaction <- await (solana_kit "flash_open_trade" [] [KW "token" (getitem data "token");
        KW "side" (getitem data "side"); KW "collateral_usd" (getitem data "collateralUsd");
        KW "leverage" (getitem data "leverage")]) ;;
    ret (VDict [("transaction", transaction); ("message", VStr "Success")])
  ) (fun e =>
    ret (VDict [("transaction", VNone);
        ("message", VStr ("Error opening flash trade: " ++ exc_msg e))])).

Definition FlashOpenTradeTool_run : M value :=
  raise (NotImplementedError
    "This tool only supports async execution via _arun.").

(** [class FlashCloseTradeTool], line 5761 *)
Definition FlashCloseTradeTool_schema : Schema :=
  [("token", mkRule [Tstr] true None None);
   ("side", mkRule [Tstr] true None None)].

Definition FlashCloseTradeTool_arun (input : string) : TryExcept value :=
  Try (
    data <- json_loads input ;;
    data <- validate_input data FlashCloseTradeTool_schema ;;
    transaction <- await (solana_kit "flash_close_trade" [] [KW "token" (getitem data "token");
        KW "side" (getitem data "side")]) ;;
    ret (VDict [("transaction", transaction); ("message", VStr "Success")])
  ) (fun e =>
    ret (VDict [("transaction", VNone);
        ("message", VStr ("Error closing flash trade: " ++ exc_msg e))])).

Definition FlashCloseTradeTool_run : M value :=
  raise (NotImplementedError
    "This tool only supports async execution via _arun. Please use the async interface.").

(** [class ResolveAllDomainsTool], line 5804 *)
Definition ResolveAllDomainsTool_schema : Schema :=
  [("domain", mkRule [Tstr] true None None)].

Definition ResolveAllDomainsTool_arun (input : string) : TryExcept value :=
  Try (
    data <- json_loads input ;;
    data <- validate_input data ResolveAllDomainsTool_schema ;;
    domain_tld <- await (solana_kit "resolve_all_domains" [getitem data "domain"] []) ;;
    ret (if truthy domain_tld then VDict [("tld", domain_tld); ("message", VStr "Success")]
        else VDict [("message", VStr "Domain resolution failed")])
  ) (fun e =>
    ret (VDict [("message", VStr ("Error resolving domain: " ++ exc_msg e))])).

Definition ResolveAllDomainsTool_run : M value :=
  raise (NotImplementedError
    "This tool only supports async execution via _arun. Please use the async interface.").

(** [class GetOwnedDomainsForTLDTool], line 5837 *)
Definition GetOwnedDomainsForTLDTool_schema : Schema :=
  [("tld", mkRule [Tstr] true None None)].

Definition GetOwnedDomainsForTLDTool_arun (input : string) : TryExcept value :=
  Try (
    data <- json_loads input ;;
    data <- validate_input data GetOwnedDomainsForTLDTool_schema ;;
    owned_domains <- await (solana_kit "get_owned_domains_for_tld" [getitem data "tld"] []) ;;
    ret (if truthy owned_domains then VDict [("domains", owned_domains);
        ("message", VStr "Success")] else VDict [("message", VStr "No owned domains found")])
  ) (fun e =>
    ret (VDict [("message", VStr ("Error fetching owned domains: " ++ exc_msg e))])).

Definition GetOwnedDomainsForTLDTool_run (input : string) : M value :=
  raise (NotImplementedError
    "This tool only supports async execution via _arun. Please use the async interface.").

(** [class GetAllDomainsTLDsTool], line 5869 *)
Definition GetAllDomainsTLDsTool_arun : TryExcept value :=
  Try (
    tlds <- await (solana_kit "get_all_domains_tlds" [] []) ;;
    ret (if truthy tlds then VDict [("tlds", tlds); ("message", VStr "Success")]
        else VDict [("message", VStr "No TLDs found")])
  ) (fun e =>
    ret (VDict [("message", VStr ("Error fetching TLDs: " ++ exc_msg e))])).

Definition GetAllDomainsTLDsTool_run : M value :=
  raise (NotImplementedError
    "This tool only supports async execution via _arun. Please use the async interface.").

(** [class GetOwnedAllDomainsTool], line 5893 *)
Definition GetOwnedAllDomainsTool_schema : Schema :=
  [("owner", mkRule [Tstr] true None None)].

Definition GetOwnedAllDomainsTool_arun (input : string) : TryExcept value :=
  Try (
    data <- json_loads input ;;
    data <- validate_input data GetOwnedAllDomainsTool_schema ;;
    owned_domains <- await (solana_kit "get_owned_all_domains" [getitem data "owner"] []) ;;
    ret (if truthy owned_domains then VDict [("domains", owned_domains);
        ("message", VStr "Success")] else VDict [("message", VStr "No owned domains found")])
  ) (fun e =>
    ret (VDict [("message", VStr ("Error fetching owned domains: " ++ exc_msg e))])).

Definition GetOwnedAllDomainsTool_run : M value :=
  raise (NotImplementedError
    "This tool only supports async execution via _arun. Please use the async interface.").

(** [class LightProtocolSendCompressedAirdropTool], line 5925 *)
Definition LightProtocolSendCompressedAirdropTool_schema : Schema :=
  [("mint_address", mkRule [Tstr] true None None);
   ("amount", mkRule [Tfloat] true None None);
   ("decimals", mkRule [Tint] true None None);
   ("recipients", mkRule [Tlist] true None None);
   ("priority_fee_in_lamports", mkRule [Tint] true None None);
   ("should_log", mkRule [Tbool] false None None)].

Definition LightProtocolSendCompressedAirdropTool_arun (input : string) : TryExcept value :=
  Try (
    data <- json_loads input ;;
    data <- validate_input data LightProtocolSendCompressedAirdropTool_schema ;;
    transaction_ids <- await (solana_kit "send_compressed_airdrop" [] [KW "mint_address" (getitem data "mint_address");
        KW "amount" (getitem data "amount"); KW "decimals" (getitem data "decimals");
        KW "recipients" (getitem data "recipients");
        KW "priority_fee_in_lamports" (getitem data "priority_fee_in_lamports");
        KW "should_log" (get_default data "should_log" (VBool false))]) ;;
    ret (VDict [("transaction_ids", transaction_ids); ("message", VStr "Success")])
  ) (fun e =>
    ret (VDict [("transaction_ids", VNone);
        ("message", VStr ("Error sending compressed airdrop: " ++ exc_msg e))])).

Definition LightProtocolSendCompressedAirdropTool_run (input : string) : M value :=
  raise (NotImplementedError
    "This tool only supports async execution via _arun. Please use the async interface.").

(** [class ManifestCreateMarketTool], line 5981 *)
Definition ManifestCreateMarketTool_schema : Schema :=
  [("base_mint", mkRule [Tstr] true None None);
   ("quote_mint", mkRule [Tstr] true None None)].

Definition ManifestCreateMarketTool_arun (input : string) : TryExcept value :=
  Try (
    data <- json_loads input ;;
    data <- validate_input data ManifestCreateMarketTool_schema ;;
    market_data <- await (solana_kit "create_manifest_market" [] [KW "base_mint" (getitem data "base_mint");
        KW "quote_mint" (getitem data "quote_mint")]) ;;
    ret (VDict [("market_data", market_data); ("message", VStr "Success")])
  ) (fun e =>
    ret (VDict [("market_data", VNone);
        ("message", VStr ("Error creating market: " ++ exc_msg e))])).

Definition ManifestCreateMarketTool_run (input : string) : M value :=
  raise (NotImplementedError
    "This tool only supports async execution via _arun. Please use the async interface.").

(** [class ManifestPlaceLimitOrderTool], line 6024 *)
Definition ManifestPlaceLimitOrderTool_schema : Schema :=
  [("market_id", mkRule [Tstr] true None None);
   ("quantity", mkRule [Tfloat] true None None);
   ("side", mkRule [Tstr] true None None);
   ("price", mkRule [Tfloat] true None None)].

Definition ManifestPlaceLimitOrderTool_arun (input : string) : TryExcept value :=
  Try (
    data <- json_loads input ;;
    data <- validate_input data ManifestPlaceLimitOrderTool_schema ;;
    order_details <- await (solana_kit "place_limit_order" [] [KW "market_id" (getitem data "market_id");
        KW "quantity" (getitem data "quantity"); KW "side" (getitem data "side");
        KW "price" (getitem data "price")]) ;;
    ret (VDict [("order_details", order_details); ("message", VStr "Success")])
  ) (fun e =>
    ret (VDict [("order_details", VNone);
        ("message", VStr ("Error placing limit order: " ++ exc_msg e))])).

Definition ManifestPlaceLimitOrderTool_run (input : string) : M value :=
  raise (NotImplementedError
    "This tool only supports async execution via _arun. Please use the async interface.").

(** [class ManifestPlaceBatchOrdersTool], line 6073 *)
Definition ManifestPlaceBatchOrdersTool_schema : Schema :=
  [("market_id", mkRule [Tstr] true None None);
   ("orders", mkRule [Tlist] true None None)].

Definition ManifestPlaceBatchOrdersTool_arun (input : string) : TryExcept value :=
  Try (
    data <- json_loads input ;;
    data <- validate_input data ManifestPlaceBatchOrdersTool_schema ;;
    batch_order_details <- await (solana_kit "place_batch_orders" [] [KW "market_id" (getitem data "market_id");
        KW "orders" (getitem data "orders")]) ;;
    ret (VDict [("batch_order_details", batch_order_details); ("message", VStr "Success")])
  ) (fun e =>
    ret (VDict [("batch_order_details", VNone);
        ("message", VStr ("Error placing batch orders: " ++ exc_msg e))])).

Definition ManifestPlaceBatchOrdersTool_run (input : string) : M value :=
  raise (NotImplementedError
    "This tool only supports async execution via _arun. Please use the async interface.").

(** [class ManifestCancelAllOrdersTool], line 6116 *)
Definition ManifestCancelAllOrdersTool_schema : Schema :=
  [("market_id", mkRule [Tstr] true None None)].

Definition ManifestCancelAllOrdersTool_arun (input : string) : TryExcept value :=
  Try (
    data <- json_loads input ;;
    data <- validate_input data ManifestCancelAllOrdersTool_schema ;;
    cancellation_result <- await (solana_kit "cancel_all_orders" [] [KW "market_id" (getitem data "market_id")]) ;;
    ret (VDict [("cancellation_result", cancellation_result); ("message", VStr "Success")])
  ) (fun e =>
    ret (VDict [("cancellation_result", VNone);
        ("message", VStr ("Error canceling all orders: " ++ exc_msg e))])).

Definition ManifestCancelAllOrdersTool_run (input : string) : M value :=
  raise (NotImplementedError
    "This tool only supports async execution via _arun. Please use the async interface.").

(** [class ManifestWithdrawAllTool], line 6156 *)
Definition ManifestWithdrawAllTool_schema : Schema :=
  [("market_id", mkRule [Tstr] true None None)].

Definition ManifestWithdrawAllTool_arun (input : string) : TryExcept value :=
  Try (
    data <- json_loads input ;;
    data <- validate_input data ManifestWithdrawAllTool_schema ;;
    withdrawal_result <- await (solana_kit "withdraw_all" [] [KW "market_id" (getitem data "market_id")]) ;;
    ret (VDict [("withdrawal_result", withdrawal_result); ("message", VStr "Success")])
  ) (fun e =>
    ret (VDict [("withdrawal_result", VNone);
        ("message", VStr ("Error withdrawing all assets: " ++ exc_msg e))])).

Definition ManifestWithdrawAllTool_run (input : string) : M value :=
  raise (NotImplementedError
    "This tool only supports async execution via _arun. Please use the async interface.").


Definition OpenBookCreateMarketTool_arun (input : string) : TryExcept value :=
  Try (
    data <- json_loads input ;;
    market_data <- await (solana_kit "create_openbook_market" [] [KW "base_mint" (getitem data "base_mint");
        KW "quote_mint" (getitem data "quote_mint");
        KW "lot_size" (get_default data "lot_size" (VInt 1));
        KW "tick_size" (get_default data "tick_size" (VFloat (5764607523034235 # 576460752303423488)%Q))]) ;;
    ret (VDict [("market_data", market_data); ("message", VStr "Success")])
  ) (fun e =>
    ret (VDict [("market_data", VNone);
        ("message", VStr ("Error creating OpenBook market: " ++ exc_msg e))])).

Definition OpenBookCreateMarketTool_run (input : string) : M value :=
  raise (NotImplementedError
    "This tool only supports async execution via _arun. Please use the async interface.").

(** [class OrcaClosePositionTool], line 6244 *)
Definition OrcaClosePositionTool_schema : Schema :=
  [("position_mint_address", mkRule [Tstr] true None None)].

Definition OrcaClosePositionTool_arun (input : string) : TryExcept value :=
  Try (
    data <- json_loads input ;;
    data <- validate_input data OrcaClosePositionTool_schema ;;
    closure_result <- await (solana_kit "close_position" [] [KW "position_mint_address" (getitem data "position_mint_address")]) ;;
    ret (VDict [("closure_result", closure_result); ("message", VStr "Success")])
  ) (fun e =>
    ret (VDict [("closure_result", VNone);
        ("message", VStr ("Error closing position: " ++ exc_msg e))])).

Definition OrcaClosePositionTool_run (input : string) : M value :=
  raise (NotImplementedError
    "This tool only supports async execution via _arun. Please use the async interface.").

(** [class OrcaCreateClmmTool], line 6284 *)
Definition OrcaCreateClmmTool_schema : Schema :=
  [("mint_deploy", mkRule [Tstr] true None None);
   ("mint_pair", mkRule [Tstr] true None None);
   ("initial_price", mkRule [Tfloat] true None None);
   ("fee_tier", mkRule [Tstr] true None None)].

Definition OrcaCreateClmmTool_arun (input : string) : TryExcept value :=
  Try (
    data <- json_loads input ;;
    data <- validate_input data OrcaCreateClmmTool_schema ;;
    clmm_data <- await (solana_kit "create_clmm" [] [KW "mint_deploy" (getitem data "mint_deploy");
        KW "mint_pair" (getitem data "mint_pair");
        KW "initial_price" (getitem data "initial_price");
        KW "fee_tier" (getitem data "fee_tier")]) ;;
    ret (VDict [("clmm_data", clmm_data); ("message", VStr "Success")])
  ) (fun e =>
    ret (VDict [("clmm_data", VNone); ("message", VStr ("Error creating CLMM: " ++ exc_msg e))])).

Definition OrcaCreateClmmTool_run (input : string) : M value :=
  raise (NotImplementedError
    "This tool only supports async execution via _arun. Please use the async interface.").

(** [class OrcaCreateLiquidityPoolTool], line 6333 *)
Definition OrcaCreateLiquidityPoolTool_schema : Schema :=
  [("deposit_token_amount", mkRule [Tfloat] true None None);
   ("deposit_token_mint", mkRule [Tstr] true None None);
   ("other_token_mint", mkRule [Tstr] true None None);
   ("initial_price", mkRule [Tfloat] true None None);
   ("max_price", mkRule [Tfloat] true None None);
   ("fee_tier", mkRule [Tstr] true None None)].

Definition OrcaCreateLiquidityPoolTool_arun (input : string) : TryExcept value :=
  Try (
    data <- json_loads input ;;
    data <- validate_input data OrcaCreateLiquidityPoolTool_schema ;;
    pool_data <- await (solana_kit "create_liquidity_pool" [] [KW "deposit_token_amount" (getitem data "deposit_token_amount");
        KW "deposit_token_mint" (getitem data "deposit_token_mint");
        KW "other_token_mint" (getitem data "other_token_mint");
        KW "initial_price" (getitem data "initial_price");
        KW "max_price" (getitem data "max_price"); KW "fee_tier" (getitem data "fee_tier")]) ;;
    ret (VDict [("pool_data", pool_data); ("message", VStr "Success")])
  ) (fun e =>
    ret (VDict [("pool_data", VNone);
        ("message", VStr ("Error creating liquidity pool: " ++ exc_msg e))])).

Definition OrcaCreateLiquidityPoolTool_run (input : string) : M value :=
  raise (NotImplementedError
    "This tool only supports async execution via _arun. Please use the async interface.").

(** [class OrcaFetchPositionsTool], line 6388 *)
Definition OrcaFetchPositionsTool_arun (input : string) : TryExcept value :=
  Try (
    positions <- await (solana_kit "fetch_positions" [] []) ;;
    ret (VDict [("positions", positions); ("message", VStr "Success")])
  ) (fun e =>
    ret (VDict [("positions", VNone);
        ("message", VStr ("Error fetching positions: " ++ exc_msg e))])).

Definition OrcaFetchPositionsTool_run (input : string) : M value :=
  raise (NotImplementedError
    "This tool only supports async execution via _arun. Please use the async interface.").

(** [class OrcaOpenCenteredPositionTool], line 6418 *)
Definition OrcaOpenCenteredPositionTool_schema : Schema :=
  [("whirlpool_address", mkRule [Tstr] true None None);
   ("price_offset_bps", mkRule [Tint] true None None);
   ("input_token_mint", mkRule [Tstr] true None None);
   ("input_amount", mkRule [Tfloat] true None None)].

Definition OrcaOpenCenteredPositionTool_arun (input : string) : TryExcept value :=
  Try (
    data <- json_loads input ;;
    data <- validate_input data OrcaOpenCenteredPositionTool_schema ;;
    position_data <- await (solana_kit "open_centered_position" [] [KW "whirlpool_address" (getitem data "whirlpool_address");
        KW "price_offset_bps" (getitem data "price_offset_bps");
        KW "input_token_mint" (getitem data "input_token_mint");
        KW "input_amount" (getitem data "input_amount")]) ;;
    ret (VDict [("position_data", position_data); ("message", VStr "Success")])
  ) (fun e =>
    ret (VDict [("position_data", VNone);
        ("message", VStr ("Error opening centered position: " ++ exc_msg e))])).

Definition OrcaOpenCenteredPositionTool_run (input : string) : M value :=
  raise (NotImplementedError
    "This tool only supports async execution via _arun. Please use the async interface.").

(** [class OrcaOpenSingleSidedPositionTool], line 6467 *)
Definition OrcaOpenSingleSidedPositionTool_schema : Schema :=
  [("whirlpool_address", mkRule [Tstr] true None None);
   ("distance_from_current_price_bps", mkRule [Tint] true None None);
   ("width_bps", mkRule [Tint] true None None);
   ("input_token_mint", mkRule [Tstr] true None None);
   ("input_amount", mkRule [Tfloat] true None None)].

Definition OrcaOpenSingleSidedPositionTool_arun (input : string) : TryExcept value :=
  Try (
    data <- json_loads input ;;
    data <- validate_input data OrcaOpenSingleSidedPositionTool_schema ;;
    position_data <- await (solana_kit "open_single_sided_position" [] [KW "whirlpool_address" (getitem data "whirlpool_address");
        KW "distance_from_current_price_bps" (getitem data "distance_from_current_price_bps");
        KW "width_bps" (getitem data "width_bps");
        KW "input_token_mint" (getitem data "input_token_mint");
        KW "input_amount" (getitem data "input_amount")]) ;;
    ret (VDict [("position_data", position_data); ("message", VStr "Success")])
  ) (fun e =>
    ret (VDict [("position_data", VNone);
        ("message", VStr ("Error opening single-sided position: " ++ exc_msg e))])).

Definition OrcaOpenSingleSidedPositionTool_run (input : string) : M value :=
  raise (NotImplementedError
    "This tool only supports async execution via _arun. Please use the async interface.").

(** [class CoingeckoGetTrendingTokensTool], line 6519 *)
Definition CoingeckoGetTrendingTokensTool_arun (input : string) : TryExcept value :=
  Try (
    trending_tokens <- await (agent_kit "get_trending_tokens" [] []) ;;
    ret (VDict [("trending_tokens", trending_tokens); ("message", VStr "Success")])
  ) (fun e =>
    ret (VDict [("trending_tokens", VNone);
        ("message", VStr ("Error fetching trending tokens: " ++ exc_msg e))])).

Definition CoingeckoGetTrendingTokensTool_run (input : string) : M value :=
  raise (NotImplementedError
    "This tool only supports async execution via _arun. Please use the async interface.").

(** [class CoingeckoGetTrendingPoolsTool], line 6549 *)
Definition CoingeckoGetTrendingPoolsTool_schema : Schema :=
  [("duration", mkRule [Tstr] false None None)].

Definition CoingeckoGetTrendingPoolsTool_arun (input : string) : TryExcept value :=
  Try (
    data <- json_loads input ;;
    data <- validate_input data CoingeckoGetTrendingPoolsTool_schema ;;
    trending_pools <- await (agent_kit "get_trending_pools" [] [KW "duration" (get_default data "duration" (VStr "24h"))]) ;;
    ret (VDict [("trending_pools", trending_pools); ("message", VStr "Success")])
  ) (fun e =>
    ret (VDict [("trending_pools", VNone);
        ("message", VStr ("Error fetching trending pools: " ++ exc_msg e))])).

Definition CoingeckoGetTrendingPoolsTool_run (input : string) : M value :=
  raise (NotImplementedError
    "This tool only supports async execution via _arun. Please use the async interface.").

(** [class CoingeckoGetTopGainersTool], line 6589 *)
Definition CoingeckoGetTopGainersTool_schema : Schema :=
  [("duration", mkRule [Tstr] false None None);
   ("top_coins", mkRule [Tint; Tstr] false None None)].

Definition CoingeckoGetTopGainersTool_arun (input : string) : TryExcept value :=
  Try (
    data <- json_loads input ;;
    data <- validate_input data CoingeckoGetTopGainersTool_schema ;;
    top_gainers <- await (agent_kit "get_top_gainers" [] [KW "duration" (get_default data "duration" (VStr "24h"));
        KW "top_coins" (get_default data "top_coins" (VStr "all"))]) ;;
    ret (VDict [("top_gainers", top_gainers); ("message", VStr "Success")])
  ) (fun e =>
    ret (VDict [("top_gainers", VNone);
        ("message", VStr ("Error fetching top gainers: " ++ exc_msg e))])).

Definition CoingeckoGetTopGainersTool_run (input : string) : M value :=
  raise (NotImplementedError
    "This tool only supports async execution via _arun. Please use the async interface.").

(** [class CoingeckoGetTokenPriceDataTool], line 6632 *)
Definition CoingeckoGetTokenPriceDataTool_schema : Schema :=
  [("token_addresses", mkRule [Tlist] true None None)].

Definition CoingeckoGetTokenPriceDataTool_arun (input : string) : TryExcept value :=
  Try (
    data <- json_loads input ;;
    data <- validate_input data CoingeckoGetTokenPriceDataTool_schema ;;
    price_data <- await (agent_kit "get_token_price_data" [] [KW "token_addresses" (getitem data "token_addresses")]) ;;
    ret (VDict [("price_data", price_data); ("message", VStr "Success")])
  ) (fun e =>
    ret (VDict [("price_data", VNone);
        ("message", VStr ("Error fetching token price data: " ++ exc_msg e))])).

Definition CoingeckoGetTokenPriceDataTool_run (input : string) : M value :=
  raise (NotImplementedError
    "This tool only supports async execution via _arun. Please use the async interface.").

(** [class CoingeckoGetTokenInfoTool], line 6672 *)
Definition CoingeckoGetTokenInfoTool_schema : Schema :=
  [("token_address", mkRule [Tstr] true None None)].

Definition CoingeckoGetTokenInfoTool_arun (input : string) : TryExcept value :=
  Try (
    data <- json_loads input ;;
    data <- validate_input data CoingeckoGetTokenInfoTool_schema ;;
    token_info <- await (agent_kit "get_token_info" [] [KW "token_address" (getitem data "token_address")]) ;;
    ret (VDict [("token_info", token_info); ("message", VStr "Success")])
  ) (fun e =>
    ret (VDict [("token_info", VNone);
        ("message", VStr ("Error fetching token info: " ++ exc_msg e))])).

Definition CoingeckoGetTokenInfoTool_run (input : string) : M value :=
  raise (NotImplementedError
    "This tool only supports async execution via _arun. Please use the async interface.").

(** [class CoingeckoGetLatestPoolsTool], line 6712 *)
Definition CoingeckoGetLatestPoolsTool_arun (input : string) : TryExcept value :=
  Try (
    latest_pools <- await (agent_kit "get_latest_pools" [] []) ;;
    ret (VDict [("latest_pools", latest_pools); ("message", VStr "Success")])
  ) (fun e =>
    ret (VDict [("latest_pools", VNone);
        ("message", VStr ("Error fetching latest pools: " ++ exc_msg e))])).

Definition CoingeckoGetLatestPoolsTool_run (input : string) : M value :=
  raise (NotImplementedError
    "This tool only supports async execution via _arun. Please use the async interface.").

(** [class ElfaAiPingApiTool], line 6743 *)
Definition ElfaAiPingApiTool_arun (input : string) : TryExcept value :=
  Try (
    api_response <- await (agent_kit "ping_elfa_ai_api" [] []) ;;
    ret (VDict [("api_response", api_response); ("message", VStr "Success")])
  ) (fun e =>
    ret (VDict [("api_response", VNone);
        ("message", VStr ("Error pinging Elfa AI API: " ++ exc_msg e))])).

Definition ElfaAiPingApiTool_run (input : string) : M value :=
  raise (NotImplementedError
    "This tool only supports async execution via _arun. Please use the async interface.").

(** [class ElfaAiGetApiKeyStatusTool], line 6773 *)
Definition ElfaAiGetApiKeyStatusTool_arun (input : string) : TryExcept value :=
  Try (
    api_key_status <- await (agent_kit "get_elfa_ai_api_key_status" [] []) ;;
    ret (VDict [("api_key_status", api_key_status); ("message", VStr "Success")])
  ) (fun e =>
    ret (VDict [("api_key_status", VNone);
        ("message", VStr ("Error fetching Elfa AI API key status: " ++ exc_msg e))])).

Definition ElfaAiGetApiKeyStatusTool_run (input : string) : M value :=
  raise (NotImplementedError
    "This tool only supports async execution via _arun. Please use the async interface.").

(** [class ElfaAiGetSmartMentionsTool], line 6803 *)
Definition ElfaAiGetSmartMentionsTool_arun (input : string) : TryExcept value :=
  Try (
    data <- json_loads input ;;
    mentions_data <- await (agent_kit "get_smart_mentions" [] [KW "limit" (get_default data "limit" (VInt 100));
        KW "offset" (get_default data "offset" (VInt 0))]) ;;
    ret (VDict [("mentions_data", mentions_data); ("message", VStr "Success")])
  ) (fun e =>
    ret (VDict [("mentions_data", VNone);
        ("message", VStr ("Error fetching smart mentions: " ++ exc_msg e))])).

Definition ElfaAiGetSmartMentionsTool_run (input : string) : M value :=
  raise (NotImplementedError
    "This tool only supports async execution via _arun. Please use the async interface.").

(** [class ElfaAiGetTopMentionsByTickerTool], line 6841 *)
Definition ElfaAiGetTopMentionsByTickerTool_arun (input : string) : TryExcept value :=
  Try (
    data <- json_loads input ;;
    mentions_data <- await (agent_kit "get_top_mentions_by_ticker" [] [KW "ticker" (getitem data "ticker");
        KW "time_window" (get_default data "time_window" (VStr "1h"));
        KW "page" (get_default data "page" (VInt 1));
        KW "page_size" (get_default data "page_size" (VInt 10));
        KW "include_account_details" (get_default data "include_account_details" (VBool false))]) ;;
    ret (VDict [("mentions_data", mentions_data); ("message", VStr "Success")])
  ) (fun e =>
    ret (VDict [("mentions_data", VNone);
        ("message", VStr ("Error fetching top mentions by ticker: " ++ exc_msg e))])).

Definition ElfaAiGetTopMentionsByTickerTool_run (input : string) : M value :=
  raise (NotImplementedError
    "This tool only supports async execution via _arun. Please use the async interface.").

(** [class ElfaAiSearchMentionsByKeywordsTool], line 6886 *)
Definition ElfaAiSearchMentionsByKeywordsTool_arun (input : string) : TryExcept value :=
  Try (
    data <- json_loads input ;;
    search_results <- await (agent_kit "search_mentions_by_keywords" [] [KW "keywords" (getitem data "keywords");
        KW "from_timestamp" (getitem data "from_timestamp");
        KW "to_timestamp" (getitem data "to_timestamp");
        KW "limit" (get_default data "limit" (VInt 20)); KW "cursor" (get data "cursor")]) ;;
    ret (VDict [("search_results", search_results); ("message", VStr "Success")])
  ) (fun e =>
    ret (VDict [("search_results", VNone);
        ("message", VStr ("Error searching mentions by keywords: " ++ exc_msg e))])).

Definition ElfaAiSearchMentionsByKeywordsTool_run (input : string) : M value :=
  raise (NotImplementedError
    "This tool only supports async execution via _arun. Please use the async interface.").

(** [class ElfaAiGetTrendingTokensTool], line 6930 *)
Definition ElfaAiGetTrendingTokensTool_arun (input : string) : TryExcept value :=
  Try (
    data <- json_loads input ;;
    trending_tokens <- await (agent_kit "get_trending_tokens_using_elfa_ai" [] [KW "time_window" (get_default data "time_window" (VStr "24h"));
        KW "page" (get_default data "page" (VInt 1));
        KW "page_size" (get_default data "page_size" (VInt 50));
        KW "min_mentions" (get_default data "min_mentions" (VInt 5))]) ;;
    ret (VDict [("trending_tokens", trending_tokens); ("message", VStr "Success")])
  ) (fun e =>
    ret (VDict [("trending_tokens", VNone);
        ("message", VStr ("Error fetching trending tokens using Elfa AI: " ++ exc_msg e))])).

Definition ElfaAiGetTrendingTokensTool_run (input : string) : M value :=
  raise (NotImplementedError
    "This tool only supports async execution via _arun. Please use the async interface.").

(** [class ElfaAiGetSmartTwitterAccountStatsTool], line 6972 *)
Definition ElfaAiGetSmartTwitterAccountStatsTool_arun (input : string) : TryExcept value :=
  Try (
    data <- json_loads input ;;
    account_stats <- await (agent_kit "get_smart_twitter_account_stats" [] [KW "username" (getitem data "username")]) ;;
    ret (VDict [("account_stats", account_stats); ("message", VStr "Success")])
  ) (fun e =>
    ret (VDict [("account_stats", VNone);
        ("message", VStr ("Error fetching smart Twitter account stats: " ++ exc_msg e))])).

Definition ElfaAiGetSmartTwitterAccountStatsTool_run (input : string) : M value :=
  raise (NotImplementedError
    "This tool only supports async execution via _arun. Please use the async interface.").

(** [class FluxBeamCreatePoolTool], line 7008 *)
Definition FluxBeamCreatePoolTool_arun (input : string) : TryExcept value :=
  Try (
    data <- json_loads input ;;
    transaction_signature <- await (agent_kit "fluxbeam_create_pool" [] [KW "token_a" (x1 <- getitem data "token_a" ;;
        Pubkey_from_string x1); KW "token_a_amount" (getitem data "token_a_amount");
        KW "token_b" (x2 <- getitem data "token_b" ;; Pubkey_from_string x2);
        KW "token_b_amount" (getitem data "token_b_amount")]) ;;
    ret (VDict [("transaction_signature", transaction_signature); ("message", VStr "Success")])
  ) (fun e =>
    ret (VDict [("transaction_signature", VNone);
        ("message", VStr ("Error creating pool using FluxBeam: " ++ exc_msg e))])).

Definition FluxBeamCreatePoolTool_run (input : string) : M value :=
  raise (NotImplementedError
    "This tool only supports async execution via _arun. Please use the async interface.").

(** [class LuloLendTool], line 7050 *)
Definition LuloLendTool_arun (input : string) : TryExcept value :=
  Try (
    data <- json_loads input ;;
    transaction_signature <- await (agent_kit "lulo_lend" [] [KW "mint_address" (x1 <- getitem data "mint_address" ;;
        Pubkey_from_string x1); KW "amount" (getitem data "amount")]) ;;
    ret (VDict [("transaction_signature", transaction_signature); ("message", VStr "Success")])
  ) (fun e =>
    ret (VDict [("transaction_signature", VNone);
        ("message", VStr ("Error lending asset using Lulo: " ++ exc_msg e))])).

Definition LuloLendTool_run (input : string) : M value :=
  raise (NotImplementedError
    "This tool only supports async execution via _arun. Please use the async interface.").

(** [class LuloWithdrawTool], line 7088 *)
Definition LuloWithdrawTool_arun (input : string) : TryExcept value :=
  Try (
    data <- json_loads input ;;
    transaction_signature <- await (agent_kit "lulo_withdraw" [] [KW "mint_address" (x1 <- getitem data "mint_address" ;;
        Pubkey_from_string x1); KW "amount" (getitem data "amount")]) ;;
    ret (VDict [("transaction_signature", transaction_signature); ("message", VStr "Success")])
  ) (fun e =>
    ret (VDict [("transaction_signature", VNone);
        ("message", VStr ("Error withdrawing asset using Lulo: " ++ exc_msg e))])).

Definition LuloWithdrawTool_run (input : string) : M value :=
  raise (NotImplementedError
    "This tool only supports async execution via _arun. Please use the async interface.").
End Adapters.

(** The adapter classes, in the order of their declaration. *)
Inductive Tool :=
| SolanaBalanceTool
| SolanaTransferTool
| SolanaDeployTokenTool
| SolanaTradeTool
| SolanaFaucetTool
| SolanaStakeTool
| SolanaGetWalletAddressTool
| SolanaCreateImageTool
| SolanaTPSCalculatorTool
| SolanaPumpFunTokenTool
| SolanaFetchPriceTool
| SolanaTokenDataTool
| SolanaTokenDataByTickerTool
| SolanaMeteoraDLMMTool
| SolanaRaydiumBuyTool
| SolanaRaydiumSellTool
| SolanaBurnAndCloseTool
| SolanaBurnAndCloseMultipleTool
| SolanaCreateGibworkTaskTool
| SolanaBuyUsingMoonshotTool
| SolanaSellUsingMoonshotTool
| SolanaPythGetPriceTool
| SolanaHeliusGetBalancesTool
| SolanaHeliusGetAddressNameTool
| SolanaHeliusGetNftEventsTool
| SolanaHeliusGetMintlistsTool
| SolanaHeliusGetNFTFingerprintTool
| SolanaHeliusGetActiveListingsTool
| SolanaHeliusGetNFTMetadataTool
| SolanaHeliusGetRawTransactionsTool
| SolanaHeliusGetParsedTransactionsTool
| SolanaHeliusGetParsedTransactionHistoryTool
| SolanaHeliusCreateWebhookTool
| SolanaHeliusGetAllWebhooksTool
| SolanaHeliusGetWebhookTool
| SolanaHeliusEditWebhookTool
| SolanaHeliusDeleteWebhookTool
| SolanaFetchTokenReportSummaryTool
| SolanaFetchTokenDetailedReportTool
| SolanaGetPumpCurveStateTool
| SolanaCalculatePumpCurvePriceTool
| SolanaBuyTokenTool
| SolanaSellTokenTool
| SolanaSNSResolveTool
| SolanaSNSRegisterDomainTool
| SolanaSNSGetFavouriteDomainTool
| SolanaSNSGetAllDomainsTool
| SolanaDeployCollectionTool
| SolanaGetMetaplexAssetTool
| SolanaGetMetaplexAssetsByCreatorTool
| SolanaGetMetaplexAssetsByAuthorityTool
| SolanaMintMetaplexCoreNFTTool
| SolanaDeBridgeCreateTransactionTool
| SolanaDeBridgeExecuteTransactionTool
| SolanaDeBridgeCheckTransactionStatusTool
| SolanaCybersCreateCoinTool
| SolanaGetTipAccounts
| SolanaGetRandomTipAccount
| SolanaGetBundleStatuses
| SolanaSendBundle
| SolanaGetInflightBundleStatuses
| SolanaSendTxn
| StorkGetPriceTool
| BackpackGetAccountBalancesTool
| BackpackRequestWithdrawalTool
| BackpackGetAccountSettingsTool
| BackpackUpdateAccountSettingsTool
| BackpackGetBorrowLendPositionsTool
| BackpackExecuteBorrowLendTool
| BackpackGetFillHistoryTool
| BackpackGetBorrowPositionHistoryTool
| BackpackGetFundingPaymentsTool
| BackpackGetOrderHistoryTool
| BackpackGetPnlHistoryTool
| BackpackGetSettlementHistoryTool
| BackpackGetUsersOpenOrdersTool
| BackpackExecuteOrderTool
| BackpackCancelOpenOrderTool
| BackpackGetOpenOrdersTool
| BackpackCancelOpenOrdersTool
| BackpackGetSupportedAssetsTool
| BackpackGetTickerInformationTool
| BackpackGetMarketsTool
| BackpackGetMarketTool
| BackpackGetTickersTool
| BackpackGetDepthTool
| BackpackGetKlinesTool
| BackpackGetMarkPriceTool
| BackpackGetOpenInterestTool
| BackpackGetFundingIntervalRatesTool
| BackpackGetStatusTool
| BackpackSendPingTool
| BackpackGetSystemTimeTool
| BackpackGetRecentTradesTool
| BackpackGetHistoricalTradesTool
| BackpackGetCollateralInfoTool
| BackpackGetAccountDepositsTool
| BackpackGetOpenPositionsTool
| BackpackGetBorrowHistoryTool
| BackpackGetInterestHistoryTool
| ClosePerpTradeShortTool
| ClosePerpTradeLongTool
| OpenPerpTradeLongTool
| OpenPerpTradeShortTool
| Create3LandCollectionTool
| Create3LandNFTTool
| CreateDriftUserAccountTool
| DepositToDriftUserAccountTool
| WithdrawFromDriftUserAccountTool
| TradeUsingDriftPerpAccountTool
| CheckIfDriftAccountExistsTool
| DriftUserAccountInfoTool
| GetAvailableDriftMarketsTool
| StakeToDriftInsuranceFundTool
| RequestUnstakeFromDriftInsuranceFundTool
| UnstakeFromDriftInsuranceFundTool
| DriftSwapSpotTokenTool
| GetDriftPerpMarketFundingRateTool
| GetDriftEntryQuoteOfPerpTradeTool
| GetDriftLendBorrowApyTool
| CreateDriftVaultTool
| UpdateDriftVaultDelegateTool
| UpdateDriftVaultTool
| GetDriftVaultInfoTool
| DepositIntoDriftVaultTool
| RequestWithdrawalFromDriftVaultTool
| WithdrawFromDriftVaultTool
| DeriveDriftVaultAddressTool
| TradeUsingDelegatedDriftVaultTool
| FlashOpenTradeTool
| FlashCloseTradeTool
| ResolveAllDomainsTool
| GetOwnedDomainsForTLDTool
| GetAllDomainsTLDsTool
| GetOwnedAllDomainsTool
| LightProtocolSendCompressedAirdropTool
| ManifestCreateMarketTool
| ManifestPlaceLimitOrderTool
| ManifestPlaceBatchOrdersTool
| ManifestCancelAllOrdersTool
| ManifestWithdrawAllTool
| OpenBookCreateMarketTool
| OrcaClosePositionTool
| OrcaCreateClmmTool
| OrcaCreateLiquidityPoolTool
| OrcaFetchPositionsTool
| OrcaOpenCenteredPositionTool
| OrcaOpenSingleSidedPositionTool
| CoingeckoGetTrendingTokensTool
| CoingeckoGetTrendingPoolsTool
| CoingeckoGetTopGainersTool
| CoingeckoGetTokenPriceDataTool
| CoingeckoGetTokenInfoTool
| CoingeckoGetLatestPoolsTool
| ElfaAiPingApiTool
| ElfaAiGetApiKeyStatusTool
| ElfaAiGetSmartMentionsTool
| ElfaAiGetTopMentionsByTickerTool
| ElfaAiSearchMentionsByKeywordsTool
| ElfaAiGetTrendingTokensTool
| ElfaAiGetSmartTwitterAccountStatsTool
| FluxBeamCreatePoolTool
| LuloLendTool
| LuloWithdrawTool.
Definition declaration_order : list Tool :=
  [SolanaBalanceTool; SolanaTransferTool; SolanaDeployTokenTool; SolanaTradeTool;
   SolanaFaucetTool; SolanaStakeTool; SolanaGetWalletAddressTool; SolanaCreateImageTool;
   SolanaTPSCalculatorTool; SolanaPumpFunTokenTool; SolanaFetchPriceTool; SolanaTokenDataTool;
   SolanaTokenDataByTickerTool; SolanaMeteoraDLMMTool; SolanaRaydiumBuyTool;
   SolanaRaydiumSellTool; SolanaBurnAndCloseTool; SolanaBurnAndCloseMultipleTool;
   SolanaCreateGibworkTaskTool; SolanaBuyUsingMoonshotTool; SolanaSellUsingMoonshotTool;
   SolanaPythGetPriceTool; SolanaHeliusGetBalancesTool; SolanaHeliusGetAddressNameTool;
   SolanaHeliusGetNftEventsTool; SolanaHeliusGetMintlistsTool;
   SolanaHeliusGetNFTFingerprintTool; SolanaHeliusGetActiveListingsTool;
   SolanaHeliusGetNFTMetadataTool; SolanaHeliusGetRawTransactionsTool;
   SolanaHeliusGetParsedTransactionsTool; SolanaHeliusGetParsedTransactionHistoryTool;
   SolanaHeliusCreateWebhookTool; SolanaHeliusGetAllWebhooksTool; SolanaHeliusGetWebhookTool;
   SolanaHeliusEditWebhookTool; SolanaHeliusDeleteWebhookTool;
   SolanaFetchTokenReportSummaryTool; SolanaFetchTokenDetailedReportTool;
   SolanaGetPumpCurveStateTool; SolanaCalculatePumpCurvePriceTool; SolanaBuyTokenTool;
   SolanaSellTokenTool; SolanaSNSResolveTool; SolanaSNSRegisterDomainTool;
   SolanaSNSGetFavouriteDomainTool; SolanaSNSGetAllDomainsTool; SolanaDeployCollectionTool;
   SolanaGetMetaplexAssetTool; SolanaGetMetaplexAssetsByCreatorTool;
   SolanaGetMetaplexAssetsByAuthorityTool; SolanaMintMetaplexCoreNFTTool;
   SolanaDeBridgeCreateTransactionTool; SolanaDeBridgeExecuteTransactionTool;
   SolanaDeBridgeCheckTransactionStatusTool; SolanaCybersCreateCoinTool; SolanaGetTipAccounts;
   SolanaGetRandomTipAccount; SolanaGetBundleStatuses; SolanaSendBundle;
   SolanaGetInflightBundleStatuses; SolanaSendTxn; StorkGetPriceTool;
   BackpackGetAccountBalancesTool; BackpackRequestWithdrawalTool;
   BackpackGetAccountSettingsTool; BackpackUpdateAccountSettingsTool;
   BackpackGetBorrowLendPositionsTool; BackpackExecuteBorrowLendTool;
   BackpackGetFillHistoryTool; BackpackGetBorrowPositionHistoryTool;
   BackpackGetFundingPaymentsTool; BackpackGetOrderHistoryTool; BackpackGetPnlHistoryTool;
   BackpackGetSettlementHistoryTool; BackpackGetUsersOpenOrdersTool; BackpackExecuteOrderTool;
   BackpackCancelOpenOrderTool; BackpackGetOpenOrdersTool; BackpackCancelOpenOrdersTool;
   BackpackGetSupportedAssetsTool; BackpackGetTickerInformationTool; BackpackGetMarketsTool;
   BackpackGetMarketTool; BackpackGetTickersTool; BackpackGetDepthTool; BackpackGetKlinesTool;
   BackpackGetMarkPriceTool; BackpackGetOpenInterestTool; BackpackGetFundingIntervalRatesTool;
   BackpackGetStatusTool; BackpackSendPingTool; BackpackGetSystemTimeTool;
   BackpackGetRecentTradesTool; BackpackGetHistoricalTradesTool; BackpackGetCollateralInfoTool;
   BackpackGetAccountDepositsTool; BackpackGetOpenPositionsTool; BackpackGetBorrowHistoryTool;
   BackpackGetInterestHistoryTool; ClosePerpTradeShortTool; ClosePerpTradeLongTool;
   OpenPerpTradeLongTool; OpenPerpTradeShortTool; Create3LandCollectionTool;
   Create3LandNFTTool; CreateDriftUserAccountTool; DepositToDriftUserAccountTool;
   WithdrawFromDriftUserAccountTool; TradeUsingDriftPerpAccountTool;
   CheckIfDriftAccountExistsTool; DriftUserAccountInfoTool; GetAvailableDriftMarketsTool;
   StakeToDriftInsuranceFundTool; RequestUnstakeFromDriftInsuranceFundTool;
   UnstakeFromDriftInsuranceFundTool; DriftSwapSpotTokenTool;
   GetDriftPerpMarketFundingRateTool; GetDriftEntryQuoteOfPerpTradeTool;
   GetDriftLendBorrowApyTool; CreateDriftVaultTool; UpdateDriftVaultDelegateTool;
   UpdateDriftVaultTool; GetDriftVaultInfoTool; DepositIntoDriftVaultTool;
   RequestWithdrawalFromDriftVaultTool; WithdrawFromDriftVaultTool;
   DeriveDriftVaultAddressTool; TradeUsingDelegatedDriftVaultTool; FlashOpenTradeTool;
   FlashCloseTradeTool; ResolveAllDomainsTool; GetOwnedDomainsForTLDTool;
   GetAllDomainsTLDsTool; GetOwnedAllDomainsTool; LightProtocolSendCompressedAirdropTool;
   ManifestCreateMarketTool; ManifestPlaceLimitOrderTool; ManifestPlaceBatchOrdersTool;
   ManifestCancelAllOrdersTool; ManifestWithdrawAllTool; OpenBookCreateMarketTool;
   OrcaClosePositionTool; OrcaCreateClmmTool; OrcaCreateLiquidityPoolTool;
   OrcaFetchPositionsTool; OrcaOpenCenteredPositionTool; OrcaOpenSingleSidedPositionTool;
   CoingeckoGetTrendingTokensTool; CoingeckoGetTrendingPoolsTool; CoingeckoGetTopGainersTool;
   CoingeckoGetTokenPriceDataTool; CoingeckoGetTokenInfoTool; CoingeckoGetLatestPoolsTool;
   ElfaAiPingApiTool; ElfaAiGetApiKeyStatusTool; ElfaAiGetSmartMentionsTool;
   ElfaAiGetTopMentionsByTickerTool; ElfaAiSearchMentionsByKeywordsTool;
   ElfaAiGetTrendingTokensTool; ElfaAiGetSmartTwitterAccountStatsTool; FluxBeamCreatePoolTool;
   LuloLendTool; LuloWithdrawTool].

(** The position of a class in the order of declaration. *)
Definition declaration_index (t : Tool) : nat :=
  match t with
  | SolanaBalanceTool => 0
  | SolanaTransferTool => 1
  | SolanaDeployTokenTool => 2
  | SolanaTradeTool => 3
  | SolanaFaucetTool => 4
  | SolanaStakeTool => 5
  | SolanaGetWalletAddressTool => 6
  | SolanaCreateImageTool => 7
  | SolanaTPSCalculatorTool => 8
  | SolanaPumpFunTokenTool => 9
  | SolanaFetchPriceTool => 10
  | SolanaTokenDataTool => 11
  | SolanaTokenDataByTickerTool => 12
  | SolanaMeteoraDLMMTool => 13
  | SolanaRaydiumBuyTool => 14
  | SolanaRaydiumSellTool => 15
  | SolanaBurnAndCloseTool => 16
  | SolanaBurnAndCloseMultipleTool => 17
  | SolanaCreateGibworkTaskTool => 18
  | SolanaBuyUsingMoonshotTool => 19
  | SolanaSellUsingMoonshotTool => 20
  | SolanaPythGetPriceTool => 21
  | SolanaHeliusGetBalancesTool => 22
  | SolanaHeliusGetAddressNameTool => 23
  | SolanaHeliusGetNftEventsTool => 24
  | SolanaHeliusGetMintlistsTool => 25
  | SolanaHeliusGetNFTFingerprintTool => 26
  | SolanaHeliusGetActiveListingsTool => 27
  | SolanaHeliusGetNFTMetadataTool => 28
  | SolanaHeliusGetRawTransactionsTool => 29
  | SolanaHeliusGetParsedTransactionsTool => 30
  | SolanaHeliusGetParsedTransactionHistoryTool => 31
  | SolanaHeliusCreateWebhookTool => 32
  | SolanaHeliusGetAllWebhooksTool => 33
  | SolanaHeliusGetWebhookTool => 34
  | SolanaHeliusEditWebhookTool => 35
  | SolanaHeliusDeleteWebhookTool => 36
  | SolanaFetchTokenReportSummaryTool => 37
  | SolanaFetchTokenDetailedReportTool => 38
  | SolanaGetPumpCurveStateTool => 39
  | SolanaCalculatePumpCurvePriceTool => 40
  | SolanaBuyTokenTool => 41
  | SolanaSellTokenTool => 42
  | SolanaSNSResolveTool => 43
  | SolanaSNSRegisterDomainTool => 44
  | SolanaSNSGetFavouriteDomainTool => 45
  | SolanaSNSGetAllDomainsTool => 46
  | SolanaDeployCollectionTool => 47
  | SolanaGetMetaplexAssetTool => 48
  | SolanaGetMetaplexAssetsByCreatorTool => 49
  | SolanaGetMetaplexAssetsByAuthorityTool => 50
  | SolanaMintMetaplexCoreNFTTool => 51
  | SolanaDeBridgeCreateTransactionTool => 52
  | SolanaDeBridgeExecuteTransactionTool => 53
  | SolanaDeBridgeCheckTransactionStatusTool => 54
  | SolanaCybersCreateCoinTool => 55
  | SolanaGetTipAccounts => 56
  | SolanaGetRandomTipAccount => 57
  | SolanaGetBundleStatuses => 58
  | SolanaSendBundle => 59
  | SolanaGetInflightBundleStatuses => 60
  | SolanaSendTxn => 61
  | StorkGetPriceTool => 62
  | BackpackGetAccountBalancesTool => 63
  | BackpackRequestWithdrawalTool => 64
  | BackpackGetAccountSettingsTool => 65
  | BackpackUpdateAccountSettingsTool => 66
  | BackpackGetBorrowLendPositionsTool => 67
  | BackpackExecuteBorrowLendTool => 68
  | BackpackGetFillHistoryTool => 69
  | BackpackGetBorrowPositionHistoryTool => 70
  | BackpackGetFundingPaymentsTool => 71
  | BackpackGetOrderHistoryTool => 72
  | BackpackGetPnlHistoryTool => 73
  | BackpackGetSettlementHistoryTool => 74
  | BackpackGetUsersOpenOrdersTool => 75
  | BackpackExecuteOrderTool => 76
  | BackpackCancelOpenOrderTool => 77
  | BackpackGetOpenOrdersTool => 78
  | BackpackCancelOpenOrdersTool => 79
  | BackpackGetSupportedAssetsTool => 80
  | BackpackGetTickerInformationTool => 81
  | BackpackGetMarketsTool => 82
  | BackpackGetMarketTool => 83
  | BackpackGetTickersTool => 84
  | BackpackGetDepthTool => 85
  | BackpackGetKlinesTool => 86
  | BackpackGetMarkPriceTool => 87
  | BackpackGetOpenInterestTool => 88
  | BackpackGetFundingIntervalRatesTool => 89
  | BackpackGetStatusTool => 90
  | BackpackSendPingTool => 91
  | BackpackGetSystemTimeTool => 92
  | BackpackGetRecentTradesTool => 93
  | BackpackGetHistoricalTradesTool => 94
  | BackpackGetCollateralInfoTool => 95
  | BackpackGetAccountDepositsTool => 96
  | BackpackGetOpenPositionsTool => 97
  | BackpackGetBorrowHistoryTool => 98
  | BackpackGetInterestHistoryTool => 99
  | ClosePerpTradeShortTool => 100
  | ClosePerpTradeLongTool => 101
  | OpenPerpTradeLongTool => 102
  | OpenPerpTradeShortTool => 103
  | Create3LandCollectionTool => 104
  | Create3LandNFTTool => 105
  | CreateDriftUserAccountTool => 106
  | DepositToDriftUserAccountTool => 107
  | WithdrawFromDriftUserAccountTool => 108
  | TradeUsingDriftPerpAccountTool => 109
  | CheckIfDriftAccountExistsTool => 110
  | DriftUserAccountInfoTool => 111
  | GetAvailableDriftMarketsTool => 112
  | StakeToDriftInsuranceFundTool => 113
  | RequestUnstakeFromDriftInsuranceFundTool => 114
  | UnstakeFromDriftInsuranceFundTool => 115
  | DriftSwapSpotTokenTool => 116
  | GetDriftPerpMarketFundingRateTool => 117
  | GetDriftEntryQuoteOfPerpTradeTool => 118
  | GetDriftLendBorrowApyTool => 119
  | CreateDriftVaultTool => 120
  | UpdateDriftVaultDelegateTool => 121
  | UpdateDriftVaultTool => 122
  | GetDriftVaultInfoTool => 123
  | DepositIntoDriftVaultTool => 124
  | RequestWithdrawalFromDriftVaultTool => 125
  | WithdrawFromDriftVaultTool => 126
  | DeriveDriftVaultAddressTool => 127
  | TradeUsingDelegatedDriftVaultTool => 128
  | FlashOpenTradeTool => 129
  | FlashCloseTradeTool => 130
  | ResolveAllDomainsTool => 131
  | GetOwnedDomainsForTLDTool => 132
  | GetAllDomainsTLDsTool => 133
  | GetOwnedAllDomainsTool => 134
  | LightProtocolSendCompressedAirdropTool => 135
  | ManifestCreateMarketTool => 136
  | ManifestPlaceLimitOrderTool => 137
  | ManifestPlaceBatchOrdersTool => 138
  | ManifestCancelAllOrdersTool => 139
  | ManifestWithdrawAllTool => 140
  | OpenBookCreateMarketTool => 141
  | OrcaClosePositionTool => 142
  | OrcaCreateClmmTool => 143
  | OrcaCreateLiquidityPoolTool => 144
  | OrcaFetchPositionsTool => 145
  | OrcaOpenCenteredPositionTool => 146
  | OrcaOpenSingleSidedPositionTool => 147
  | CoingeckoGetTrendingTokensTool => 148
  | CoingeckoGetTrendingPoolsTool => 149
  | CoingeckoGetTopGainersTool => 150
  | CoingeckoGetTokenPriceDataTool => 151
  | CoingeckoGetTokenInfoTool => 152
  | CoingeckoGetLatestPoolsTool => 153
  | ElfaAiPingApiTool => 154
  | ElfaAiGetApiKeyStatusTool => 155
  | ElfaAiGetSmartMentionsTool => 156
  | ElfaAiGetTopMentionsByTickerTool => 157
  | ElfaAiSearchMentionsByKeywordsTool => 158
  | ElfaAiGetTrendingTokensTool => 159
  | ElfaAiGetSmartTwitterAccountStatsTool => 160
  | FluxBeamCreatePoolTool => 161
  | LuloLendTool => 162
  | LuloWithdrawTool => 163
  end%nat.

(** The class attribute [name]. *)
Definition name (t : Tool) : string :=
  match t with
  | SolanaBalanceTool => "solana_balance"
  | SolanaTransferTool => "solana_transfer"
  | SolanaDeployTokenTool => "solana_deploy_token"
  | SolanaTradeTool => "solana_trade"
  | SolanaFaucetTool => "solana_request_funds"
  | SolanaStakeTool => "solana_stake"
  | SolanaGetWalletAddressTool => "solana_get_wallet_address"
  | SolanaCreateImageTool => "solana_create_image"
  | SolanaTPSCalculatorTool => "solana_get_tps"
  | SolanaPumpFunTokenTool => "solana_launch_pump_fun_token"
  | SolanaFetchPriceTool => "solana_fetch_price"
  | SolanaTokenDataTool => "solana_token_data"
  | SolanaTokenDataByTickerTool => "solana_token_data_by_ticker"
  | SolanaMeteoraDLMMTool => "solana_create_meteora_dlmm_pool"
  | SolanaRaydiumBuyTool => "raydium_buy"
  | SolanaRaydiumSellTool => "raydium_sell"
  | SolanaBurnAndCloseTool => "solana_burn_and_close_account"
  | SolanaBurnAndCloseMultipleTool => "solana_burn_and_close_multiple_accounts"
  | SolanaCreateGibworkTaskTool => "solana_create_gibwork_task"
  | SolanaBuyUsingMoonshotTool => "solana_buy_using_moonshot"
  | SolanaSellUsingMoonshotTool => "solana_sell_using_moonshot"
  | SolanaPythGetPriceTool => "solana_pyth_get_price"
  | SolanaHeliusGetBalancesTool => "solana_helius_get_balances"
  | SolanaHeliusGetAddressNameTool => "solana_helius_get_address_name"
  | SolanaHeliusGetNftEventsTool => "solana_helius_get_nft_events"
  | SolanaHeliusGetMintlistsTool => "solana_helius_get_mintlists"
  | SolanaHeliusGetNFTFingerprintTool => "solana_helius_get_nft_fingerprint"
  | SolanaHeliusGetActiveListingsTool => "solana_helius_get_active_listings"
  | SolanaHeliusGetNFTMetadataTool => "solana_helius_get_nft_metadata"
  | SolanaHeliusGetRawTransactionsTool => "solana_helius_get_raw_transactions"
  | SolanaHeliusGetParsedTransactionsTool => "solana_helius_get_parsed_transactions"
  | SolanaHeliusGetParsedTransactionHistoryTool => "solana_helius_get_parsed_transaction_history"
  | SolanaHeliusCreateWebhookTool => "solana_helius_create_webhook"
  | SolanaHeliusGetAllWebhooksTool => "solana_helius_get_all_webhooks"
  | SolanaHeliusGetWebhookTool => "solana_helius_get_webhook"
  | SolanaHeliusEditWebhookTool => "solana_helius_edit_webhook"
  | SolanaHeliusDeleteWebhookTool => "solana_helius_delete_webhook"
  | SolanaFetchTokenReportSummaryTool => "solana_fetch_token_report_summary"
  | SolanaFetchTokenDetailedReportTool => "solana_fetch_token_detailed_report"
  | SolanaGetPumpCurveStateTool => "solana_get_pump_curve_state"
  | SolanaCalculatePumpCurvePriceTool => "solana_calculate_pump_curve_price"
  | SolanaBuyTokenTool => "solana_buy_token"
  | SolanaSellTokenTool => "solana_sell_token"
  | SolanaSNSResolveTool => "solana_sns_resolve"
  | SolanaSNSRegisterDomainTool => "solana_sns_register_domain"
  | SolanaSNSGetFavouriteDomainTool => "solana_sns_get_favourite_domain"
  | SolanaSNSGetAllDomainsTool => "solana_sns_get_all_domains"
  | SolanaDeployCollectionTool => "solana_deploy_collection"
  | SolanaGetMetaplexAssetTool => "solana_get_metaplex_asset"
  | SolanaGetMetaplexAssetsByCreatorTool => "solana_get_metaplex_assets_by_creator"
  | SolanaGetMetaplexAssetsByAuthorityTool => "solana_get_metaplex_assets_by_authority"
  | SolanaMintMetaplexCoreNFTTool => "solana_mint_metaplex_core_nft"
  | SolanaDeBridgeCreateTransactionTool => "debridge_create_transaction"
  | SolanaDeBridgeExecuteTransactionTool => "debridge_execute_transaction"
  | SolanaDeBridgeCheckTransactionStatusTool => "debridge_check_transaction_status"
  | SolanaCybersCreateCoinTool => "cybers_create_coin"
  | SolanaGetTipAccounts => "get_tip_accounts"
  | SolanaGetRandomTipAccount => "get_random_tip_account"
  | SolanaGetBundleStatuses => "get_bundle_statuses"
  | SolanaSendBundle => "send_bundle"
  | SolanaGetInflightBundleStatuses => "get_inflight_bundle_statuses"
  | SolanaSendTxn => "send_txn"
  | StorkGetPriceTool => "stork_get_price"
  | BackpackGetAccountBalancesTool => "backpack_get_account_balances"
  | BackpackRequestWithdrawalTool => "backpack_request_withdrawal"
  | BackpackGetAccountSettingsTool => "backpack_get_account_settings"
  | BackpackUpdateAccountSettingsTool => "backpack_update_account_settings"
  | BackpackGetBorrowLendPositionsTool => "backpack_get_borrow_lend_positions"
  | BackpackExecuteBorrowLendTool => "backpack_execute_borrow_lend"
  | BackpackGetFillHistoryTool => "backpack_get_fill_history"
  | BackpackGetBorrowPositionHistoryTool => "backpack_get_borrow_position_history"
  | BackpackGetFundingPaymentsTool => "backpack_get_funding_payments"
  | BackpackGetOrderHistoryTool => "backpack_get_order_history"
  | BackpackGetPnlHistoryTool => "backpack_get_pnl_history"
  | BackpackGetSettlementHistoryTool => "backpack_get_settlement_history"
  | BackpackGetUsersOpenOrdersTool => "backpack_get_users_open_orders"
  | BackpackExecuteOrderTool => "backpack_execute_order"
  | BackpackCancelOpenOrderTool => "backpack_cancel_open_order"
  | BackpackGetOpenOrdersTool => "backpack_get_open_orders"
  | BackpackCancelOpenOrdersTool => "backpack_cancel_open_orders"
  | BackpackGetSupportedAssetsTool => "backpack_get_supported_assets"
  | BackpackGetTickerInformationTool => "backpack_get_ticker_information"
  | BackpackGetMarketsTool => "backpack_get_markets"
  | BackpackGetMarketTool => "backpack_get_market"
  | BackpackGetTickersTool => "backpack_get_tickers"
  | BackpackGetDepthTool => "backpack_get_depth"
  | BackpackGetKlinesTool => "backpack_get_klines"
  | BackpackGetMarkPriceTool => "backpack_get_mark_price"
  | BackpackGetOpenInterestTool => "backpack_get_open_interest"
  | BackpackGetFundingIntervalRatesTool => "backpack_get_funding_interval_rates"
  | BackpackGetStatusTool => "backpack_get_status"
  | BackpackSendPingTool => "backpack_send_ping"
  | BackpackGetSystemTimeTool => "backpack_get_system_time"
  | BackpackGetRecentTradesTool => "backpack_get_recent_trades"
  | BackpackGetHistoricalTradesTool => "backpack_get_historical_trades"
  | BackpackGetCollateralInfoTool => "backpack_get_collateral_info"
  | BackpackGetAccountDepositsTool => "backpack_get_account_deposits"
  | BackpackGetOpenPositionsTool => "backpack_get_open_positions"
  | BackpackGetBorrowHistoryTool => "backpack_get_borrow_history"
  | BackpackGetInterestHistoryTool => "backpack_get_interest_history"
  | ClosePerpTradeShortTool => "close_perp_trade_short"
  | ClosePerpTradeLongTool => "close_perp_trade_long"
  | OpenPerpTradeLongTool => "open_perp_trade_long"
  | OpenPerpTradeShortTool => "open_perp_trade_short"
  | Create3LandCollectionTool => "create_3land_collection"
  | Create3LandNFTTool => "create_3land_nft"
  | CreateDriftUserAccountTool => "create_drift_user_account"
  | DepositToDriftUserAccountTool => "deposit_to_drift_user_account"
  | WithdrawFromDriftUserAccountTool => "withdraw_from_drift_user_account"
  | TradeUsingDriftPerpAccountTool => "trade_using_drift_perp_account"
  | CheckIfDriftAccountExistsTool => "check_if_drift_account_exists"
  | DriftUserAccountInfoTool => "drift_user_account_info"
  | GetAvailableDriftMarketsTool => "get_available_drift_markets"
  | StakeToDriftInsuranceFundTool => "stake_to_drift_insurance_fund"
  | RequestUnstakeFromDriftInsuranceFundTool => "request_unstake_from_drift_insurance_fund"
  | UnstakeFromDriftInsuranceFundTool => "unstake_from_drift_insurance_fund"
  | DriftSwapSpotTokenTool => "drift_swap_spot_token"
  | GetDriftPerpMarketFundingRateTool => "get_drift_perp_market_funding_rate"
  | GetDriftEntryQuoteOfPerpTradeTool => "get_drift_entry_quote_of_perp_trade"
  | GetDriftLendBorrowApyTool => "get_drift_lend_borrow_apy"
  | CreateDriftVaultTool => "create_drift_vault"
  | UpdateDriftVaultDelegateTool => "update_drift_vault_delegate"
  | UpdateDriftVaultTool => "update_drift_vault"
  | GetDriftVaultInfoTool => "get_drift_vault_info"
  | DepositIntoDriftVaultTool => "deposit_into_drift_vault"
  | RequestWithdrawalFromDriftVaultTool => "request_withdrawal_from_drift_vault"
  | WithdrawFromDriftVaultTool => "withdraw_from_drift_vault"
  | DeriveDriftVaultAddressTool => "derive_drift_vault_address"
  | TradeUsingDelegatedDriftVaultTool => "trade_using_delegated_drift_vault"
  | FlashOpenTradeTool => "flash_open_trade"
  | FlashCloseTradeTool => "flash_close_trade"
  | ResolveAllDomainsTool => "resolve_all_domains"
  | GetOwnedDomainsForTLDTool => "get_owned_domains_for_tld"
  | GetAllDomainsTLDsTool => "get_all_domains_tlds"
  | GetOwnedAllDomainsTool => "get_owned_all_domains"
  | LightProtocolSendCompressedAirdropTool => "lightprotocol_send_compressed_airdrop"
  | ManifestCreateMarketTool => "manifest_create_market"
  | ManifestPlaceLimitOrderTool => "manifest_place_limit_order"
  | ManifestPlaceBatchOrdersTool => "manifest_place_batch_orders"
  | ManifestCancelAllOrdersTool => "manifest_cancel_all_orders"
  | ManifestWithdrawAllTool => "manifest_withdraw_all"
  | OpenBookCreateMarketTool => "openbook_create_market"
  | OrcaClosePositionTool => "orca_close_position"
  | OrcaCreateClmmTool => "orca_create_clmm"
  | OrcaCreateLiquidityPoolTool => "orca_create_liquidity_pool"
  | OrcaFetchPositionsTool => "orca_fetch_positions"
  | OrcaOpenCenteredPositionTool => "orca_open_centered_position"
  | OrcaOpenSingleSidedPositionTool => "orca_open_single_sided_position"
  | CoingeckoGetTrendingTokensTool => "coingecko_get_trending_tokens"
  | CoingeckoGetTrendingPoolsTool => "coingecko_get_trending_pools"
  | CoingeckoGetTopGainersTool => "coingecko_get_top_gainers"
  | CoingeckoGetTokenPriceDataTool => "coingecko_get_token_price_data"
  | CoingeckoGetTokenInfoTool => "coingecko_get_token_info"
  | CoingeckoGetLatestPoolsTool => "coingecko_get_latest_pools"
  | ElfaAiPingApiTool => "elfa_ai_ping_api"
  | ElfaAiGetApiKeyStatusTool => "elfa_ai_get_api_key_status"
  | ElfaAiGetSmartMentionsTool => "elfa_ai_get_smart_mentions"
  | ElfaAiGetTopMentionsByTickerTool => "elfa_ai_get_top_mentions_by_ticker"
  | ElfaAiSearchMentionsByKeywordsTool => "elfa_ai_search_mentions_by_keywords"
  | ElfaAiGetTrendingTokensTool => "elfa_ai_get_trending_tokens"
  | ElfaAiGetSmartTwitterAccountStatsTool => "elfa_ai_get_smart_twitter_account_stats"
  | FluxBeamCreatePoolTool => "fluxbeam_create_pool"
  | LuloLendTool => "lulo_lend"
  | LuloWithdrawTool => "lulo_withdraw"
  end.

(** The field a class declares for the agent kit. *)
Definition kit_field (t : Tool) : string :=
  match t with
  | CoingeckoGetTrendingTokensTool => "agent_kit"
  | CoingeckoGetTrendingPoolsTool => "agent_kit"
  | CoingeckoGetTopGainersTool => "agent_kit"
  | CoingeckoGetTokenPriceDataTool => "agent_kit"
  | CoingeckoGetTokenInfoTool => "agent_kit"
  | CoingeckoGetLatestPoolsTool => "agent_kit"
  | ElfaAiPingApiTool => "agent_kit"
  | ElfaAiGetApiKeyStatusTool => "agent_kit"
  | ElfaAiGetSmartMentionsTool => "agent_kit"
  | ElfaAiGetTopMentionsByTickerTool => "agent_kit"
  | ElfaAiSearchMentionsByKeywordsTool => "agent_kit"
  | ElfaAiGetTrendingTokensTool => "agent_kit"
  | ElfaAiGetSmartTwitterAccountStatsTool => "agent_kit"
  | FluxBeamCreatePoolTool => "agent_kit"
  | LuloLendTool => "agent_kit"
  | LuloWithdrawTool => "agent_kit"
  | _ => "solana_kit"
  end.

(** The classes whose [_arun] handler builds a mapping with the keys
    ["status"], ["message"] and ["code"]. *)
Definition reports_code (t : Tool) : bool :=
  match t with
  | SolanaBalanceTool
  | SolanaTransferTool
  | SolanaDeployTokenTool
  | SolanaTradeTool
  | SolanaFaucetTool
  | SolanaStakeTool
  | SolanaGetWalletAddressTool
  | SolanaCreateImageTool
  | SolanaTPSCalculatorTool
  | SolanaPumpFunTokenTool
  | SolanaMeteoraDLMMTool
  | SolanaRaydiumBuyTool
  | SolanaRaydiumSellTool
  | SolanaBurnAndCloseTool
  | SolanaBurnAndCloseMultipleTool
  | SolanaCreateGibworkTaskTool
  | SolanaBuyUsingMoonshotTool
  | SolanaSellUsingMoonshotTool => true
  | _ => false
  end.

(** ** The classes and their methods *)

(** The asynchronous method of a class, all of whose body is one
    [try ... except Exception] statement. *)
Inductive AsyncMethod :=
| Arun0 (body : TryExcept value)              (* async def _arun(self) *)
| Arun1 (body : string -> TryExcept value)    (* async def _arun(self, input) *)
| Call1 (body : string -> TryExcept value).   (* async def call(self, input) *)

Inductive SyncMethod :=
| Run0 (body : M value)                       (* def _run(self) *)
| Run1 (body : string -> M value).            (* def _run(self, input) *)

Section Tables.
Context {W : World}.

(** The asynchronous method each class defines. *)
Definition async_method (t : Tool) : AsyncMethod :=
  match t with
  | SolanaBalanceTool => Arun1 SolanaBalanceTool_arun
  | SolanaTransferTool => Arun1 SolanaTransferTool_arun
  | SolanaDeployTokenTool => Arun1 SolanaDeployTokenTool_arun
  | SolanaTradeTool => Arun1 SolanaTradeTool_arun
  | SolanaFaucetTool => Arun0 SolanaFaucetTool_arun
  | SolanaStakeTool => Arun1 SolanaStakeTool_arun
  | SolanaGetWalletAddressTool => Arun0 SolanaGetWalletAddressTool_arun
  | SolanaCreateImageTool => Arun1 SolanaCreateImageTool_arun
  | SolanaTPSCalculatorTool => Arun0 SolanaTPSCalculatorTool_arun
  | SolanaPumpFunTokenTool => Arun1 SolanaPumpFunTokenTool_arun
  | SolanaFetchPriceTool => Call1 SolanaFetchPriceTool_call
  | SolanaTokenDataTool => Call1 SolanaTokenDataTool_call
  | SolanaTokenDataByTickerTool => Call1 SolanaTokenDataByTickerTool_call
  | SolanaMeteoraDLMMTool => Arun1 SolanaMeteoraDLMMTool_arun
  | SolanaRaydiumBuyTool => Arun1 SolanaRaydiumBuyTool_arun
  | SolanaRaydiumSellTool => Arun1 SolanaRaydiumSellTool_arun
  | SolanaBurnAndCloseTool => Arun1 SolanaBurnAndCloseTool_arun
  | SolanaBurnAndCloseMultipleTool => Arun1 SolanaBurnAndCloseMultipleTool_arun
  | SolanaCreateGibworkTaskTool => Arun1 SolanaCreateGibworkTaskTool_arun
  | SolanaBuyUsingMoonshotTool => Arun1 SolanaBuyUsingMoonshotTool_arun
  | SolanaSellUsingMoonshotTool => Arun1 SolanaSellUsingMoonshotTool_arun
  | SolanaPythGetPriceTool => Arun1 SolanaPythGetPriceTool_arun
  | SolanaHeliusGetBalancesTool => Arun1 SolanaHeliusGetBalancesTool_arun
  | SolanaHeliusGetAddressNameTool => Arun1 SolanaHeliusGetAddressNameTool_arun
  | SolanaHeliusGetNftEventsTool => Arun1 SolanaHeliusGetNftEventsTool_arun
  | SolanaHeliusGetMintlistsTool => Arun1 SolanaHeliusGetMintlistsTool_arun
  | SolanaHeliusGetNFTFingerprintTool => Arun1 SolanaHeliusGetNFTFingerprintTool_arun
  | SolanaHeliusGetActiveListingsTool => Arun1 SolanaHeliusGetActiveListingsTool_arun
  | SolanaHeliusGetNFTMetadataTool => Arun1 SolanaHeliusGetNFTMetadataTool_arun
  | SolanaHeliusGetRawTransactionsTool => Arun1 SolanaHeliusGetRawTransactionsTool_arun
  | SolanaHeliusGetParsedTransactionsTool => Arun1 SolanaHeliusGetParsedTransactionsTool_arun
  | SolanaHeliusGetParsedTransactionHistoryTool => Arun1 SolanaHeliusGetParsedTransactionHistoryTool_arun
  | SolanaHeliusCreateWebhookTool => Arun1 SolanaHeliusCreateWebhookTool_arun
  | SolanaHeliusGetAllWebhooksTool => Arun0 SolanaHeliusGetAllWebhooksTool_arun
  | SolanaHeliusGetWebhookTool => Arun1 SolanaHeliusGetWebhookTool_arun
  | SolanaHeliusEditWebhookTool => Arun1 SolanaHeliusEditWebhookTool_arun
  | SolanaHeliusDeleteWebhookTool => Arun1 SolanaHeliusDeleteWebhookTool_arun
  | SolanaFetchTokenReportSummaryTool => Arun1 SolanaFetchTokenReportSummaryTool_arun
  | SolanaFetchTokenDetailedReportTool => Arun1 SolanaFetchTokenDetailedReportTool_arun
  | SolanaGetPumpCurveStateTool => Arun1 SolanaGetPumpCurveStateTool_arun
  | SolanaCalculatePumpCurvePriceTool => Arun1 SolanaCalculatePumpCurvePriceTool_arun
  | SolanaBuyTokenTool => Arun1 SolanaBuyTokenTool_arun
  | SolanaSellTokenTool => Arun1 SolanaSellTokenTool_arun
  | SolanaSNSResolveTool => Arun1 SolanaSNSResolveTool_arun
  | SolanaSNSRegisterDomainTool => Arun1 SolanaSNSRegisterDomainTool_arun
  | SolanaSNSGetFavouriteDomainTool => Arun1 SolanaSNSGetFavouriteDomainTool_arun
  | SolanaSNSGetAllDomainsTool => Arun1 SolanaSNSGetAllDomainsTool_arun
  | SolanaDeployCollectionTool => Arun1 SolanaDeployCollectionTool_arun
  | SolanaGetMetaplexAssetTool => Arun1 SolanaGetMetaplexAssetTool_arun
  | SolanaGetMetaplexAssetsByCreatorTool => Arun1 SolanaGetMetaplexAssetsByCreatorTool_arun
  | SolanaGetMetaplexAssetsByAuthorityTool => Arun1 SolanaGetMetaplexAssetsByAuthorityTool_arun
  | SolanaMintMetaplexCoreNFTTool => Arun1 SolanaMintMetaplexCoreNFTTool_arun
  | SolanaDeBridgeCreateTransactionTool => Arun1 SolanaDeBridgeCreateTransactionTool_arun
  | SolanaDeBridgeExecuteTransactionTool => Arun1 SolanaDeBridgeExecuteTransactionTool_arun
  | SolanaDeBridgeCheckTransactionStatusTool => Arun1 SolanaDeBridgeCheckTransactionStatusTool_arun
  | SolanaCybersCreateCoinTool => Arun1 SolanaCybersCreateCoinTool_arun
  | SolanaGetTipAccounts => Arun0 SolanaGetTipAccounts_arun
  | SolanaGetRandomTipAccount => Arun0 SolanaGetRandomTipAccount_arun
  | SolanaGetBundleStatuses => Arun1 SolanaGetBundleStatuses_arun
  | SolanaSendBundle => Arun1 SolanaSendBundle_arun
  | SolanaGetInflightBundleStatuses => Arun1 SolanaGetInflightBundleStatuses_arun
  | SolanaSendTxn => Arun1 SolanaSendTxn_arun
  | StorkGetPriceTool => Arun1 StorkGetPriceTool_arun
  | BackpackGetAccountBalancesTool => Arun0 BackpackGetAccountBalancesTool_arun
  | BackpackRequestWithdrawalTool => Arun1 BackpackRequestWithdrawalTool_arun
  | BackpackGetAccountSettingsTool => Arun0 BackpackGetAccountSettingsTool_arun
  | BackpackUpdateAccountSettingsTool => Arun1 BackpackUpdateAccountSettingsTool_arun
  | BackpackGetBorrowLendPositionsTool => Arun0 BackpackGetBorrowLendPositionsTool_arun
  | BackpackExecuteBorrowLendTool => Arun1 BackpackExecuteBorrowLendTool_arun
  | BackpackGetFillHistoryTool => Arun1 BackpackGetFillHistoryTool_arun
  | BackpackGetBorrowPositionHistoryTool => Arun1 BackpackGetBorrowPositionHistoryTool_arun
  | BackpackGetFundingPaymentsTool => Arun1 BackpackGetFundingPaymentsTool_arun
  | BackpackGetOrderHistoryTool => Arun1 BackpackGetOrderHistoryTool_arun
  | BackpackGetPnlHistoryTool => Arun1 BackpackGetPnlHistoryTool_arun
  | BackpackGetSettlementHistoryTool => Arun1 BackpackGetSettlementHistoryTool_arun
  | BackpackGetUsersOpenOrdersTool => Arun1 BackpackGetUsersOpenOrdersTool_arun
  | BackpackExecuteOrderTool => Arun1 BackpackExecuteOrderTool_arun
  | BackpackCancelOpenOrderTool => Arun1 BackpackCancelOpenOrderTool_arun
  | BackpackGetOpenOrdersTool => Arun1 BackpackGetOpenOrdersTool_arun
  | BackpackCancelOpenOrdersTool => Arun1 BackpackCancelOpenOrdersTool_arun
  | BackpackGetSupportedAssetsTool => Arun0 BackpackGetSupportedAssetsTool_arun
  | BackpackGetTickerInformationTool => Arun1 BackpackGetTickerInformationTool_arun
  | BackpackGetMarketsTool => Arun0 BackpackGetMarketsTool_arun
  | BackpackGetMarketTool => Arun1 BackpackGetMarketTool_arun
  | BackpackGetTickersTool => Arun0 BackpackGetTickersTool_arun
  | BackpackGetDepthTool => Arun1 BackpackGetDepthTool_arun
  | BackpackGetKlinesTool => Arun1 BackpackGetKlinesTool_arun
  | BackpackGetMarkPriceTool => Arun1 BackpackGetMarkPriceTool_arun
  | BackpackGetOpenInterestTool => Arun1 BackpackGetOpenInterestTool_arun
  | BackpackGetFundingIntervalRatesTool => Arun1 BackpackGetFundingIntervalRatesTool_arun
  | BackpackGetStatusTool => Arun0 BackpackGetStatusTool_arun
  | BackpackSendPingTool => Arun0 BackpackSendPingTool_arun
  | BackpackGetSystemTimeTool => Arun0 BackpackGetSystemTimeTool_arun
  | BackpackGetRecentTradesTool => Arun1 BackpackGetRecentTradesTool_arun
  | BackpackGetHistoricalTradesTool => Arun1 BackpackGetHistoricalTradesTool_arun
  | BackpackGetCollateralInfoTool => Arun1 BackpackGetCollateralInfoTool_arun
  | BackpackGetAccountDepositsTool => Arun1 BackpackGetAccountDepositsTool_arun
  | BackpackGetOpenPositionsTool => Arun0 BackpackGetOpenPositionsTool_arun
  | BackpackGetBorrowHistoryTool => Arun1 BackpackGetBorrowHistoryTool_arun
  | BackpackGetInterestHistoryTool => Arun1 BackpackGetInterestHistoryTool_arun
  | ClosePerpTradeShortTool => Arun1 ClosePerpTradeShortTool_arun
  | ClosePerpTradeLongTool => Arun1 ClosePerpTradeLongTool_arun
  | OpenPerpTradeLongTool => Arun1 OpenPerpTradeLongTool_arun
  | OpenPerpTradeShortTool => Arun1 OpenPerpTradeShortTool_arun
  | Create3LandCollectionTool => Arun1 Create3LandCollectionTool_arun
  | Create3LandNFTTool => Arun1 Create3LandNFTTool_arun
  | CreateDriftUserAccountTool => Arun1 CreateDriftUserAccountTool_arun
  | DepositToDriftUserAccountTool => Arun1 DepositToDriftUserAccountTool_arun
  | WithdrawFromDriftUserAccountTool => Arun1 WithdrawFromDriftUserAccountTool_arun
  | TradeUsingDriftPerpAccountTool => Arun1 TradeUsingDriftPerpAccountTool_arun
  | CheckIfDriftAccountExistsTool => Arun0 CheckIfDriftAccountExistsTool_arun
  | DriftUserAccountInfoTool => Arun0 DriftUserAccountInfoTool_arun
  | GetAvailableDriftMarketsTool => Arun0 GetAvailableDriftMarketsTool_arun
  | StakeToDriftInsuranceFundTool => Arun1 StakeToDriftInsuranceFundTool_arun
  | RequestUnstakeFromDriftInsuranceFundTool => Arun1 RequestUnstakeFromDriftInsuranceFundTool_arun
  | UnstakeFromDriftInsuranceFundTool => Arun1 UnstakeFromDriftInsuranceFundTool_arun
  | DriftSwapSpotTokenTool => Arun1 DriftSwapSpotTokenTool_arun
  | GetDriftPerpMarketFundingRateTool => Arun1 GetDriftPerpMarketFundingRateTool_arun
  | GetDriftEntryQuoteOfPerpTradeTool => Arun1 GetDriftEntryQuoteOfPerpTradeTool_arun
  | GetDriftLendBorrowApyTool => Arun1 GetDriftLendBorrowApyTool_arun
  | CreateDriftVaultTool => Arun1 CreateDriftVaultTool_arun
  | UpdateDriftVaultDelegateTool => Arun1 UpdateDriftVaultDelegateTool_arun
  | UpdateDriftVaultTool => Arun1 UpdateDriftVaultTool_arun
  | GetDriftVaultInfoTool => Arun1 GetDriftVaultInfoTool_arun
  | DepositIntoDriftVaultTool => Arun1 DepositIntoDriftVaultTool_arun
  | RequestWithdrawalFromDriftVaultTool => Arun1 RequestWithdrawalFromDriftVaultTool_arun
  | WithdrawFromDriftVaultTool => Arun1 WithdrawFromDriftVaultTool_arun
  | DeriveDriftVaultAddressTool => Arun1 DeriveDriftVaultAddressTool_arun
  | TradeUsingDelegatedDriftVaultTool => Arun1 TradeUsingDelegatedDriftVaultTool_arun
  | FlashOpenTradeTool => Arun1 FlashOpenTradeTool_arun
  | FlashCloseTradeTool => Arun1 FlashCloseTradeTool_arun
  | ResolveAllDomainsTool => Arun1 ResolveAllDomainsTool_arun
  | GetOwnedDomainsForTLDTool => Arun1 GetOwnedDomainsForTLDTool_arun
  | GetAllDomainsTLDsTool => Arun0 GetAllDomainsTLDsTool_arun
  | GetOwnedAllDomainsTool => Arun1 GetOwnedAllDomainsTool_arun
  | LightProtocolSendCompressedAirdropTool => Arun1 LightProtocolSendCompressedAirdropTool_arun
  | ManifestCreateMarketTool => Arun1 ManifestCreateMarketTool_arun
  | ManifestPlaceLimitOrderTool => Arun1 ManifestPlaceLimitOrderTool_arun
  | ManifestPlaceBatchOrdersTool => Arun1 ManifestPlaceBatchOrdersTool_arun
  | ManifestCancelAllOrdersTool => Arun1 ManifestCancelAllOrdersTool_arun
  | ManifestWithdrawAllTool => Arun1 ManifestWithdrawAllTool_arun
  | OpenBookCreateMarketTool => Arun1 OpenBookCreateMarketTool_arun
  | OrcaClosePositionTool => Arun1 OrcaClosePositionTool_arun
  | OrcaCreateClmmTool => Arun1 OrcaCreateClmmTool_arun
  | OrcaCreateLiquidityPoolTool => Arun1 OrcaCreateLiquidityPoolTool_arun
  | OrcaFetchPositionsTool => Arun1 OrcaFetchPositionsTool_arun
  | OrcaOpenCenteredPositionTool => Arun1 OrcaOpenCenteredPositionTool_arun
  | OrcaOpenSingleSidedPositionTool => Arun1 OrcaOpenSingleSidedPositionTool_arun
  | CoingeckoGetTrendingTokensTool => Arun1 CoingeckoGetTrendingTokensTool_arun
  | CoingeckoGetTrendingPoolsTool => Arun1 CoingeckoGetTrendingPoolsTool_arun
  | CoingeckoGetTopGainersTool => Arun1 CoingeckoGetTopGainersTool_arun
  | CoingeckoGetTokenPriceDataTool => Arun1 CoingeckoGetTokenPriceDataTool_arun
  | CoingeckoGetTokenInfoTool => Arun1 CoingeckoGetTokenInfoTool_arun
  | CoingeckoGetLatestPoolsTool => Arun1 CoingeckoGetLatestPoolsTool_arun
  | ElfaAiPingApiTool => Arun1 ElfaAiPingApiTool_arun
  | ElfaAiGetApiKeyStatusTool => Arun1 ElfaAiGetApiKeyStatusTool_arun
  | ElfaAiGetSmartMentionsTool => Arun1 ElfaAiGetSmartMentionsTool_arun
  | ElfaAiGetTopMentionsByTickerTool => Arun1 ElfaAiGetTopMentionsByTickerTool_arun
  | ElfaAiSearchMentionsByKeywordsTool => Arun1 ElfaAiSearchMentionsByKeywordsTool_arun
  | ElfaAiGetTrendingTokensTool => Arun1 ElfaAiGetTrendingTokensTool_arun
  | ElfaAiGetSmartTwitterAccountStatsTool => Arun1 ElfaAiGetSmartTwitterAccountStatsTool_arun
  | FluxBeamCreatePoolTool => Arun1 FluxBeamCreatePoolTool_arun
  | LuloLendTool => Arun1 LuloLendTool_arun
  | LuloWithdrawTool => Arun1 LuloWithdrawTool_arun
  end.

(** The synchronous method each class defines. *)
Definition sync_method (t : Tool) : SyncMethod :=
  match t with
  | SolanaBalanceTool => Run1 SolanaBalanceTool_run
  | SolanaTransferTool => Run0 SolanaTransferTool_run
  | SolanaDeployTokenTool => Run0 SolanaDeployTokenTool_run
  | SolanaTradeTool => Run0 SolanaTradeTool_run
  | SolanaFaucetTool => Run0 SolanaFaucetTool_run
  | SolanaStakeTool => Run0 SolanaStakeTool_run
  | SolanaGetWalletAddressTool => Run0 SolanaGetWalletAddressTool_run
  | SolanaCreateImageTool => Run0 SolanaCreateImageTool_run
  | SolanaTPSCalculatorTool => Run0 SolanaTPSCalculatorTool_run
  | SolanaPumpFunTokenTool => Run0 SolanaPumpFunTokenTool_run
  | SolanaFetchPriceTool => Run0 SolanaFetchPriceTool_run
  | SolanaTokenDataTool => Run0 SolanaTokenDataTool_run
  | SolanaTokenDataByTickerTool => Run0 SolanaTokenDataByTickerTool_run
  | SolanaMeteoraDLMMTool => Run0 SolanaMeteoraDLMMTool_run
  | SolanaRaydiumBuyTool => Run1 SolanaRaydiumBuyTool_run
  | SolanaRaydiumSellTool => Run1 SolanaRaydiumSellTool_run
  | SolanaBurnAndCloseTool => Run1 SolanaBurnAndCloseTool_run
  | SolanaBurnAndCloseMultipleTool => Run1 SolanaBurnAndCloseMultipleTool_run
  | SolanaCreateGibworkTaskTool => Run1 SolanaCreateGibworkTaskTool_run
  | SolanaBuyUsingMoonshotTool => Run1 SolanaBuyUsingMoonshotTool_run
  | SolanaSellUsingMoonshotTool => Run1 SolanaSellUsingMoonshotTool_run
  | SolanaPythGetPriceTool => Run1 SolanaPythGetPriceTool_run
  | SolanaHeliusGetBalancesTool => Run1 SolanaHeliusGetBalancesTool_run
  | SolanaHeliusGetAddressNameTool => Run1 SolanaHeliusGetAddressNameTool_run
  | SolanaHeliusGetNftEventsTool => Run1 SolanaHeliusGetNftEventsTool_run
  | SolanaHeliusGetMintlistsTool => Run1 SolanaHeliusGetMintlistsTool_run
  | SolanaHeliusGetNFTFingerprintTool => Run1 SolanaHeliusGetNFTFingerprintTool_run
  | SolanaHeliusGetActiveListingsTool => Run1 SolanaHeliusGetActiveListingsTool_run
  | SolanaHeliusGetNFTMetadataTool => Run1 SolanaHeliusGetNFTMetadataTool_run
  | SolanaHeliusGetRawTransactionsTool => Run1 SolanaHeliusGetRawTransactionsTool_run
  | SolanaHeliusGetParsedTransactionsTool => Run1 SolanaHeliusGetParsedTransactionsTool_run
  | SolanaHeliusGetParsedTransactionHistoryTool => Run1 SolanaHeliusGetParsedTransactionHistoryTool_run
  | SolanaHeliusCreateWebhookTool => Run1 SolanaHeliusCreateWebhookTool_run
  | SolanaHeliusGetAllWebhooksTool => Run1 SolanaHeliusGetAllWebhooksTool_run
  | SolanaHeliusGetWebhookTool => Run0 SolanaHeliusGetWebhookTool_run
  | SolanaHeliusEditWebhookTool => Run0 SolanaHeliusEditWebhookTool_run
  | SolanaHeliusDeleteWebhookTool => Run0 SolanaHeliusDeleteWebhookTool_run
  | SolanaFetchTokenReportSummaryTool => Run0 SolanaFetchTokenReportSummaryTool_run
  | SolanaFetchTokenDetailedReportTool => Run0 SolanaFetchTokenDetailedReportTool_run
  | SolanaGetPumpCurveStateTool => Run0 SolanaGetPumpCurveStateTool_run
  | SolanaCalculatePumpCurvePriceTool => Run0 SolanaCalculatePumpCurvePriceTool_run
  | SolanaBuyTokenTool => Run0 SolanaBuyTokenTool_run
  | SolanaSellTokenTool => Run0 SolanaSellTokenTool_run
  | SolanaSNSResolveTool => Run0 SolanaSNSResolveTool_run
  | SolanaSNSRegisterDomainTool => Run0 SolanaSNSRegisterDomainTool_run
  | SolanaSNSGetFavouriteDomainTool => Run0 SolanaSNSGetFavouriteDomainTool_run
  | SolanaSNSGetAllDomainsTool => Run0 SolanaSNSGetAllDomainsTool_run
  | SolanaDeployCollectionTool => Run1 SolanaDeployCollectionTool_run
  | SolanaGetMetaplexAssetTool => Run1 SolanaGetMetaplexAssetTool_run
  | SolanaGetMetaplexAssetsByCreatorTool => Run1 SolanaGetMetaplexAssetsByCreatorTool_run
  | SolanaGetMetaplexAssetsByAuthorityTool => Run1 SolanaGetMetaplexAssetsByAuthorityTool_run
  | SolanaMintMetaplexCoreNFTTool => Run1 SolanaMintMetaplexCoreNFTTool_run
  | SolanaDeBridgeCreateTransactionTool => Run1 SolanaDeBridgeCreateTransactionTool_run
  | SolanaDeBridgeExecuteTransactionTool => Run1 SolanaDeBridgeExecuteTransactionTool_run
  | SolanaDeBridgeCheckTransactionStatusTool => Run1 SolanaDeBridgeCheckTransactionStatusTool_run
  | SolanaCybersCreateCoinTool => Run1 SolanaCybersCreateCoinTool_run
  | SolanaGetTipAccounts => Run1 SolanaGetTipAccounts_run
  | SolanaGetRandomTipAccount => Run0 SolanaGetRandomTipAccount_run
  | SolanaGetBundleStatuses => Run0 SolanaGetBundleStatuses_run
  | SolanaSendBundle => Run0 SolanaSendBundle_run
  | SolanaGetInflightBundleStatuses => Run0 SolanaGetInflightBundleStatuses_run
  | SolanaSendTxn => Run0 SolanaSendTxn_run
  | StorkGetPriceTool => Run1 StorkGetPriceTool_run
  | BackpackGetAccountBalancesTool => Run0 BackpackGetAccountBalancesTool_run
  | BackpackRequestWithdrawalTool => Run1 BackpackRequestWithdrawalTool_run
  | BackpackGetAccountSettingsTool => Run1 BackpackGetAccountSettingsTool_run
  | BackpackUpdateAccountSettingsTool => Run1 BackpackUpdateAccountSettingsTool_run
  | BackpackGetBorrowLendPositionsTool => Run1 BackpackGetBorrowLendPositionsTool_run
  | BackpackExecuteBorrowLendTool => Run0 BackpackExecuteBorrowLendTool_run
  | BackpackGetFillHistoryTool => Run1 BackpackGetFillHistoryTool_run
  | BackpackGetBorrowPositionHistoryTool => Run1 BackpackGetBorrowPositionHistoryTool_run
  | BackpackGetFundingPaymentsTool => Run1 BackpackGetFundingPaymentsTool_run
  | BackpackGetOrderHistoryTool => Run1 BackpackGetOrderHistoryTool_run
  | BackpackGetPnlHistoryTool => Run1 BackpackGetPnlHistoryTool_run
  | BackpackGetSettlementHistoryTool => Run1 BackpackGetSettlementHistoryTool_run
  | BackpackGetUsersOpenOrdersTool => Run1 BackpackGetUsersOpenOrdersTool_run
  | BackpackExecuteOrderTool => Run1 BackpackExecuteOrderTool_run
  | BackpackCancelOpenOrderTool => Run1 BackpackCancelOpenOrderTool_run
  | BackpackGetOpenOrdersTool => Run1 BackpackGetOpenOrdersTool_run
  | BackpackCancelOpenOrdersTool => Run1 BackpackCancelOpenOrdersTool_run
  | BackpackGetSupportedAssetsTool => Run1 BackpackGetSupportedAssetsTool_run
  | BackpackGetTickerInformationTool => Run1 BackpackGetTickerInformationTool_run
  | BackpackGetMarketsTool => Run1 BackpackGetMarketsTool_run
  | BackpackGetMarketTool => Run1 BackpackGetMarketTool_run
  | BackpackGetTickersTool => Run0 BackpackGetTickersTool_run
  | BackpackGetDepthTool => Run0 BackpackGetDepthTool_run
  | BackpackGetKlinesTool => Run1 BackpackGetKlinesTool_run
  | BackpackGetMarkPriceTool => Run0 BackpackGetMarkPriceTool_run
  | BackpackGetOpenInterestTool => Run0 BackpackGetOpenInterestTool_run
  | BackpackGetFundingIntervalRatesTool => Run0 BackpackGetFundingIntervalRatesTool_run
  | BackpackGetStatusTool => Run0 BackpackGetStatusTool_run
  | BackpackSendPingTool => Run1 BackpackSendPingTool_run
  | BackpackGetSystemTimeTool => Run0 BackpackGetSystemTimeTool_run
  | BackpackGetRecentTradesTool => Run0 BackpackGetRecentTradesTool_run
  | BackpackGetHistoricalTradesTool => Run0 BackpackGetHistoricalTradesTool_run
  | BackpackGetCollateralInfoTool => Run0 BackpackGetCollateralInfoTool_run
  | BackpackGetAccountDepositsTool => Run1 BackpackGetAccountDepositsTool_run
  | BackpackGetOpenPositionsTool => Run0 BackpackGetOpenPositionsTool_run
  | BackpackGetBorrowHistoryTool => Run1 BackpackGetBorrowHistoryTool_run
  | BackpackGetInterestHistoryTool => Run0 BackpackGetInterestHistoryTool_run
  | ClosePerpTradeShortTool => Run0 ClosePerpTradeShortTool_run
  | ClosePerpTradeLongTool => Run0 ClosePerpTradeLongTool_run
  | OpenPerpTradeLongTool => Run0 OpenPerpTradeLongTool_run
  | OpenPerpTradeShortTool => Run0 OpenPerpTradeShortTool_run
  | Create3LandCollectionTool => Run0 Create3LandCollectionTool_run
  | Create3LandNFTTool => Run0 Create3LandNFTTool_run
  | CreateDriftUserAccountTool => Run0 CreateDriftUserAccountTool_run
  | DepositToDriftUserAccountTool => Run0 DepositToDriftUserAccountTool_run
  | WithdrawFromDriftUserAccountTool => Run0 WithdrawFromDriftUserAccountTool_run
  | TradeUsingDriftPerpAccountTool => Run0 TradeUsingDriftPerpAccountTool_run
  | CheckIfDriftAccountExistsTool => Run0 CheckIfDriftAccountExistsTool_run
  | DriftUserAccountInfoTool => Run0 DriftUserAccountInfoTool_run
  | GetAvailableDriftMarketsTool => Run0 GetAvailableDriftMarketsTool_run
  | StakeToDriftInsuranceFundTool => Run0 StakeToDriftInsuranceFundTool_run
  | RequestUnstakeFromDriftInsuranceFundTool => Run0 RequestUnstakeFromDriftInsuranceFundTool_run
  | UnstakeFromDriftInsuranceFundTool => Run0 UnstakeFromDriftInsuranceFundTool_run
  | DriftSwapSpotTokenTool => Run0 DriftSwapSpotTokenTool_run
  | GetDriftPerpMarketFundingRateTool => Run0 GetDriftPerpMarketFundingRateTool_run
  | GetDriftEntryQuoteOfPerpTradeTool => Run0 GetDriftEntryQuoteOfPerpTradeTool_run
  | GetDriftLendBorrowApyTool => Run0 GetDriftLendBorrowApyTool_run
  | CreateDriftVaultTool => Run0 CreateDriftVaultTool_run
  | UpdateDriftVaultDelegateTool => Run0 UpdateDriftVaultDelegateTool_run
  | UpdateDriftVaultTool => Run0 UpdateDriftVaultTool_run
  | GetDriftVaultInfoTool => Run0 GetDriftVaultInfoTool_run
  | DepositIntoDriftVaultTool => Run0 DepositIntoDriftVaultTool_run
  | RequestWithdrawalFromDriftVaultTool => Run0 RequestWithdrawalFromDriftVaultTool_run
  | WithdrawFromDriftVaultTool => Run0 WithdrawFromDriftVaultTool_run
  | DeriveDriftVaultAddressTool => Run0 DeriveDriftVaultAddressTool_run
  | TradeUsingDelegatedDriftVaultTool => Run0 TradeUsingDelegatedDriftVaultTool_run
  | FlashOpenTradeTool => Run0 FlashOpenTradeTool_run
  | FlashCloseTradeTool => Run0 FlashCloseTradeTool_run
  | ResolveAllDomainsTool => Run0 ResolveAllDomainsTool_run
  | GetOwnedDomainsForTLDTool => Run1 GetOwnedDomainsForTLDTool_run
  | GetAllDomainsTLDsTool => Run0 GetAllDomainsTLDsTool_run
  | GetOwnedAllDomainsTool => Run0 GetOwnedAllDomainsTool_run
  | LightProtocolSendCompressedAirdropTool => Run1 LightProtocolSendCompressedAirdropTool_run
  | ManifestCreateMarketTool => Run1 ManifestCreateMarketTool_run
  | ManifestPlaceLimitOrderTool => Run1 ManifestPlaceLimitOrderTool_run
  | ManifestPlaceBatchOrdersTool => Run1 ManifestPlaceBatchOrdersTool_run
  | ManifestCancelAllOrdersTool => Run1 ManifestCancelAllOrdersTool_run
  | ManifestWithdrawAllTool => Run1 ManifestWithdrawAllTool_run
  | OpenBookCreateMarketTool => Run1 OpenBookCreateMarketTool_run
  | OrcaClosePositionTool => Run1 OrcaClosePositionTool_run
  | OrcaCreateClmmTool => Run1 OrcaCreateClmmTool_run
  | OrcaCreateLiquidityPoolTool => Run1 OrcaCreateLiquidityPoolTool_run
  | OrcaFetchPositionsTool => Run1 OrcaFetchPositionsTool_run
  | OrcaOpenCenteredPositionTool => Run1 OrcaOpenCenteredPositionTool_run
  | OrcaOpenSingleSidedPositionTool => Run1 OrcaOpenSingleSidedPositionTool_run
  | CoingeckoGetTrendingTokensTool => Run1 CoingeckoGetTrendingTokensTool_run
  | CoingeckoGetTrendingPoolsTool => Run1 CoingeckoGetTrendingPoolsTool_run
  | CoingeckoGetTopGainersTool => Run1 CoingeckoGetTopGainersTool_run
  | CoingeckoGetTokenPriceDataTool => Run1 CoingeckoGetTokenPriceDataTool_run
  | CoingeckoGetTokenInfoTool => Run1 CoingeckoGetTokenInfoTool_run
  | CoingeckoGetLatestPoolsTool => Run1 CoingeckoGetLatestPoolsTool_run
  | ElfaAiPingApiTool => Run1 ElfaAiPingApiTool_run
  | ElfaAiGetApiKeyStatusTool => Run1 ElfaAiGetApiKeyStatusTool_run
  | ElfaAiGetSmartMentionsTool => Run1 ElfaAiGetSmartMentionsTool_run
  | ElfaAiGetTopMentionsByTickerTool => Run1 ElfaAiGetTopMentionsByTickerTool_run
  | ElfaAiSearchMentionsByKeywordsTool => Run1 ElfaAiSearchMentionsByKeywordsTool_run
  | ElfaAiGetTrendingTokensTool => Run1 ElfaAiGetTrendingTokensTool_run
  | ElfaAiGetSmartTwitterAccountStatsTool => Run1 ElfaAiGetSmartTwitterAccountStatsTool_run
  | FluxBeamCreatePoolTool => Run1 FluxBeamCreatePoolTool_run
  | LuloLendTool => Run1 LuloLendTool_run
  | LuloWithdrawTool => Run1 LuloWithdrawTool_run
  end.

(** The schema a class hands to [validate_input], when it calls it. *)
Definition validated_schema (t : Tool) : option Schema :=
  match t with
  | SolanaTransferTool => Some SolanaTransferTool_schema
  | SolanaDeployTokenTool => Some SolanaDeployTokenTool_schema
  | SolanaTradeTool => Some SolanaTradeTool_schema
  | SolanaCreateImageTool => Some SolanaCreateImageTool_schema
  | SolanaPumpFunTokenTool => Some SolanaPumpFunTokenTool_schema
  | SolanaFetchPriceTool => Some SolanaFetchPriceTool_schema
  | SolanaTokenDataTool => Some SolanaTokenDataTool_schema
  | SolanaTokenDataByTickerTool => Some SolanaTokenDataByTickerTool_schema
  | SolanaMeteoraDLMMTool => Some SolanaMeteoraDLMMTool_schema
  | SolanaBurnAndCloseMultipleTool => Some SolanaBurnAndCloseMultipleTool_schema
  | SolanaCreateGibworkTaskTool => Some SolanaCreateGibworkTaskTool_schema
  | SolanaBuyUsingMoonshotTool => Some SolanaBuyUsingMoonshotTool_schema
  | SolanaSellUsingMoonshotTool => Some SolanaSellUsingMoonshotTool_schema
  | SolanaPythGetPriceTool => Some SolanaPythGetPriceTool_schema
  | SolanaHeliusGetBalancesTool => Some SolanaHeliusGetBalancesTool_schema
  | SolanaHeliusGetAddressNameTool => Some SolanaHeliusGetAddressNameTool_schema
  | SolanaHeliusGetNftEventsTool => Some SolanaHeliusGetNftEventsTool_schema
  | SolanaHeliusGetMintlistsTool => Some SolanaHeliusGetMintlistsTool_schema
  | SolanaHeliusGetNFTFingerprintTool => Some SolanaHeliusGetNFTFingerprintTool_schema
  | SolanaHeliusGetActiveListingsTool => Some SolanaHeliusGetActiveListingsTool_schema
  | SolanaHeliusGetNFTMetadataTool => Some SolanaHeliusGetNFTMetadataTool_schema
  | SolanaHeliusGetRawTransactionsTool => Some SolanaHeliusGetRawTransactionsTool_schema
  | SolanaHeliusGetParsedTransactionsTool => Some SolanaHeliusGetParsedTransactionsTool_schema
  | SolanaHeliusGetParsedTransactionHistoryTool => Some SolanaHeliusGetParsedTransactionHistoryTool_schema
  | SolanaHeliusCreateWebhookTool => Some SolanaHeliusCreateWebhookTool_schema
  | SolanaHeliusGetWebhookTool => Some SolanaHeliusGetWebhookTool_schema
  | SolanaHeliusEditWebhookTool => Some SolanaHeliusEditWebhookTool_schema
  | SolanaHeliusDeleteWebhookTool => Some SolanaHeliusDeleteWebhookTool_schema
  | SolanaFetchTokenReportSummaryTool => Some SolanaFetchTokenReportSummaryTool_schema
  | SolanaFetchTokenDetailedReportTool => Some SolanaFetchTokenDetailedReportTool_schema
  | SolanaGetPumpCurveStateTool => Some SolanaGetPumpCurveStateTool_schema
  | SolanaCalculatePumpCurvePriceTool => Some SolanaCalculatePumpCurvePriceTool_schema
  | SolanaBuyTokenTool => Some SolanaBuyTokenTool_schema
  | SolanaSellTokenTool => Some SolanaSellTokenTool_schema
  | SolanaSNSResolveTool => Some SolanaSNSResolveTool_schema
  | SolanaSNSRegisterDomainTool => Some SolanaSNSRegisterDomainTool_schema
  | SolanaSNSGetFavouriteDomainTool => Some SolanaSNSGetFavouriteDomainTool_schema
  | SolanaSNSGetAllDomainsTool => Some SolanaSNSGetAllDomainsTool_schema
  | SolanaDeployCollectionTool => Some SolanaDeployCollectionTool_schema
  | SolanaGetMetaplexAssetTool => Some SolanaGetMetaplexAssetTool_schema
  | SolanaGetMetaplexAssetsByCreatorTool => Some SolanaGetMetaplexAssetsByCreatorTool_schema
  | SolanaGetMetaplexAssetsByAuthorityTool => Some SolanaGetMetaplexAssetsByAuthorityTool_schema
  | SolanaMintMetaplexCoreNFTTool => Some SolanaMintMetaplexCoreNFTTool_schema
  | SolanaDeBridgeCreateTransactionTool => Some SolanaDeBridgeCreateTransactionTool_schema
  | SolanaDeBridgeExecuteTransactionTool => Some SolanaDeBridgeExecuteTransactionTool_schema
  | SolanaDeBridgeCheckTransactionStatusTool => Some SolanaDeBridgeCheckTransactionStatusTool_schema
  | SolanaCybersCreateCoinTool => Some SolanaCybersCreateCoinTool_schema
  | SolanaGetBundleStatuses => Some SolanaGetBundleStatuses_schema
  | SolanaSendBundle => Some SolanaSendBundle_schema
  | SolanaGetInflightBundleStatuses => Some SolanaGetInflightBundleStatuses_schema
  | SolanaSendTxn => Some SolanaSendTxn_schema
  | BackpackRequestWithdrawalTool => Some BackpackRequestWithdrawalTool_schema
  | BackpackExecuteBorrowLendTool => Some BackpackExecuteBorrowLendTool_schema
  | BackpackGetDepthTool => Some BackpackGetDepthTool_schema
  | BackpackGetKlinesTool => Some BackpackGetKlinesTool_schema
  | BackpackGetMarkPriceTool => Some BackpackGetMarkPriceTool_schema
  | BackpackGetOpenInterestTool => Some BackpackGetOpenInterestTool_schema
  | BackpackGetFundingIntervalRatesTool => Some BackpackGetFundingIntervalRatesTool_schema
  | BackpackGetRecentTradesTool => Some BackpackGetRecentTradesTool_schema
  | BackpackGetHistoricalTradesTool => Some BackpackGetHistoricalTradesTool_schema
  | BackpackGetCollateralInfoTool => Some BackpackGetCollateralInfoTool_schema
  | BackpackGetAccountDepositsTool => Some BackpackGetAccountDepositsTool_schema
  | ClosePerpTradeShortTool => Some ClosePerpTradeShortTool_schema
  | ClosePerpTradeLongTool => Some ClosePerpTradeLongTool_schema
  | OpenPerpTradeLongTool => Some OpenPerpTradeLongTool_schema
  | OpenPerpTradeShortTool => Some OpenPerpTradeShortTool_schema
  | Create3LandCollectionTool => Some Create3LandCollectionTool_schema
  | Create3LandNFTTool => Some Create3LandNFTTool_schema
  | CreateDriftUserAccountTool => Some CreateDriftUserAccountTool_schema
  | DepositToDriftUserAccountTool => Some DepositToDriftUserAccountTool_schema
  | WithdrawFromDriftUserAccountTool => Some WithdrawFromDriftUserAccountTool_schema
  | TradeUsingDriftPerpAccountTool => Some TradeUsingDriftPerpAccountTool_schema
  | StakeToDriftInsuranceFundTool => Some StakeToDriftInsuranceFundTool_schema
  | RequestUnstakeFromDriftInsuranceFundTool => Some RequestUnstakeFromDriftInsuranceFundTool_schema
  | UnstakeFromDriftInsuranceFundTool => Some UnstakeFromDriftInsuranceFundTool_schema
  | DriftSwapSpotTokenTool => Some DriftSwapSpotTokenTool_schema
  | GetDriftPerpMarketFundingRateTool => Some GetDriftPerpMarketFundingRateTool_schema
  | GetDriftEntryQuoteOfPerpTradeTool => Some GetDriftEntryQuoteOfPerpTradeTool_schema
  | GetDriftLendBorrowApyTool => Some GetDriftLendBorrowApyTool_schema
  | CreateDriftVaultTool => Some CreateDriftVaultTool_schema
  | UpdateDriftVaultDelegateTool => Some UpdateDriftVaultDelegateTool_schema
  | UpdateDriftVaultTool => Some UpdateDriftVaultTool_schema
  | GetDriftVaultInfoTool => Some GetDriftVaultInfoTool_schema
  | DepositIntoDriftVaultTool => Some DepositIntoDriftVaultTool_schema
  | RequestWithdrawalFromDriftVaultTool => Some RequestWithdrawalFromDriftVaultTool_schema
  | WithdrawFromDriftVaultTool => Some WithdrawFromDriftVaultTool_schema
  | DeriveDriftVaultAddressTool => Some DeriveDriftVaultAddressTool_schema
  | TradeUsingDelegatedDriftVaultTool => Some TradeUsingDelegatedDriftVaultTool_schema
  | FlashOpenTradeTool => Some FlashOpenTradeTool_schema
  | FlashCloseTradeTool => Some FlashCloseTradeTool_schema
  | ResolveAllDomainsTool => Some ResolveAllDomainsTool_schema
  | GetOwnedDomainsForTLDTool => Some GetOwnedDomainsForTLDTool_schema
  | GetOwnedAllDomainsTool => Some GetOwnedAllDomainsTool_schema
  | LightProtocolSendCompressedAirdropTool => Some LightProtocolSendCompressedAirdropTool_schema
  | ManifestCreateMarketTool => Some ManifestCreateMarketTool_schema
  | ManifestPlaceLimitOrderTool => Some ManifestPlaceLimitOrderTool_schema
  | ManifestPlaceBatchOrdersTool => Some ManifestPlaceBatchOrdersTool_schema
  | ManifestCancelAllOrdersTool => Some ManifestCancelAllOrdersTool_schema
  | ManifestWithdrawAllTool => Some ManifestWithdrawAllTool_schema
  | OrcaClosePositionTool => Some OrcaClosePositionTool_schema
  | OrcaCreateClmmTool => Some OrcaCreateClmmTool_schema
  | OrcaCreateLiquidityPoolTool => Some OrcaCreateLiquidityPoolTool_schema
  | OrcaOpenCenteredPositionTool => Some OrcaOpenCenteredPositionTool_schema
  | OrcaOpenSingleSidedPositionTool => Some OrcaOpenSingleSidedPositionTool_schema
  | CoingeckoGetTrendingPoolsTool => Some CoingeckoGetTrendingPoolsTool_schema
  | CoingeckoGetTopGainersTool => Some CoingeckoGetTopGainersTool_schema
  | CoingeckoGetTokenPriceDataTool => Some CoingeckoGetTokenPriceDataTool_schema
  | CoingeckoGetTokenInfoTool => Some CoingeckoGetTokenInfoTool_schema
  | _ => None
  end.
End Tables.

(** ** After validation

    For every class that calls [validate_input]: the statements of its
    asynchronous method that follow the call, as a function of the input
    string and of the value the validator gave back. *)

Section AfterValidation.
Context {W : World}.














































































































End AfterValidation.

(** ** The factory *)

(** An adapter object: its class, and the kit it was constructed with,
    under the keyword the constructor call used. *)
Record ToolInstance (K : Type) := instance {
  tool_class : Tool;
  kit_keyword : string;
  bound_kit : K
}.
Arguments instance {K} tool_class kit_keyword bound_kit.
Arguments tool_class {K} t.
Arguments kit_keyword {K} t.
Arguments bound_kit {K} t.

Definition create_solana_tools {K : Type} (solana_kit : K) : list (ToolInstance K) :=
  [instance SolanaBalanceTool "solana_kit" solana_kit;
   instance SolanaTransferTool "solana_kit" solana_kit;
   instance SolanaDeployTokenTool "solana_kit" solana_kit;
   instance SolanaTradeTool "solana_kit" solana_kit;
   instance SolanaFaucetTool "solana_kit" solana_kit;
   instance SolanaStakeTool "solana_kit" solana_kit;
   instance SolanaPumpFunTokenTool "solana_kit" solana_kit;
   instance SolanaCreateImageTool "solana_kit" solana_kit;
   instance SolanaGetWalletAddressTool "solana_kit" solana_kit;
   instance SolanaTPSCalculatorTool "solana_kit" solana_kit;
   instance SolanaFetchPriceTool "solana_kit" solana_kit;
   instance SolanaTokenDataTool "solana_kit" solana_kit;
   instance SolanaTokenDataByTickerTool "solana_kit" solana_kit;
   instance SolanaMeteoraDLMMTool "solana_kit" solana_kit;
   instance SolanaRaydiumBuyTool "solana_kit" solana_kit;
   instance SolanaRaydiumSellTool "solana_kit" solana_kit;
   instance SolanaCreateGibworkTaskTool "solana_kit" solana_kit;
   instance SolanaSellUsingMoonshotTool "solana_kit" solana_kit;
   instance SolanaBuyUsingMoonshotTool "solana_kit" solana_kit;
   instance SolanaPythGetPriceTool "solana_kit" solana_kit;
   instance SolanaHeliusGetBalancesTool "solana_kit" solana_kit;
   instance SolanaHeliusGetAddressNameTool "solana_kit" solana_kit;
   instance SolanaHeliusGetNftEventsTool "solana_kit" solana_kit;
   instance SolanaHeliusGetMintlistsTool "solana_kit" solana_kit;
   instance SolanaHeliusGetNFTFingerprintTool "solana_kit" solana_kit;
   instance SolanaHeliusGetActiveListingsTool "solana_kit" solana_kit;
   instance SolanaHeliusGetNFTMetadataTool "solana_kit" solana_kit;
   instance SolanaHeliusGetRawTransactionsTool "solana_kit" solana_kit;
   instance SolanaHeliusGetParsedTransactionsTool "solana_kit" solana_kit;
   instance SolanaHeliusGetParsedTransactionHistoryTool "solana_kit" solana_kit;
   instance SolanaHeliusCreateWebhookTool "solana_kit" solana_kit;
   instance SolanaHeliusGetAllWebhooksTool "solana_kit" solana_kit;
   instance SolanaHeliusGetWebhookTool "solana_kit" solana_kit;
   instance SolanaHeliusEditWebhookTool "solana_kit" solana_kit;
   instance SolanaHeliusDeleteWebhookTool "solana_kit" solana_kit;
   instance SolanaFetchTokenReportSummaryTool "solana_kit" solana_kit;
   instance SolanaFetchTokenDetailedReportTool "solana_kit" solana_kit;
   instance SolanaGetPumpCurveStateTool "solana_kit" solana_kit;
   instance SolanaCalculatePumpCurvePriceTool "solana_kit" solana_kit;
   instance SolanaBuyTokenTool "solana_kit" solana_kit;
   instance SolanaSellTokenTool "solana_kit" solana_kit;
   instance SolanaSNSGetAllDomainsTool "solana_kit" solana_kit;
   instance SolanaSNSRegisterDomainTool "solana_kit" solana_kit;
   instance SolanaSNSGetFavouriteDomainTool "solana_kit" solana_kit;
   instance SolanaSNSResolveTool "solana_kit" solana_kit;
   instance SolanaGetMetaplexAssetsByAuthorityTool "solana_kit" solana_kit;
   instance SolanaGetMetaplexAssetsByCreatorTool "solana_kit" solana_kit;
   instance SolanaGetMetaplexAssetTool "solana_kit" solana_kit;
   instance SolanaMintMetaplexCoreNFTTool "solana_kit" solana_kit;
   instance SolanaDeployCollectionTool "solana_kit" solana_kit;
   instance SolanaDeBridgeCreateTransactionTool "solana_kit" solana_kit;
   instance SolanaDeBridgeCheckTransactionStatusTool "solana_kit" solana_kit;
   instance SolanaDeBridgeExecuteTransactionTool "solana_kit" solana_kit;
   instance SolanaCybersCreateCoinTool "solana_kit" solana_kit;
   instance SolanaGetTipAccounts "solana_kit" solana_kit;
   instance SolanaGetRandomTipAccount "solana_kit" solana_kit;
   instance SolanaGetBundleStatuses "solana_kit" solana_kit;
   instance SolanaSendBundle "solana_kit" solana_kit;
   instance SolanaGetInflightBundleStatuses "solana_kit" solana_kit;
   instance SolanaSendTxn "solana_kit" solana_kit;
   instance StorkGetPriceTool "solana_kit" solana_kit;
   instance BackpackCancelOpenOrdersTool "solana_kit" solana_kit;
   instance BackpackCancelOpenOrderTool "solana_kit" solana_kit;
   instance BackpackGetBorrowLendPositionsTool "solana_kit" solana_kit;
   instance BackpackGetBorrowPositionHistoryTool "solana_kit" solana_kit;
   instance BackpackGetDepthTool "solana_kit" solana_kit;
   instance BackpackGetFundingIntervalRatesTool "solana_kit" solana_kit;
   instance BackpackGetFundingPaymentsTool "solana_kit" solana_kit;
   instance BackpackGetHistoricalTradesTool "solana_kit" solana_kit;
   instance BackpackGetKlinesTool "solana_kit" solana_kit;
   instance BackpackGetMarkPriceTool "solana_kit" solana_kit;
   instance BackpackGetMarketsTool "solana_kit" solana_kit;
   instance BackpackGetOpenInterestTool "solana_kit" solana_kit;
   instance BackpackGetOpenOrdersTool "solana_kit" solana_kit;
   instance BackpackGetOrderHistoryTool "solana_kit" solana_kit;
   instance BackpackGetPnlHistoryTool "solana_kit" solana_kit;
   instance BackpackGetRecentTradesTool "solana_kit" solana_kit;
   instance BackpackGetSettlementHistoryTool "solana_kit" solana_kit;
   instance BackpackGetStatusTool "solana_kit" solana_kit;
   instance BackpackGetSupportedAssetsTool "solana_kit" solana_kit;
   instance BackpackGetSystemTimeTool "solana_kit" solana_kit;
   instance BackpackGetTickerInformationTool "solana_kit" solana_kit;
   instance BackpackGetTickersTool "solana_kit" solana_kit;
   instance BackpackGetUsersOpenOrdersTool "solana_kit" solana_kit;
   instance BackpackSendPingTool "solana_kit" solana_kit;
   instance BackpackExecuteBorrowLendTool "solana_kit" solana_kit;
   instance BackpackExecuteOrderTool "solana_kit" solana_kit;
   instance BackpackGetFillHistoryTool "solana_kit" solana_kit;
   instance BackpackGetAccountBalancesTool "solana_kit" solana_kit;
   instance BackpackRequestWithdrawalTool "solana_kit" solana_kit;
   instance BackpackGetAccountSettingsTool "solana_kit" solana_kit;
   instance BackpackUpdateAccountSettingsTool "solana_kit" solana_kit;
   instance BackpackGetCollateralInfoTool "solana_kit" solana_kit;
   instance BackpackGetAccountDepositsTool "solana_kit" solana_kit;
   instance BackpackGetOpenPositionsTool "solana_kit" solana_kit;
   instance BackpackGetBorrowHistoryTool "solana_kit" solana_kit;
   instance BackpackGetInterestHistoryTool "solana_kit" solana_kit;
   instance BackpackGetMarketTool "solana_kit" solana_kit;
   instance ClosePerpTradeLongTool "solana_kit" solana_kit;
   instance ClosePerpTradeShortTool "solana_kit" solana_kit;
   instance OpenPerpTradeLongTool "solana_kit" solana_kit;
   instance OpenPerpTradeShortTool "solana_kit" solana_kit;
   instance Create3LandCollectionTool "solana_kit" solana_kit;
   instance Create3LandNFTTool "solana_kit" solana_kit;
   instance CreateDriftUserAccountTool "solana_kit" solana_kit;
   instance DepositToDriftUserAccountTool "solana_kit" solana_kit;
   instance WithdrawFromDriftUserAccountTool "solana_kit" solana_kit;
   instance TradeUsingDriftPerpAccountTool "solana_kit" solana_kit;
   instance CheckIfDriftAccountExistsTool "solana_kit" solana_kit;
   instance DriftUserAccountInfoTool "solana_kit" solana_kit;
   instance GetAvailableDriftMarketsTool "solana_kit" solana_kit;
   instance StakeToDriftInsuranceFundTool "solana_kit" solana_kit;
   instance RequestUnstakeFromDriftInsuranceFundTool "solana_kit" solana_kit;
   instance UnstakeFromDriftInsuranceFundTool "solana_kit" solana_kit;
   instance DriftSwapSpotTokenTool "solana_kit" solana_kit;
   instance GetDriftPerpMarketFundingRateTool "solana_kit" solana_kit;
   instance GetDriftEntryQuoteOfPerpTradeTool "solana_kit" solana_kit;
   instance GetDriftLendBorrowApyTool "solana_kit" solana_kit;
   instance CreateDriftVaultTool "solana_kit" solana_kit;
   instance UpdateDriftVaultDelegateTool "solana_kit" solana_kit;
   instance UpdateDriftVaultTool "solana_kit" solana_kit;
   instance GetDriftVaultInfoTool "solana_kit" solana_kit;
   instance DepositIntoDriftVaultTool "solana_kit" solana_kit;
   instance RequestWithdrawalFromDriftVaultTool "solana_kit" solana_kit;
   instance WithdrawFromDriftVaultTool "solana_kit" solana_kit;
   instance DeriveDriftVaultAddressTool "solana_kit" solana_kit;
   instance TradeUsingDelegatedDriftVaultTool "solana_kit" solana_kit;
   instance FlashCloseTradeTool "solana_kit" solana_kit;
   instance FlashOpenTradeTool "solana_kit" solana_kit;
   instance ResolveAllDomainsTool "solana_kit" solana_kit;
   instance GetOwnedDomainsForTLDTool "solana_kit" solana_kit;
   instance GetAllDomainsTLDsTool "solana_kit" solana_kit;
   instance GetOwnedAllDomainsTool "solana_kit" solana_kit;
   instance LightProtocolSendCompressedAirdropTool "solana_kit" solana_kit;
   instance ManifestCreateMarketTool "solana_kit" solana_kit;
   instance ManifestPlaceLimitOrderTool "solana_kit" solana_kit;
   instance ManifestPlaceBatchOrdersTool "solana_kit" solana_kit;
   instance ManifestCancelAllOrdersTool "solana_kit" solana_kit;
   instance ManifestWithdrawAllTool "solana_kit" solana_kit;
   instance OpenBookCreateMarketTool "solana_kit" solana_kit;
   instance OrcaClosePositionTool "solana_kit" solana_kit;
   instance OrcaCreateClmmTool "solana_kit" solana_kit;
   instance OrcaCreateLiquidityPoolTool "solana_kit" solana_kit;
   instance OrcaFetchPositionsTool "solana_kit" solana_kit;
   instance OrcaOpenCenteredPositionTool "solana_kit" solana_kit;
   instance OrcaOpenSingleSidedPositionTool "solana_kit" solana_kit;
   instance CoingeckoGetTrendingTokensTool "agent_kit" solana_kit;
   instance CoingeckoGetTrendingPoolsTool "agent_kit" solana_kit;
   instance CoingeckoGetTopGainersTool "agent_kit" solana_kit;
   instance CoingeckoGetTokenPriceDataTool "agent_kit" solana_kit;
   instance CoingeckoGetTokenInfoTool "agent_kit" solana_kit;
   instance CoingeckoGetLatestPoolsTool "agent_kit" solana_kit;
   instance ElfaAiPingApiTool "agent_kit" solana_kit;
   instance ElfaAiGetApiKeyStatusTool "agent_kit" solana_kit;
   instance ElfaAiGetSmartMentionsTool "agent_kit" solana_kit;
   instance ElfaAiGetTopMentionsByTickerTool "agent_kit" solana_kit;
   instance ElfaAiSearchMentionsByKeywordsTool "agent_kit" solana_kit;
   instance ElfaAiGetTrendingTokensTool "agent_kit" solana_kit;
   instance ElfaAiGetSmartTwitterAccountStatsTool "agent_kit" solana_kit;
   instance FluxBeamCreatePoolTool "agent_kit" solana_kit;
   instance LuloLendTool "agent_kit" solana_kit;
   instance LuloWithdrawTool "agent_kit" solana_kit].

(** ** A stub world

    A concrete world for the scenarios: a parser for the JSON fragment of
    objects, arrays, strings without escapes, decimal numbers without
    exponent (read as the decimal they write, which is the float for the
    literals of the examples, [0.5] and [1.5]), [true], [false], [null] and
    the three tokens [NaN], [Infinity] and [-Infinity] that [json.loads]
    accepts; the base58 check of
    [Pubkey.from_string] (a key is 32 bytes); and a stub collaborator whose
    answer to each call is given. *)

Module Stub.

Definition dquote : ascii := "034"%char.

(** [quoted s] is [s] between double quotes. *)
Definition quoted (s : string) : string := String dquote (s ++ String dquote "").

Definition is_ws (c : ascii) : bool :=
  Ascii.eqb c " "%char || Ascii.eqb c "009"%char || Ascii.eqb c "010"%char
  || Ascii.eqb c "013"%char.

Fixpoint skip_ws (s : string) : string :=
  match s with
  | String c rest => if is_ws c then skip_ws rest else s
  | EmptyString => s
  end.

Definition digit (c : ascii) : option Z :=
  let n := Z.of_nat (nat_of_ascii c) in
  if ((48 <=? n) && (n <=? 57))%Z then Some (n - 48) else None.

(** The digits at the head of [s]: their value after [acc], how many were
    read, and the rest. *)
Fixpoint read_digits (s : string) (acc : Z) (count : nat) : Z * nat * string :=
  match s with
  | String c rest =>
      match digit c with
      | Some d => read_digits rest (10 * acc + d) (S count)
      | None => (acc, count, s)
      end
  | EmptyString => (acc, count, s)
  end.

(** The characters up to the closing quote. *)
Fixpoint read_string (s : string) : option (string * string) :=
  match s with
  | String c rest =>
      if Ascii.eqb c dquote then Some ("", rest)
      else if Ascii.eqb c "\"%char then None
      else match read_string rest with
           | Some (body, rest') => Some (String c body, rest')
           | None => None
           end
  | EmptyString => None
  end.

Definition read_number (s : string) : option (value * string) :=
  let '(negative, s1) :=
    match s with
    | String "-"%char rest => (true, rest)
    | _ => (false, s)
    end in
  let sign (z : Z) := if negative then - z else z in
  match read_digits s1 0 0 with
  | (_, O, _) => None
  | (whole, _, String "."%char s2) =>
      match read_digits s2 whole 0 with
      | (_, O, _) => None
      | (digits, count, s3) =>
          Some (VFloat (Qmake (sign digits) (Z.to_pos (10 ^ Z.of_nat count))), s3)
      end
  | (whole, _, s2) => Some (VInt (sign whole), s2)
  end.

(** A repeated key keeps its place and takes the last value. *)
Fixpoint dict_set (k : string) (v : value) (d : dict) : dict :=
  match d with
  | [] => [(k, v)]
  | (k', v') :: rest =>
      if String.eqb k k' then (k, v) :: rest else (k', v') :: dict_set k v rest
  end.

Fixpoint parse_value (fuel : nat) (s : string) : option (value * string) :=
  match fuel with
  | O => None
  | S fuel =>
      match skip_ws s with
      | EmptyString => None
      | String c rest as s' =>
          if Ascii.eqb c dquote then
            match read_string rest with
            | Some (body, rest') => Some (VStr body, rest')
            | None => None
            end
          else if Ascii.eqb c "{"%char then
            match skip_ws rest with
            | String "}"%char rest' => Some (VDict [], rest')
            | _ => parse_members fuel rest []
            end
          else if Ascii.eqb c "["%char then
            match skip_ws rest with
            | String "]"%char rest' => Some (VList [], rest')
            | _ => parse_elements fuel rest []
            end
          else if is_prefix "null" s' then Some (VNone, String.substring 4 (String.length s') s')
          else if is_prefix "true" s' then Some (VBool true, String.substring 4 (String.length s') s')
          else if is_prefix "false" s' then Some (VBool false, String.substring 5 (String.length s') s')
          else if is_prefix "NaN" s'
          then Some (VFloatSpecial NaN, String.substring 3 (String.length s') s')
          else if is_prefix "Infinity" s'
          then Some (VFloatSpecial PosInfinity, String.substring 8 (String.length s') s')
          else if is_prefix "-Infinity" s'
          then Some (VFloatSpecial NegInfinity, String.substring 9 (String.length s') s')
          else read_number s'
      end
  end
with parse_members (fuel : nat) (s : string) (acc : dict) : option (value * string) :=
  match fuel with
  | O => None
  | S fuel =>
      match skip_ws s with
      | String c rest =>
          if Ascii.eqb c dquote then
            match read_string rest with
            | Some (key, rest1) =>
                match skip_ws rest1 with
                | String ":"%char rest2 =>
                    match parse_value fuel rest2 with
                    | Some (v, rest3) =>
                        match skip_ws rest3 with
                        | String ","%char rest4 => parse_members fuel rest4 (dict_set key v acc)
                        | String "}"%char rest4 => Some (VDict (dict_set key v acc), rest4)
                        | _ => None
                        end
                    | None => None
                    end
                | _ => None
                end
            | None => None
            end
          else None
      | EmptyString => None
      end
  end
with parse_elements (fuel : nat) (s : string) (acc : list value) : option (value * string) :=
  match fuel with
  | O => None
  | S fuel =>
      match parse_value fuel s with
      | Some (v, rest) =>
          match skip_ws rest with
          | String ","%char rest' => parse_elements fuel rest' (acc ++ [v])
          | String "]"%char rest' => Some (VList (acc ++ [v]), rest')
          | _ => None
          end
      | None => None
      end
  end.

Definition JSONDecodeError (msg : string) : Exc := mkExc "JSONDecodeError" true msg None.

Definition json_loads (s : string) : Outcome value :=
  match parse_value (S (String.length s)) s with
  | Some (v, rest) =>
      match skip_ws rest with
      | EmptyString => Return v
      | _ => Raise (JSONDecodeError "Extra data")
      end
  | None => Raise (JSONDecodeError "Expecting value")
  end.

(** [int(s)] on an optional sign and decimal digits *)
Definition int (s : string) : Outcome value :=
  match read_number s with
  | Some (VInt z, EmptyString) => Return (VInt z)
  | _ => Raise (ValueError ("invalid literal for int() with base 10: '" ++ s ++ "'"))
  end.

(** *** Base58 *)

Definition base58_alphabet : string :=
  "123456789ABCDEFGHJKLMNPQRSTUVWXYZabcdefghijkmnopqrstuvwxyz".

Fixpoint index_of (c : ascii) (alphabet : string) (i : Z) : option Z :=
  match alphabet with
  | String a rest => if Ascii.eqb a c then Some i else index_of c rest (i + 1)
  | EmptyString => None
  end.

(** The number a base58 string denotes. *)
Fixpoint base58_value (s : string) (acc : Z) : option Z :=
  match s with
  | String c rest =>
      match index_of c base58_alphabet 0 with
      | Some d => base58_value rest (58 * acc + d)
      | None => None
      end
  | EmptyString => Some acc
  end.

Fixpoint leading_ones (s : string) : Z :=
  match s with
  | String "1"%char rest => 1 + leading_ones rest
  | _ => 0
  end.

(** The number of bytes a base58 string decodes to: one zero byte for each
    leading [1], then the bytes of the number. *)
Definition base58_length (s : string) : option Z :=
  match base58_value s 0 with
  | Some n => Some (leading_ones s + (if (n =? 0)%Z then 0 else Z.log2 n / 8 + 1))
  | None => None
  end.

(** [Pubkey.from_string]: the key is the decoded number of 32 bytes. *)
Definition Pubkey_from_string (x : value) : Outcome value :=
  match x with
  | VStr s =>
      match base58_length s, base58_value s 0 with
      | Some 32, Some n => Return (VObj (Z.to_N n))
      | Some _, _ => Raise (ValueError "String is the wrong size")
      | None, _ => Raise (ValueError "Invalid Base58 string")
      end
  | _ => Raise (TypeError "argument 's': object cannot be converted to 'PyString'")
  end.

(** The world around a collaborator that answers [answer c] to the call
    [c]; what a call returns is awaited to itself. *)
Definition world (answer : Call -> Outcome value) : World := {|
  w_json_loads := json_loads;
  w_json_dumps := fun _ => Return "{}";
  w_Pubkey_from_string := Pubkey_from_string;
  w_Pubkey := fun _ => Raise (ValueError "expected a sequence of length 32");
  w_int := int;
  w_str := fun v => match v with VStr s => s | _ => "<object>" end;
  w_strip := fun s => s;
  w_obj_truthy := fun _ => true;
  w_obj_getitem := fun _ _ => Raise (TypeError "object is not subscriptable");
  w_obj_contains := fun _ _ => Raise (TypeError "object is not iterable");
  w_obj_method := fun _ m _ => Raise (AttributeError ("object has no attribute " ++ m)%string);
  w_builtin_msg := fun op _ => ("unsupported operand for " ++ op)%string;
  w_kit_lookup := fun _ => None;
  w_kit_attr := fun _ => Return (VObj 0);
  w_call := answer;
  w_await := fun v => Return v;
  w_validate_other := fun _ _ => Some (TypeError "input is not a mapping")
|}.

(** The input of the transfer scenario: [{"to": "ABC", "amount": 5}] *)
Definition transfer_input : string :=
  ("{" ++ quoted "to" ++ ": " ++ quoted "ABC" ++ ", " ++ quoted "amount" ++ ": 5}")%string.

(** The same with a recipient that is a key, the 32 zero bytes. *)
Definition valid_transfer_input : string :=
  ("{" ++ quoted "to" ++ ": " ++ quoted "11111111111111111111111111111111" ++ ", "
   ++ quoted "amount" ++ ": 5}")%string.

(** [{"to": "ABC", "amount": 0}] *)
Definition zero_amount_input : string :=
  ("{" ++ quoted "to" ++ ": " ++ quoted "ABC" ++ ", " ++ quoted "amount" ++ ": 0}")%string.

(** [{"decimals": 9, "initialSupply": 1000}] *)
Definition deploy_input : string :=
  ("{" ++ quoted "decimals" ++ ": 9, " ++ quoted "initialSupply" ++ ": 1000}")%string.

(** A pool request whose ["activation_type"] is ["Delayed"]. *)
Definition meteora_input : string :=
  ("{" ++ quoted "bin_step" ++ ": 5, " ++ quoted "token_a_mint" ++ ": " ++ quoted "A" ++ ", "
   ++ quoted "token_b_mint" ++ ": " ++ quoted "B" ++ ", " ++ quoted "initial_price" ++ ": 1.5, "
   ++ quoted "price_rounding_up" ++ ": true, " ++ quoted "fee_bps" ++ ": 300, "
   ++ quoted "activation_type" ++ ": " ++ quoted "Delayed" ++ ", "
   ++ quoted "has_alpha_vault" ++ ": false}")%string.

Definition meteora_data : dict :=
  [("bin_step", VInt 5); ("token_a_mint", VStr "A"); ("token_b_mint", VStr "B");
   ("initial_price", VFloat (15 # 10)); ("price_rounding_up", VBool true);
   ("fee_bps", VInt 300); ("activation_type", VStr "Delayed");
   ("has_alpha_vault", VBool false)].

(** An exception of the collaborator that carries a code. *)
Definition rate_limited : Exc :=
  mkExc "RuntimeError" true "rate limit exceeded" (Some (VStr "RATE_LIMITED")).

(** The world of a collaborator that refuses every call with that
    exception, and the world of one that answers every call with a string. *)
Definition limited_world : World := world (fun _ => Raise rate_limited).
Definition plain_world : World := world (fun _ => Return (VStr "ok")).

(** The world of a collaborator that answers every call with a mapping that
    has a ["mint"]. *)
Definition mint_world : World :=
  world (fun _ => Return (VDict [("mint", VStr "Mint1")])).

End Stub.

(** * Statements *)

(** [te] is the body of [_arun] of class [t], called the way the method is
    declared: without argument, or on an input string. *)
Inductive arun_invocation {W : World} (t : Tool) : TryExcept value -> Prop :=
| arun_no_input body :
    async_method t = Arun0 body -> arun_invocation t body
| arun_on_input body input :
    async_method t = Arun1 body -> arun_invocation t (body input).

(** [m] is a call of [_run] of class [t], the way the method is declared. *)
Inductive run_invocation (t : Tool) : M value -> Prop :=
| run_no_input body :
    sync_method t = Run0 body -> run_invocation t body
| run_on_input body input :
    sync_method t = Run1 body -> run_invocation t (body input).

(** A handler that only builds its result. *)
Definition pure_handler {A} (h : Exc -> M A) : Prop :=
  forall e, exists v, h e = ret v.

(** The error result of the uniform contract for the exception [e]: status
    ["error"], a message that ends with [str(e)], and the code of [e]. *)
Definition is_error_result (e : Exc) (v : value) : Prop :=
  exists d prefix,
    v = VDict d /\
    lookup "status" d = Some (VStr "error") /\
    lookup "message" d = Some (VStr (prefix ++ exc_msg e)) /\
    lookup "code" d = Some (getattr_code e).

(** [validate_input] returns normally on [data]. *)
Definition validation_succeeds {W : World} (data : value) (schema : Schema) : Prop :=
  exists data', validate_input data schema [] = ([], Return data').

Fixpoint nodupb (l : list nat) : bool :=
  match l with
  | [] => true
  | x :: rest => negb (existsb (Nat.eqb x) rest) && nodupb rest
  end.
(** The classes whose [_arun] begins by [json.loads(input)]. *)
Definition parses_json (t : Tool) : bool :=
  match t with
  | SolanaTransferTool
  | SolanaDeployTokenTool
  | SolanaTradeTool
  | SolanaCreateImageTool
  | SolanaPumpFunTokenTool
  | SolanaMeteoraDLMMTool
  | SolanaRaydiumBuyTool
  | SolanaRaydiumSellTool
  | SolanaBurnAndCloseTool
  | SolanaBurnAndCloseMultipleTool
  | SolanaCreateGibworkTaskTool
  | SolanaBuyUsingMoonshotTool
  | SolanaSellUsingMoonshotTool
  | SolanaPythGetPriceTool
  | SolanaHeliusGetBalancesTool
  | SolanaHeliusGetAddressNameTool
  | SolanaHeliusGetNftEventsTool
  | SolanaHeliusGetMintlistsTool
  | SolanaHeliusGetNFTFingerprintTool
  | SolanaHeliusGetActiveListingsTool
  | SolanaHeliusGetNFTMetadataTool
  | SolanaHeliusGetRawTransactionsTool
  | SolanaHeliusGetParsedTransactionsTool
  | SolanaHeliusGetParsedTransactionHistoryTool
  | SolanaHeliusCreateWebhookTool
  | SolanaHeliusGetWebhookTool
  | SolanaHeliusEditWebhookTool
  | SolanaHeliusDeleteWebhookTool
  | SolanaFetchTokenReportSummaryTool
  | SolanaFetchTokenDetailedReportTool
  | SolanaGetPumpCurveStateTool
  | SolanaCalculatePumpCurvePriceTool
  | SolanaBuyTokenTool
  | SolanaSellTokenTool
  | SolanaSNSResolveTool
  | SolanaSNSRegisterDomainTool
  | SolanaSNSGetFavouriteDomainTool
  | SolanaSNSGetAllDomainsTool
  | SolanaDeployCollectionTool
  | SolanaGetMetaplexAssetTool
  | SolanaGetMetaplexAssetsByCreatorTool
  | SolanaGetMetaplexAssetsByAuthorityTool
  | SolanaMintMetaplexCoreNFTTool
  | SolanaDeBridgeCreateTransactionTool
  | SolanaDeBridgeExecuteTransactionTool
  | SolanaDeBridgeCheckTransactionStatusTool
  | SolanaCybersCreateCoinTool
  | SolanaGetBundleStatuses
  | SolanaSendBundle
  | SolanaGetInflightBundleStatuses
  | SolanaSendTxn
  | StorkGetPriceTool
  | BackpackRequestWithdrawalTool
  | BackpackUpdateAccountSettingsTool
  | BackpackExecuteBorrowLendTool
  | BackpackGetFillHistoryTool
  | BackpackGetBorrowPositionHistoryTool
  | BackpackGetFundingPaymentsTool
  | BackpackGetOrderHistoryTool
  | BackpackGetPnlHistoryTool
  | BackpackGetSettlementHistoryTool
  | BackpackGetUsersOpenOrdersTool
  | BackpackExecuteOrderTool
  | BackpackCancelOpenOrderTool
  | BackpackGetOpenOrdersTool
  | BackpackCancelOpenOrdersTool
  | BackpackGetTickerInformationTool
  | BackpackGetMarketTool
  | BackpackGetDepthTool
  | BackpackGetKlinesTool
  | BackpackGetMarkPriceTool
  | BackpackGetOpenInterestTool
  | BackpackGetFundingIntervalRatesTool
  | BackpackGetRecentTradesTool
  | BackpackGetHistoricalTradesTool
  | BackpackGetCollateralInfoTool
  | BackpackGetAccountDepositsTool
  | BackpackGetBorrowHistoryTool
  | BackpackGetInterestHistoryTool
  | ClosePerpTradeShortTool
  | ClosePerpTradeLongTool
  | OpenPerpTradeLongTool
  | OpenPerpTradeShortTool
  | Create3LandCollectionTool
  | Create3LandNFTTool
  | CreateDriftUserAccountTool
  | DepositToDriftUserAccountTool
  | WithdrawFromDriftUserAccountTool
  | TradeUsingDriftPerpAccountTool
  | StakeToDriftInsuranceFundTool
  | RequestUnstakeFromDriftInsuranceFundTool
  | UnstakeFromDriftInsuranceFundTool
  | DriftSwapSpotTokenTool
  | GetDriftPerpMarketFundingRateTool
  | GetDriftEntryQuoteOfPerpTradeTool
  | GetDriftLendBorrowApyTool
  | CreateDriftVaultTool
  | UpdateDriftVaultDelegateTool
  | UpdateDriftVaultTool
  | GetDriftVaultInfoTool
  | DepositIntoDriftVaultTool
  | RequestWithdrawalFromDriftVaultTool
  | WithdrawFromDriftVaultTool
  | DeriveDriftVaultAddressTool
  | TradeUsingDelegatedDriftVaultTool
  | FlashOpenTradeTool
  | FlashCloseTradeTool
  | ResolveAllDomainsTool
  | GetOwnedDomainsForTLDTool
  | GetOwnedAllDomainsTool
  | LightProtocolSendCompressedAirdropTool
  | ManifestCreateMarketTool
  | ManifestPlaceLimitOrderTool
  | ManifestPlaceBatchOrdersTool
  | ManifestCancelAllOrdersTool
  | ManifestWithdrawAllTool
  | OpenBookCreateMarketTool
  | OrcaClosePositionTool
  | OrcaCreateClmmTool
  | OrcaCreateLiquidityPoolTool
  | OrcaOpenCenteredPositionTool
  | OrcaOpenSingleSidedPositionTool
  | CoingeckoGetTrendingPoolsTool
  | CoingeckoGetTopGainersTool
  | CoingeckoGetTokenPriceDataTool
  | CoingeckoGetTokenInfoTool
  | ElfaAiGetSmartMentionsTool
  | ElfaAiGetTopMentionsByTickerTool
  | ElfaAiSearchMentionsByKeywordsTool
  | ElfaAiGetTrendingTokensTool
  | ElfaAiGetSmartTwitterAccountStatsTool
  | FluxBeamCreatePoolTool
  | LuloLendTool
  | LuloWithdrawTool => true
  | _ => false
  end.

(** The classes whose [_arun] hands the whole parsed input to its delegate as
    keyword arguments, unpacked with [**data], with the name of the method. *)
Definition forwards_input (t : Tool) : option string :=
  match t with
  | BackpackUpdateAccountSettingsTool => Some "update_account_settings"
  | BackpackGetFillHistoryTool => Some "get_fill_history"
  | BackpackGetBorrowPositionHistoryTool => Some "get_borrow_position_history"
  | BackpackGetFundingPaymentsTool => Some "get_funding_payments"
  | BackpackGetOrderHistoryTool => Some "get_order_history"
  | BackpackGetPnlHistoryTool => Some "get_pnl_history"
  | BackpackGetSettlementHistoryTool => Some "get_settlement_history"
  | BackpackGetUsersOpenOrdersTool => Some "get_users_open_orders"
  | BackpackExecuteOrderTool => Some "execute_order"
  | BackpackCancelOpenOrderTool => Some "cancel_open_order"
  | BackpackGetOpenOrdersTool => Some "get_open_orders"
  | BackpackCancelOpenOrdersTool => Some "cancel_open_orders"
  | BackpackGetTickerInformationTool => Some "get_ticker_information"
  | BackpackGetMarketTool => Some "get_market"
  | BackpackGetBorrowHistoryTool => Some "get_borrow_history"
  | BackpackGetInterestHistoryTool => Some "get_interest_history"
  | _ => None
  end.

(** The function of the kit that the asynchronous method of a class calls;
    one class calls none. *)
Definition delegate (t : Tool) : option Callee :=
  match t with
  | SolanaBalanceTool => Some (KitMethod "get_balance")
  | SolanaTransferTool => Some (KitMethod "transfer")
  | SolanaDeployTokenTool => Some (KitMethod "deploy_token")
  | SolanaTradeTool => Some (KitMethod "trade")
  | SolanaFaucetTool => Some (KitMethod "request_faucet_funds")
  | SolanaStakeTool => Some (KitMethod "stake")
  | SolanaGetWalletAddressTool => None
  | SolanaCreateImageTool => Some (ToolsFunction "create_image")
  | SolanaTPSCalculatorTool => Some (KitMethod "get_tps")
  | SolanaPumpFunTokenTool => Some (KitMethod "launch_pump_fun_token")
  | SolanaFetchPriceTool => Some (KitMethod "fetch_price")
  | SolanaTokenDataTool => Some (KitMethod "get_token_data_by_address")
  | SolanaTokenDataByTickerTool => Some (KitMethod "get_token_data_by_ticker")
  | SolanaMeteoraDLMMTool => Some (KitMethod "create_meteora_dlmm_pool")
  | SolanaRaydiumBuyTool => Some (KitMethod "buy_with_raydium")
  | SolanaRaydiumSellTool => Some (KitMethod "sell_with_raydium")
  | SolanaBurnAndCloseTool => Some (KitMethod "burn_and_close_accounts")
  | SolanaBurnAndCloseMultipleTool => Some (KitMethod "multiple_burn_and_close_accounts")
  | SolanaCreateGibworkTaskTool => Some (KitMethod "create_gibwork_task")
  | SolanaBuyUsingMoonshotTool => Some (KitMethod "buy_using_moonshot")
  | SolanaSellUsingMoonshotTool => Some (KitMethod "sell_using_moonshot")
  | SolanaPythGetPriceTool => Some (KitMethod "pythFetchPrice")
  | SolanaHeliusGetBalancesTool => Some (KitMethod "get_balances")
  | SolanaHeliusGetAddressNameTool => Some (KitMethod "get_address_name")
  | SolanaHeliusGetNftEventsTool => Some (KitMethod "get_nft_events")
  | SolanaHeliusGetMintlistsTool => Some (KitMethod "get_mintlists")
  | SolanaHeliusGetNFTFingerprintTool => Some (KitMethod "get_nft_fingerprint")
  | SolanaHeliusGetActiveListingsTool => Some (KitMethod "get_active_listings")
  | SolanaHeliusGetNFTMetadataTool => Some (KitMethod "get_nft_metadata")
  | SolanaHeliusGetRawTransactionsTool => Some (KitMethod "get_raw_transactions")
  | SolanaHeliusGetParsedTransactionsTool => Some (KitMethod "get_parsed_transactions")
  | SolanaHeliusGetParsedTransactionHistoryTool => Some (KitMethod "get_parsed_transaction_history")
  | SolanaHeliusCreateWebhookTool => Some (KitMethod "create_webhook")
  | SolanaHeliusGetAllWebhooksTool => Some (KitMethod "get_all_webhooks")
  | SolanaHeliusGetWebhookTool => Some (KitMethod "get_webhook")
  | SolanaHeliusEditWebhookTool => Some (KitMethod "edit_webhook")
  | SolanaHeliusDeleteWebhookTool => Some (KitMethod "delete_webhook")
  | SolanaFetchTokenReportSummaryTool => Some (KitMethod "fetch_token_report_summary")
  | SolanaFetchTokenDetailedReportTool => Some (KitMethod "fetch_token_detailed_report")
  | SolanaGetPumpCurveStateTool => Some (KitMethod "get_pump_curve_state")
  | SolanaCalculatePumpCurvePriceTool => Some (KitMethod "calculate_pump_curve_price")
  | SolanaBuyTokenTool => Some (KitMethod "buy_token")
  | SolanaSellTokenTool => Some (KitMethod "sell_token")
  | SolanaSNSResolveTool => Some (KitMethod "resolve_name_to_address")
  | SolanaSNSRegisterDomainTool => Some (KitMethod "get_registration_transaction")
  | SolanaSNSGetFavouriteDomainTool => Some (KitMethod "get_favourite_domain")
  | SolanaSNSGetAllDomainsTool => Some (KitMethod "get_all_domains_for_owner")
  | SolanaDeployCollectionTool => Some (KitMethod "deploy_collection")
  | SolanaGetMetaplexAssetTool => Some (KitMethod "get_metaplex_asset")
  | SolanaGetMetaplexAssetsByCreatorTool => Some (KitMethod "get_metaplex_assets_by_creator")
  | SolanaGetMetaplexAssetsByAuthorityTool => Some (KitMethod "get_metaplex_assets_by_authority")
  | SolanaMintMetaplexCoreNFTTool => Some (KitMethod "mint_metaplex_core_nft")
  | SolanaDeBridgeCreateTransactionTool => Some (KitMethod "create_debridge_transaction")
  | SolanaDeBridgeExecuteTransactionTool => Some (KitMethod "execute_debridge_transaction")
  | SolanaDeBridgeCheckTransactionStatusTool => Some (KitMethod "check_transaction_status")
  | SolanaCybersCreateCoinTool => Some (KitMethod "cybers_create_coin")
  | SolanaGetTipAccounts => Some (KitMethod "get_tip_accounts")
  | SolanaGetRandomTipAccount => Some (KitMethod "get_random_tip_account")
  | SolanaGetBundleStatuses => Some (KitMethod "get_bundle_statuses")
  | SolanaSendBundle => Some (KitMethod "send_bundle")
  | SolanaGetInflightBundleStatuses => Some (KitMethod "get_inflight_bundle_statuses")
  | SolanaSendTxn => Some (KitMethod "send_txn")
  | StorkGetPriceTool => Some (KitMethod "stork_fetch_price")
  | BackpackGetAccountBalancesTool => Some (KitMethod "get_account_balances")
  | BackpackRequestWithdrawalTool => Some (KitMethod "request_withdrawal")
  | BackpackGetAccountSettingsTool => Some (KitMethod "get_account_settings")
  | BackpackUpdateAccountSettingsTool => Some (KitMethod "update_account_settings")
  | BackpackGetBorrowLendPositionsTool => Some (KitMethod "get_borrow_lend_positions")
  | BackpackExecuteBorrowLendTool => Some (KitMethod "execute_borrow_lend")
  | BackpackGetFillHistoryTool => Some (KitMethod "get_fill_history")
  | BackpackGetBorrowPositionHistoryTool => Some (KitMethod "get_borrow_position_history")
  | BackpackGetFundingPaymentsTool => Some (KitMethod "get_funding_payments")
  | BackpackGetOrderHistoryTool => Some (KitMethod "get_order_history")
  | BackpackGetPnlHistoryTool => Some (KitMethod "get_pnl_history")
  | BackpackGetSettlementHistoryTool => Some (KitMethod "get_settlement_history")
  | BackpackGetUsersOpenOrdersTool => Some (KitMethod "get_users_open_orders")
  | BackpackExecuteOrderTool => Some (KitMethod "execute_order")
  | BackpackCancelOpenOrderTool => Some (KitMethod "cancel_open_order")
  | BackpackGetOpenOrdersTool => Some (KitMethod "get_open_orders")
  | BackpackCancelOpenOrdersTool => Some (KitMethod "cancel_open_orders")
  | BackpackGetSupportedAssetsTool => Some (KitMethod "get_supported_assets")
  | BackpackGetTickerInformationTool => Some (KitMethod "get_ticker_information")
  | BackpackGetMarketsTool => Some (KitMethod "get_markets")
  | BackpackGetMarketTool => Some (KitMethod "get_market")
  | BackpackGetTickersTool => Some (KitMethod "get_tickers")
  | BackpackGetDepthTool => Some (KitMethod "get_depth")
  | BackpackGetKlinesTool => Some (KitMethod "get_klines")
  | BackpackGetMarkPriceTool => Some (KitMethod "get_mark_price")
  | BackpackGetOpenInterestTool => Some (KitMethod "get_open_interest")
  | BackpackGetFundingIntervalRatesTool => Some (KitMethod "get_funding_interval_rates")
  | BackpackGetStatusTool => Some (KitMethod "get_status")
  | BackpackSendPingTool => Some (KitMethod "send_ping")
  | BackpackGetSystemTimeTool => Some (KitMethod "get_system_time")
  | BackpackGetRecentTradesTool => Some (KitMethod "get_recent_trades")
  | BackpackGetHistoricalTradesTool => Some (KitMethod "get_historical_trades")
  | BackpackGetCollateralInfoTool => Some (KitMethod "get_collateral_info")
  | BackpackGetAccountDepositsTool => Some (KitMethod "get_account_deposits")
  | BackpackGetOpenPositionsTool => Some (KitMethod "get_open_positions")
  | BackpackGetBorrowHistoryTool => Some (KitMethod "get_borrow_history")
  | BackpackGetInterestHistoryTool => Some (KitMethod "get_interest_history")
  | ClosePerpTradeShortTool => Some (KitMethod "close_perp_trade_short")
  | ClosePerpTradeLongTool => Some (KitMethod "close_perp_trade_long")
  | OpenPerpTradeLongTool => Some (KitMethod "open_perp_trade_long")
  | OpenPerpTradeShortTool => Some (KitMethod "open_perp_trade_short")
  | Create3LandCollectionTool => Some (KitMethod "create_3land_collection")
  | Create3LandNFTTool => Some (KitMethod "create_3land_nft")
  | CreateDriftUserAccountTool => Some (KitMethod "create_drift_user_account")
  | DepositToDriftUserAccountTool => Some (KitMethod "deposit_to_drift_user_account")
  | WithdrawFromDriftUserAccountTool => Some (KitMethod "withdraw_from_drift_user_account")
  | TradeUsingDriftPerpAccountTool => Some (KitMethod "trade_using_drift_perp_account")
  | CheckIfDriftAccountExistsTool => Some (KitMethod "check_if_drift_account_exists")
  | DriftUserAccountInfoTool => Some (KitMethod "drift_user_account_info")
  | GetAvailableDriftMarketsTool => Some (KitMethod "get_available_drift_markets")
  | StakeToDriftInsuranceFundTool => Some (KitMethod "stake_to_drift_insurance_fund")
  | RequestUnstakeFromDriftInsuranceFundTool => Some (KitMethod "request_unstake_from_drift_insurance_fund")
  | UnstakeFromDriftInsuranceFundTool => Some (KitMethod "unstake_from_drift_insurance_fund")
  | DriftSwapSpotTokenTool => Some (KitMethod "drift_swap_spot_token")
  | GetDriftPerpMarketFundingRateTool => Some (KitMethod "get_drift_perp_market_funding_rate")
  | GetDriftEntryQuoteOfPerpTradeTool => Some (KitMethod "get_drift_entry_quote_of_perp_trade")
  | GetDriftLendBorrowApyTool => Some (KitMethod "get_drift_lend_borrow_apy")
  | CreateDriftVaultTool => Some (KitMethod "create_drift_vault")
  | UpdateDriftVaultDelegateTool => Some (KitMethod "update_drift_vault_delegate")
  | UpdateDriftVaultTool => Some (KitMethod "update_drift_vault")
  | GetDriftVaultInfoTool => Some (KitMethod "get_drift_vault_info")
  | DepositIntoDriftVaultTool => Some (KitMethod "deposit_into_drift_vault")
  | RequestWithdrawalFromDriftVaultTool => Some (KitMethod "request_withdrawal_from_drift_vault")
  | WithdrawFromDriftVaultTool => Some (KitMethod "withdraw_from_drift_vault")
  | DeriveDriftVaultAddressTool => Some (KitMethod "derive_drift_vault_address")
  | TradeUsingDelegatedDriftVaultTool => Some (KitMethod "trade_using_delegated_drift_vault")
  | FlashOpenTradeTool => Some (KitMethod "flash_open_trade")
  | FlashCloseTradeTool => Some (KitMethod "flash_close_trade")
  | ResolveAllDomainsTool => Some (KitMethod "resolve_all_domains")
  | GetOwnedDomainsForTLDTool => Some (KitMethod "get_owned_domains_for_tld")
  | GetAllDomainsTLDsTool => Some (KitMethod "get_all_domains_tlds")
  | GetOwnedAllDomainsTool => Some (KitMethod "get_owned_all_domains")
  | LightProtocolSendCompressedAirdropTool => Some (KitMethod "send_compressed_airdrop")
  | ManifestCreateMarketTool => Some (KitMethod "create_manifest_market")
  | ManifestPlaceLimitOrderTool => Some (KitMethod "place_limit_order")
  | ManifestPlaceBatchOrdersTool => Some (KitMethod "place_batch_orders")
  | ManifestCancelAllOrdersTool => Some (KitMethod "cancel_all_orders")
  | ManifestWithdrawAllTool => Some (KitMethod "withdraw_all")
  | OpenBookCreateMarketTool => Some (KitMethod "create_openbook_market")
  | OrcaClosePositionTool => Some (KitMethod "close_position")
  | OrcaCreateClmmTool => Some (KitMethod "create_clmm")
  | OrcaCreateLiquidityPoolTool => Some (KitMethod "create_liquidity_pool")
  | OrcaFetchPositionsTool => Some (KitMethod "fetch_positions")
  | OrcaOpenCenteredPositionTool => Some (KitMethod "open_centered_position")
  | OrcaOpenSingleSidedPositionTool => Some (KitMethod "open_single_sided_position")
  | CoingeckoGetTrendingTokensTool => Some (KitMethod "get_trending_tokens")
  | CoingeckoGetTrendingPoolsTool => Some (KitMethod "get_trending_pools")
  | CoingeckoGetTopGainersTool => Some (KitMethod "get_top_gainers")
  | CoingeckoGetTokenPriceDataTool => Some (KitMethod "get_token_price_data")
  | CoingeckoGetTokenInfoTool => Some (KitMethod "get_token_info")
  | CoingeckoGetLatestPoolsTool => Some (KitMethod "get_latest_pools")
  | ElfaAiPingApiTool => Some (KitMethod "ping_elfa_ai_api")
  | ElfaAiGetApiKeyStatusTool => Some (KitMethod "get_elfa_ai_api_key_status")
  | ElfaAiGetSmartMentionsTool => Some (KitMethod "get_smart_mentions")
  | ElfaAiGetTopMentionsByTickerTool => Some (KitMethod "get_top_mentions_by_ticker")
  | ElfaAiSearchMentionsByKeywordsTool => Some (KitMethod "search_mentions_by_keywords")
  | ElfaAiGetTrendingTokensTool => Some (KitMethod "get_trending_tokens_using_elfa_ai")
  | ElfaAiGetSmartTwitterAccountStatsTool => Some (KitMethod "get_smart_twitter_account_stats")
  | FluxBeamCreatePoolTool => Some (KitMethod "fluxbeam_create_pool")
  | LuloLendTool => Some (KitMethod "lulo_lend")
  | LuloWithdrawTool => Some (KitMethod "lulo_withdraw")
  end.



(** The classes that define [call] in the place of [_arun]. *)
Definition defines_call (t : Tool) : bool :=
  match t with
  | SolanaFetchPriceTool
  | SolanaTokenDataTool
  | SolanaTokenDataByTickerTool => true
  | _ => false
  end.

(** The keys of the mapping the handler of a class builds, in their order. *)
Definition handler_keys (t : Tool) : list string :=
  match t with
  | SolanaBalanceTool => ["status"; "message"; "code"]
  | SolanaTransferTool => ["status"; "message"; "code"]
  | SolanaDeployTokenTool => ["status"; "message"; "code"]
  | SolanaTradeTool => ["status"; "message"; "code"]
  | SolanaFaucetTool => ["status"; "message"; "code"]
  | SolanaStakeTool => ["status"; "message"; "code"]
  | SolanaGetWalletAddressTool => ["status"; "message"; "code"]
  | SolanaCreateImageTool => ["status"; "message"; "code"]
  | SolanaTPSCalculatorTool => ["status"; "message"; "code"]
  | SolanaPumpFunTokenTool => ["status"; "message"; "code"]
  | SolanaFetchPriceTool => ["status"; "message"; "code"]
  | SolanaTokenDataTool => ["status"; "message"; "code"]
  | SolanaTokenDataByTickerTool => ["status"; "message"; "code"]
  | SolanaMeteoraDLMMTool => ["status"; "message"; "code"]
  | SolanaRaydiumBuyTool => ["status"; "message"; "code"]
  | SolanaRaydiumSellTool => ["status"; "message"; "code"]
  | SolanaBurnAndCloseTool => ["status"; "message"; "code"]
  | SolanaBurnAndCloseMultipleTool => ["status"; "message"; "code"]
  | SolanaCreateGibworkTaskTool => ["status"; "message"; "code"]
  | SolanaBuyUsingMoonshotTool => ["status"; "message"; "code"]
  | SolanaSellUsingMoonshotTool => ["status"; "message"; "code"]
  | SolanaPythGetPriceTool => ["status"; "message"]
  | SolanaHeliusGetBalancesTool => ["status"; "message"]
  | SolanaHeliusGetAddressNameTool => ["status"; "message"]
  | SolanaHeliusGetNftEventsTool => ["status"; "message"]
  | SolanaHeliusGetMintlistsTool => ["status"; "message"]
  | SolanaHeliusGetNFTFingerprintTool => ["status"; "message"]
  | SolanaHeliusGetActiveListingsTool => ["status"; "message"]
  | SolanaHeliusGetNFTMetadataTool => ["status"; "message"]
  | SolanaHeliusGetRawTransactionsTool => ["status"; "message"]
  | SolanaHeliusGetParsedTransactionsTool => ["status"; "message"]
  | SolanaHeliusGetParsedTransactionHistoryTool => ["status"; "message"]
  | SolanaHeliusCreateWebhookTool => ["status"; "message"]
  | SolanaHeliusGetAllWebhooksTool => ["status"; "message"]
  | SolanaHeliusGetWebhookTool => ["status"; "message"]
  | SolanaHeliusEditWebhookTool => ["status"; "message"]
  | SolanaHeliusDeleteWebhookTool => ["status"; "message"]
  | SolanaFetchTokenReportSummaryTool => ["status"; "message"]
  | SolanaFetchTokenDetailedReportTool => ["status"; "message"]
  | SolanaGetPumpCurveStateTool => ["status"; "message"]
  | SolanaCalculatePumpCurvePriceTool => ["status"; "message"]
  | SolanaBuyTokenTool => ["status"; "message"]
  | SolanaSellTokenTool => ["status"; "message"]
  | SolanaSNSResolveTool => ["address"; "message"]
  | SolanaSNSRegisterDomainTool => ["transaction"; "message"]
  | SolanaSNSGetFavouriteDomainTool => ["domain"; "message"]
  | SolanaSNSGetAllDomainsTool => ["domains"; "message"]
  | SolanaDeployCollectionTool => ["success"; "message"]
  | SolanaGetMetaplexAssetTool => ["success"; "message"]
  | SolanaGetMetaplexAssetsByCreatorTool => ["success"; "message"]
  | SolanaGetMetaplexAssetsByAuthorityTool => ["success"; "message"]
  | SolanaMintMetaplexCoreNFTTool => ["success"; "message"]
  | SolanaDeBridgeCreateTransactionTool => ["transaction_data"; "message"]
  | SolanaDeBridgeExecuteTransactionTool => ["result"; "message"]
  | SolanaDeBridgeCheckTransactionStatusTool => ["status"; "message"]
  | SolanaCybersCreateCoinTool => ["coin_id"; "message"]
  | SolanaGetTipAccounts => ["accounts"]
  | SolanaGetRandomTipAccount => ["account"]
  | SolanaGetBundleStatuses => ["statuses"]
  | SolanaSendBundle => ["bundle_ids"]
  | SolanaGetInflightBundleStatuses => ["statuses"]
  | SolanaSendTxn => ["status"]
  | StorkGetPriceTool => ["status"; "message"]
  | BackpackGetAccountBalancesTool => ["balances"; "message"]
  | BackpackRequestWithdrawalTool => ["result"; "message"]
  | BackpackGetAccountSettingsTool => ["settings"; "message"]
  | BackpackUpdateAccountSettingsTool => ["result"; "message"]
  | BackpackGetBorrowLendPositionsTool => ["positions"; "message"]
  | BackpackExecuteBorrowLendTool => ["result"; "message"]
  | BackpackGetFillHistoryTool => ["history"; "message"]
  | BackpackGetBorrowPositionHistoryTool => ["history"; "message"]
  | BackpackGetFundingPaymentsTool => ["payments"; "message"]
  | BackpackGetOrderHistoryTool => ["history"; "message"]
  | BackpackGetPnlHistoryTool => ["history"; "message"]
  | BackpackGetSettlementHistoryTool => ["history"; "message"]
  | BackpackGetUsersOpenOrdersTool => ["open_orders"; "message"]
  | BackpackExecuteOrderTool => ["result"; "message"]
  | BackpackCancelOpenOrderTool => ["result"; "message"]
  | BackpackGetOpenOrdersTool => ["open_orders"; "message"]
  | BackpackCancelOpenOrdersTool => ["result"; "message"]
  | BackpackGetSupportedAssetsTool => ["assets"; "message"]
  | BackpackGetTickerInformationTool => ["ticker_information"; "message"]
  | BackpackGetMarketsTool => ["markets"; "message"]
  | BackpackGetMarketTool => ["market"; "message"]
  | BackpackGetTickersTool => ["tickers"; "message"]
  | BackpackGetDepthTool => ["depth"; "message"]
  | BackpackGetKlinesTool => ["klines"; "message"]
  | BackpackGetMarkPriceTool => ["mark_price_data"; "message"]
  | BackpackGetOpenInterestTool => ["open_interest"; "message"]
  | BackpackGetFundingIntervalRatesTool => ["funding_rates"; "message"]
  | BackpackGetStatusTool => ["status"; "message"]
  | BackpackSendPingTool => ["response"; "message"]
  | BackpackGetSystemTimeTool => ["system_time"; "message"]
  | BackpackGetRecentTradesTool => ["recent_trades"; "message"]
  | BackpackGetHistoricalTradesTool => ["historical_trades"; "message"]
  | BackpackGetCollateralInfoTool => ["collateral_info"; "message"]
  | BackpackGetAccountDepositsTool => ["deposits"; "message"]
  | BackpackGetOpenPositionsTool => ["open_positions"; "message"]
  | BackpackGetBorrowHistoryTool => ["borrow_history"; "message"]
  | BackpackGetInterestHistoryTool => ["interest_history"; "message"]
  | ClosePerpTradeShortTool => ["transaction"; "message"]
  | ClosePerpTradeLongTool => ["transaction"; "message"]
  | OpenPerpTradeLongTool => ["transaction"; "message"]
  | OpenPerpTradeShortTool => ["transaction"; "message"]
  | Create3LandCollectionTool => ["transaction"; "message"]
  | Create3LandNFTTool => ["transaction"; "message"]
  | CreateDriftUserAccountTool => ["transaction"; "message"]
  | DepositToDriftUserAccountTool => ["transaction"; "message"]
  | WithdrawFromDriftUserAccountTool => ["transaction"; "message"]
  | TradeUsingDriftPerpAccountTool => ["transaction"; "message"]
  | CheckIfDriftAccountExistsTool => ["exists"; "message"]
  | DriftUserAccountInfoTool => ["account_info"; "message"]
  | GetAvailableDriftMarketsTool => ["markets"; "message"]
  | StakeToDriftInsuranceFundTool => ["transaction"; "message"]
  | RequestUnstakeFromDriftInsuranceFundTool => ["transaction"; "message"]
  | UnstakeFromDriftInsuranceFundTool => ["transaction"; "message"]
  | DriftSwapSpotTokenTool => ["transaction"; "message"]
  | GetDriftPerpMarketFundingRateTool => ["funding_rate"; "message"]
  | GetDriftEntryQuoteOfPerpTradeTool => ["entry_quote"; "message"]
  | GetDriftLendBorrowApyTool => ["apy_data"; "message"]
  | CreateDriftVaultTool => ["vault_details"; "message"]
  | UpdateDriftVaultDelegateTool => ["transaction"; "message"]
  | UpdateDriftVaultTool => ["vault_update"; "message"]
  | GetDriftVaultInfoTool => ["vault_info"; "message"]
  | DepositIntoDriftVaultTool => ["transaction"; "message"]
  | RequestWithdrawalFromDriftVaultTool => ["transaction"; "message"]
  | WithdrawFromDriftVaultTool => ["transaction"; "message"]
  | DeriveDriftVaultAddressTool => ["vault_address"; "message"]
  | TradeUsingDelegatedDriftVaultTool => ["transaction"; "message"]
  | FlashOpenTradeTool => ["transaction"; "message"]
  | FlashCloseTradeTool => ["transaction"; "message"]
  | ResolveAllDomainsTool => ["message"]
  | GetOwnedDomainsForTLDTool => ["message"]
  | GetAllDomainsTLDsTool => ["message"]
  | GetOwnedAllDomainsTool => ["message"]
  | LightProtocolSendCompressedAirdropTool => ["transaction_ids"; "message"]
  | ManifestCreateMarketTool => ["market_data"; "message"]
  | ManifestPlaceLimitOrderTool => ["order_details"; "message"]
  | ManifestPlaceBatchOrdersTool => ["batch_order_details"; "message"]
  | ManifestCancelAllOrdersTool => ["cancellation_result"; "message"]
  | ManifestWithdrawAllTool => ["withdrawal_result"; "message"]
  | OpenBookCreateMarketTool => ["market_data"; "message"]
  | OrcaClosePositionTool => ["closure_result"; "message"]
  | OrcaCreateClmmTool => ["clmm_data"; "message"]
  | OrcaCreateLiquidityPoolTool => ["pool_data"; "message"]
  | OrcaFetchPositionsTool => ["positions"; "message"]
  | OrcaOpenCenteredPositionTool => ["position_data"; "message"]
  | OrcaOpenSingleSidedPositionTool => ["position_data"; "message"]
  | CoingeckoGetTrendingTokensTool => ["trending_tokens"; "message"]
  | CoingeckoGetTrendingPoolsTool => ["trending_pools"; "message"]
  | CoingeckoGetTopGainersTool => ["top_gainers"; "message"]
  | CoingeckoGetTokenPriceDataTool => ["price_data"; "message"]
  | CoingeckoGetTokenInfoTool => ["token_info"; "message"]
  | CoingeckoGetLatestPoolsTool => ["latest_pools"; "message"]
  | ElfaAiPingApiTool => ["api_response"; "message"]
  | ElfaAiGetApiKeyStatusTool => ["api_key_status"; "message"]
  | ElfaAiGetSmartMentionsTool => ["mentions_data"; "message"]
  | ElfaAiGetTopMentionsByTickerTool => ["mentions_data"; "message"]
  | ElfaAiSearchMentionsByKeywordsTool => ["search_results"; "message"]
  | ElfaAiGetTrendingTokensTool => ["trending_tokens"; "message"]
  | ElfaAiGetSmartTwitterAccountStatsTool => ["account_stats"; "message"]
  | FluxBeamCreatePoolTool => ["transaction_signature"; "message"]
  | LuloLendTool => ["transaction_signature"; "message"]
  | LuloWithdrawTool => ["transaction_signature"; "message"]
  end.

(** The classes whose handler gives the status ["error"]. *)
Definition reports_status (t : Tool) : bool :=
  match t with
  | SolanaBalanceTool
  | SolanaTransferTool
  | SolanaDeployTokenTool
  | SolanaTradeTool
  | SolanaFaucetTool
  | SolanaStakeTool
  | SolanaGetWalletAddressTool
  | SolanaCreateImageTool
  | SolanaTPSCalculatorTool
  | SolanaPumpFunTokenTool
  | SolanaFetchPriceTool
  | SolanaTokenDataTool
  | SolanaTokenDataByTickerTool
  | SolanaMeteoraDLMMTool
  | SolanaRaydiumBuyTool
  | SolanaRaydiumSellTool
  | SolanaBurnAndCloseTool
  | SolanaBurnAndCloseMultipleTool
  | SolanaCreateGibworkTaskTool
  | SolanaBuyUsingMoonshotTool
  | SolanaSellUsingMoonshotTool
  | SolanaPythGetPriceTool
  | SolanaHeliusGetBalancesTool
  | SolanaHeliusGetAddressNameTool
  | SolanaHeliusGetNftEventsTool
  | SolanaHeliusGetMintlistsTool
  | SolanaHeliusGetNFTFingerprintTool
  | SolanaHeliusGetActiveListingsTool
  | SolanaHeliusGetNFTMetadataTool
  | SolanaHeliusGetRawTransactionsTool
  | SolanaHeliusGetParsedTransactionsTool
  | SolanaHeliusGetParsedTransactionHistoryTool
  | SolanaHeliusCreateWebhookTool
  | SolanaHeliusGetAllWebhooksTool
  | SolanaHeliusGetWebhookTool
  | SolanaHeliusEditWebhookTool
  | SolanaHeliusDeleteWebhookTool
  | SolanaFetchTokenReportSummaryTool
  | SolanaFetchTokenDetailedReportTool
  | SolanaGetPumpCurveStateTool
  | SolanaCalculatePumpCurvePriceTool
  | SolanaBuyTokenTool
  | SolanaSellTokenTool
  | StorkGetPriceTool => true
  | _ => false
  end.

(** The classes whose asynchronous method reads a key with a default of its own,
    [data.get(key, default)]. *)
Definition applies_default (t : Tool) : bool :=
  match t with
  | SolanaTransferTool
  | SolanaDeployTokenTool
  | SolanaTradeTool
  | SolanaCreateImageTool
  | SolanaMeteoraDLMMTool
  | SolanaRaydiumBuyTool
  | SolanaRaydiumSellTool
  | SolanaBurnAndCloseMultipleTool
  | SolanaCreateGibworkTaskTool
  | SolanaBuyUsingMoonshotTool
  | SolanaSellUsingMoonshotTool
  | SolanaHeliusGetParsedTransactionHistoryTool
  | SolanaHeliusCreateWebhookTool
  | SolanaHeliusEditWebhookTool
  | SolanaBuyTokenTool
  | SolanaSellTokenTool
  | SolanaGetMetaplexAssetsByCreatorTool
  | SolanaDeBridgeCreateTransactionTool
  | BackpackRequestWithdrawalTool
  | BackpackGetFundingIntervalRatesTool
  | BackpackGetRecentTradesTool
  | BackpackGetHistoricalTradesTool
  | Create3LandCollectionTool
  | Create3LandNFTTool
  | GetDriftPerpMarketFundingRateTool
  | LightProtocolSendCompressedAirdropTool
  | OpenBookCreateMarketTool
  | CoingeckoGetTrendingPoolsTool
  | CoingeckoGetTopGainersTool
  | ElfaAiGetSmartMentionsTool
  | ElfaAiGetTopMentionsByTickerTool
  | ElfaAiSearchMentionsByKeywordsTool
  | ElfaAiGetTrendingTokensTool => true
  | _ => false
  end.

(** [te] is the body of the asynchronous method of class [t], [_arun] or
    [call], called the way the method is declared. *)
Inductive async_invocation {W : World} (t : Tool) : TryExcept value -> Prop :=
| async_arun_no_input body :
    async_method t = Arun0 body -> async_invocation t body
| async_arun_on_input body input :
    async_method t = Arun1 body -> async_invocation t (body input)
| async_call_on_input body input :
    async_method t = Call1 body -> async_invocation t (body input).

(** A computation that leaves the trace of delegate calls as it finds it. *)
Definition no_call {A} (m : M A) : Prop :=
  forall tr, fst (m tr) = tr.

(** A computation that keeps the calls already made and adds at most [n]. *)
Definition adds_calls (n : nat) {A} (m : M A) : Prop :=
  forall tr, exists new, fst (m tr) = tr ++ new /\ (length new <= n)%nat.

(** [v] is a float for which [v <= 0] is false: a float above zero, [inf],
    or [nan], which no comparison places at or below zero. *)
Definition float_not_le_zero (v : value) : Prop :=
  (exists q, v = VFloat q /\ (0 < q)%Q) \/
  v = VFloatSpecial PosInfinity \/ v = VFloatSpecial NaN.

(** [v] is an [int] (a [bool] is one) from 0 to 100. *)
Definition percentage (v : value) : Prop :=
  (exists z, v = VInt z /\ 0 <= z <= 100) \/ (exists b, v = VBool b).

(** The computation of a keyword argument makes no call. *)
Definition quiet_kwarg (k : Kwarg) : Prop :=
  match k with
  | KW _ e => no_call e
  | KWStar e => no_call e
  end.

(** A computation that keeps the calls already made, adds only calls of
    [c], and has added [n] of them when it returns. *)
Definition calls_delegate (c : option Callee) (n : nat) {A} (m : M A) : Prop :=
  forall tr, exists new,
    fst (m tr) = tr ++ new /\
    Forall (fun x => Some (callee x) = c) new /\
    (forall a, snd (m tr) = Return a -> length new = n).



(** The world [W] with another [await]. *)
Definition with_await (W : World) (aw : value -> Outcome value) : World := {|
  w_json_loads := @w_json_loads W;
  w_json_dumps := @w_json_dumps W;
  w_Pubkey_from_string := @w_Pubkey_from_string W;
  w_Pubkey := @w_Pubkey W;
  w_int := @w_int W;
  w_str := @w_str W;
  w_strip := @w_strip W;
  w_obj_truthy := @w_obj_truthy W;
  w_obj_getitem := @w_obj_getitem W;
  w_obj_contains := @w_obj_contains W;
  w_obj_method := @w_obj_method W;
  w_builtin_msg := @w_builtin_msg W;
  w_kit_lookup := @w_kit_lookup W;
  w_kit_attr := @w_kit_attr W;
  w_call := @w_call W;
  w_await := aw;
  w_validate_other := @w_validate_other W
|}.

(** No string of the list occurs in it twice. *)
Fixpoint distinct (l : list string) : bool :=
  match l with
  | [] => true
  | x :: rest => negb (existsb (String.eqb x) rest) && distinct rest
  end.

(** ** What a handler builds *)

(** A payload a handler gives for a failure: [None], [False] or [[]]. *)
Definition empty_payload (v : value) : Prop :=
  v = VNone \/ v = VBool false \/ v = VList [].

(** What the handler of class [t] builds for the exception [e]: a mapping
    with the keys of [handler_keys t], in which a ["message"] ends with
    [str(e)], a ["code"] is the code of [e], a ["status"] is ["error"] for
    the classes of [reports_status] and [None] for the others, and every
    other key holds an empty payload. *)
Definition handler_mapping (t : Tool) (e : Exc) (v : value) : Prop :=
  exists d,
    v = VDict d /\ map fst d = handler_keys t /\
    (forall x, lookup "message" d = Some x ->
       exists prefix, x = VStr (prefix ++ exc_msg e)) /\
    (forall x, lookup "code" d = Some x -> x = getattr_code e) /\
    (forall x, lookup "status" d = Some x ->
       x = if reports_status t then VStr "error" else VNone) /\
    (forall k x, In (k, x) d -> k <> "message" -> k <> "code" -> k <> "status" ->
       empty_payload x).

(** ** Calling [_run] *)

(** The number of arguments [_run] declares after [self]. *)
Definition run_arity (t : Tool) : nat :=
  match sync_method t with
  | Run0 _ => 0
  | Run1 _ => 1
  end.

(** [self._run(args)] with the positional arguments [args]: when their
    number is not the one the method declares, the call itself raises a
    [TypeError] and the body is not entered. *)
Definition call_run {W : World} (t : Tool) (args : list string) : M value :=
  match sync_method t, args with
  | Run0 body, [] => body
  | Run1 body, [input] => body input
  | _, _ => raise (TypeError (w_builtin_msg "arguments" (VList (map VStr args))))
  end.

(** The classes that read a key with a default of their own and never call
    [validate_input]. *)
Definition defaults_without_validation : list Tool :=
  [SolanaRaydiumBuyTool; SolanaRaydiumSellTool; OpenBookCreateMarketTool;
   ElfaAiGetSmartMentionsTool; ElfaAiGetTopMentionsByTickerTool;
   ElfaAiSearchMentionsByKeywordsTool; ElfaAiGetTrendingTokensTool].

(** The classes that validate and whose handler gives no ["message"]. *)
Definition silent_validating_classes : list Tool :=
  [SolanaGetBundleStatuses; SolanaSendBundle; SolanaGetInflightBundleStatuses;
   SolanaSendTxn].

(** ** Inputs of the examples *)

Module Examples.

Import Stub.

(** A key, the 32 zero bytes. *)
Definition zero_key : string := "11111111111111111111111111111111".

(** [{"pair_address": "P", "sol_in": 0.5, "slippage": 5}] *)
Definition raydium_buy_input : string :=
  ("{" ++ quoted "pair_address" ++ ": " ++ quoted "P" ++ ", " ++ quoted "sol_in" ++ ": 0.5, "
   ++ quoted "slippage" ++ ": 5}")%string.

(** [{"pair_address": "P", "sol_in": NaN, "slippage": 5}] *)
Definition raydium_nan_input : string :=
  ("{" ++ quoted "pair_address" ++ ": " ++ quoted "P" ++ ", " ++ quoted "sol_in" ++ ": NaN, "
   ++ quoted "slippage" ++ ": 5}")%string.

(** [{"pair_address": 7, "percentage": 50, "slippage": true}] *)
Definition raydium_sell_input : string :=
  ("{" ++ quoted "pair_address" ++ ": 7, " ++ quoted "percentage" ++ ": 50, "
   ++ quoted "slippage" ++ ": true}")%string.

(** [{"pair_address": "P", "slippage": 5}] *)
Definition raydium_partial_input : string :=
  ("{" ++ quoted "pair_address" ++ ": " ++ quoted "P" ++ ", " ++ quoted "slippage"
   ++ ": 5}")%string.

(** [{"token_account": "A"}] *)
Definition burn_input : string :=
  ("{" ++ quoted "token_account" ++ ": " ++ quoted "A" ++ "}")%string.

(** A transfer whose ["mint"] is the empty string. *)
Definition empty_mint_input : string :=
  ("{" ++ quoted "to" ++ ": " ++ quoted zero_key ++ ", " ++ quoted "amount" ++ ": 5, "
   ++ quoted "mint" ++ ": " ++ quoted EmptyString ++ "}")%string.

(** [{"output_mint": key, "input_amount": 5}] *)
Definition trade_input : string :=
  ("{" ++ quoted "output_mint" ++ ": " ++ quoted zero_key ++ ", " ++ quoted "input_amount"
   ++ ": 5}")%string.

(** An image request whose ["prompt"] is the empty string. *)
Definition blank_prompt_input : string :=
  ("{" ++ quoted "prompt" ++ ": " ++ quoted EmptyString ++ "}")%string.

(** A request whose ["domain"] is the empty string. *)
Definition empty_domain_input : string :=
  ("{" ++ quoted "domain" ++ ": " ++ quoted EmptyString ++ "}")%string.

(** A withdrawal whose ["additional_params"] give ["address"] again. *)
Definition withdrawal_input : string :=
  ("{" ++ quoted "address" ++ ": " ++ quoted "A" ++ ", " ++ quoted "blockchain" ++ ": "
   ++ quoted "Solana" ++ ", " ++ quoted "quantity" ++ ": " ++ quoted "1" ++ ", "
   ++ quoted "symbol" ++ ": " ++ quoted "SOL" ++ ", " ++ quoted "additional_params" ++ ": {"
   ++ quoted "address" ++ ": " ++ quoted "B" ++ "}}")%string.

(** [{"base_mint": 5, "quote_mint": 6}] *)
Definition openbook_input : string :=
  ("{" ++ quoted "base_mint" ++ ": 5, " ++ quoted "quote_mint" ++ ": 6}")%string.

(** The exception of [json.dumps] on an object it cannot serialize. *)
Definition not_serializable : Exc := TypeError "Object is not JSON serializable".

(** The world of [plain_world] with a [json.dumps] that refuses everything. *)
Definition unserializable_world : World := {|
  w_json_loads := json_loads;
  w_json_dumps := fun _ => Raise not_serializable;
  w_Pubkey_from_string := Pubkey_from_string;
  w_Pubkey := fun _ => Raise (ValueError "expected a sequence of length 32");
  w_int := int;
  w_str := fun v => match v with VStr s => s | _ => "<object>" end;
  w_strip := fun s => s;
  w_obj_truthy := fun _ => true;
  w_obj_getitem := fun _ _ => Raise (TypeError "object is not subscriptable");
  w_obj_contains := fun _ _ => Raise (TypeError "object is not iterable");
  w_obj_method := fun _ m _ => Raise (AttributeError ("object has no attribute " ++ m)%string);
  w_builtin_msg := fun op _ => ("unsupported operand for " ++ op)%string;
  w_kit_lookup := fun _ => None;
  w_kit_attr := fun _ => Return (VObj 0);
  w_call := fun _ => Return (VStr "ok");
  w_await := fun v => Return v;
  w_validate_other := fun _ _ => Some (TypeError "input is not a mapping")
|}.

(** [asyncio.CancelledError], which does not derive from [Exception]. *)
Definition CancelledError : Exc := mkExc "CancelledError" false "" None.

(** The world of [plain_world] in which every [await] is cancelled. *)
Definition cancelling_world : World :=
  with_await plain_world (fun _ => Raise CancelledError).

End Examples.

(** * Properties *)

(** ** The monad *)

Lemma bind_Return {A B} (m : M A) (k : A -> M B) tr tr' a :
  m tr = (tr', Return a) -> bind m k tr = k a tr'.
Proof. unfold bind. intros ->. reflexivity. Qed.

Lemma bind_Raise {A B} (m : M A) (k : A -> M B) tr tr' e :
  m tr = (tr', Raise e) -> bind m k tr = (tr', Raise e).
Proof. unfold bind. intros ->. reflexivity. Qed.

Lemma run_Return {A} (te : TryExcept A) tr tr' a :
  try_body te tr = (tr', Return a) -> run te tr = (tr', Return a).
Proof. unfold run, try_except. intros ->. reflexivity. Qed.

Lemma run_caught {A} (te : TryExcept A) tr tr' e :
  try_body te tr = (tr', Raise e) -> exc_is_Exception e = true ->
  run te tr = except_Exception te e tr'.
Proof. unfold run, try_except. intros -> ->. reflexivity. Qed.

Lemma run_escapes {A} (te : TryExcept A) tr tr' e :
  try_body te tr = (tr', Raise e) -> exc_is_Exception e = false ->
  run te tr = (tr', Raise e).
Proof. unfold run, try_except. intros -> ->. reflexivity. Qed.

Lemma run_pure_handler {A} (te : TryExcept A) tr :
  pure_handler (except_Exception te) ->
  (exists tr' v, run te tr = (tr', Return v)) \/
  (exists tr' e, run te tr = (tr', Raise e) /\ exc_is_Exception e = false /\
                 try_body te tr = (tr', Raise e)).
Proof.
  intros Hh. destruct (try_body te tr) as [tr' [a | e]] eqn:Hb.
  - left. exists tr', a. now apply run_Return.
  - destruct (exc_is_Exception e) eqn:He.
    + left. destruct (Hh e) as [v Hv]. exists tr', v.
      rewrite (run_caught _ _ _ _ Hb He), Hv. reflexivity.
    + right. exists tr', e. split; [now apply run_escapes | auto].
Qed.

(** ** The factory *)

Lemma nodupb_NoDup l : nodupb l = true -> NoDup l.
Proof.
  induction l as [| x rest IH]; cbn; intros H; constructor.
  - apply andb_true_iff in H as [H _]. intros Hin.
    apply negb_true_iff in H.
    assert (existsb (Nat.eqb x) rest = true)
      by (apply existsb_exists; exists x; split; [exact Hin | apply Nat.eqb_refl]).
    congruence.
  - apply IH. now apply andb_true_iff in H as [_ H].
Qed.

(** C7, as stated, fails: the classes of the instances are not the classes
    of the module in the order of declaration.  Two classes have no instance
    and the seventh instance is of the tenth class. *)
Lemma create_solana_tools_not_declaration_order :
  map tool_class (create_solana_tools tt) <> declaration_order /\
  ~ In SolanaBurnAndCloseTool (map tool_class (create_solana_tools tt)) /\
  nth_error (map tool_class (create_solana_tools tt)) 6 = Some SolanaPumpFunTokenTool /\
  nth_error declaration_order 6 = Some SolanaGetWalletAddressTool.
Proof.
  split; [| split; [| split; reflexivity]].
  - intros H. apply (f_equal (@List.length Tool)) in H. vm_compute in H. discriminate H.
  - intros H. apply (in_map declaration_index) in H.
    vm_compute in H.
    repeat (destruct H as [H | H]; [discriminate H |]). exact H.
Qed.

(** ** Exceptions at the adapter boundary *)

Lemma append_assoc (a b c : string) : ((a ++ b) ++ c)%string = (a ++ b ++ c)%string.
Proof. induction a as [| x a IH]; cbn; [reflexivity | now rewrite IH]. Qed.

Section Boundary.
Context {W : World}.

Lemma arun_pure_handler t te :
  arun_invocation t te -> pure_handler (except_Exception te).
Proof.
  intros [body Hb | body input Hb];
    destruct t; cbn [async_method] in Hb; try discriminate Hb;
    injection Hb as <-; intros e; eexists; reflexivity.
Qed.

Lemma arun_handler_result t te e :
  arun_invocation t te -> reports_code t = true ->
  exists v, except_Exception te e = ret v /\ is_error_result e v.
Proof.
  intros [body Hb | body input Hb] Hc;
    destruct t; cbn [reports_code] in Hc; try discriminate Hc;
    cbn [async_method] in Hb; try discriminate Hb; injection Hb as <-;
    (eexists; split; [reflexivity |]);
    first
      [ eexists _, ""; repeat split; reflexivity
      | eexists _, _; repeat split; reflexivity
      | match goal with
        | |- is_error_result _ (VDict [_; (_, VStr (?a ++ ?i ++ ?b ++ _)%string); _]) =>
            eexists _, (a ++ i ++ b)%string; repeat split;
            cbn [lookup String.eqb Ascii.eqb Bool.eqb]; rewrite !append_assoc; reflexivity
        end ].
Qed.

End Boundary.

(** C2, as stated, fails: [get_tip_accounts] refused with an exception that
    has a message and a code, [SolanaGetTipAccounts._arun] returns
    [{"accounts": None}], which has no status, no message and no code. *)
Lemma arun_error_result_not_uniform :
  try_body (@SolanaGetTipAccounts_arun Stub.limited_world) [] =
    ([mkCall (KitMethod "get_tip_accounts") [] []], Raise Stub.rate_limited) /\
  run (@SolanaGetTipAccounts_arun Stub.limited_world) [] =
    ([mkCall (KitMethod "get_tip_accounts") [] []], Return (VDict [("accounts", VNone)])) /\
  ~ is_error_result Stub.rate_limited (VDict [("accounts", VNone)]).
Proof.
  split; [reflexivity | split; [reflexivity |]].
  intros [d [prefix [Hd [Hs _]]]]. injection Hd as <-. discriminate Hs.
Qed.

(** ** Validation before delegation *)

Section Validation.
Context {W : World}.

Lemma validate_input_trace data S tr :
  fst (validate_input data S tr) = tr.
Proof.
  unfold validate_input. destruct data; try (destruct (w_validate_other _ S); reflexivity).
  destruct (validate S d) as [d' [[] | e]]; reflexivity.
Qed.

Lemma validate_input_at data S tr :
  validate_input data S tr = (tr, snd (validate_input data S [])).
Proof.
  unfold validate_input. destruct data; try (destruct (w_validate_other _ S); reflexivity).
  destruct (validate S d) as [d' [[] | e]]; reflexivity.
Qed.

(** A method whose body parses the input and validates it before anything
    else, and whose handler only builds its result. *)
Lemma validated_body input S (k : value -> M value) h :
  pure_handler h ->
  let te := Try (data <- json_loads input ;; data <- validate_input data S ;; k data) h in
  (calls_of (run te) <> [] ->
   exists data, w_json_loads input = Return data /\ validation_succeeds data S) /\
  (forall data e, w_json_loads input = Return data ->
     validate_input data S [] = ([], Raise e) -> calls_of (run te) = []).
Proof.
  intros Hh te. unfold calls_of, run, try_except, te, json_loads, lift, bind. cbn.
  destruct (w_json_loads input) as [data | e0].
  - rewrite (validate_input_at data S []).
    destruct (snd (validate_input data S [])) as [data' | e] eqn:Hv.
    + split.
      * intros _. exists data. split; [reflexivity |]. exists data'.
        rewrite validate_input_at, Hv. reflexivity.
      * intros data0 e [= <-] H. rewrite validate_input_at, Hv in H. discriminate H.
    + split.
      * intros H. exfalso. apply H. destruct (exc_is_Exception e); [| reflexivity].
        destruct (Hh e) as [v ->]. reflexivity.
      * intros _ _ _ _. destruct (exc_is_Exception e); [| reflexivity].
        destruct (Hh e) as [v ->]. reflexivity.
  - split.
    + intros H. exfalso. apply H. destruct (exc_is_Exception e0); [| reflexivity].
      destruct (Hh e0) as [v ->]. reflexivity.
    + intros data e [=].
Qed.

End Validation.

(** C1, as stated, fails in both directions.  [SolanaStakeTool] has no
    schema and calls [stake] on an input that nothing validated; and the
    input of the transfer scenario passes validation, yet [transfer] is not
    called, because ["ABC"] is not a public key. *)
Lemma delegate_call_not_iff_validation :
  (validated_schema SolanaStakeTool = None /\
   calls_of (run (@SolanaStakeTool_arun Stub.plain_world "5")) =
     [mkCall (KitMethod "stake") [VInt 5] []]) /\
  (Stub.json_loads Stub.transfer_input = Return (VDict [("to", VStr "ABC"); ("amount", VInt 5)]) /\
   @validation_succeeds Stub.plain_world
     (VDict [("to", VStr "ABC"); ("amount", VInt 5)]) SolanaTransferTool_schema /\
   calls_of (run (@SolanaTransferTool_arun Stub.plain_world Stub.transfer_input)) = []).
Proof.
  repeat split. eexists. reflexivity.
Qed.

(** ** The validator *)

Lemma is_prefix_refl s : is_prefix s s = true.
Proof. induction s as [| c s IH]; cbn; [reflexivity |]. now rewrite Ascii.eqb_refl, IH. Qed.

Lemma is_substring_app p s : is_substring s (p ++ s)%string = true.
Proof.
  induction p as [| c p IH]; cbn.
  - destruct s; cbn; [reflexivity |]. now rewrite Ascii.eqb_refl, is_prefix_refl.
  - rewrite IH. apply orb_true_r.
Qed.

Lemma v_bind_at {A B} (m : V A) (k : A -> V B) d d' a :
  m d = (d', Return a) -> v_bind m k d = k a d'.
Proof. unfold v_bind. intros ->. reflexivity. Qed.

Lemma check_required_frame S d : fst (check_required S d) = d.
Proof.
  induction S as [| [f r] S IH]; cbn; [reflexivity |].
  unfold v_bind, v_read. destruct (lookup f d); [apply IH |].
  destruct (rule_required r); [reflexivity | apply IH].
Qed.

Lemma check_types_frame S d : fst (check_types S d) = d.
Proof.
  induction S as [| [f r] S IH]; cbn; [reflexivity |].
  unfold v_bind, v_read. destruct (lookup f d) as [v |]; [| apply IH].
  destruct (type_ok r v); [apply IH | reflexivity].
Qed.

Lemma check_bounds_frame S d : fst (check_bounds S d) = d.
Proof.
  induction S as [| [f r] S IH]; cbn; [reflexivity |].
  unfold v_bind, v_read. destruct (lookup f d) as [v |]; [| apply IH].
  destruct (min_ok r v); cbn; [| reflexivity].
  destruct (max_ok r v); cbn; [apply IH | reflexivity].
Qed.

Lemma validate_frame S d : fst (validate S d) = d.
Proof.
  unfold validate, v_bind.
  pose proof (check_required_frame S d) as H1. destruct (check_required S d) as [d1 [[] | e]];
    cbn in H1; subst d1; [| reflexivity].
  pose proof (check_types_frame S d) as H2. destruct (check_types S d) as [d2 [[] | e]];
    cbn in H2; subst d2; [| reflexivity].
  apply check_bounds_frame.
Qed.

(** The outcome of a pass, the mapping being given back as it was. *)
Lemma pass_outcome (pass : Schema -> V unit) S d o :
  fst (pass S d) = d -> snd (pass S d) = o -> pass S d = (d, o).
Proof. destruct (pass S d). cbn. now intros -> ->. Qed.

Lemma validate_outcome S d :
  validate S d =
    (d, match snd (check_required S d) with
        | Raise e => Raise e
        | Return _ =>
            match snd (check_types S d) with
            | Raise e => Raise e
            | Return _ => snd (check_bounds S d)
            end
        end).
Proof.
  unfold validate, v_bind.
  pose proof (check_required_frame S d) as H1. destruct (check_required S d) as [d1 [[] | e]];
    cbn in H1; subst d1; cbn; [| reflexivity].
  pose proof (check_types_frame S d) as H2. destruct (check_types S d) as [d2 [[] | e]];
    cbn in H2; subst d2; cbn; [| reflexivity].
  pose proof (check_bounds_frame S d) as H3. destruct (check_bounds S d); cbn in *. now subst.
Qed.

Lemma check_required_Return S d :
  snd (check_required S d) = Return tt <->
  (forall f r, In (f, r) S -> rule_required r = true -> lookup f d <> None).
Proof.
  induction S as [| [f r] S IH]; cbn.
  - split; [intros _ f r [] | reflexivity].
  - unfold v_bind, v_read. cbn. destruct (lookup f d) as [v |] eqn:Hl.
    + rewrite IH. split.
      * intros H g r' [[= <- <-] | Hin] Hr; [congruence | now apply (H g r')].
      * intros H g r' Hin. apply H. now right.
    + destruct (rule_required r) eqn:Hr.
      * split; [discriminate |]. intros H. exfalso. apply (H f r); auto.
      * rewrite IH. split.
        -- intros H g r' [[= <- <-] | Hin] Hr'; [congruence | now apply (H g r')].
        -- intros H g r' Hin. apply H. now right.
Qed.

Lemma check_required_first S1 f r S2 d :
  rule_required r = true -> lookup f d = None ->
  (forall g r', In (g, r') S1 -> rule_required r' = true -> lookup g d <> None) ->
  check_required (S1 ++ (f, r) :: S2) d =
    (d, Raise (ValidationError ("Missing required field: " ++ f))).
Proof.
  intros Hr Hl. induction S1 as [| [g r'] S1 IH]; cbn; intros Hall.
  - unfold v_bind, v_read. cbn. now rewrite Hl, Hr.
  - unfold v_bind, v_read. cbn. destruct (lookup g d) eqn:Hg.
    + apply IH. intros g' r'' Hin. apply Hall. now right.
    + destruct (rule_required r') eqn:Hr'.
      * exfalso. apply (Hall g r'); auto.
      * apply IH. intros g' r'' Hin. apply Hall. now right.
Qed.

Lemma check_required_Raise S d :
  (exists f r, In (f, r) S /\ rule_required r = true /\ lookup f d = None) ->
  exists g r', In (g, r') S /\ rule_required r' = true /\ lookup g d = None /\
    check_required S d = (d, Raise (ValidationError ("Missing required field: " ++ g))).
Proof.
  induction S as [| [g r'] S IH]; intros [f [r [Hin [Hr Hl]]]]; [destruct Hin |].
  cbn [check_required]. unfold v_bind, v_read. cbn.
  destruct (lookup g d) eqn:Hg; [| destruct (rule_required r') eqn:Hr'].
  - destruct Hin as [[= -> ->] | Hin]; [congruence |].
    destruct IH as [g' [r'' [H1 [H2 [H3 H4]]]]]; [now exists f, r |].
    exists g', r''. repeat split; auto; now right.
  - exists g, r'. repeat split; auto; now left.
  - destruct Hin as [[= -> ->] | Hin]; [congruence |].
    destruct IH as [g' [r'' [H1 [H2 [H3 H4]]]]]; [now exists f, r |].
    exists g', r''. repeat split; auto; now right.
Qed.

Lemma check_types_Return S d :
  snd (check_types S d) = Return tt <->
  (forall f r v, In (f, r) S -> lookup f d = Some v -> type_ok r v = true).
Proof.
  induction S as [| [f r] S IH]; cbn.
  - split; [intros _ f r v [] | reflexivity].
  - unfold v_bind, v_read. cbn. destruct (lookup f d) as [v |] eqn:Hl.
    + destruct (type_ok r v) eqn:Ht.
      * rewrite IH. split.
        -- intros H g r' v' [[= <- <-] | Hin] Hg; [congruence | now apply (H g r')].
        -- intros H g r' v' Hin. apply H. now right.
      * split; [discriminate |]. intros H. rewrite (H f r v) in Ht; auto. discriminate Ht.
    + rewrite IH. split.
      * intros H g r' v' [[= <- <-] | Hin] Hg; [congruence | now apply (H g r')].
      * intros H g r' v' Hin. apply H. now right.
Qed.

Lemma check_bounds_Return S d :
  snd (check_bounds S d) = Return tt <->
  (forall f r v, In (f, r) S -> lookup f d = Some v ->
     min_ok r v = true /\ max_ok r v = true).
Proof.
  induction S as [| [f r] S IH]; cbn.
  - split; [intros _ f r v [] | reflexivity].
  - unfold v_bind, v_read. cbn. destruct (lookup f d) as [v |] eqn:Hl.
    + destruct (min_ok r v) eqn:Hmin; cbn; [destruct (max_ok r v) eqn:Hmax; cbn |].
      * rewrite IH. split.
        -- intros H g r' v' [[= <- <-] | Hin] Hg; [split; congruence | now apply (H g r')].
        -- intros H g r' v' Hin. apply H. now right.
      * split; [discriminate |]. intros H.
        destruct (H f r v) as [_ H']; auto. congruence.
      * split; [discriminate |]. intros H.
        destruct (H f r v) as [H' _]; auto. congruence.
    + rewrite IH. split.
      * intros H g r' v' [[= <- <-] | Hin] Hg; [congruence | now apply (H g r')].
      * intros H g r' v' Hin. apply H. now right.
Qed.

Lemma check_bounds_first S1 f r S2 d v :
  lookup f d = Some v -> min_ok r v = false \/ max_ok r v = false ->
  (forall g r' v', In (g, r') S1 -> lookup g d = Some v' ->
     min_ok r' v' = true /\ max_ok r' v' = true) ->
  exists msg,
    check_bounds (S1 ++ (f, r) :: S2) d = (d, Raise (ValidationError msg)) /\
    is_substring f msg = true.
Proof.
  intros Hl Hout. induction S1 as [| [g r'] S1 IH]; cbn; intros Hall.
  - unfold v_bind, v_read. cbn. rewrite Hl.
    destruct (min_ok r v) eqn:Hmin; cbn.
    + destruct Hout as [Hout | Hout]; [discriminate Hout |]. rewrite Hout. cbn.
      eexists. split; [reflexivity |].
      exact (is_substring_app "Value above maximum for field: " f).
    + eexists. split; [reflexivity |].
      exact (is_substring_app "Value below minimum for field: " f).
  - unfold v_bind, v_read. cbn. destruct (lookup g d) as [v' |] eqn:Hg.
    + destruct (Hall g r' v') as [-> ->]; auto. cbn.
      apply IH. intros g' r'' v'' Hin. apply Hall. now right.
    + apply IH. intros g' r'' v'' Hin. apply Hall. now right.
Qed.

(** What a mapping that passes validation holds for a schema entry. *)
Lemma validate_Return S d :
  snd (validate S d) = Return tt <->
  (forall f r, In (f, r) S ->
     (rule_required r = true -> lookup f d <> None) /\
     (forall v, lookup f d = Some v ->
        type_ok r v = true /\ min_ok r v = true /\ max_ok r v = true)).
Proof.
  rewrite validate_outcome. cbn [snd].
  pose proof (check_required_Return S d) as H1.
  pose proof (check_types_Return S d) as H2.
  pose proof (check_bounds_Return S d) as H3.
  destruct (snd (check_required S d)) as [[] | e1].
  - destruct (snd (check_types S d)) as [[] | e2].
    + rewrite H3. split.
      * intros H f r Hin. split; [now apply H1 |].
        intros v Hv. split; [now apply (proj1 H2 eq_refl f r) | now apply (H f r)].
      * intros H f r v Hin Hv. now apply (H f r).
    + split; [discriminate |]. intros H.
      assert (Raise e2 = Return tt) as [=].
      apply H2. intros f r v Hin Hv. now apply (H f r).
    - split; [discriminate |]. intros H.
      assert (Raise e1 = Return tt) as [=].
      apply H1. intros f r Hin. now apply (H f r).
Qed.

Section ValidatedAdapters.
Context {W : World}.

Lemma validate_input_dict d S :
  validate_input (VDict d) S [] =
    ([], match snd (validate S d) with
         | Return _ => Return (VDict d)
         | Raise e => Raise e
         end).
Proof.
  unfold validate_input. pose proof (validate_frame S d) as H.
  destruct (validate S d) as [d' [[] | e]]; cbn in *; now subst.
Qed.

Lemma validation_succeeds_dict d S :
  validation_succeeds (VDict d) S <-> snd (validate S d) = Return tt.
Proof.
  unfold validation_succeeds. rewrite validate_input_dict.
  destruct (snd (validate S d)) as [[] | e]; split; try reflexivity.
  - intros _. now exists (VDict d).
  - intros [data' [=]].
  - discriminate.
Qed.

Lemma validated_body_failure input S (k : value -> M value) h data e :
  w_json_loads input = Return data ->
  validate_input data S [] = ([], Raise e) ->
  exc_is_Exception e = true ->
  run (Try (data <- json_loads input ;; data <- validate_input data S ;; k data) h) [] = h e [].
Proof.
  intros Hj Hv He. unfold run, try_except, json_loads, lift, bind. cbn.
  now rewrite Hj, Hv, He.
Qed.

(** When [validate_input] raises, [_arun] returns what its handler builds
    for the exception, and no delegate call is made. *)
Lemma arun_validation_failure t S body input data e :
  validated_schema t = Some S ->
  async_method t = Arun1 body ->
  w_json_loads input = Return data ->
  validate_input data S [] = ([], Raise e) ->
  exc_is_Exception e = true ->
  exists v, except_Exception (body input) e = ret v /\
            run (body input) [] = ([], Return v).
Proof.
  intros HS Hb Hj Hv He.
  destruct (arun_pure_handler t (body input) (arun_on_input t body input Hb) e) as [v Hh].
  exists v. split; [exact Hh |].
  destruct t; cbn [validated_schema] in HS; try discriminate HS;
    cbn [async_method] in Hb; try discriminate Hb;
    injection HS as <-; injection Hb as <-;
    match goal with |- context [run (?f _ input) _] => unfold f in * end;
    (erewrite validated_body_failure; [| eassumption | eassumption | assumption]);
    cbn [except_Exception] in Hh; rewrite Hh; reflexivity.
Qed.

End ValidatedAdapters.

Arguments validate_input : simpl never.

Section Scenarios.
Context {W : World}.

Lemma validated_required S d f r :
  validation_succeeds (VDict d) S -> In (f, r) S -> rule_required r = true ->
  exists v, lookup f d = Some v /\ type_ok r v = true /\
            min_ok r v = true /\ max_ok r v = true.
Proof.
  intros Hv Hin Hr. apply validation_succeeds_dict in Hv.
  destruct (proj1 (validate_Return S d) Hv f r Hin) as [H1 H2].
  destruct (lookup f d) as [v |] eqn:Hl; [| now destruct (H1 Hr)].
  exists v. split; [reflexivity | now apply H2].
Qed.

Lemma validation_succeeds_run d S :
  validation_succeeds (VDict d) S ->
  validate_input (VDict d) S [] = ([], Return (VDict d)).
Proof.
  intros H. apply validation_succeeds_dict in H.
  rewrite validate_input_dict. now rewrite H.
Qed.

(** The transfer adapter on a validated mapping without ["mint"] whose
    recipient parses as the key [pk]. *)
Lemma transfer_without_mint input d recipient amount pk c tx :
  w_json_loads input = Return (VDict d) ->
  validation_succeeds (VDict d) SolanaTransferTool_schema ->
  lookup "to" d = Some recipient -> lookup "amount" d = Some amount ->
  lookup "mint" d = None ->
  w_Pubkey_from_string recipient = Return pk ->
  w_kit_lookup "transfer" = None ->
  w_call (mkCall (KitMethod "transfer") [pk; amount; VNone] []) = Return c ->
  w_await c = Return tx ->
  run (SolanaTransferTool_arun input) [] =
    ([mkCall (KitMethod "transfer") [pk; amount; VNone] []],
     Return (VDict [("status", VStr "success");
                    ("message", VStr "Transfer completed successfully");
                    ("amount", amount); ("recipient", recipient);
                    ("token", VStr "SOL"); ("transaction", tx)])).
Proof.
  intros Hj Hv Hto Ham Hmint Hpk Hk Hc Ha. apply validation_succeeds_run in Hv.
  unfold SolanaTransferTool_arun, run, try_except, json_loads, lift, bind. cbn.
  rewrite Hj. cbn. rewrite Hv. cbn.
  unfold bind, Pubkey_from_string, lift. cbn. rewrite Hto. cbn. rewrite Hpk. cbn.
  unfold py_and, get, get_default, bind. cbn. rewrite Hmint. cbn.
  unfold await, solana_kit, invoke, bind. cbn. rewrite Hk. cbn.
  rewrite Ham. cbn. unfold lift. rewrite Hc. cbn. rewrite Ha. cbn.
  reflexivity.
Qed.

(** The transfer adapter on a validated mapping whose recipient does not
    parse as a key. *)
Lemma transfer_bad_recipient input d recipient e :
  w_json_loads input = Return (VDict d) ->
  validation_succeeds (VDict d) SolanaTransferTool_schema ->
  lookup "to" d = Some recipient ->
  w_Pubkey_from_string recipient = Raise e -> exc_is_Exception e = true ->
  run (SolanaTransferTool_arun input) [] =
    ([], Return (VDict [("status", VStr "error"); ("message", VStr (exc_msg e));
                        ("code", getattr_code e)])).
Proof.
  intros Hj Hv Hto Hpk He. apply validation_succeeds_run in Hv.
  unfold SolanaTransferTool_arun, run, try_except, json_loads, lift, bind. cbn.
  rewrite Hj. cbn. rewrite Hv. cbn.
  unfold bind, Pubkey_from_string, lift. cbn. rewrite Hto. cbn. rewrite Hpk. cbn.
  rewrite He. reflexivity.
Qed.

(** The deploy-token adapter on a validated mapping: all that is left of
    the mapping is the value of ["decimals"]. *)
Lemma deploy_token_after_validation input d decimals :
  w_json_loads input = Return (VDict d) ->
  validation_succeeds (VDict d) SolanaDeployTokenTool_schema ->
  lookup "decimals" d = Some decimals ->
  run (SolanaDeployTokenTool_arun input) [] =
    run (Try (token_details <- await (solana_kit "deploy_token" [ret decimals] []) ;;
              x1 <- getitem token_details "mint" ;;
              ret (VDict [("status", VStr "success");
                          ("message", VStr "Token deployed successfully");
                          ("mintAddress", x1); ("decimals", decimals)]))
             (fun e => ret (VDict [("status", VStr "error");
                                   ("message", VStr (exc_msg e));
                                   ("code", getattr_code e)]))) [].
Proof.
  intros Hj Hv Hd. apply validation_succeeds_run in Hv.
  unfold SolanaDeployTokenTool_arun, run, try_except, json_loads, lift. cbn [try_body].
  unfold bind at 1. rewrite Hj. unfold bind at 1. rewrite Hv.
  unfold bind at 1. cbn [get_default]. rewrite Hd. reflexivity.
Qed.

End Scenarios.

Section Claims.
Context {W : World}.

(** C5.  The bounds are inclusive: a number passes [min] when it is not
    below it and [max] when it is not above it, so the bound itself passes
    and the next integer outside fails; a mapping that passes the first two
    rules passes validation exactly when every number it holds for a schema
    field is within the bounds of that field; and the first field out of its
    bounds is named by the error, on which a validating [_arun] returns what
    its handler builds and calls no delegate. *)
Theorem bounds_inclusive :
  (forall rule v x, number v = Some x ->
     (min_ok rule v = true <->
      forall lo, rule_min rule = Some lo -> (inject_Z lo <= x)%Q) /\
     (max_ok rule v = true <->
      forall hi, rule_max rule = Some hi -> (x <= inject_Z hi)%Q)) /\
  (forall rule,
     (forall lo, rule_min rule = Some lo ->
        min_ok rule (VInt lo) = true /\ min_ok rule (VInt (lo - 1)) = false) /\
     (forall hi, rule_max rule = Some hi ->
        max_ok rule (VInt hi) = true /\ max_ok rule (VInt (hi + 1)) = false)) /\
  (forall S d,
     snd (check_required S d) = Return tt -> snd (check_types S d) = Return tt ->
     (validate S d = (d, Return tt) <->
      forall f rule v, In (f, rule) S -> lookup f d = Some v ->
        min_ok rule v = true /\ max_ok rule v = true)) /\
  (forall S1 f rule S2 d v,
     snd (check_required (S1 ++ (f, rule) :: S2) d) = Return tt ->
     snd (check_types (S1 ++ (f, rule) :: S2) d) = Return tt ->
     lookup f d = Some v ->
     min_ok rule v = false \/ max_ok rule v = false ->
     (forall g r v', In (g, r) S1 -> lookup g d = Some v' ->
        min_ok r v' = true /\ max_ok r v' = true) ->
     exists msg,
       validate (S1 ++ (f, rule) :: S2) d = (d, Raise (ValidationError msg)) /\
       is_substring f msg = true /\
       forall t body input,
         validated_schema t = Some (S1 ++ (f, rule) :: S2) ->
         async_method t = Arun1 body ->
         w_json_loads input = Return (VDict d) ->
         exists result,
           except_Exception (body input) (ValidationError msg) = ret result /\
           run (body input) [] = ([], Return result)).
Proof.
  split; [| split; [| split]].
  - intros rule v x Hx. unfold min_ok, max_ok. rewrite Hx. split.
    + destruct (rule_min rule) as [lo |].
      * rewrite Qle_bool_iff. split; [intros H lo' [= <-]; exact H | intros H; now apply H].
      * split; [intros _ lo [=] | reflexivity].
    + destruct (rule_max rule) as [hi |].
      * rewrite Qle_bool_iff. split; [intros H hi' [= <-]; exact H | intros H; now apply H].
      * split; [intros _ hi [=] | reflexivity].
  - intros rule. unfold min_ok, max_ok. split.
    + intros lo ->. cbn [number]. unfold Qle_bool, inject_Z. cbn [Qnum Qden].
      rewrite !Z.mul_1_r. split; [apply Z.leb_refl | apply Z.leb_gt; lia].
    + intros hi ->. cbn [number]. unfold Qle_bool, inject_Z. cbn [Qnum Qden].
      rewrite !Z.mul_1_r. split; [apply Z.leb_refl | apply Z.leb_gt; lia].
  - intros S d H1 H2. rewrite validate_outcome, H1, H2.
    rewrite <- check_bounds_Return. split.
    + intros [= ->]. reflexivity.
    + intros ->. reflexivity.
  - intros S1 f rule S2 d v H1 H2 Hl Hout Hall.
    destruct (check_bounds_first S1 f rule S2 d v Hl Hout Hall) as [msg [Hc Hs]].
    exists msg.
    assert (Hv : validate (S1 ++ (f, rule) :: S2) d = (d, Raise (ValidationError msg)))
      by (rewrite validate_outcome, H1, H2, Hc; reflexivity).
    split; [exact Hv | split; [exact Hs |]].
    intros t body input HS Hb Hj.
    apply (arun_validation_failure t (S1 ++ (f, rule) :: S2) body input (VDict d)); auto.
    rewrite validate_input_dict. now rewrite Hv.
Qed.

(** C3, as the code has it.  The input of the scenario passes validation.
    If [Pubkey.from_string("ABC")] gives a key, [transfer] is called once,
    with that key, 5 and [None], and the result is the success mapping with
    the amount 5, the recipient ["ABC"] and the token ["SOL"]; if it raises,
    no call is made and the result is the error mapping of the exception. *)
Theorem transfer_scenario input :
  w_json_loads input = Return (VDict [("to", VStr "ABC"); ("amount", VInt 5)]) ->
  validation_succeeds (VDict [("to", VStr "ABC"); ("amount", VInt 5)])
    SolanaTransferTool_schema /\
  (forall pk c tx,
     w_Pubkey_from_string (VStr "ABC") = Return pk ->
     w_kit_lookup "transfer" = None ->
     w_call (mkCall (KitMethod "transfer") [pk; VInt 5; VNone] []) = Return c ->
     w_await c = Return tx ->
     run (SolanaTransferTool_arun input) [] =
       ([mkCall (KitMethod "transfer") [pk; VInt 5; VNone] []],
        Return (VDict [("status", VStr "success");
                       ("message", VStr "Transfer completed successfully");
                       ("amount", VInt 5); ("recipient", VStr "ABC");
                       ("token", VStr "SOL"); ("transaction", tx)]))) /\
  (forall e,
     w_Pubkey_from_string (VStr "ABC") = Raise e -> exc_is_Exception e = true ->
     run (SolanaTransferTool_arun input) [] =
       ([], Return (VDict [("status", VStr "error"); ("message", VStr (exc_msg e));
                           ("code", getattr_code e)]))).
Proof.
  intros Hj.
  assert (Hv : validation_succeeds (VDict [("to", VStr "ABC"); ("amount", VInt 5)])
                 SolanaTransferTool_schema)
    by (apply validation_succeeds_dict; reflexivity).
  split; [exact Hv | split].
  - intros pk c tx Hpk Hk Hc Ha.
    now apply (transfer_without_mint input [("to", VStr "ABC"); ("amount", VInt 5)]
                 (VStr "ABC") (VInt 5) pk c tx).
  - intros e Hpk He.
    now apply (transfer_bad_recipient input [("to", VStr "ABC"); ("amount", VInt 5)]
                 (VStr "ABC") e).
Qed.

(** C10.  On an input that passes validation, [deploy_token] is called with
    the value of ["decimals"] and nothing else; the success result reports
    the ["mint"] of what the delegate returned and that value of
    ["decimals"]; and two validated inputs with the same ["decimals"] run
    alike, whatever their ["initialSupply"]. *)
Theorem deploy_token_decimals_only input d :
  w_json_loads input = Return (VDict d) ->
  validation_succeeds (VDict d) SolanaDeployTokenTool_schema ->
  exists decimals,
    lookup "decimals" d = Some decimals /\
    (w_kit_lookup "deploy_token" = None ->
     calls_of (run (SolanaDeployTokenTool_arun input)) =
       [mkCall (KitMethod "deploy_token") [decimals] []]) /\
    (forall c details mint,
       w_kit_lookup "deploy_token" = None ->
       w_call (mkCall (KitMethod "deploy_token") [decimals] []) = Return c ->
       w_await c = Return details ->
       getitem details "mint" = ret mint ->
       outcome_of (run (SolanaDeployTokenTool_arun input)) =
         Return (VDict [("status", VStr "success");
                        ("message", VStr "Token deployed successfully");
                        ("mintAddress", mint); ("decimals", decimals)])) /\
    (forall input' d',
       w_json_loads input' = Return (VDict d') ->
       validation_succeeds (VDict d') SolanaDeployTokenTool_schema ->
       lookup "decimals" d' = Some decimals ->
       run (SolanaDeployTokenTool_arun input') [] =
         run (SolanaDeployTokenTool_arun input) []).
Proof.
  intros Hj Hv.
  destruct (validated_required _ d "decimals" _ Hv (or_introl eq_refl) eq_refl)
    as [decimals [Hd _]].
  exists decimals. split; [exact Hd |].
  pose proof (deploy_token_after_validation input d decimals Hj Hv Hd) as Hrun.
  split; [| split].
  - intros Hk. unfold calls_of. rewrite Hrun.
    unfold run, try_except, await, solana_kit, invoke, lift, bind. cbn.
    rewrite Hk. cbn.
    destruct (w_call _) as [c | e]; cbn.
    + destruct (w_await c) as [details | e]; cbn.
      * destruct (getitem details "mint" _) as [tr' [mint | e]] eqn:Hg; cbn.
        -- assert (fst (getitem details "mint"
                     [mkCall (KitMethod "deploy_token") [decimals] []]) =
                   [mkCall (KitMethod "deploy_token") [decimals] []]) as Hf
             by (unfold getitem; destruct details; try reflexivity;
                 destruct (lookup "mint" d0); reflexivity).
           rewrite Hg in Hf. exact Hf.
        -- assert (fst (getitem details "mint"
                     [mkCall (KitMethod "deploy_token") [decimals] []]) =
                   [mkCall (KitMethod "deploy_token") [decimals] []]) as Hf
             by (unfold getitem; destruct details; try reflexivity;
                 destruct (lookup "mint" d0); reflexivity).
           rewrite Hg in Hf. cbn in Hf. subst tr'.
           destruct (exc_is_Exception e); reflexivity.
      * destruct (exc_is_Exception e); reflexivity.
    + destruct (exc_is_Exception e); reflexivity.
  - intros c details mint Hk Hc Ha Hm. unfold outcome_of. rewrite Hrun.
    unfold run, try_except, await, solana_kit, invoke, lift, bind. cbn.
    rewrite Hk. cbn. rewrite Hc. cbn. rewrite Ha. cbn. rewrite Hm. reflexivity.
  - intros input' d' Hj' Hv' Hd'.
    rewrite (deploy_token_after_validation input' d' decimals Hj' Hv' Hd').
    symmetry. exact Hrun.
Qed.

(** C8.  On an input that passes validation, ["activation_type"] is a
    string.  If it is neither ["Slot"] nor ["Timestamp"], the adapter returns
    an error mapping whose message names the two valid options, and
    [create_meteora_dlmm_pool] is not called.  If it is one of them, the
    delegate is called with the member of [ActivationType] of that name. *)
Theorem meteora_activation_type input d :
  w_json_loads input = Return (VDict d) ->
  validation_succeeds (VDict d) SolanaMeteoraDLMMTool_schema ->
  exists s,
    lookup "activation_type" d = Some (VStr s) /\
    (s <> "Slot" -> s <> "Timestamp" ->
     run (SolanaMeteoraDLMMTool_arun input) [] =
       ([], Return (VDict
          [("status", VStr "error");
           ("message",
            VStr ("Failed to process input: " ++ input ++ ". Error: "
                  ++ "Invalid activation_type. Valid options are: Slot, Timestamp."));
           ("code", VStr "UNKNOWN_ERROR")]))) /\
    (forall a,
       (s = "Slot" /\ a = Slot) \/ (s = "Timestamp" /\ a = Timestamp) ->
       w_kit_lookup "create_meteora_dlmm_pool" = None ->
       exists bin_step token_a_mint token_b_mint initial_price price_rounding_up fee_bps
              has_alpha_vault,
         lookup "bin_step" d = Some bin_step /\
         lookup "token_a_mint" d = Some token_a_mint /\
         lookup "token_b_mint" d = Some token_b_mint /\
         lookup "initial_price" d = Some initial_price /\
         lookup "price_rounding_up" d = Some price_rounding_up /\
         lookup "fee_bps" d = Some fee_bps /\
         lookup "has_alpha_vault" d = Some has_alpha_vault /\
         calls_of (run (SolanaMeteoraDLMMTool_arun input)) =
           [mkCall (KitMethod "create_meteora_dlmm_pool") []
              [("bin_step", bin_step); ("token_a_mint", token_a_mint);
               ("token_b_mint", token_b_mint); ("initial_price", initial_price);
               ("price_rounding_up", price_rounding_up); ("fee_bps", fee_bps);
               ("activation_type", VActivation a);
               ("has_alpha_vault", has_alpha_vault);
               ("activation_point",
                match lookup "activation_point" d with
                | Some v => v
                | None => VNone
                end)]]).
Proof.
  intros Hj Hv.
  destruct (validated_required _ d "activation_type" (mkRule [Tstr] true None None) Hv)
    as [v [Hat [Hty _]]]; [cbn; tauto | reflexivity |].
  destruct v; try discriminate Hty. exists s. split; [exact Hat |].
  pose proof (validation_succeeds_run _ _ Hv) as Hrun.
  split.
  - intros H1 H2. apply String.eqb_neq in H1, H2.
    unfold SolanaMeteoraDLMMTool_arun, run, try_except, json_loads, lift, bind. cbn.
    rewrite Hj. cbn. rewrite Hrun. cbn. rewrite Hat. cbn.
    unfold get_key, get, get_default. cbn. rewrite H1, H2. reflexivity.
  - intros a Ha Hk.
    destruct (validated_required _ d "bin_step" (mkRule [Tint] true None None) Hv)
      as [v1 [L1 _]]; [cbn; tauto | reflexivity |].
    destruct (validated_required _ d "token_a_mint" (mkRule [Tstr] true None None) Hv)
      as [v2 [L2 _]]; [cbn; tauto | reflexivity |].
    destruct (validated_required _ d "token_b_mint" (mkRule [Tstr] true None None) Hv)
      as [v3 [L3 _]]; [cbn; tauto | reflexivity |].
    destruct (validated_required _ d "initial_price" (mkRule [Tfloat] true None None) Hv)
      as [v4 [L4 _]]; [cbn; tauto | reflexivity |].
    destruct (validated_required _ d "price_rounding_up" (mkRule [Tbool] true None None) Hv)
      as [v5 [L5 _]]; [cbn; tauto | reflexivity |].
    destruct (validated_required _ d "fee_bps" (mkRule [Tint] true None None) Hv)
      as [v6 [L6 _]]; [cbn; tauto | reflexivity |].
    destruct (validated_required _ d "has_alpha_vault" (mkRule [Tbool] true None None) Hv)
      as [v7 [L7 _]]; [cbn; tauto | reflexivity |].
    exists v1, v2, v3, v4, v5, v6, v7. repeat (split; [assumption |]).
    destruct Ha as [[-> ->] | [-> ->]];
      unfold calls_of, SolanaMeteoraDLMMTool_arun, run, try_except, json_loads, lift, bind;
      cbn; rewrite Hj; cbn; rewrite Hrun; cbn; rewrite Hat; cbn;
      unfold await, solana_kit, invoke, bind; cbn; rewrite Hk; cbn;
      rewrite L1, L2, L3, L4, L5, L6, L7; cbn;
      destruct (lookup "activation_point" d) as [ap |]; cbn;
      (destruct (w_call _) as [c | e]; cbn;
       [destruct (w_await c) as [r | e]; cbn; [reflexivity |] |];
       destruct (exc_is_Exception e); reflexivity).
Qed.

End Claims.

(** ** The scenarios in the stub world *)

(** The transfer adapter on [{}]: the first required field is named. *)
Example transfer_empty_input :
  run (@SolanaTransferTool_arun Stub.plain_world "{}") [] =
    ([], Return (VDict [("status", VStr "error");
                        ("message", VStr "Missing required field: to");
                        ("code", VStr "UNKNOWN_ERROR")])).
Proof. reflexivity. Qed.

Lemma bounds_inclusive_witness :
  lookup "amount" [("to", VStr "ABC"); ("amount", VInt 0)] = Some (VInt 0) /\
  min_ok (mkRule [Tint] true (Some 1) None) (VInt 0) = false /\
  exists msg,
    validate SolanaTransferTool_schema [("to", VStr "ABC"); ("amount", VInt 0)] =
      ([("to", VStr "ABC"); ("amount", VInt 0)], Raise (ValidationError msg)) /\
    is_substring "amount" msg = true /\
    exists result,
      run (@SolanaTransferTool_arun Stub.plain_world Stub.zero_amount_input) [] =
        ([], Return result).
Proof.
  split; [reflexivity | split; [reflexivity |]].
  destruct (proj2 (proj2 (proj2 (@bounds_inclusive Stub.plain_world)))
            [("to", mkRule [Tstr] true None None)] "amount"
            (mkRule [Tint] true (Some 1) None) [("mint", mkRule [Tstr] false None None)]
            [("to", VStr "ABC"); ("amount", VInt 0)] (VInt 0)
            eq_refl eq_refl eq_refl (or_introl eq_refl))
    as [msg [Hv [Hs Had]]].
  - intros g r v' [[= <- <-] | []] Hl. injection Hl as <-. split; reflexivity.
  - exists msg. split; [exact Hv | split; [exact Hs |]].
    destruct (Had SolanaTransferTool (@SolanaTransferTool_arun Stub.plain_world)
                Stub.zero_amount_input eq_refl eq_refl eq_refl) as [result [_ Hrun]].
    exists result. exact Hrun.
Defined.

(** The scenario of the minimum: with the amount 0 the transfer adapter
    reports the field and calls nothing; and the bounds of ["decimals"] are
    passed at 0 and at 9, not at 10 or below 0. *)
Example transfer_zero_amount :
  Stub.json_loads Stub.zero_amount_input =
    Return (VDict [("to", VStr "ABC"); ("amount", VInt 0)]) /\
  run (@SolanaTransferTool_arun Stub.plain_world Stub.zero_amount_input) [] =
    ([], Return (VDict [("status", VStr "error");
                        ("message", VStr "Value below minimum for field: amount");
                        ("code", VStr "UNKNOWN_ERROR")])).
Proof. split; reflexivity. Qed.

Example deploy_token_decimals_bounds :
  snd (validate SolanaDeployTokenTool_schema
         [("decimals", VInt 0); ("initialSupply", VInt 1000)]) = Return tt /\
  snd (validate SolanaDeployTokenTool_schema
         [("decimals", VInt 9); ("initialSupply", VInt 1000)]) = Return tt /\
  snd (validate SolanaDeployTokenTool_schema
         [("decimals", VInt 10); ("initialSupply", VInt 1000)]) =
    Raise (ValidationError "Value above maximum for field: decimals") /\
  snd (validate SolanaDeployTokenTool_schema
         [("decimals", VInt (-1)); ("initialSupply", VInt 1000)]) =
    Raise (ValidationError "Value below minimum for field: decimals").
Proof. repeat split. Qed.

Lemma transfer_scenario_witness :
  Stub.json_loads Stub.transfer_input =
    Return (VDict [("to", VStr "ABC"); ("amount", VInt 5)]) /\
  @validation_succeeds Stub.plain_world
    (VDict [("to", VStr "ABC"); ("amount", VInt 5)]) SolanaTransferTool_schema /\
  run (@SolanaTransferTool_arun Stub.plain_world Stub.transfer_input) [] =
    ([], Return (VDict [("status", VStr "error");
                        ("message", VStr "String is the wrong size");
                        ("code", VStr "UNKNOWN_ERROR")])).
Proof.
  split; [reflexivity |].
  destruct (@transfer_scenario Stub.plain_world Stub.transfer_input eq_refl)
    as [Hv [_ Hbad]].
  split; [exact Hv |].
  exact (Hbad (ValueError "String is the wrong size") eq_refl eq_refl).
Defined.

(** C3, as stated, fails: ["ABC"] does not decode to the 32 bytes of a key,
    so on the input of the scenario [Pubkey.from_string] raises, [transfer]
    is not called and the result is an error mapping. *)
Lemma transfer_scenario_no_call :
  Stub.json_loads Stub.transfer_input =
    Return (VDict [("to", VStr "ABC"); ("amount", VInt 5)]) /\
  Stub.base58_length "ABC" = Some 2 /\
  Stub.Pubkey_from_string (VStr "ABC") = Raise (ValueError "String is the wrong size") /\
  run (@SolanaTransferTool_arun Stub.plain_world Stub.transfer_input) [] =
    ([], Return (VDict [("status", VStr "error");
                        ("message", VStr "String is the wrong size");
                        ("code", VStr "UNKNOWN_ERROR")])).
Proof. repeat split. Qed.

Lemma meteora_activation_type_witness :
  Stub.json_loads Stub.meteora_input = Return (VDict Stub.meteora_data) /\
  @validation_succeeds Stub.plain_world (VDict Stub.meteora_data)
    SolanaMeteoraDLMMTool_schema /\
  calls_of (run (@SolanaMeteoraDLMMTool_arun Stub.plain_world Stub.meteora_input)) = [] /\
  exists d,
    outcome_of (run (@SolanaMeteoraDLMMTool_arun Stub.plain_world Stub.meteora_input)) =
      Return (VDict d) /\
    lookup "status" d = Some (VStr "error") /\
    exists msg,
      lookup "message" d = Some (VStr msg) /\
      is_substring "Valid options are: Slot, Timestamp" msg = true.
Proof.
  assert (Hj : Stub.json_loads Stub.meteora_input = Return (VDict Stub.meteora_data))
    by reflexivity.
  assert (Hv : @validation_succeeds Stub.plain_world (VDict Stub.meteora_data)
                 SolanaMeteoraDLMMTool_schema)
    by (eexists; reflexivity).
  split; [exact Hj | split; [exact Hv |]].
  destruct (@meteora_activation_type Stub.plain_world Stub.meteora_input
              Stub.meteora_data Hj Hv) as [s [Hs [Hbad _]]].
  injection Hs as <-.
  unfold calls_of, outcome_of. rewrite Hbad by discriminate.
  split; [reflexivity |].
  eexists. split; [reflexivity |]. split; [reflexivity |].
  eexists. split; reflexivity.
Defined.

Lemma deploy_token_decimals_only_witness :
  Stub.json_loads Stub.deploy_input =
    Return (VDict [("decimals", VInt 9); ("initialSupply", VInt 1000)]) /\
  @validation_succeeds Stub.mint_world
    (VDict [("decimals", VInt 9); ("initialSupply", VInt 1000)])
    SolanaDeployTokenTool_schema /\
  calls_of (run (@SolanaDeployTokenTool_arun Stub.mint_world Stub.deploy_input)) =
    [mkCall (KitMethod "deploy_token") [VInt 9] []] /\
  outcome_of (run (@SolanaDeployTokenTool_arun Stub.mint_world Stub.deploy_input)) =
    Return (VDict [("status", VStr "success");
                   ("message", VStr "Token deployed successfully");
                   ("mintAddress", VStr "Mint1"); ("decimals", VInt 9)]).
Proof.
  assert (Hv : @validation_succeeds Stub.mint_world
                 (VDict [("decimals", VInt 9); ("initialSupply", VInt 1000)])
                 SolanaDeployTokenTool_schema)
    by (eexists; reflexivity).
  split; [reflexivity | split; [exact Hv |]].
  destruct (@deploy_token_decimals_only Stub.mint_world Stub.deploy_input
              [("decimals", VInt 9); ("initialSupply", VInt 1000)] eq_refl Hv)
    as [decimals [Hd [Hcalls [Hout _]]]].
  injection Hd as <-.
  split; [exact (Hcalls eq_refl) |].
  exact (Hout (VDict [("mint", VStr "Mint1")]) (VDict [("mint", VStr "Mint1")])
           (VStr "Mint1") eq_refl eq_refl eq_refl eq_refl).
Defined.

(** * Further properties of the adapters *)

(** ** Counting delegate calls *)

Lemma no_call_ret {A} (a : A) : no_call (ret a).
Proof. intros tr. reflexivity. Qed.

Lemma no_call_raise {A} (e : Exc) : no_call (@raise A e).
Proof. intros tr. reflexivity. Qed.

Lemma no_call_lift {A} (o : Outcome A) : no_call (lift o).
Proof. intros tr. reflexivity. Qed.

Lemma no_call_bind {A B} (m : M A) (k : A -> M B) :
  no_call m -> (forall a, no_call (k a)) -> no_call (bind m k).
Proof.
  intros Hm Hk tr. unfold bind. specialize (Hm tr).
  destruct (m tr) as [tr' [a | e]]; cbn in Hm; subst tr'; [apply Hk | reflexivity].
Qed.

Lemma no_call_if {A} (b : bool) (m1 m2 : M A) :
  no_call m1 -> no_call m2 -> no_call (if b then m1 else m2).
Proof. destruct b; auto. Qed.

Lemma no_call_for_each {A} (l : list A) (f : A -> M unit) :
  (forall x, no_call (f x)) -> no_call (for_each l f).
Proof.
  intros Hf. induction l as [| x l IH]; cbn; [apply no_call_ret |].
  apply no_call_bind; auto.
Qed.

Lemma adds_of_no_call {A} (m : M A) : no_call m -> adds_calls 0 m.
Proof. intros H tr. exists []. rewrite H, app_nil_r. auto. Qed.

Lemma adds_weaken {A} (m : M A) n n' :
  adds_calls n m -> (n <= n')%nat -> adds_calls n' m.
Proof. intros H Hle tr. destruct (H tr) as [new [H1 H2]]. exists new. split; [auto | lia]. Qed.

Lemma adds_bind {A B} (m : M A) (k : A -> M B) n n' :
  adds_calls n m -> (forall a, adds_calls n' (k a)) -> adds_calls (n + n') (bind m k).
Proof.
  intros Hm Hk tr. unfold bind. destruct (Hm tr) as [new [H1 H2]].
  destruct (m tr) as [tr' [a | e]]; cbn in H1; subst tr'.
  - destruct (Hk a (tr ++ new)) as [new' [H3 H4]].
    exists (new ++ new'). rewrite H3, app_assoc, length_app. split; [reflexivity | lia].
  - exists new. split; [reflexivity | lia].
Qed.

Lemma adds_if {A} (b : bool) (m1 m2 : M A) n n' :
  adds_calls n m1 -> adds_calls n' m2 -> adds_calls (Nat.max n n') (if b then m1 else m2).
Proof.
  intros H1 H2. destruct b; [apply (adds_weaken _ n) | apply (adds_weaken _ n')]; auto; lia.
Qed.

Lemma adds_try_except {A} (body : M A) (h : Exc -> M A) n n' :
  adds_calls n body -> (forall e, adds_calls n' (h e)) ->
  adds_calls (n + n') (try_except body h).
Proof.
  intros Hb Hh tr. unfold try_except. destruct (Hb tr) as [new [H1 H2]].
  destruct (body tr) as [tr' [a | e]]; cbn in H1; subst tr'.
  - exists new. split; [reflexivity | lia].
  - destruct (exc_is_Exception e).
    + destruct (Hh e (tr ++ new)) as [new' [H3 H4]].
      exists (new ++ new'). rewrite H3, app_assoc, length_app. split; [reflexivity | lia].
    + exists new. split; [reflexivity | lia].
Qed.

Ltac head_of t :=
  lazymatch t with
  | ?f _ => head_of f
  | _ => t
  end.

Ltac unfold_run :=
  lazymatch goal with
  | |- context [run ?te] => let h := head_of te in unfold h
  end.

Ltac unfold_run_in H :=
  lazymatch type of H with
  | context [except_Exception ?te] => let h := head_of te in unfold h in H
  end.

Section Counting.
Context {W : World}.

Lemma no_call_getitem o k : no_call (getitem o k).
Proof.
  intros tr. unfold getitem. destruct o; try reflexivity.
  destruct (lookup k d); reflexivity.
Qed.

Lemma no_call_get_default o k v : no_call (get_default o k v).
Proof.
  intros tr. unfold get_default. destruct o; try reflexivity.
  destruct (lookup k d); reflexivity.
Qed.

Lemma no_call_get o k : no_call (get o k).
Proof. apply no_call_get_default. Qed.

Lemma no_call_get_key d k : no_call (get_key d k).
Proof. intros tr. unfold get_key. destruct k; try reflexivity. apply no_call_get. Qed.

Lemma no_call_contains k o : no_call (contains k o).
Proof. intros tr. unfold contains. destruct o; reflexivity. Qed.

Lemma no_call_py_le a b : no_call (py_le a b).
Proof. intros tr. unfold py_le. destruct (magnitude a), (magnitude b); reflexivity. Qed.

Lemma no_call_py_and x y : no_call x -> no_call y -> no_call (py_and x y).
Proof.
  intros Hx Hy. apply no_call_bind; [auto |]. intros v.
  destruct (truthy v); [auto | apply no_call_ret].
Qed.

Lemma no_call_py_or x y : no_call x -> no_call y -> no_call (py_or x y).
Proof.
  intros Hx Hy. apply no_call_bind; [auto |]. intros v.
  destruct (truthy v); [apply no_call_ret | auto].
Qed.

Lemma no_call_strip o : no_call (strip o).
Proof. intros tr. destruct o; reflexivity. Qed.

Lemma no_call_dict_method o : no_call (dict_method o).
Proof. intros tr. destruct o; reflexivity. Qed.

Lemma no_call_json_dumps v : no_call (json_dumps v).
Proof. apply no_call_bind; [apply no_call_lift | intros; apply no_call_ret]. Qed.

Lemma no_call_validate_input data S : no_call (validate_input data S).
Proof. intros tr. apply validate_input_trace. Qed.

Lemma no_call_eval_args args :
  Forall no_call args -> no_call (eval_args args).
Proof.
  induction 1 as [| e rest He _ IH]; cbn; [apply no_call_ret |].
  apply no_call_bind; [exact He |]. intros v.
  apply no_call_bind; [exact IH |]. intros vs. apply no_call_ret.
Qed.

Lemma no_call_eval_kwargs kwargs :
  Forall quiet_kwarg kwargs -> no_call (eval_kwargs kwargs).
Proof.
  induction 1 as [| k rest Hk _ IH]; cbn; [apply no_call_ret |].
  destruct k as [name e | e]; cbn in Hk.
  - apply no_call_bind; [exact Hk |]. intros v.
    apply no_call_bind; [exact IH |]. intros vs. apply no_call_ret.
  - apply no_call_bind; [exact Hk |]. intros v.
    apply no_call_bind; [destruct v; first [apply no_call_ret | apply no_call_raise] |].
    intros d. apply no_call_bind; [exact IH |]. intros vs. apply no_call_ret.
Qed.

Lemma no_call_merge_kwargs groups : forall seen, no_call (merge_kwargs seen groups).
Proof.
  induction groups as [| g rest IH]; intros seen; cbn; [apply no_call_ret |].
  destruct (existsb _ g); [apply no_call_raise | apply IH].
Qed.

Lemma adds_invoke c lookup_error args kwargs :
  Forall no_call args -> Forall quiet_kwarg kwargs ->
  adds_calls 1 (invoke c lookup_error args kwargs).
Proof.
  intros Ha Hk. unfold invoke.
  apply (adds_bind _ _ 0 1).
  { apply adds_of_no_call. destruct lookup_error; [apply no_call_raise | apply no_call_ret]. }
  intros _. apply (adds_bind _ _ 0 1); [apply adds_of_no_call, no_call_eval_args, Ha |].
  intros vs. apply (adds_bind _ _ 0 1); [apply adds_of_no_call, no_call_eval_kwargs, Hk |].
  intros gs. apply (adds_bind _ _ 0 1); [apply adds_of_no_call, no_call_merge_kwargs |].
  intros kws. apply (adds_bind _ _ 1 0).
  - intros tr. exists [mkCall c vs kws]. split; [reflexivity | cbn; lia].
  - intros _. apply adds_of_no_call, no_call_lift.
Qed.

Lemma adds_await n (e : M value) : adds_calls n e -> adds_calls n (await e).
Proof.
  intros H. unfold await. apply (adds_weaken _ (n + 0)); [| lia].
  apply adds_bind; [exact H |]. intros v. apply adds_of_no_call, no_call_lift.
Qed.

End Counting.

Ltac quiet :=
  lazymatch goal with
  | |- no_call (ret _) => apply no_call_ret
  | |- no_call (raise _) => apply no_call_raise
  | |- no_call (bind _ _) => apply no_call_bind; [quiet | intro; quiet]
  | |- no_call (if _ then _ else _) => apply no_call_if; quiet
  | |- no_call (for_each _ _) => apply no_call_for_each; intro; quiet
  | |- no_call (getitem _ _) => apply no_call_getitem
  | |- no_call (get_default _ _ _) => apply no_call_get_default
  | |- no_call (get _ _) => apply no_call_get
  | |- no_call (get_key _ _) => apply no_call_get_key
  | |- no_call (contains _ _) => apply no_call_contains
  | |- no_call (py_le _ _) => apply no_call_py_le
  | |- no_call (py_and _ _) => apply no_call_py_and; quiet
  | |- no_call (py_or _ _) => apply no_call_py_or; quiet
  | |- no_call (strip _) => apply no_call_strip
  | |- no_call (dict_method _) => apply no_call_dict_method
  | |- no_call (json_loads _) => apply no_call_lift
  | |- no_call (json_dumps _) => apply no_call_json_dumps
  | |- no_call (Pubkey_from_string _) => apply no_call_lift
  | |- no_call (Pubkey _) => apply no_call_lift
  | |- no_call (int _) => apply no_call_lift
  | |- no_call (solana_kit_attr _) => apply no_call_lift
  | |- no_call (validate_input _ _) => apply no_call_validate_input
  | |- no_call (let _ := _ in _) => cbv zeta; quiet
  end.

Ltac quiet_list :=
  repeat (apply Forall_cons; [cbn [quiet_kwarg]; quiet |]); apply Forall_nil.

Ltac count_calls :=
  lazymatch goal with
  | |- adds_calls _ (bind _ _) => eapply adds_bind; [count_calls | intro; count_calls]
  | |- adds_calls _ (if _ then _ else _) => eapply adds_if; count_calls
  | |- adds_calls _ (await _) => eapply adds_await; count_calls
  | |- adds_calls _ (solana_kit _ _ _) => eapply adds_invoke; quiet_list
  | |- adds_calls _ (agent_kit _ _ _) => eapply adds_invoke; quiet_list
  | |- adds_calls _ (create_image _) => eapply adds_invoke; quiet_list
  | |- adds_calls _ (let _ := _ in _) => cbv zeta; count_calls
  | |- adds_calls _ _ => apply adds_of_no_call; quiet
  end.

Section CallsOnce.
Context {W : World}.

Lemma adds_run (te : TryExcept value) n :
  adds_calls n (try_body te) -> (forall e, no_call (except_Exception te e)) ->
  adds_calls n (run te).
Proof.
  intros Hb Hh. apply (adds_weaken _ (n + 0)); [| lia].
  apply adds_try_except; [exact Hb |]. intros e. apply adds_of_no_call, Hh.
Qed.

(** X1.  Whatever the class and whatever the input, the asynchronous
    method keeps the delegate calls made before it and adds at most one. *)
Theorem async_method_calls_once t te :
  async_invocation t te ->
  forall tr, exists new, fst (run te tr) = tr ++ new /\ (length new <= 1)%nat.
Proof.
  intros Hinv.
  enough (H : adds_calls 1 (run te)) by exact H.
  destruct Hinv as [body Hb | body input Hb | body input Hb];
    destruct t; cbn [async_method] in Hb; try discriminate Hb; injection Hb as <-;
    unfold_run;
    (eapply adds_weaken;
     [ apply adds_run; [cbn [try_body]; count_calls | intro; cbn [except_Exception]; quiet]
     | cbn; lia ]).
Qed.

End CallsOnce.

(** X1 at a concrete input. *)
Lemma async_method_calls_once_witness :
  @async_invocation Stub.limited_world SolanaStakeTool
    (@SolanaStakeTool_arun Stub.limited_world "5") /\
  exists new,
    fst (run (@SolanaStakeTool_arun Stub.limited_world "5")
           [mkCall (KitMethod "get_tps") [] []]) =
      [mkCall (KitMethod "get_tps") [] []] ++ new /\
    (length new <= 1)%nat.
Proof.
  assert (H : @async_invocation Stub.limited_world SolanaStakeTool
                (@SolanaStakeTool_arun Stub.limited_world "5"))
    by (apply (@async_arun_on_input Stub.limited_world); reflexivity).
  split; [exact H |].
  exact (@async_method_calls_once Stub.limited_world _ _ H [mkCall (KitMethod "get_tps") [] []]).
Defined.

(** ** Input that does not parse *)

Section Parsing.
Context {W : World}.

Lemma json_loads_raises input (k : value -> M value) h e :
  w_json_loads input = Raise e -> exc_is_Exception e = true ->
  run (Try (data <- json_loads input ;; k data) h) [] = h e [].
Proof.
  intros Hj He. unfold run, try_except, json_loads, lift, bind. cbn.
  now rewrite Hj, He.
Qed.

(** X4.  For every class whose [_arun] begins by [json.loads(input)]:
    when the input does not parse, no delegate is called and the result is
    what the handler of the class builds for the exception of the parser. *)
Theorem unparsable_input_is_handled t body input e :
  parses_json t = true ->
  async_method t = Arun1 body ->
  w_json_loads input = Raise e -> exc_is_Exception e = true ->
  exists v, except_Exception (body input) e = ret v /\
            run (body input) [] = ([], Return v).
Proof.
  intros Hp Hb Hj He.
  destruct (arun_pure_handler t (body input) (arun_on_input t body input Hb) e) as [v Hh].
  exists v. split; [exact Hh |].
  destruct t; cbn [parses_json] in Hp; try discriminate Hp;
    cbn [async_method] in Hb; try discriminate Hb; injection Hb as <-;
    unfold_run; unfold_run_in Hh; cbv zeta;
    (erewrite json_loads_raises; [| eassumption | assumption]);
    cbn [except_Exception] in Hh; rewrite Hh; reflexivity.
Qed.

End Parsing.

(** ** Adapters that forward their input *)

Ltac exec_with tac :=
  unfold run, try_except, json_loads, json_dumps, lift, bind, await, solana_kit, agent_kit,
    solana_kit_attr, create_image, invoke, log_call, Pubkey_from_string, Pubkey, int,
    py_and, py_or, get, get_key;
  repeat (cbn;
          try match goal with
              | H : ?x = _ |- context [?x] => rewrite H
              end;
          try tac).

Ltac exec := exec_with idtac.

Section Forwarding.
Context {W : World}.

Lemma merge_kwargs_single d : merge_kwargs [] [d] = ret d.
Proof.
  assert (H : existsb (fun kv : string * value => has_key (fst kv) []) d = false)
    by (induction d as [| kv d IH]; [reflexivity | exact IH]).
  cbn [merge_kwargs]. rewrite H. reflexivity.
Qed.

Lemma existsb_never {A} (d : list A) : existsb (fun _ : A => false) d = false.
Proof. induction d as [| x d IH]; [reflexivity | exact IH]. Qed.

Lemma forwarding_body input m (k : value -> M value) h :
  pure_handler h -> (forall v, no_call (k v)) ->
  let te := Try (data <- json_loads input ;;
                 x <- await (solana_kit m [] [KWStar (ret data)]) ;; k x) h in
  (forall d, w_json_loads input = Return (VDict d) -> w_kit_lookup m = None ->
     calls_of (run te) = [mkCall (KitMethod m) [] d]) /\
  (forall data, w_json_loads input = Return data -> (forall d, data <> VDict d) ->
     calls_of (run te) = []).
Proof.
  intros Hh Hk te. split.
  - intros d Hj Hl. unfold calls_of, te, run, try_except, json_loads, await, solana_kit,
      invoke, log_call, lift, bind. cbn. rewrite Hj. cbn. rewrite Hl. cbn.
    rewrite existsb_never. cbn.
    destruct (w_call _) as [c | e]; cbn.
    + destruct (w_await c) as [r | e]; cbn.
      * pose proof (Hk r [mkCall (KitMethod m) [] d]) as Hr.
        destruct (k r _) as [tr' [v | e]]; cbn in Hr; subst tr'; [reflexivity |].
        destruct (exc_is_Exception e); [| reflexivity]. destruct (Hh e) as [v ->]. reflexivity.
      * destruct (exc_is_Exception e); [| reflexivity]. destruct (Hh e) as [v ->]. reflexivity.
    + destruct (exc_is_Exception e); [| reflexivity]. destruct (Hh e) as [v ->]. reflexivity.
  - intros data Hj Hd. unfold calls_of, te, run, try_except, json_loads, await, solana_kit,
      invoke, log_call, lift, bind. cbn. rewrite Hj. cbn.
    destruct (w_kit_lookup m) as [e |]; cbn.
    + destruct (exc_is_Exception e); [| reflexivity]. destruct (Hh e) as [v ->]. reflexivity.
    + destruct data; try (now destruct (Hd d)); cbn;
        match goal with
        | |- context [h ?e] => destruct (Hh e) as [v ->]
        end; reflexivity.
Qed.

(** X5.  For every class whose [_arun] forwards its parsed input:
    when the input parses to a mapping, the delegate is called with no
    positional argument and with the entries of the mapping, all of them and
    in their order, as keyword arguments; when it parses to anything else,
    no call is made. *)
Theorem forwarded_input_reaches_delegate t m body input :
  forwards_input t = Some m ->
  async_method t = Arun1 body ->
  (forall d, w_json_loads input = Return (VDict d) -> w_kit_lookup m = None ->
     calls_of (run (body input)) = [mkCall (KitMethod m) [] d]) /\
  (forall data, w_json_loads input = Return data -> (forall d, data <> VDict d) ->
     calls_of (run (body input)) = []).
Proof.
  intros Hf Hb.
  destruct t; cbn [forwards_input] in Hf; try discriminate Hf;
    cbn [async_method] in Hb; try discriminate Hb;
    injection Hf as <-; injection Hb as <-;
    (apply forwarding_body; [intros e; eexists; reflexivity | intros v; apply no_call_ret]).
Qed.

End Forwarding.

(** X5 at a concrete input. *)
Lemma forwarded_input_reaches_delegate_witness :
  forwards_input BackpackExecuteOrderTool = Some "execute_order" /\
  @async_method Stub.plain_world BackpackExecuteOrderTool =
    Arun1 (@BackpackExecuteOrderTool_arun Stub.plain_world) /\
  Stub.json_loads Stub.deploy_input =
    Return (VDict [("decimals", VInt 9); ("initialSupply", VInt 1000)]) /\
  calls_of (run (@BackpackExecuteOrderTool_arun Stub.plain_world Stub.deploy_input)) =
    [mkCall (KitMethod "execute_order") []
       [("decimals", VInt 9); ("initialSupply", VInt 1000)]].
Proof.
  split; [reflexivity | split; [reflexivity | split; [reflexivity |]]].
  exact (proj1 (@forwarded_input_reaches_delegate Stub.plain_world
                  BackpackExecuteOrderTool "execute_order"
                  (@BackpackExecuteOrderTool_arun Stub.plain_world) Stub.deploy_input
                  eq_refl eq_refl)
           [("decimals", VInt 9); ("initialSupply", VInt 1000)] eq_refl eq_refl).
Defined.

(** X4 at a concrete input. *)
Lemma unparsable_input_is_handled_witness :
  parses_json SolanaTransferTool = true /\
  Stub.json_loads "{" = Raise (Stub.JSONDecodeError "Expecting value") /\
  exists v,
    run (@SolanaTransferTool_arun Stub.plain_world "{") [] = ([], Return v).
Proof.
  split; [reflexivity | split; [reflexivity |]].
  destruct (@unparsable_input_is_handled Stub.plain_world SolanaTransferTool
              (@SolanaTransferTool_arun Stub.plain_world) "{"
              (Stub.JSONDecodeError "Expecting value") eq_refl eq_refl eq_refl eq_refl)
    as [v [_ Hrun]].
  exists v. exact Hrun.
Defined.

(** ** The delegate of a class *)

Lemma delegate_of_no_call {A} c (m : M A) : no_call m -> calls_delegate c 0 m.
Proof.
  intros H tr. exists []. rewrite H, app_nil_r. repeat split; auto.
Qed.

Lemma delegate_bind {A B} c (m : M A) (k : A -> M B) n n' :
  calls_delegate c n m -> (forall a, calls_delegate c n' (k a)) ->
  calls_delegate c (n + n') (bind m k).
Proof.
  intros Hm Hk tr. unfold bind. destruct (Hm tr) as [new [H1 [H2 H3]]].
  destruct (m tr) as [tr' [a | e]]; cbn in H1, H3; subst tr'.
  - destruct (Hk a (tr ++ new)) as [new' [H4 [H5 H6]]].
    exists (new ++ new'). rewrite H4, app_assoc, length_app. repeat split.
    + apply Forall_app. auto.
    + intros b Hb. rewrite (H3 a eq_refl), (H6 b Hb). reflexivity.
  - exists new. repeat split; [exact H2 | intros a [=]].
Qed.

Lemma delegate_if {A} c (b : bool) (m1 m2 : M A) n :
  calls_delegate c n m1 -> calls_delegate c n m2 ->
  calls_delegate c n (if b then m1 else m2).
Proof. destruct b; auto. Qed.

Lemma delegate_count {A} c (m : M A) n n' :
  calls_delegate c n m -> n = n' -> calls_delegate c n' m.
Proof. intros H <-. exact H. Qed.

Section Delegate.
Context {W : World}.

Lemma delegate_invoke cl lookup_error args kwargs :
  Forall no_call args -> Forall quiet_kwarg kwargs ->
  calls_delegate (Some cl) 1 (invoke cl lookup_error args kwargs).
Proof.
  intros Ha Hk. unfold invoke.
  apply (delegate_bind _ _ _ 0 1).
  { apply delegate_of_no_call. destruct lookup_error; [apply no_call_raise | apply no_call_ret]. }
  intros _. apply (delegate_bind _ _ _ 0 1); [apply delegate_of_no_call, no_call_eval_args, Ha |].
  intros vs. apply (delegate_bind _ _ _ 0 1);
    [apply delegate_of_no_call, no_call_eval_kwargs, Hk |].
  intros gs. apply (delegate_bind _ _ _ 0 1); [apply delegate_of_no_call, no_call_merge_kwargs |].
  intros kws. apply (delegate_bind _ _ _ 1 0).
  - intros tr. exists [mkCall cl vs kws]. repeat split. repeat constructor.
  - intros _. apply delegate_of_no_call, no_call_lift.
Qed.

Lemma delegate_await c n (e : M value) : calls_delegate c n e -> calls_delegate c n (await e).
Proof.
  intros H. unfold await. apply (delegate_count _ _ (n + 0)); [| lia].
  apply delegate_bind; [exact H |]. intros v. apply delegate_of_no_call, no_call_lift.
Qed.

End Delegate.

Ltac to_delegate :=
  first
    [ solve [apply delegate_of_no_call; quiet]
    | eapply delegate_count;
      [ lazymatch goal with
        | |- calls_delegate _ _ (bind _ _) =>
            eapply delegate_bind; [to_delegate | intro; to_delegate]
        | |- calls_delegate _ _ (if _ then _ else _) => eapply delegate_if; to_delegate
        | |- calls_delegate _ _ (await _) => eapply delegate_await; to_delegate
        | |- calls_delegate _ _ (solana_kit _ _ _) => eapply delegate_invoke; quiet_list
        | |- calls_delegate _ _ (agent_kit _ _ _) => eapply delegate_invoke; quiet_list
        | |- calls_delegate _ _ (create_image _) => eapply delegate_invoke; quiet_list
        | |- calls_delegate _ _ (let _ := _ in _) => cbv zeta; to_delegate
        end
      | reflexivity ] ].

Section Completed.
Context {W : World}.

Lemma delegate_body t te :
  async_invocation t te ->
  calls_delegate (delegate t) (match delegate t with Some _ => 1 | None => 0 end) (try_body te).
Proof.
  intros [body Hb | body input Hb | body input Hb];
    destruct t; cbn [async_method] in Hb; try discriminate Hb; injection Hb as <-;
    cbn [delegate];
    lazymatch goal with
    | |- calls_delegate _ _ (try_body ?te) => let h := head_of te in unfold h
    end;
    cbn [try_body]; to_delegate.
Qed.

Lemma async_handler_no_call t te e :
  async_invocation t te -> no_call (except_Exception te e).
Proof.
  intros [body Hb | body input Hb | body input Hb];
    destruct t; cbn [async_method] in Hb; try discriminate Hb; injection Hb as <-;
    lazymatch goal with
    | |- no_call (except_Exception ?te _) => let h := head_of te in unfold h
    end;
    cbn [except_Exception]; quiet.
Qed.

(** X2.  Whatever the class and whatever the input: a call the
    asynchronous method adds is a call of the delegate of its class, and
    when the body of the method comes to its end without an exception the
    delegate has been called exactly once (never, for the one class without
    delegate). *)
Theorem completed_body_called_delegate t te :
  async_invocation t te ->
  forall tr,
    (forall c, In c (fst (run te tr)) -> In c tr \/ Some (callee c) = delegate t) /\
    (forall tr' v, try_body te tr = (tr', Return v) ->
       match delegate t with
       | Some cl => exists args kwargs, tr' = tr ++ [mkCall cl args kwargs]
       | None => tr' = tr
       end).
Proof.
  intros Hinv tr. pose proof (delegate_body t te Hinv tr) as [new [H1 [H2 H3]]]. split.
  - intros c Hc. unfold run, try_except in Hc.
    destruct (try_body te tr) as [tr1 [v | e]]; cbn in H1; subst tr1.
    + cbn in Hc. apply in_app_or in Hc as [Hc | Hc]; [now left | right].
      now apply (proj1 (Forall_forall _ _) H2).
    + assert (Hc' : In c (tr ++ new)).
      { destruct (exc_is_Exception e); [| exact Hc].
        now rewrite (async_handler_no_call t te e Hinv) in Hc. }
      apply in_app_or in Hc' as [Hc' | Hc']; [now left | right].
      now apply (proj1 (Forall_forall _ _) H2).
  - intros tr' v Hb. rewrite Hb in H1, H3. cbn in H1, H3. subst tr'.
    specialize (H3 v eq_refl).
    destruct (delegate t) as [cl |].
    + destruct new as [| [cl' args kwargs] [| c2 rest]]; try discriminate H3.
      exists args, kwargs. apply Forall_inv in H2. cbn in H2. injection H2 as ->. reflexivity.
    + destruct new; [now rewrite app_nil_r | discriminate H3].
Qed.

End Completed.

(** X2 at a concrete input. *)
Lemma completed_body_called_delegate_witness :
  @async_invocation Stub.plain_world SolanaStakeTool
    (@SolanaStakeTool_arun Stub.plain_world "5") /\
  @try_body value (@SolanaStakeTool_arun Stub.plain_world "5") [] =
    ([mkCall (KitMethod "stake") [VInt 5] []],
     Return (VDict [("status", VStr "success"); ("message", VStr "Assets staked successfully");
                    ("result", VStr "ok")])) /\
  exists args kwargs,
    [mkCall (KitMethod "stake") [VInt 5] []] = [] ++ [mkCall (KitMethod "stake") args kwargs].
Proof.
  assert (H : @async_invocation Stub.plain_world SolanaStakeTool
                (@SolanaStakeTool_arun Stub.plain_world "5"))
    by (apply (@async_arun_on_input Stub.plain_world); reflexivity).
  split; [exact H | split; [reflexivity |]].
  exact (proj2 (@completed_body_called_delegate Stub.plain_world _ _ H []) _ _ eq_refl).
Defined.

(** ** What the asynchronous method returns *)









Section ResultKind.
Context {W : World}.



End ResultKind.


(** ** Names and the factory *)

Lemma distinct_NoDup l : distinct l = true -> NoDup l.
Proof.
  induction l as [| x rest IH]; cbn; intros H; constructor.
  - apply andb_true_iff in H as [H _]. intros Hin.
    apply negb_true_iff in H.
    assert (existsb (String.eqb x) rest = true)
      by (apply existsb_exists; exists x; split; [exact Hin | apply String.eqb_refl]).
    congruence.
  - apply IH. now apply andb_true_iff in H as [_ H].
Qed.

Lemma NoDup_map_injective {A B} (f : A -> B) l x y :
  NoDup (map f l) -> In x l -> In y l -> f x = f y -> x = y.
Proof.
  induction l as [| a l IH]; cbn; [tauto |].
  intros Hnd Hx Hy Hf. inversion Hnd as [| ? ? Hnot Hnd']; subst.
  destruct Hx as [-> | Hx], Hy as [-> | Hy]; auto.
  - exfalso. apply Hnot. rewrite Hf. now apply in_map.
  - exfalso. apply Hnot. rewrite <- Hf. now apply in_map.
Qed.

Lemma declaration_index_spec t : nth_error declaration_order (declaration_index t) = Some t.
Proof. destruct t; reflexivity. Qed.

Lemma declaration_index_injective t1 t2 :
  declaration_index t1 = declaration_index t2 -> t1 = t2.
Proof.
  intros H. pose proof (declaration_index_spec t1) as H1.
  rewrite H, declaration_index_spec in H1. now injection H1.
Qed.

Lemma declaration_order_complete t : In t declaration_order.
Proof. exact (nth_error_In _ _ (declaration_index_spec t)). Qed.

Lemma in_by_index l t :
  In t l <->
  existsb (fun x => Nat.eqb (declaration_index x) (declaration_index t)) l = true.
Proof.
  rewrite existsb_exists. split.
  - intros H. exists t. split; [exact H | apply Nat.eqb_refl].
  - intros [x [Hx He]]. apply Nat.eqb_eq, declaration_index_injective in He. now subst.
Qed.

(** X7.  No two classes have the same [name], so the tools the factory
    returns all have different names. *)
Theorem tool_names_distinct :
  (forall t1 t2, name t1 = name t2 -> t1 = t2) /\
  (forall (K : Type) (kit : K),
     NoDup (map (fun i => name (tool_class i)) (create_solana_tools kit))).
Proof.
  split.
  - intros t1 t2. apply (NoDup_map_injective name declaration_order).
    + apply distinct_NoDup. vm_compute. reflexivity.
    + apply declaration_order_complete.
    + apply declaration_order_complete.
  - intros K kit. apply distinct_NoDup. vm_compute. reflexivity.
Qed.

(** X8.  The factory returns an instance of every class of the
    module but two, [SolanaBurnAndCloseTool] and
    [SolanaBurnAndCloseMultipleTool]. *)
Theorem create_solana_tools_leaves_out (K : Type) (kit : K) (t : Tool) :
  In t (map tool_class (create_solana_tools kit)) <->
  t <> SolanaBurnAndCloseTool /\ t <> SolanaBurnAndCloseMultipleTool.
Proof.
  rewrite in_by_index.
  destruct t; vm_compute;
    (split; [intros H; first [discriminate H | split; discriminate]
            | intros [H1 H2]; first [reflexivity | congruence]]).
Qed.

(** ** The Raydium adapters *)

Lemma Qle_bool_inject_Z a b : Qle_bool (inject_Z a) (inject_Z b) = (a <=? b)%Z.
Proof. unfold Qle_bool, inject_Z. cbn. now rewrite !Z.mul_1_r. Qed.

Lemma percentage_iff v :
  percentage v <->
  match v with
  | VInt z => (0 <=? z)%Z && (z <=? 100)%Z = true
  | VBool _ => True
  | _ => False
  end.
Proof.
  unfold percentage. split.
  - intros [(z & -> & H) | (b & ->)]; [| exact I].
    apply andb_true_iff. split; apply Z.leb_le; lia.
  - destruct v; try tauto.
    + intros _. right. now exists b.
    + intros H. apply andb_true_iff in H as [H1 H2]. apply Z.leb_le in H1, H2.
      left. exists z. split; [reflexivity | lia].
Qed.

Ltac settle_call :=
  destruct (w_call _) as [? | ?e]; cbn;
  [ destruct (w_await _) as [? | ?e]; cbn | ];
  try match goal with
      | |- context [exc_is_Exception ?e] => destruct (exc_is_Exception e); cbn
      end.

(** The two comparisons of a value with 0 and 100, case by case. *)
Ltac percent v :=
  destruct v as [| [|] | ?z | | | | | | |]; cbn; rewrite ?Qle_bool_inject_Z; cbn;
  try match goal with
      | |- context [(0 <=? ?z)%Z] =>
          destruct (0 <=? z)%Z eqn:?; cbn;
          [destruct (z <=? 100)%Z eqn:?; cbn |]
      end.

(** The check has refused a value that is not a percentage: no call. *)
Ltac refuted :=
  split; [intros [] |];
  intros (? & ? & ? & ?);
  repeat match goal with
         | H : _ /\ _ |- _ => destruct H
         | H : Some _ = Some _ |- _ => injection H as <-
         end;
  repeat match goal with
         | H : percentage _ |- _ => apply percentage_iff in H; cbn in H
         end;
  repeat match goal with
         | H : _ && _ = true |- _ => apply andb_true_iff in H as [? ?]
         end;
  first [contradiction | congruence].

Ltac accepted :=
  apply percentage_iff; cbn;
  first [exact I | apply andb_true_iff; split; assumption].

Section Raydium.
Context {W : World}.

#[local] Arguments Qle_bool : simpl never.
#[local] Arguments inject_Z : simpl never.

Lemma required_fields_checked (fields : list string) (msg : string) d tr :
  for_each fields (fun field =>
    x1 <- contains field (VDict d) ;;
    if negb x1 then raise (ValueError (msg ++ field)) else ret tt) tr =
  match find (fun field => negb (has_key field d)) fields with
  | Some field => (tr, Raise (ValueError (msg ++ field)))
  | None => (tr, Return tt)
  end.
Proof.
  induction fields as [| f rest IH]; [reflexivity |].
  cbn [for_each find contains]. unfold bind at 1. unfold bind at 1. cbn.
  destruct (has_key f d); cbn; [exact IH | reflexivity].
Qed.

(** X9.  [SolanaRaydiumBuyTool._arun] on an input that parses to a
    mapping calls [buy_with_raydium] exactly when the mapping has a string
    ["pair_address"], a float ["sol_in"] for which [sol_in <= 0] is false,
    that is a float above zero, [inf], or [nan], which the check lets
    through, and an integer ["slippage"] from 0 to 100 (a [bool] passes for
    an integer); the call has these three values as its arguments, so the
    defaults of the three [get] are never used. *)
Theorem raydium_buy_checks input d :
  w_json_loads input = Return (VDict d) ->
  w_kit_lookup "buy_with_raydium" = None ->
  forall c,
    In c (calls_of (run (SolanaRaydiumBuyTool_arun input))) <->
    exists pair sol slippage,
      lookup "pair_address" d = Some (VStr pair) /\
      lookup "sol_in" d = Some sol /\ float_not_le_zero sol /\
      lookup "slippage" d = Some slippage /\ percentage slippage /\
      c = mkCall (KitMethod "buy_with_raydium") [VStr pair; sol; slippage] [].
Proof.
  intros Hj Hl c. unfold calls_of, SolanaRaydiumBuyTool_arun, run, try_except.
  cbn [try_body except_Exception]. cbv zeta.
  unfold json_loads, lift. unfold bind at 1. rewrite Hj.
  unfold bind at 1. rewrite required_fields_checked.
  cbn [find]. cbv beta.
  unfold has_key, bind, getitem, get_default, py_le, await, solana_kit, invoke, log_call, lift.
  destruct (lookup "pair_address" d) as [p |] eqn:Hp; cbn;
    [| split; [intros [] | intros (pair & sol & sl & H & _); discriminate H]].
  destruct (lookup "sol_in" d) as [s |] eqn:Hs; cbn;
    [| split; [intros [] | intros (pair & sol & sl & _ & H & _); discriminate H]].
  destruct (lookup "slippage" d) as [sl |] eqn:Hsl; cbn;
    [| split; [intros [] | intros (pair & sol & sl & _ & _ & _ & H & _); discriminate H]].
  destruct p as [| | | | | pair | | | |]; cbn;
    try (split; [intros [] | intros (? & ? & ? & H & _); discriminate H]).
  assert (Hno : forall v, (forall q, v <> VFloat q) ->
                  v <> VFloatSpecial PosInfinity -> v <> VFloatSpecial NaN ->
                  ~ float_not_le_zero v)
    by (intros v H1 H2 H3 [(q & H & _) | [H | H]]; [exact (H1 q H) | auto | auto]).
  destruct s as [| | | q | [| |] | | | | |]; cbn;
    try (split; [intros [] |];
         intros (? & ? & ? & _ & [= <-] & Hf & _);
         exfalso; revert Hf; apply Hno; [intros ? |..]; discriminate).
  - (* a finite float *)
    destruct (Qle_bool q (inject_Z 0)) eqn:Hq; cbn.
    { split; [intros [] |].
      intros (pair' & sol & x & _ & [= <-] & Hf & _).
      destruct Hf as [(q' & [= <-] & Hpos) | [H | H]]; try discriminate H.
      apply Qle_bool_iff in Hq. exfalso. exact (Qlt_not_le _ _ Hpos Hq). }
    assert (Hsol : float_not_le_zero (VFloat q)).
    { left. exists q. split; [reflexivity |]. apply Qnot_le_lt. intros H.
      apply Qle_bool_iff in H. unfold inject_Z in Hq. congruence. }
    percent sl; try refuted;
      unfold bind; cbn; rewrite Hl; cbn; settle_call;
      (split;
       [ intros [<- | []]; eexists _, _, _;
         repeat (split; [reflexivity |]);
         split; [exact Hsol |]; split; [reflexivity |]; split; [accepted | reflexivity]
       | intros (pair0 & x & y & [= <-] & [= <-] & _ & [= <-] & _ & ->); left; reflexivity ]).
  - (* nan *)
    assert (Hsol : float_not_le_zero (VFloatSpecial NaN)) by (right; right; reflexivity).
    percent sl; try refuted;
      unfold bind; cbn; rewrite Hl; cbn; settle_call;
      (split;
       [ intros [<- | []]; eexists _, _, _;
         repeat (split; [reflexivity |]);
         split; [exact Hsol |]; split; [reflexivity |]; split; [accepted | reflexivity]
       | intros (pair0 & x & y & [= <-] & [= <-] & _ & [= <-] & _ & ->); left; reflexivity ]).
  - (* inf *)
    assert (Hsol : float_not_le_zero (VFloatSpecial PosInfinity)) by (right; left; reflexivity).
    percent sl; try refuted;
      unfold bind; cbn; rewrite Hl; cbn; settle_call;
      (split;
       [ intros [<- | []]; eexists _, _, _;
         repeat (split; [reflexivity |]);
         split; [exact Hsol |]; split; [reflexivity |]; split; [accepted | reflexivity]
       | intros (pair0 & x & y & [= <-] & [= <-] & _ & [= <-] & _ & ->); left; reflexivity ]).
Qed.

(** X10.  [SolanaRaydiumSellTool._arun] on an input that parses to a
    mapping calls [sell_with_raydium] exactly when the mapping has the three
    keys and ["percentage"] and ["slippage"] are integers from 0 to 100; the
    value of ["pair_address"] is passed on whatever its type. *)
Theorem raydium_sell_checks input d :
  w_json_loads input = Return (VDict d) ->
  w_kit_lookup "sell_with_raydium" = None ->
  forall c,
    In c (calls_of (run (SolanaRaydiumSellTool_arun input))) <->
    exists pair share slippage,
      lookup "pair_address" d = Some pair /\
      lookup "percentage" d = Some share /\ percentage share /\
      lookup "slippage" d = Some slippage /\ percentage slippage /\
      c = mkCall (KitMethod "sell_with_raydium") [pair; share; slippage] [].
Proof.
  intros Hj Hl c. unfold calls_of, SolanaRaydiumSellTool_arun, run, try_except.
  cbn [try_body except_Exception]. cbv zeta.
  unfold json_loads, lift. unfold bind at 1. rewrite Hj.
  unfold bind at 1. rewrite required_fields_checked.
  cbn [find]. cbv beta.
  unfold has_key, bind, getitem, get_default, py_le, await, solana_kit, invoke, log_call, lift.
  destruct (lookup "pair_address" d) as [p |] eqn:Hp; cbn;
    [| split; [intros [] | intros (pair & sol & sl & H & _); discriminate H]].
  destruct (lookup "percentage" d) as [s |] eqn:Hs; cbn;
    [| split; [intros [] | intros (pair & sol & sl & _ & H & _); discriminate H]].
  destruct (lookup "slippage" d) as [sl |] eqn:Hsl; cbn;
    [| split; [intros [] | intros (pair & sol & sl & _ & _ & _ & H & _); discriminate H]].
  percent s; try refuted; percent sl; try refuted;
    unfold bind; cbn; rewrite Hl; cbn; settle_call;
    (split;
     [ intros [<- | []]; eexists _, _, _;
       repeat (split; [reflexivity |]);
       split; [accepted |]; split; [reflexivity |]; split; [accepted | reflexivity]
     | intros (pair0 & x & y & [= <-] & [= <-] & _ & [= <-] & _ & ->); left; reflexivity ]).
Qed.

End Raydium.

(** ** Running a body statement by statement *)

Lemma try_bind_Return {A B} (m : M A) (k : A -> M B) h tr tr' a :
  m tr = (tr', Return a) -> try_except (bind m k) h tr = try_except (k a) h tr'.
Proof. unfold try_except, bind. intros ->. reflexivity. Qed.

Lemma try_bind_Raise {A B} (m : M A) (k : A -> M B) h tr tr' e :
  m tr = (tr', Raise e) -> exc_is_Exception e = true ->
  try_except (bind m k) h tr = h e tr'.
Proof. unfold try_except, bind. intros -> ->. reflexivity. Qed.

Lemma fst_try_bind {A B} (m : M A) (k : A -> M B) h tr :
  (forall a, no_call (k a)) -> (forall e, no_call (h e)) ->
  fst (try_except (bind m k) h tr) = fst (m tr).
Proof.
  intros Hk Hh. unfold try_except, bind.
  destruct (m tr) as [tr1 [a | e]]; cbn.
  - pose proof (Hk a tr1) as H. destruct (k a tr1) as [tr2 [b | e]]; cbn in *; subst.
    + reflexivity.
    + destruct (exc_is_Exception e); [apply Hh | reflexivity].
  - destruct (exc_is_Exception e); [apply Hh | reflexivity].
Qed.

(** Evaluation of a computation all of whose parts are known. *)
Ltac compute_run :=
  repeat (unfold run, try_except, json_loads, json_dumps, await, solana_kit, agent_kit,
            solana_kit_attr, create_image, invoke, log_call, Pubkey_from_string, Pubkey, int,
            py_and, py_or, get, get_default, getitem, strip, contains, has_key, lift, bind;
          cbn;
          repeat match goal with
                 | H : ?x = _ |- context [?x] => rewrite H
                 end).

(** One statement of the body that returns. *)
Ltac step := erewrite try_bind_Return by (compute_run; reflexivity).

(** The statement that calls the delegate, when nothing after it calls. *)
Ltac at_call :=
  rewrite fst_try_bind by (intro; quiet);
  compute_run; destruct (w_call _); reflexivity.

Section Checks.
Context {W : World}.

(** X11.  When a required key is missing, the two Raydium adapters
    name the first one missing, in the order of their lists, in an error
    mapping with the code ["UNKNOWN_ERROR"], and call nothing. *)
Theorem raydium_missing_field input d field :
  w_json_loads input = Return (VDict d) ->
  (find (fun f => negb (has_key f d)) ["pair_address"; "sol_in"; "slippage"] = Some field ->
   run (SolanaRaydiumBuyTool_arun input) [] =
     ([], Return (VDict [("status", VStr "error");
                         ("message", VStr ("Missing required field: " ++ field));
                         ("code", VStr "UNKNOWN_ERROR")]))) /\
  (find (fun f => negb (has_key f d)) ["pair_address"; "percentage"; "slippage"] = Some field ->
   run (SolanaRaydiumSellTool_arun input) [] =
     ([], Return (VDict [("status", VStr "error");
                         ("message", VStr ("Missing required key: " ++ field));
                         ("code", VStr "UNKNOWN_ERROR")]))).
Proof.
  intros Hj. split; intros Hf.
  - unfold SolanaRaydiumBuyTool_arun, run, try_except. cbn [try_body except_Exception].
    cbv zeta. unfold json_loads, lift. unfold bind at 1. rewrite Hj.
    unfold bind at 1. rewrite required_fields_checked, Hf. reflexivity.
  - unfold SolanaRaydiumSellTool_arun, run, try_except. cbn [try_body except_Exception].
    cbv zeta. unfold json_loads, lift. unfold bind at 1. rewrite Hj.
    unfold bind at 1. rewrite required_fields_checked, Hf. reflexivity.
Qed.

(** X12.  [SolanaBurnAndCloseTool._arun] on an input that parses to a
    mapping calls [burn_and_close_accounts] exactly when ["token_account"] is
    present and a string, with that string. *)
Theorem burn_and_close_checks input d :
  w_json_loads input = Return (VDict d) ->
  w_kit_lookup "burn_and_close_accounts" = None ->
  forall c,
    In c (calls_of (run (SolanaBurnAndCloseTool_arun input))) <->
    exists account,
      lookup "token_account" d = Some (VStr account) /\
      c = mkCall (KitMethod "burn_and_close_accounts") [VStr account] [].
Proof.
  intros Hj Hl c. unfold calls_of, SolanaBurnAndCloseTool_arun, run, try_except.
  cbn [try_body except_Exception]. cbv zeta.
  unfold json_loads, lift. unfold bind at 1. rewrite Hj.
  unfold bind at 1. rewrite required_fields_checked.
  cbn [find]. cbv beta.
  unfold has_key, bind, getitem, await, solana_kit, invoke, log_call, lift.
  destruct (lookup "token_account" d) as [p |] eqn:Hp; cbn;
    [| split; [intros [] | intros (x & H & _); discriminate H]].
  destruct p as [| | | | | account | | | |]; cbn;
    try (split; [intros [] | intros (? & H & _); discriminate H]).
  unfold bind. cbn. rewrite Hl. cbn.
  settle_call;
    (split; [ intros [<- | []]; exists account; split; reflexivity
            | intros (? & [= <-] & ->); left; reflexivity ]).
Qed.

(** X13.  [SolanaBalanceTool._arun]: on the empty input the balance is
    asked for [None] and the token reported is ["SOL"]; on any other input
    the argument is the key [Pubkey.from_string] makes of the input and the
    token reported is the input. *)
Theorem balance_of_input input key :
  w_kit_lookup "get_balance" = None ->
  (if String.eqb input "" then key = VNone
   else w_Pubkey_from_string (VStr input) = Return key) ->
  forall c balance,
    w_call (mkCall (KitMethod "get_balance") [key] []) = Return c ->
    w_await c = Return balance ->
    run (SolanaBalanceTool_arun input) [] =
      ([mkCall (KitMethod "get_balance") [key] []],
       Return (VDict [("status", VStr "success"); ("balance", balance);
                      ("token", VStr (if String.eqb input "" then "SOL" else input))])).
Proof.
  intros Hl Hk c balance Hc Ha. unfold SolanaBalanceTool_arun.
  destruct (String.eqb input "") eqn:He; [subst key |]; compute_run; reflexivity.
Qed.

(** X14.  [SolanaTransferTool._arun] on a validated mapping with a
    ["mint"]: the third argument of [transfer] is the key made of the mint
    when the mint is truthy, and the mint itself otherwise, so an empty
    string is passed on as it is and not as [None]. *)
Theorem transfer_with_mint input d recipient amount mint key token :
  w_json_loads input = Return (VDict d) ->
  validation_succeeds (VDict d) SolanaTransferTool_schema ->
  lookup "to" d = Some recipient -> lookup "amount" d = Some amount ->
  lookup "mint" d = Some mint ->
  w_Pubkey_from_string recipient = Return key ->
  (if truthy mint then w_Pubkey_from_string mint = Return token else token = mint) ->
  w_kit_lookup "transfer" = None ->
  calls_of (run (SolanaTransferTool_arun input)) =
    [mkCall (KitMethod "transfer") [key; amount; token] []].
Proof.
  intros Hj Hv Hto Ham Hmint Hpk Htok Hk. apply validation_succeeds_run in Hv.
  unfold calls_of, SolanaTransferTool_arun, run. cbn [try_body except_Exception].
  destruct (truthy mint) eqn:Ht; [| subst token]; repeat step; at_call.
Qed.

(** X15.  [SolanaTradeTool._arun] on a validated mapping: the input mint
    passed to [trade] is [None] when the key is absent and the key made of
    its value otherwise, and the slippage is 100 when the mapping gives
    none. *)
Theorem trade_defaults input d output_mint amount key source :
  w_json_loads input = Return (VDict d) ->
  validation_succeeds (VDict d) SolanaTradeTool_schema ->
  lookup "output_mint" d = Some output_mint -> lookup "input_amount" d = Some amount ->
  w_Pubkey_from_string output_mint = Return key ->
  match lookup "input_mint" d with
  | Some m => w_Pubkey_from_string m = Return source
  | None => source = VNone
  end ->
  w_kit_lookup "trade" = None ->
  calls_of (run (SolanaTradeTool_arun input)) =
    [mkCall (KitMethod "trade")
       [key; amount; source;
        match lookup "slippage_bps" d with Some s => s | None => VInt 100 end] []].
Proof.
  intros Hj Hv Hout Ham Hpk Hsrc Hk. apply validation_succeeds_run in Hv.
  unfold calls_of, SolanaTradeTool_arun, run. cbn [try_body except_Exception].
  destruct (lookup "input_mint" d) as [m |] eqn:Him; [| subst source];
    destruct (lookup "slippage_bps" d) as [s |] eqn:Hs; repeat step; at_call.
Qed.

End Checks.

Section Results.
Context {W : World}.

(** X16.  [SolanaCreateImageTool._arun] on a validated mapping: a
    prompt that is empty once stripped gives the error mapping and no call;
    any other prompt is passed to [create_image], unstripped, with the size
    ["1024x1024"] and the number 1 where the mapping gives none. *)
Theorem create_image_prompt input d prompt :
  w_json_loads input = Return (VDict d) ->
  validation_succeeds (VDict d) SolanaCreateImageTool_schema ->
  lookup "prompt" d = Some (VStr prompt) ->
  (w_strip prompt = "" ->
   run (SolanaCreateImageTool_arun input) [] =
     ([], Return (VDict [("status", VStr "error");
                         ("message", VStr "Prompt must be a non-empty string.");
                         ("code", VStr "UNKNOWN_ERROR")]))) /\
  (w_strip prompt <> "" ->
   calls_of (run (SolanaCreateImageTool_arun input)) =
     [mkCall (ToolsFunction "create_image")
        [VStr prompt;
         match lookup "size" d with Some s => s | None => VStr "1024x1024" end;
         match lookup "n" d with Some n => n | None => VInt 1 end] []]).
Proof.
  intros Hj Hv Hp. apply validation_succeeds_run in Hv.
  destruct (lookup "size" d) as [s |] eqn:Hs; destruct (lookup "n" d) as [n |] eqn:Hn;
    (split; intros Hb;
     [ unfold SolanaCreateImageTool_arun; compute_run; reflexivity
     | apply String.eqb_neq in Hb;
       unfold calls_of, SolanaCreateImageTool_arun, run; cbn [try_body except_Exception];
       repeat step; at_call ]).
Qed.

(** X17.  [SolanaSNSResolveTool._arun] on a validated mapping: a falsy
    domain gives the error mapping and no call; otherwise the delegate is
    called with the domain, and a falsy answer is reported as
    ["Not Found"] with the message ["Domain not found."]. *)
Theorem sns_resolve_result input d domain :
  w_json_loads input = Return (VDict d) ->
  validation_succeeds (VDict d) SolanaSNSResolveTool_schema ->
  lookup "domain" d = Some domain ->
  (truthy domain = false ->
   run (SolanaSNSResolveTool_arun input) [] =
     ([], Return (VDict [("address", VNone);
                         ("message",
                          VStr "Error resolving domain: Domain is required.")]))) /\
  (truthy domain = true ->
   w_kit_lookup "resolve_name_to_address" = None ->
   forall c address,
     w_call (mkCall (KitMethod "resolve_name_to_address") [domain] []) = Return c ->
     w_await c = Return address ->
     run (SolanaSNSResolveTool_arun input) [] =
       ([mkCall (KitMethod "resolve_name_to_address") [domain] []],
        Return (if truthy address
                then VDict [("address", address); ("message", VStr "Success")]
                else VDict [("address", VStr "Not Found");
                            ("message", VStr "Domain not found.")]))).
Proof.
  intros Hj Hv Hd. apply validation_succeeds_run in Hv. split.
  - intros Ht. unfold SolanaSNSResolveTool_arun. compute_run. reflexivity.
  - intros Ht Hl c address Hc Ha. unfold SolanaSNSResolveTool_arun.
    destruct (truthy address) eqn:Hta; compute_run; reflexivity.
Qed.

(** X19.  [OpenBookCreateMarketTool._arun] declares a schema and
    delegates without validating: whatever the values of ["base_mint"] and
    ["quote_mint"], [create_openbook_market] is called with them, and with
    the lot size 1 and the tick size 0.01 where the mapping gives none. *)
Theorem openbook_market_unvalidated input d base quote :
  w_json_loads input = Return (VDict d) ->
  lookup "base_mint" d = Some base -> lookup "quote_mint" d = Some quote ->
  w_kit_lookup "create_openbook_market" = None ->
  calls_of (run (OpenBookCreateMarketTool_arun input)) =
    [mkCall (KitMethod "create_openbook_market") []
       [("base_mint", base); ("quote_mint", quote);
        ("lot_size", match lookup "lot_size" d with Some v => v | None => VInt 1 end);
        ("tick_size",
         match lookup "tick_size" d with
         | Some v => v
         | None => VFloat (5764607523034235 # 576460752303423488)%Q
         end)]].
Proof.
  intros Hj Hb Hq Hl.
  unfold calls_of, OpenBookCreateMarketTool_arun, run. cbn [try_body except_Exception].
  destruct (lookup "lot_size" d) as [l |] eqn:Hlot;
    destruct (lookup "tick_size" d) as [t |] eqn:Htick; repeat step; at_call.
Qed.

(** X21.  [StorkGetPriceTool._arun] on a mapping without ["asset_id"]
    returns an error mapping whose message is the quoted key, the text of
    the [KeyError], and calls nothing. *)
Theorem stork_missing_asset_id input d :
  w_json_loads input = Return (VDict d) ->
  lookup "asset_id" d = None ->
  run (StorkGetPriceTool_arun input) [] =
    ([], Return (VDict [("status", VStr "error"); ("message", VStr "'asset_id'")])).
Proof.
  intros Hj Hl. unfold StorkGetPriceTool_arun. compute_run. reflexivity.
Qed.

(** X6.  The handler of [call] can raise: for the three classes of
    [call], when the body raises and [json.dumps] refuses the error mapping,
    the exception of [json.dumps] leaves [call]. *)
Theorem call_handler_may_raise t body input e e' tr tr' :
  async_method t = Call1 body ->
  try_body (body input) tr = (tr', Raise e) -> exc_is_Exception e = true ->
  w_json_dumps (VDict [("status", VStr "error"); ("message", VStr (exc_msg e));
                       ("code", getattr_code e)]) = Raise e' ->
  run (body input) tr = (tr', Raise e').
Proof.
  intros Hb Ht He Hd. rewrite (run_caught _ _ _ _ Ht He). clear Ht.
  destruct t; cbn [async_method] in Hb; try discriminate Hb; injection Hb as <-;
    lazymatch goal with
    | |- except_Exception ?te _ _ = _ => let h := head_of te in unfold h
    end;
    cbn [except_Exception]; unfold json_dumps, lift, bind; rewrite Hd; reflexivity.
Qed.

End Results.

(** X20.  The two token report adapters do not await their
    delegate: what they return does not depend on what [await] does. *)
Theorem token_report_not_awaited (W : World) (aw : value -> Outcome value) input tr :
  run (@SolanaFetchTokenReportSummaryTool_arun (with_await W aw) input) tr =
    run (@SolanaFetchTokenReportSummaryTool_arun W input) tr /\
  run (@SolanaFetchTokenDetailedReportTool_arun (with_await W aw) input) tr =
    run (@SolanaFetchTokenDetailedReportTool_arun W input) tr.
Proof. split; reflexivity. Qed.

Section Withdrawal.
Context {W : World}.

(** X18.  [BackpackRequestWithdrawalTool._arun] on a validated
    mapping: when ["additional_params"] repeats one of the four keywords of
    the call no call is made, and otherwise its entries follow the four
    keywords in the call. *)
Theorem withdrawal_additional_params input d address blockchain quantity symbol extra :
  w_json_loads input = Return (VDict d) ->
  validation_succeeds (VDict d) BackpackRequestWithdrawalTool_schema ->
  lookup "address" d = Some address -> lookup "blockchain" d = Some blockchain ->
  lookup "quantity" d = Some quantity -> lookup "symbol" d = Some symbol ->
  lookup "additional_params" d = Some (VDict extra) ->
  w_kit_lookup "request_withdrawal" = None ->
  let given := [("address", address); ("blockchain", blockchain);
                ("quantity", quantity); ("symbol", symbol)] in
  (existsb (fun kv => has_key (fst kv) given) extra = true ->
   calls_of (run (BackpackRequestWithdrawalTool_arun input)) = []) /\
  (existsb (fun kv => has_key (fst kv) given) extra = false ->
   calls_of (run (BackpackRequestWithdrawalTool_arun input)) =
     [mkCall (KitMethod "request_withdrawal") [] (given ++ extra)]).
Proof.
  intros Hj Hv Ha Hb Hq Hs He Hl given. apply validation_succeeds_run in Hv.
  split; intros Hx;
    unfold calls_of, BackpackRequestWithdrawalTool_arun, run; cbn [try_body except_Exception];
    repeat step; rewrite fst_try_bind by (intro; quiet);
    unfold await, solana_kit, invoke, log_call, lift, bind; cbn; rewrite Hl; cbn;
    rewrite Ha; cbn; rewrite Hb; cbn; rewrite Hq; cbn; rewrite Hs; cbn; rewrite He; cbn.
  - unfold given in Hx. rewrite Hx. reflexivity.
  - unfold given in Hx. rewrite Hx. cbn. destruct (w_call _); reflexivity.
Qed.

End Withdrawal.

(** X9 at a concrete input. *)
Lemma raydium_buy_checks_witness :
  Stub.json_loads Examples.raydium_buy_input =
    Return (VDict [("pair_address", VStr "P"); ("sol_in", VFloat (5 # 10)%Q);
                   ("slippage", VInt 5)]) /\
  In (mkCall (KitMethod "buy_with_raydium") [VStr "P"; VFloat (5 # 10)%Q; VInt 5] [])
     (calls_of (run (@SolanaRaydiumBuyTool_arun Stub.plain_world Examples.raydium_buy_input))).
Proof.
  split; [reflexivity |].
  apply (proj2 (@raydium_buy_checks Stub.plain_world Examples.raydium_buy_input _
                  eq_refl eq_refl _)).
  exists "P", (VFloat (5 # 10)%Q), (VInt 5).
  split; [reflexivity |]. split; [reflexivity |].
  split; [left; exists (5 # 10)%Q; split; reflexivity |].
  split; [reflexivity |].
  split; [left; exists 5; split; [reflexivity | lia] | reflexivity].
Defined.

(** The check of [sol_in] lets [nan] through: [nan <= 0] is false. *)
Example raydium_buy_nan :
  Stub.json_loads Examples.raydium_nan_input =
    Return (VDict [("pair_address", VStr "P"); ("sol_in", VFloatSpecial NaN);
                   ("slippage", VInt 5)]) /\
  calls_of (run (@SolanaRaydiumBuyTool_arun Stub.plain_world Examples.raydium_nan_input)) =
    [mkCall (KitMethod "buy_with_raydium") [VStr "P"; VFloatSpecial NaN; VInt 5] []].
Proof. split; reflexivity. Qed.

(** X10 at a concrete input. *)
Lemma raydium_sell_checks_witness :
  Stub.json_loads Examples.raydium_sell_input =
    Return (VDict [("pair_address", VInt 7); ("percentage", VInt 50);
                   ("slippage", VBool true)]) /\
  In (mkCall (KitMethod "sell_with_raydium") [VInt 7; VInt 50; VBool true] [])
     (calls_of (run (@SolanaRaydiumSellTool_arun Stub.plain_world
                       Examples.raydium_sell_input))).
Proof.
  split; [reflexivity |].
  apply (proj2 (@raydium_sell_checks Stub.plain_world Examples.raydium_sell_input _
                  eq_refl eq_refl _)).
  exists (VInt 7), (VInt 50), (VBool true).
  split; [reflexivity |]. split; [reflexivity |].
  split; [left; exists 50; split; [reflexivity | lia] |].
  split; [reflexivity |].
  split; [right; exists true; reflexivity | reflexivity].
Defined.

(** X11 at a concrete input. *)
Lemma raydium_missing_field_witness :
  Stub.json_loads Examples.raydium_partial_input =
    Return (VDict [("pair_address", VStr "P"); ("slippage", VInt 5)]) /\
  run (@SolanaRaydiumBuyTool_arun Stub.plain_world Examples.raydium_partial_input) [] =
    ([], Return (VDict [("status", VStr "error");
                        ("message", VStr "Missing required field: sol_in");
                        ("code", VStr "UNKNOWN_ERROR")])).
Proof.
  split; [reflexivity |].
  exact (proj1 (@raydium_missing_field Stub.plain_world Examples.raydium_partial_input
                  [("pair_address", VStr "P"); ("slippage", VInt 5)] "sol_in" eq_refl)
           eq_refl).
Defined.

(** X12 at a concrete input. *)
Lemma burn_and_close_checks_witness :
  Stub.json_loads Examples.burn_input = Return (VDict [("token_account", VStr "A")]) /\
  In (mkCall (KitMethod "burn_and_close_accounts") [VStr "A"] [])
     (calls_of (run (@SolanaBurnAndCloseTool_arun Stub.plain_world Examples.burn_input))).
Proof.
  split; [reflexivity |].
  apply (proj2 (@burn_and_close_checks Stub.plain_world Examples.burn_input _
                  eq_refl eq_refl _)).
  exists "A". split; reflexivity.
Defined.

(** X13 at a concrete input. *)
Lemma balance_of_input_witness :
  run (@SolanaBalanceTool_arun Stub.plain_world "") [] =
    ([mkCall (KitMethod "get_balance") [VNone] []],
     Return (VDict [("status", VStr "success"); ("balance", VStr "ok");
                    ("token", VStr "SOL")])).
Proof.
  exact (@balance_of_input Stub.plain_world "" VNone eq_refl eq_refl
           (VStr "ok") (VStr "ok") eq_refl eq_refl).
Defined.

(** X14 at a concrete input. *)
Lemma transfer_with_mint_witness :
  Stub.json_loads Examples.empty_mint_input =
    Return (VDict [("to", VStr Examples.zero_key); ("amount", VInt 5); ("mint", VStr "")]) /\
  @validation_succeeds Stub.plain_world
    (VDict [("to", VStr Examples.zero_key); ("amount", VInt 5); ("mint", VStr "")])
    SolanaTransferTool_schema /\
  calls_of (run (@SolanaTransferTool_arun Stub.plain_world Examples.empty_mint_input)) =
    [mkCall (KitMethod "transfer") [VObj 0; VInt 5; VStr ""] []].
Proof.
  assert (Hv : @validation_succeeds Stub.plain_world
                 (VDict [("to", VStr Examples.zero_key); ("amount", VInt 5);
                         ("mint", VStr "")])
                 SolanaTransferTool_schema)
    by (eexists; reflexivity).
  split; [reflexivity | split; [exact Hv |]].
  exact (@transfer_with_mint Stub.plain_world Examples.empty_mint_input _
           (VStr Examples.zero_key) (VInt 5) (VStr "") (VObj 0) (VStr "")
           eq_refl Hv eq_refl eq_refl eq_refl eq_refl eq_refl eq_refl).
Defined.

(** X15 at a concrete input. *)
Lemma trade_defaults_witness :
  Stub.json_loads Examples.trade_input =
    Return (VDict [("output_mint", VStr Examples.zero_key); ("input_amount", VInt 5)]) /\
  @validation_succeeds Stub.plain_world
    (VDict [("output_mint", VStr Examples.zero_key); ("input_amount", VInt 5)])
    SolanaTradeTool_schema /\
  calls_of (run (@SolanaTradeTool_arun Stub.plain_world Examples.trade_input)) =
    [mkCall (KitMethod "trade") [VObj 0; VInt 5; VNone; VInt 100] []].
Proof.
  assert (Hv : @validation_succeeds Stub.plain_world
                 (VDict [("output_mint", VStr Examples.zero_key); ("input_amount", VInt 5)])
                 SolanaTradeTool_schema)
    by (eexists; reflexivity).
  split; [reflexivity | split; [exact Hv |]].
  exact (@trade_defaults Stub.plain_world Examples.trade_input _
           (VStr Examples.zero_key) (VInt 5) (VObj 0) VNone
           eq_refl Hv eq_refl eq_refl eq_refl eq_refl eq_refl).
Defined.

(** X16 at a concrete input. *)
Lemma create_image_prompt_witness :
  Stub.json_loads Examples.blank_prompt_input = Return (VDict [("prompt", VStr "")]) /\
  @validation_succeeds Stub.plain_world (VDict [("prompt", VStr "")])
    SolanaCreateImageTool_schema /\
  run (@SolanaCreateImageTool_arun Stub.plain_world Examples.blank_prompt_input) [] =
    ([], Return (VDict [("status", VStr "error");
                        ("message", VStr "Prompt must be a non-empty string.");
                        ("code", VStr "UNKNOWN_ERROR")])).
Proof.
  assert (Hv : @validation_succeeds Stub.plain_world (VDict [("prompt", VStr "")])
                 SolanaCreateImageTool_schema)
    by (eexists; reflexivity).
  split; [reflexivity | split; [exact Hv |]].
  exact (proj1 (@create_image_prompt Stub.plain_world Examples.blank_prompt_input _ ""
                  eq_refl Hv eq_refl) eq_refl).
Defined.

(** X17 at a concrete input. *)
Lemma sns_resolve_result_witness :
  Stub.json_loads Examples.empty_domain_input = Return (VDict [("domain", VStr "")]) /\
  @validation_succeeds Stub.plain_world (VDict [("domain", VStr "")])
    SolanaSNSResolveTool_schema /\
  run (@SolanaSNSResolveTool_arun Stub.plain_world Examples.empty_domain_input) [] =
    ([], Return (VDict [("address", VNone);
                        ("message", VStr "Error resolving domain: Domain is required.")])).
Proof.
  assert (Hv : @validation_succeeds Stub.plain_world (VDict [("domain", VStr "")])
                 SolanaSNSResolveTool_schema)
    by (eexists; reflexivity).
  split; [reflexivity | split; [exact Hv |]].
  exact (proj1 (@sns_resolve_result Stub.plain_world Examples.empty_domain_input _
                  (VStr "") eq_refl Hv eq_refl) eq_refl).
Defined.

(** X18 at a concrete input. *)
Lemma withdrawal_additional_params_witness :
  Stub.json_loads Examples.withdrawal_input =
    Return (VDict [("address", VStr "A"); ("blockchain", VStr "Solana");
                   ("quantity", VStr "1"); ("symbol", VStr "SOL");
                   ("additional_params", VDict [("address", VStr "B")])]) /\
  @validation_succeeds Stub.plain_world
    (VDict [("address", VStr "A"); ("blockchain", VStr "Solana");
            ("quantity", VStr "1"); ("symbol", VStr "SOL");
            ("additional_params", VDict [("address", VStr "B")])])
    BackpackRequestWithdrawalTool_schema /\
  calls_of (run (@BackpackRequestWithdrawalTool_arun Stub.plain_world
                   Examples.withdrawal_input)) = [].
Proof.
  assert (Hv : @validation_succeeds Stub.plain_world
                 (VDict [("address", VStr "A"); ("blockchain", VStr "Solana");
                         ("quantity", VStr "1"); ("symbol", VStr "SOL");
                         ("additional_params", VDict [("address", VStr "B")])])
                 BackpackRequestWithdrawalTool_schema)
    by (eexists; reflexivity).
  split; [reflexivity | split; [exact Hv |]].
  exact (proj1 (@withdrawal_additional_params Stub.plain_world Examples.withdrawal_input _
                  (VStr "A") (VStr "Solana") (VStr "1") (VStr "SOL") [("address", VStr "B")]
                  eq_refl Hv eq_refl eq_refl eq_refl eq_refl eq_refl eq_refl) eq_refl).
Defined.

(** X19 at a concrete input. *)
Lemma openbook_market_unvalidated_witness :
  Stub.json_loads Examples.openbook_input =
    Return (VDict [("base_mint", VInt 5); ("quote_mint", VInt 6)]) /\
  calls_of (run (@OpenBookCreateMarketTool_arun Stub.plain_world Examples.openbook_input)) =
    [mkCall (KitMethod "create_openbook_market") []
       [("base_mint", VInt 5); ("quote_mint", VInt 6); ("lot_size", VInt 1);
        ("tick_size", VFloat (5764607523034235 # 576460752303423488)%Q)]].
Proof.
  split; [reflexivity |].
  exact (@openbook_market_unvalidated Stub.plain_world Examples.openbook_input _
           (VInt 5) (VInt 6) eq_refl eq_refl eq_refl eq_refl).
Defined.

(** X21 at a concrete input. *)
Lemma stork_missing_asset_id_witness :
  Stub.json_loads "{}" = Return (VDict []) /\
  run (@StorkGetPriceTool_arun Stub.plain_world "{}") [] =
    ([], Return (VDict [("status", VStr "error"); ("message", VStr "'asset_id'")])).
Proof.
  split; [reflexivity |].
  exact (@stork_missing_asset_id Stub.plain_world "{}" [] eq_refl eq_refl).
Defined.

(** X6 at a concrete input. *)
Lemma call_handler_may_raise_witness :
  try_body (@SolanaFetchPriceTool_call Examples.unserializable_world "{") [] =
    ([], Raise (Stub.JSONDecodeError "Expecting value")) /\
  run (@SolanaFetchPriceTool_call Examples.unserializable_world "{") [] =
    ([], Raise Examples.not_serializable).
Proof.
  split; [reflexivity |].
  exact (@call_handler_may_raise Examples.unserializable_world SolanaFetchPriceTool
           (@SolanaFetchPriceTool_call Examples.unserializable_world) "{"
           (Stub.JSONDecodeError "Expecting value") Examples.not_serializable [] []
           eq_refl eq_refl eq_refl eq_refl).
Defined.

(** * The claims, as the code has them *)

(** ** Exceptions at the boundary of [_arun] *)

Lemma lookup_key_present (d : dict) k :
  In k (map fst d) -> exists x, lookup k d = Some x.
Proof.
  induction d as [| [k' v] d IH]; cbn; [intros [] |].
  intros [-> | H].
  - rewrite String.eqb_refl. now exists v.
  - destruct (String.eqb k k'); [now exists v | now apply IH].
Qed.

Lemma lookup_key_absent (d : dict) k :
  ~ In k (map fst d) -> lookup k d = None.
Proof.
  induction d as [| [k' v] d IH]; cbn; [reflexivity |].
  intros H. destruct (String.eqb_spec k k') as [-> | Hne].
  - exfalso. apply H. now left.
  - apply IH. intros Hin. apply H. now right.
Qed.

(** The prefix of a message that ends with [str(e)]. *)
Ltac message_prefix :=
  first
    [ exists ""; reflexivity
    | eexists; reflexivity
    | match goal with
      | |- exists p, VStr (?a ++ ?i ++ ?b ++ _)%string = _ =>
          exists (a ++ i ++ b)%string; rewrite !append_assoc; reflexivity
      end ].

Lemma from_Some {A} (P : A -> Prop) a : P a -> forall x, Some a = Some x -> P x.
Proof. intros H x [= <-]. exact H. Qed.

(** One of the keys ["message"], ["code"] and ["status"]: absent, or with
    the value [tac] accepts. *)
Ltac handler_key tac :=
  cbn [lookup String.eqb Ascii.eqb Bool.eqb];
  first [ intros x Hx; discriminate Hx | apply from_Some; tac ].

(** The entries of the mapping a handler builds, one key after the other. *)
Ltac handler_entries :=
  split;
  [ handler_key message_prefix
  | split;
    [ handler_key ltac:(reflexivity)
    | split;
      [ handler_key ltac:(reflexivity)
      | intros k x Hin Hm Hc Hs; cbn [In] in Hin;
        repeat (destruct Hin as [Hin | Hin];
                [ injection Hin as <- <-;
                  first [ congruence
                        | left; reflexivity
                        | right; left; reflexivity
                        | right; right; reflexivity ]
                | ]);
        contradiction ] ] ].

Section Handlers.
Context {W : World}.

Lemma arun_handler_mapping t te e :
  arun_invocation t te ->
  exists v, except_Exception te e = ret v /\ handler_mapping t e v.
Proof.
  intros [body Hb | body input Hb];
    destruct t; cbn [async_method] in Hb; try discriminate Hb; injection Hb as <-;
    (eexists; split; [reflexivity |]);
    (eexists; split; [reflexivity | split; [reflexivity |]]);
    handler_entries.
Qed.

(** C2, as the code has it.  Whatever the class that defines [_arun] and
    whatever its input: a result of the body is returned as it is; an
    exception of the body that derives from [Exception] is replaced by the
    mapping the handler of the class builds, which has the keys of
    [handler_keys], a message, when it has one, that ends with the message
    of the exception, a code, when it has one, that is the code of the
    exception, the status ["error"] for the classes of [reports_status] and
    [None] where another class has a status, and an empty payload under
    every other key; for the classes of [reports_code] this is the error
    result of the claim, with ["UNKNOWN_ERROR"] for an exception without
    code; and the only exceptions that leave [_arun] are those that do not
    derive from [Exception]. *)
Theorem arun_catches_exceptions t te :
  arun_invocation t te ->
  forall tr,
    (forall tr' v, try_body te tr = (tr', Return v) -> run te tr = (tr', Return v)) /\
    (forall tr' e, try_body te tr = (tr', Raise e) -> exc_is_Exception e = true ->
       exists v, run te tr = (tr', Return v) /\
                 handler_mapping t e v /\
                 (reports_code t = true -> is_error_result e v)) /\
    (forall tr' e, run te tr = (tr', Raise e) ->
       exc_is_Exception e = false /\ try_body te tr = (tr', Raise e)).
Proof.
  intros Hinv tr. split; [| split].
  - intros tr' v Hb. now apply run_Return.
  - intros tr' e Hb He.
    destruct (arun_handler_mapping t te e Hinv) as [v [Hv Hm]].
    exists v. split; [| split].
    + rewrite (run_caught _ _ _ _ Hb He), Hv. reflexivity.
    + exact Hm.
    + intros Hc. destruct (arun_handler_result _ _ e Hinv Hc) as [v' [Hv' Hr]].
      rewrite Hv in Hv'. apply (f_equal (fun m => snd (m []))) in Hv'. cbn in Hv'.
      injection Hv' as ->. exact Hr.
  - intros tr' e Hr.
    destruct (run_pure_handler te tr (arun_pure_handler _ _ Hinv))
      as [[tr1 [v Hv]] | [tr1 [e1 [H1 [H2 H3]]]]]; rewrite Hr in *.
    + discriminate Hv.
    + injection H1 as -> ->. auto.
Qed.

End Handlers.

(** The handlers of the module, counted: of the 161 classes that define
    [_arun], 155 give a message, 41 the status ["error"] and 18 a code, the
    18 of [reports_code]. *)
Example handler_census :
  let arun := filter (fun t => negb (defines_call t)) declaration_order in
  length arun = 161%nat /\
  length (filter (fun t => existsb (String.eqb "message") (handler_keys t)) arun) = 155%nat /\
  length (filter reports_status arun) = 41%nat /\
  length (filter reports_code arun) = 18%nat /\
  filter (fun t => existsb (String.eqb "code") (handler_keys t)) arun =
    filter reports_code arun.
Proof. vm_compute. repeat split. Qed.

(** C2 at a concrete input: the collaborator refuses [stake] with an
    exception that carries a code, and [SolanaStakeTool._arun] returns the
    mapping of its handler. *)
Lemma arun_catches_exceptions_witness :
  @arun_invocation Stub.limited_world SolanaStakeTool
    (@SolanaStakeTool_arun Stub.limited_world "5") /\
  exists v,
    run (@SolanaStakeTool_arun Stub.limited_world "5") [] =
      ([mkCall (KitMethod "stake") [VInt 5] []], Return v) /\
    handler_mapping SolanaStakeTool Stub.rate_limited v /\
    (reports_code SolanaStakeTool = true -> is_error_result Stub.rate_limited v).
Proof.
  assert (H : @arun_invocation Stub.limited_world SolanaStakeTool
                (@SolanaStakeTool_arun Stub.limited_world "5"))
    by (apply (@arun_on_input Stub.limited_world); reflexivity).
  split; [exact H |].
  destruct (@arun_catches_exceptions Stub.limited_world _ _ H []) as [_ [Hcaught _]].
  apply Hcaught; reflexivity.
Defined.

(** ** Validation before delegation, for every class that validates *)

Section Delegation.
Context {W : World}.

Lemma validated_has_delegate t S :
  validated_schema t = Some S -> exists cl, delegate t = Some cl.
Proof.
  destruct t; cbn [validated_schema]; intros H; try discriminate H;
    cbn [delegate]; eexists; reflexivity.
Qed.

(** C1, as the code has it.  For every class whose [_arun] hands its parsed
    input to [validate_input], and every input: a delegate call is made
    only if the input was parsed and [validate_input] returned normally on
    it; no delegate call is made when [validate_input] raises; and when,
    validation passed, no later statement of the body raises either, the
    delegate of the class has been called, exactly once. *)
Theorem delegate_only_after_validation t S body :
  validated_schema t = Some S ->
  async_method t = Arun1 body ->
  forall input,
    (calls_of (run (body input)) <> [] ->
     exists data, w_json_loads input = Return data /\ validation_succeeds data S) /\
    (forall data e, w_json_loads input = Return data ->
       validate_input data S [] = ([], Raise e) -> calls_of (run (body input)) = []) /\
    (forall tr' v, try_body (body input) [] = (tr', Return v) ->
       (exists data, w_json_loads input = Return data /\ validation_succeeds data S) /\
       exists cl args kwargs,
         delegate t = Some cl /\
         calls_of (run (body input)) = [mkCall cl args kwargs] /\
         outcome_of (run (body input)) = Return v).
Proof.
  intros HS Hb input.
  assert (Hv :
    (calls_of (run (body input)) <> [] ->
     exists data, w_json_loads input = Return data /\ validation_succeeds data S) /\
    (forall data e, w_json_loads input = Return data ->
       validate_input data S [] = ([], Raise e) -> calls_of (run (body input)) = [])).
  { clear - HS Hb.
    destruct t; cbn [validated_schema] in HS; try discriminate HS;
      cbn [async_method] in Hb; try discriminate Hb;
      injection HS as <-; injection Hb as <-;
      apply validated_body; intros e; eexists; reflexivity. }
  destruct Hv as [Honly Hnone]. split; [exact Honly | split; [exact Hnone |]].
  intros tr' v Hr.
  destruct (validated_has_delegate t S HS) as [cl Hcl].
  pose proof (delegate_body t (body input) (async_arun_on_input t body input Hb) [])
    as [new [H1 [H2 H3]]].
  rewrite Hr in H1, H3. cbn in H1, H3. subst tr'. specialize (H3 v eq_refl).
  rewrite Hcl in H2, H3.
  destruct new as [| [cl' args kwargs] [| c2 rest]]; try discriminate H3.
  apply Forall_inv in H2. cbn in H2. injection H2 as ->.
  assert (Hrun : run (body input) [] = ([mkCall cl args kwargs], Return v))
    by (apply run_Return; exact Hr).
  assert (Hcalls : calls_of (run (body input)) = [mkCall cl args kwargs])
    by (unfold calls_of; now rewrite Hrun).
  split.
  - apply Honly. rewrite Hcalls. discriminate.
  - exists cl, args, kwargs. split; [exact Hcl | split; [exact Hcalls |]].
    unfold outcome_of. now rewrite Hrun.
Qed.

End Delegation.

(** C1 at two concrete inputs of the transfer adapter: one that validates
    and is delegated, once, and one that validation refuses, with no call. *)
Lemma delegate_only_after_validation_witness :
  validated_schema SolanaTransferTool = Some SolanaTransferTool_schema /\
  @async_method Stub.plain_world SolanaTransferTool =
    Arun1 (@SolanaTransferTool_arun Stub.plain_world) /\
  ((exists data, Stub.json_loads Stub.valid_transfer_input = Return data /\
                 @validation_succeeds Stub.plain_world data SolanaTransferTool_schema) /\
   exists cl args kwargs,
     @delegate SolanaTransferTool = Some cl /\
     calls_of (run (@SolanaTransferTool_arun Stub.plain_world Stub.valid_transfer_input)) =
       [mkCall cl args kwargs] /\
     outcome_of (run (@SolanaTransferTool_arun Stub.plain_world Stub.valid_transfer_input)) =
       Return (VDict [("status", VStr "success");
                      ("message", VStr "Transfer completed successfully");
                      ("amount", VInt 5);
                      ("recipient", VStr "11111111111111111111111111111111");
                      ("token", VStr "SOL"); ("transaction", VStr "ok")])) /\
  calls_of (run (@SolanaTransferTool_arun Stub.plain_world Stub.zero_amount_input)) = [].
Proof.
  split; [reflexivity | split; [reflexivity | split]].
  - exact (proj2 (proj2 (@delegate_only_after_validation Stub.plain_world SolanaTransferTool
             SolanaTransferTool_schema (@SolanaTransferTool_arun Stub.plain_world)
             eq_refl eq_refl Stub.valid_transfer_input))
           [mkCall (KitMethod "transfer") [VObj 0; VInt 5; VNone] []] _ eq_refl).
  - exact (proj1 (proj2 (@delegate_only_after_validation Stub.plain_world SolanaTransferTool
             SolanaTransferTool_schema (@SolanaTransferTool_arun Stub.plain_world)
             eq_refl eq_refl Stub.zero_amount_input))
           (VDict [("to", VStr "ABC"); ("amount", VInt 0)])
           (ValidationError "Value below minimum for field: amount") eq_refl eq_refl).
Defined.

(** ** A required field that is absent *)

Section MissingField.
Context {W : World}.

Lemma silent_validating t S :
  validated_schema t = Some S ->
  (In t silent_validating_classes <-> ~ In "message" (handler_keys t)).
Proof.
  destruct t; cbn [validated_schema]; intros H; try discriminate H; clear H;
    unfold silent_validating_classes; cbn [handler_keys In]; split;
    first
      [ (* a class with a message *)
        solve [intros [Hc | [Hc | [Hc | [Hc | []]]]]; discriminate Hc]
      | solve [intros Hn; exfalso; apply Hn; repeat first [left; reflexivity | right]]
      | (* a class without *)
        solve [intros _ [Hk | []]; discriminate Hk]
      | solve [intros _; repeat first [left; reflexivity | right]] ].
Qed.

Lemma silent_handler t body input e :
  async_method t = Arun1 body -> In t silent_validating_classes ->
  exists k, except_Exception (body input) e = ret (VDict [(k, VNone)]).
Proof.
  intros Hb Hs. unfold silent_validating_classes in Hs.
  destruct Hs as [<- | [<- | [<- | [<- | []]]]]; cbn [async_method] in Hb;
    injection Hb as <-; eexists; reflexivity.
Qed.

(** C4, as the code has it.  A required field that the input mapping lacks
    makes validation fail with ["Missing required field: "] and the name of
    the first such field of the schema.  Every [_arun] that validates then
    calls no delegate and returns the mapping of its handler: where the
    handler has a ["message"], it ends with that text, and a ["status"] is
    ["error"] for the classes of [reports_status] and [None] for the others;
    the handlers of [silent_validating_classes], and only they, have no
    ["message"]: their mapping is a single key that holds [None].  The check that [SolanaBurnAndCloseTool._arun] makes itself gives
    the error result of the claim. *)
Theorem missing_required_field :
  (forall S1 f rule S2 d,
     rule_required rule = true -> lookup f d = None ->
     (forall g r, In (g, r) S1 -> rule_required r = true -> lookup g d <> None) ->
     validate (S1 ++ (f, rule) :: S2) d =
       (d, Raise (ValidationError ("Missing required field: " ++ f)))) /\
  (forall S d,
     (exists f rule, In (f, rule) S /\ rule_required rule = true /\ lookup f d = None) ->
     exists g rule, In (g, rule) S /\ rule_required rule = true /\ lookup g d = None /\
       validate S d = (d, Raise (ValidationError ("Missing required field: " ++ g))) /\
       forall t body input,
         validated_schema t = Some S -> async_method t = Arun1 body ->
         w_json_loads input = Return (VDict d) ->
         exists result,
           run (body input) [] = ([], Return (VDict result)) /\
           handler_mapping t (ValidationError ("Missing required field: " ++ g))
             (VDict result) /\
           (In "message" (handler_keys t) ->
            exists prefix,
              lookup "message" result =
                Some (VStr (prefix ++ "Missing required field: " ++ g))) /\
           (In "status" (handler_keys t) ->
            lookup "status" result =
              Some (if reports_status t then VStr "error" else VNone)) /\
           (In t silent_validating_classes <-> lookup "message" result = None) /\
           (In t silent_validating_classes -> exists k, result = [(k, VNone)])) /\
  (forall input d,
     w_json_loads input = Return (VDict d) -> lookup "token_account" d = None ->
     run (SolanaBurnAndCloseTool_arun input) [] =
       ([], Return (VDict [("status", VStr "error");
                           ("message", VStr "Missing required field: token_account");
                           ("code", VStr "UNKNOWN_ERROR")]))).
Proof.
  split; [| split].
  - intros S1 f rule S2 d Hr Hl Hall. rewrite validate_outcome.
    now rewrite (check_required_first S1 f rule S2 d Hr Hl Hall).
  - intros S d Hex. destruct (check_required_Raise S d Hex) as [g [r [Hin [Hr [Hl Hc]]]]].
    exists g, r. assert (Hv : validate S d =
        (d, Raise (ValidationError ("Missing required field: " ++ g))))
      by (rewrite validate_outcome; now rewrite Hc).
    repeat (split; [assumption |]).
    intros t body input HS Hb Hj.
    set (e := ValidationError ("Missing required field: " ++ g)).
    destruct (arun_validation_failure t S body input (VDict d) e HS Hb Hj) as [v [Hh Hrun]];
      [rewrite validate_input_dict; now rewrite Hv | reflexivity |].
    destruct (arun_handler_mapping t (body input) e (arun_on_input t body input Hb))
      as [v' [Hh' Hm]].
    rewrite Hh in Hh'. apply (f_equal (fun m => snd (m []))) in Hh'. cbn in Hh'.
    injection Hh' as <-.
    pose proof Hm as [result [-> [Hkeys [Hmsg [_ [Hst Hrest]]]]]].
    exists result. split; [exact Hrun | split; [exact Hm |]].
    assert (Hsilent : In t silent_validating_classes <-> lookup "message" result = None).
    { rewrite (silent_validating t S HS), <- Hkeys. split.
      - apply lookup_key_absent.
      - intros Hn Hk. destruct (lookup_key_present _ _ Hk) as [x Hx]. congruence. }
    split; [| split; [| split; [exact Hsilent |]]].
    + rewrite <- Hkeys. intros Hk. destruct (lookup_key_present _ _ Hk) as [x Hx].
      destruct (Hmsg x Hx) as [prefix ->]. exists prefix. exact Hx.
    + rewrite <- Hkeys. intros Hk. destruct (lookup_key_present _ _ Hk) as [x Hx].
      rewrite Hx. f_equal. now apply Hst.
    + intros Hs. destruct (silent_handler t body input e Hb Hs) as [k Hk].
      rewrite Hh in Hk. apply (f_equal (fun m => snd (m []))) in Hk. cbn in Hk.
      injection Hk as ->. now exists k.
  - intros input d Hj Hl.
    unfold SolanaBurnAndCloseTool_arun, run, try_except, json_loads, lift, bind. cbn.
    rewrite Hj. cbn. unfold has_key. rewrite Hl. reflexivity.
Qed.

End MissingField.

(** C4, as stated, fails: [SolanaSendTxn] requires ["txn_signature"], the
    input [{}] lacks it, and what [_arun] returns is [{"status": None}],
    which has neither an error status nor the message of the validator. *)
Lemma missing_required_field_not_reported :
  validated_schema SolanaSendTxn = Some SolanaSendTxn_schema /\
  In ("txn_signature", mkRule [Tstr] true None None) SolanaSendTxn_schema /\
  Stub.json_loads "{}" = Return (VDict []) /\
  validate SolanaSendTxn_schema [] =
    ([], Raise (ValidationError "Missing required field: txn_signature")) /\
  run (@SolanaSendTxn_arun Stub.plain_world "{}") [] = ([], Return (VDict [("status", VNone)])) /\
  ~ is_error_result (ValidationError "Missing required field: txn_signature")
      (VDict [("status", VNone)]).
Proof.
  repeat split; try reflexivity; [now left |].
  intros (d & prefix & Hd & Hs & _). injection Hd as <-. discriminate Hs.
Qed.

(** C4 at a concrete input: the transfer adapter on [{}]. *)
Lemma missing_required_field_witness :
  (exists f rule, In (f, rule) SolanaTransferTool_schema /\
                  rule_required rule = true /\ lookup f [] = None) /\
  Stub.json_loads "{}" = Return (VDict []) /\
  exists g result prefix,
    validate SolanaTransferTool_schema [] =
      ([], Raise (ValidationError ("Missing required field: " ++ g))) /\
    run (@SolanaTransferTool_arun Stub.plain_world "{}") [] = ([], Return (VDict result)) /\
    lookup "message" result = Some (VStr (prefix ++ "Missing required field: " ++ g)) /\
    lookup "status" result = Some (VStr "error").
Proof.
  assert (H : exists f rule, In (f, rule) SolanaTransferTool_schema /\
                             rule_required rule = true /\ lookup f [] = None).
  { exists "to", (mkRule [Tstr] true None None). cbn. auto. }
  split; [exact H | split; [reflexivity |]].
  destruct (proj1 (proj2 (@missing_required_field Stub.plain_world))
              SolanaTransferTool_schema [] H) as [g [rule [_ [_ [_ [Hv Had]]]]]].
  destruct (Had SolanaTransferTool (@SolanaTransferTool_arun Stub.plain_world) "{}"
              eq_refl eq_refl eq_refl) as [result [Hrun [_ [Hmsg [Hst _]]]]].
  destruct (Hmsg (or_intror (or_introl eq_refl))) as [prefix Hp].
  exists g, result, prefix.
  repeat split; [exact Hv | exact Hrun | exact Hp | exact (Hst (or_introl eq_refl))].
Defined.

(** The classes whose [_arun] validates, counted: 105, of which 101 give a
    message for the failure and 4 do not. *)
Example validating_census :
  let validating :=
    filter (fun t => match validated_schema t with
                     | Some _ => negb (defines_call t)
                     | None => false
                     end) declaration_order in
  length validating = 105%nat /\
  filter (fun t => negb (existsb (String.eqb "message") (handler_keys t))) validating =
    silent_validating_classes.
Proof. vm_compute. split; reflexivity. Qed.

(** ** The synchronous entry point, and what else raises *)

Section EntryPoints.
Context {W : World}.

Lemma run_body_not_implemented (t : Tool) (m : M value) :
  run_invocation t m ->
  forall tr, exists msg,
    m tr = (tr, Raise (NotImplementedError msg)) /\ is_substring "async" msg = true.
Proof.
  intros [body Hb | body input Hb] tr;
    destruct t; cbn [sync_method] in Hb; try discriminate Hb;
    injection Hb as <-; eexists; split; reflexivity.
Qed.

Lemma call_run_declared t args :
  length args = run_arity t -> run_invocation t (call_run t args).
Proof.
  unfold run_arity, call_run. intros H.
  destruct (sync_method t) as [body | body] eqn:Hs.
  - destruct args; [| discriminate H]. now apply run_no_input.
  - destruct args as [| input [| ? ?]]; try discriminate H. now apply run_on_input.
Qed.

Lemma call_handler t body input e :
  async_method t = Call1 body ->
  except_Exception (body input) e =
    json_dumps (VDict [("status", VStr "error"); ("message", VStr (exc_msg e));
                       ("code", getattr_code e)]).
Proof.
  intros Hb. destruct t; cbn [async_method] in Hb; try discriminate Hb;
    injection Hb as <-; reflexivity.
Qed.

(** C6, as the code has it.  Whatever the class, [_run], called with the
    number of arguments it declares, raises [NotImplementedError] at once,
    with a message that points to the async interface, and leaves the trace
    of delegate calls as it found it; called with another number of
    arguments, it raises a [TypeError] before its body is entered, with the
    trace unchanged as well.  It is not the only method that raises: [_arun]
    raises exactly the exceptions of its body that do not derive from
    [Exception], and [call] raises those and, in addition, what
    [json.dumps] raises on the error mapping of its handler. *)
Theorem run_not_implemented (t : Tool) :
  (forall m, run_invocation t m ->
     forall tr, exists msg,
       m tr = (tr, Raise (NotImplementedError msg)) /\ is_substring "async" msg = true) /\
  (forall args tr,
     exists e, call_run t args tr = (tr, Raise e) /\
       (length args = run_arity t ->
        exists msg, e = NotImplementedError msg /\ is_substring "async" msg = true) /\
       (length args <> run_arity t -> exc_class e = "TypeError")) /\
  (forall te, arun_invocation t te ->
     forall tr tr' e,
       run te tr = (tr', Raise e) <->
       try_body te tr = (tr', Raise e) /\ exc_is_Exception e = false) /\
  (forall body input, async_method t = Call1 body ->
     forall tr tr' e',
       run (body input) tr = (tr', Raise e') <->
       (try_body (body input) tr = (tr', Raise e') /\ exc_is_Exception e' = false) \/
       (exists e,
          try_body (body input) tr = (tr', Raise e) /\ exc_is_Exception e = true /\
          w_json_dumps (VDict [("status", VStr "error"); ("message", VStr (exc_msg e));
                               ("code", getattr_code e)]) = Raise e')).
Proof.
  split; [exact (run_body_not_implemented t) | split; [| split]].
  - intros args tr.
    destruct (Nat.eq_dec (length args) (run_arity t)) as [Heq | Hne].
    + destruct (run_body_not_implemented t _ (call_run_declared t args Heq) tr)
        as [msg [Hm Hs]].
      exists (NotImplementedError msg). split; [exact Hm | split].
      * intros _. now exists msg.
      * intros Hne. contradiction.
    + exists (TypeError (w_builtin_msg "arguments" (VList (map VStr args)))).
      unfold run_arity in *. unfold call_run.
      destruct (sync_method t) as [body | body].
      * destruct args; [now destruct Hne |].
        split; [reflexivity | split; [intros H; discriminate H | reflexivity]].
      * destruct args as [| input [| ? ?]]; [| now destruct Hne |];
          (split; [reflexivity | split; [intros H; discriminate H | reflexivity]]).
  - intros te Hinv tr tr' e. split.
    + intros Hr.
      destruct (run_pure_handler te tr (arun_pure_handler _ _ Hinv))
        as [[tr1 [v Hv]] | [tr1 [e1 [H1 [H2 H3]]]]]; rewrite Hr in *.
      * discriminate Hv.
      * injection H1 as -> ->. auto.
    + intros [Hb He]. now apply run_escapes.
  - intros body input Hb tr tr' e'. unfold run, try_except.
    destruct (try_body (body input) tr) as [tr1 [v | e]].
    + split; [discriminate |].
      intros [[H _] | [e [H _]]]; discriminate H.
    + destruct (exc_is_Exception e) eqn:He.
      * rewrite (call_handler t body input e Hb). unfold json_dumps, lift. split.
        -- intros H. right. exists e.
           destruct (w_json_dumps _) as [s | e1] eqn:Hd; cbn in H; [discriminate H |].
           injection H as -> ->. auto.
        -- intros [[H He'] | [e1 [H [He1 Hd]]]]; injection H as -> ->.
           ++ congruence.
           ++ rewrite Hd. reflexivity.
      * split.
        -- intros H. injection H as -> ->. left. auto.
        -- intros [[H He'] | [e1 [H [He1 Hd]]]]; injection H as -> ->.
           ++ reflexivity.
           ++ congruence.
Qed.

End EntryPoints.

(** C6 at a concrete class. *)
Lemma run_not_implemented_witness :
  exists msg,
    SolanaTransferTool_run [] = ([], Raise (NotImplementedError msg)) /\
    is_substring "async" msg = true.
Proof.
  apply (proj1 (@run_not_implemented Stub.plain_world SolanaTransferTool)).
  apply run_no_input. reflexivity.
Defined.

(** C6, as stated, fails in its last clause: [_arun] of [SolanaStakeTool]
    raises when the call it awaits is cancelled, and [call] of
    [SolanaFetchPriceTool] raises when [json.dumps] refuses the error
    mapping of its handler. *)
Lemma run_not_only_entry_that_raises :
  @async_method Examples.cancelling_world SolanaStakeTool =
    Arun1 (@SolanaStakeTool_arun Examples.cancelling_world) /\
  run (@SolanaStakeTool_arun Examples.cancelling_world "5") [] =
    ([mkCall (KitMethod "stake") [VInt 5] []], Raise Examples.CancelledError) /\
  @async_method Examples.unserializable_world SolanaFetchPriceTool =
    Call1 (@SolanaFetchPriceTool_call Examples.unserializable_world) /\
  run (@SolanaFetchPriceTool_call Examples.unserializable_world "{") [] =
    ([], Raise Examples.not_serializable).
Proof. repeat split. Qed.

(** [_run] of [SolanaStakeTool] declares no argument: called on the input
    that [_arun] takes, it raises a [TypeError]; and the classes that
    declare [_run] so while their asynchronous method takes an input are 66
    of the 164. *)
Example run_with_input_of_arun :
  run_arity SolanaStakeTool = 0%nat /\
  (exists e, @call_run Stub.plain_world SolanaStakeTool ["5"] [] = ([], Raise e) /\
             exc_class e = "TypeError") /\
  length (filter (fun t => match @async_method Stub.plain_world t, sync_method t with
                           | Arun1 _, Run0 _ | Call1 _, Run0 _ => true
                           | _, _ => false
                           end) declaration_order) = 66%nat.
Proof.
  split; [reflexivity | split; [eexists; split; reflexivity | vm_compute; reflexivity]].
Qed.

(** ** The instances the factory returns *)

(** C7, as the code has it.  The factory returns a list of 162 instances:
    exactly one of every class of the module but [SolanaBurnAndCloseTool]
    and [SolanaBurnAndCloseMultipleTool], of which it has none; each is
    constructed with the kit the factory was given, under the keyword that
    is the kit field of its class. *)
Theorem create_solana_tools_instances (K : Type) (solana_kit : K) :
  NoDup (map tool_class (create_solana_tools solana_kit)) /\
  (forall t,
     In t (map tool_class (create_solana_tools solana_kit)) <->
     t <> SolanaBurnAndCloseTool /\ t <> SolanaBurnAndCloseMultipleTool) /\
  length (create_solana_tools solana_kit) = 162%nat /\
  length declaration_order = 164%nat /\
  Forall (fun i => bound_kit i = solana_kit /\ kit_keyword i = kit_field (tool_class i))
         (create_solana_tools solana_kit).
Proof.
  split; [| split; [| split; [| split]]].
  - apply (NoDup_map_inv declaration_index). apply nodupb_NoDup.
    vm_compute. reflexivity.
  - intros t. rewrite in_by_index.
    destruct t; vm_compute;
      (split; [intros H; first [discriminate H | split; discriminate]
              | intros [H1 H2]; first [reflexivity | congruence]]).
  - reflexivity.
  - reflexivity.
  - unfold create_solana_tools.
    repeat (apply Forall_cons; [split; reflexivity |]). apply Forall_nil.
Qed.

(** ** What an adapter does after validation *)





Section AfterValidate.
Context {W : World}.





End AfterValidate.



(** The classes that read a key with a default of their own, counted: 33,
    of which 26 validate first and 7 never validate. *)
Example defaults_census :
  let defaulting := filter applies_default declaration_order in
  length defaulting = 33%nat /\
  filter (fun t => match validated_schema t with Some _ => false | None => true end)
         defaulting = defaults_without_validation.
Proof. vm_compute. split; reflexivity. Qed.
